(** * Naramind social crypto scraper: ingestion and enrichment pipeline

    A shallow embedding of the Python sources under [src/scraper] and the
    properties of the pipeline that hold (or fail) on them.

    - Python [str] values are modelled as [string]: a character is a code
      point below U+0100 (the Latin-1 range), on which [lower], [isspace]
      and [isalpha] are those of Python.
    - Python [float] values are IEEE binary64 numbers, modelled with the
      executable [spec_float] operations at precision 53 and maximal
      exponent 1024.
    - Python [int] values are [Z].
    - The SQLAlchemy session is a state record (committed tables, pending
      writes, log of committed snapshots); code that can raise runs in a
      state-and-exception monad, [try]/[except] is [try_except]. *)

From Stdlib Require Import ZArith List String Ascii Bool Lia.
From Stdlib Require Import DecimalString DecimalPos.
From Stdlib Require Import Floats.SpecFloat.
Import ListNotations.
Open Scope string_scope.
Open Scope Z_scope.

(** ** Python strings *)

Module PyStr.

(** [lo <= code point of c <= hi] *)
Definition between (lo hi : N) (c : ascii) : bool :=
  let n := N_of_ascii c in (lo <=? n)%N && (n <=? hi)%N.

(** The characters that [lower] changes: A to Z, and the capital letters
    with diacritics U+00C0 to U+00DE but for the multiplication sign
    U+00D7. *)
Definition is_capital (c : ascii) : bool :=
  between 65 90 c || between 192 214 c || between 216 222 c.

(** [c.lower()] on one character: the small letter is 32 code points
    after its capital. *)
Definition lower_char (c : ascii) : ascii :=
  if is_capital c then ascii_of_N (N_of_ascii c + 32) else c.

(** [s.lower()]. *)
Fixpoint lower (s : string) : string :=
  match s with
  | EmptyString => EmptyString
  | String c r => String (lower_char c) (lower r)
  end.

(** [c.isspace()]: tab, line feed, vertical tab, form feed, carriage return,
    the four separators U+001C to U+001F, the blank, the next-line
    control U+0085 and the no-break space U+00A0. *)
Definition isspace (c : ascii) : bool :=
  between 9 13 c || between 28 32 c || between 133 133 c || between 160 160 c.

(** [c.isalpha()]: the letters A to Z and a to z, the two ordinal
    indicators U+00AA and U+00BA, the micro sign U+00B5, and the letters
    U+00C0 to U+00FF but for the multiplication and the division sign. *)
Definition isalpha_char (c : ascii) : bool :=
  between 65 90 c || between 97 122 c ||
  between 170 170 c || between 181 181 c || between 186 186 c ||
  between 192 214 c || between 216 246 c || between 248 255 c.

Fixpoint lstrip (s : string) : string :=
  match s with
  | EmptyString => EmptyString
  | String c r => if isspace c then lstrip r else s
  end.

Fixpoint rstrip (s : string) : string :=
  match s with
  | EmptyString => EmptyString
  | String c r =>
      match rstrip r with
      | EmptyString => if isspace c then EmptyString else String c EmptyString
      | r' => String c r'
      end
  end.

(** [s.strip()]. *)
Definition strip (s : string) : string := rstrip (lstrip s).

(** [len(s)]. *)
Definition len (s : string) : Z := Z.of_nat (String.length s).

(** Truth value of a string: [bool(s)]. *)
Definition truthy (s : string) : bool :=
  match s with EmptyString => false | _ => true end.

(** [hay.startswith(needle)]. *)
Fixpoint startswith (hay needle : string) : bool :=
  match needle, hay with
  | EmptyString, _ => true
  | String a n', String b h' => Ascii.eqb a b && startswith h' n'
  | String _ _, EmptyString => false
  end.

(** [needle in hay]. *)
Fixpoint contains (needle hay : string) : bool :=
  startswith hay needle ||
  match hay with
  | EmptyString => false
  | String _ h' => contains needle h'
  end.

(** Left-to-right scan of [hay.count(needle)] for a non-empty needle:
    [skip] characters are still covered by the occurrence counted last. *)
Fixpoint count_from (needle hay : string) (skip : nat) : Z :=
  match hay with
  | EmptyString => 0
  | String _ h' =>
      match skip with
      | S k => count_from needle h' k
      | O =>
          if startswith hay needle
          then 1 + count_from needle h' (Nat.pred (String.length needle))
          else count_from needle h' 0
      end
  end.

(** [hay.count(needle)]: the number of non-overlapping occurrences; the
    empty needle occurs between all characters, [len(hay) + 1] times. *)
Definition count (hay needle : string) : Z :=
  match needle with
  | EmptyString => len hay + 1
  | _ => count_from needle hay 0
  end.

(** [str(n)] for an [int]. *)
Definition str (n : Z) : string := NilZero.string_of_int (Z.to_int n).

End PyStr.

(** ** Python floats (IEEE binary64) *)

Module PyFloat.

Definition prec : Z := 53.
Definition emax : Z := 1024.

Definition float := spec_float.

Definition add : float -> float -> float := SFadd prec emax.
Definition sub : float -> float -> float := SFsub prec emax.
Definition mul : float -> float -> float := SFmul prec emax.
Definition div : float -> float -> float := SFdiv prec emax.
Definition abs : float -> float := SFabs.
Definition ltb : float -> float -> bool := SFltb.
Definition leb : float -> float -> bool := SFleb.

(** [float(n)] for an [int] (correctly rounded). *)
Definition of_int (n : Z) : float := binary_normalize prec emax n 0 false.

(** The literals of the source. *)
Definition zero : float := S754_zero false.                          (* 0.0 *)
Definition one : float := S754_finite false 4503599627370496 (-52).  (* 1.0 *)
Definition minus_one : float := S754_finite true 4503599627370496 (-52).
Definition half : float := S754_finite false 4503599627370496 (-53). (* 0.5 *)
Definition tenth : float := S754_finite false 7205759403792794 (-56). (* 0.1 *)
Definition minus_tenth : float := S754_finite true 7205759403792794 (-56).

(** [a / b] on two [int]s (true division); on counts below 2^53 the
    correctly rounded quotient is the quotient of the two conversions. *)
Definition int_truediv (a b : Z) : float := div (of_int a) (of_int b).

(** The builtins [min(a, b)] and [max(a, b)]: the first argument is kept
    unless the second is strictly smaller (resp. greater); a comparison
    with a NaN is false. *)
Definition py_min (a b : float) : float := if ltb b a then b else a.
Definition py_max (a b : float) : float := if ltb a b then b else a.

Definition is_nan (x : float) : bool :=
  match x with S754_nan => true | _ => false end.

(** [lo <= x <= hi]. *)
Definition within (lo hi x : float) : Prop :=
  leb lo x = true /\ leb x hi = true.

End PyFloat.

(** ** Exceptions *)

(** A raised Python exception, carried by its message ([str(e)]): an
    instance of [tweepy.TooManyRequests], the class [search_tweets] has a
    handler of its own for, or of any other class. *)
Inductive exn : Type :=
| Exception (msg : string)
| TooManyRequests (msg : string).

Definition exn_message (e : exn) : string :=
  match e with Exception msg | TooManyRequests msg => msg end.

(** The outcome of a call that may raise. *)
Inductive outcome (A : Type) : Type :=
| Returns (a : A)
| Raises (e : exn).
Arguments Returns {A} a.
Arguments Raises {A} e.

(** ** sentiment_analyzer.py *)

Module SentimentAnalyzer.

Import PyFloat.

Record Features : Type := mkFeatures {
  total_words : Z;
  positive_crypto_count : Z;
  negative_crypto_count : Z;
  positive_ratio : float;
  negative_ratio : float;
  tokens : list string
}.

(** The dictionary returned by [analyze]; the keys absent on a path are
    [None]. *)
Record SentimentResult : Type := mkSentimentResult {
  sentiment : string;
  confidence : float;
  score : float;
  model_version : string;
  features : option Features;
  original_polarity : option float;
  subjectivity : option float;
  error : option string
}.

Definition model_version_tag : string := "textblob_v1.0".

Definition crypto_positive_words : list string :=
  [ "moon"; "bullish"; "pump"; "rally"; "surge"; "breakout"; "hodl";
    "diamond"; "hands"; "rocket"; "lambo"; "ath"; "gains"; "profit";
    "buy"; "accumulate"; "strong"; "support"; "resistance"; "upgrade";
    "adoption"; "institutional"; "partnership"; "integration"; "launch" ].

Definition crypto_negative_words : list string :=
  [ "dump"; "crash"; "bear"; "bearish"; "sell"; "panic"; "fud";
    "scam"; "rug"; "pull"; "hack"; "exploit"; "ban"; "regulation";
    "decline"; "drop"; "fall"; "weak"; "concern"; "risk"; "warning";
    "bubble"; "overvalued"; "correction"; "liquidation"; "loss" ].

(** [token in words] *)
Definition member (token : string) (words : list string) : bool :=
  existsb (String.eqb token) words.

(** [sum(1 for token in tokens if token in words)] *)
Definition count_in (words : list string) (toks : list string) : Z :=
  Z.of_nat (List.length (filter (fun t => member t words) toks)).

(** [token.isalpha()]: non-empty, letters only. *)
Fixpoint all_alpha (s : string) : bool :=
  match s with
  | EmptyString => true
  | String c r => PyStr.isalpha_char c && all_alpha r
  end.

Definition isalpha (s : string) : bool := PyStr.truthy s && all_alpha s.

(** The neutral result of the two degraded paths. *)
Definition neutral_result (err : option string) : SentimentResult :=
  {| sentiment := "neutral"; confidence := zero; score := zero;
     model_version := model_version_tag; features := None;
     original_polarity := None; subjectivity := None; error := err |}.

(** The dictionary [sentiment_counts] of [get_sentiment_summary], with
    its three keys in insertion order. *)
Record SentimentCounts : Type := mkSentimentCounts {
  positive : Z;
  negative : Z;
  neutral : Z
}.

(** The dictionary returned by [get_sentiment_summary]; the percentages
    are given in the order positive, negative, neutral. *)
Record SentimentSummary : Type := mkSentimentSummary {
  total_texts : Z;
  sentiment_counts : SentimentCounts;
  sentiment_percentages : float * float * float;
  average_score : float;
  average_confidence : float;
  overall_sentiment : string
}.

(** [sentiment_counts[label] += 1]: a label that is no key raises
    [KeyError]. *)
Definition bump (label : string) (c : SentimentCounts) : outcome SentimentCounts :=
  if String.eqb label "positive" then
    Returns (mkSentimentCounts (positive c + 1) (negative c) (neutral c))
  else if String.eqb label "negative" then
    Returns (mkSentimentCounts (positive c) (negative c + 1) (neutral c))
  else if String.eqb label "neutral" then
    Returns (mkSentimentCounts (positive c) (negative c) (neutral c + 1))
  else Raises (Exception ("'" ++ label ++ "'")).

(** [max(sentiment_counts, key=sentiment_counts.get)]: the first key, in
    insertion order, whose count is not exceeded. *)
Definition max_key (c : SentimentCounts) : string :=
  let best := ("positive", positive c) in
  let best := if snd best <? negative c then ("negative", negative c) else best in
  let best := if snd best <? neutral c then ("neutral", neutral c) else best in
  fst best.

(** The loop of [get_sentiment_summary] over the results: the counts and
    the two running sums. *)
Fixpoint tally (results : list SentimentResult)
         (acc : SentimentCounts * float * float)
  : outcome (SentimentCounts * float * float) :=
  match results with
  | [] => Returns acc
  | result :: rest =>
      let '(counts, total_score, total_confidence) := acc in
      match bump (sentiment result) counts with
      | Raises e => Raises e
      | Returns counts' =>
          tally rest (counts', add total_score (score result),
                      add total_confidence (confidence result))
      end
  end.

Section Analyzer.

(** External collaborators: the three [re.sub] normalisations of
    [preprocess_text], NLTK's tokenizer, stop-word list and lemmatizer,
    and TextBlob's (polarity, subjectivity) signal. *)
Variable re_normalise : string -> string.
Variable word_tokenize : string -> outcome (list string).
Variable stop_words : list string.
Variable lemmatize : string -> string.
Variable text_blob : string -> outcome (float * float).

Definition preprocess_text (text : string) : string :=
  PyStr.strip (PyStr.lower (re_normalise text)).

Definition extract_features (text : string) : outcome Features :=
  let processed_text := preprocess_text text in
  match word_tokenize processed_text with
  | Raises e => Raises e
  | Returns raw_tokens =>
      let toks :=
        map lemmatize
            (filter (fun token => negb (member token stop_words) && isalpha token)
                    raw_tokens) in
      let positive_count := count_in crypto_positive_words toks in
      let negative_count := count_in crypto_negative_words toks in
      let total := Z.of_nat (List.length toks) in
      Returns
        {| total_words := total;
           positive_crypto_count := positive_count;
           negative_crypto_count := negative_count;
           positive_ratio :=
             if 0 <? total then int_truediv positive_count total else zero;
           negative_ratio :=
             if 0 <? total then int_truediv negative_count total else zero;
           tokens := toks |}
  end.

(** [if not text or len(text.strip()) == 0] *)
Definition is_blank (text : string) : bool :=
  negb (PyStr.truthy text) || (PyStr.len (PyStr.strip text) =? 0).

(** The body of the [try] block of [analyze].  The integers [-1] and [1]
    that [max]/[min] return when they clamp are the floats of the same
    value. *)
Definition analyze_body (text : string) : outcome SentimentResult :=
  if is_blank text then Returns (neutral_result None)
  else
    match extract_features text with
    | Raises e => Raises e
    | Returns feats =>
        match text_blob text with
        | Raises e => Raises e
        | Returns (polarity, subj) =>
            let crypto_sentiment_adjustment :=
              sub (positive_ratio feats) (negative_ratio feats) in
            let adjusted_polarity :=
              add polarity (mul crypto_sentiment_adjustment half) in
            let adjusted_polarity :=
              py_max minus_one (py_min one adjusted_polarity) in
            let label :=
              if ltb tenth adjusted_polarity then "positive"
              else if ltb adjusted_polarity minus_tenth then "negative"
              else "neutral" in
            let conf := mul (abs adjusted_polarity) (sub one subj) in
            let conf := py_max zero (py_min one conf) in
            Returns
              {| sentiment := label; confidence := conf;
                 score := adjusted_polarity;
                 model_version := model_version_tag;
                 features := Some feats;
                 original_polarity := Some polarity;
                 subjectivity := Some subj;
                 error := None |}
        end
    end.

(** [analyze]: the [except Exception] handler turns every failure of the
    body into the neutral result. *)
Definition analyze (text : string) : SentimentResult :=
  match analyze_body text with
  | Returns r => r
  | Raises e => neutral_result (Some (exn_message e))
  end.

Definition batch_analyze (texts : list string) : list SentimentResult :=
  map analyze texts.

(** [get_sentiment_summary]; the sums start from the integer [0], which
    added to a float is the float [0.0] added to it, and the quotient by
    the integer [total_texts] is the quotient by its conversion. *)
Definition get_sentiment_summary (texts : list string) : outcome SentimentSummary :=
  let results := batch_analyze texts in
  match tally results (mkSentimentCounts 0 0 0, zero, zero) with
  | Raises e => Raises e
  | Returns (counts, total_score, total_confidence) =>
      let total := Z.of_nat (List.length results) in
      let percent (n : Z) :=
        if 0 <? total then mul (int_truediv n total) (of_int 100) else zero in
      Returns
        {| total_texts := total;
           sentiment_counts := counts;
           sentiment_percentages :=
             (percent (positive counts), percent (negative counts),
              percent (neutral counts));
           average_score :=
             if 0 <? total then div total_score (of_int total) else zero;
           average_confidence :=
             if 0 <? total then div total_confidence (of_int total) else zero;
           overall_sentiment := max_key counts |}
  end.

End Analyzer.

End SentimentAnalyzer.

(** ** database_models.py

    One module per mapped class; a [DateTime] is a number of seconds.
    Surrogate integer keys and the columns filled by a database default
    that no code reads ([scraped_at], [analyzed_at], ...) are left out. *)

Module Platform.
Record t : Type := mk { id : Z; name : string; is_active : bool }.
End Platform.

Module Post.
Record t : Type := mk {
  id : string;
  platform_id : Z;
  content : string;
  author : string;
  author_id : option string;
  post_url : string;
  created_at : Z;
  likes : Z;
  shares : Z;
  comments : Z;
  views : Z;
  language : option string
}.
End Post.

Module Sentiment.
Record t : Type := mk {
  post_id : string;
  sentiment_type : string;
  confidence_score : PyFloat.float;
  sentiment_score : PyFloat.float;
  model_version : string
}.
End Sentiment.

Module Keyword.
Record t : Type := mk {
  id : Z;
  keyword : string;
  category : option string;
  is_active : bool
}.
End Keyword.

Module KeywordMatch.
Record t : Type := mk { post_id : string; keyword_id : Z; match_count : Z }.
End KeywordMatch.

Module RateLimit.
Record t : Type := mk {
  platform_id : Z;
  endpoint : string;
  requests_made : Z;
  requests_limit : Z;
  reset_time : Z
}.
End RateLimit.

Module ScrapingJob.
Record t : Type := mk {
  id : string;
  platform_id : Z;
  job_type : string;
  status : string;
  started_at : option Z;
  completed_at : option Z;
  posts_scraped : Z;
  errors : option string;
  configuration : option string
}.
End ScrapingJob.

Module ErrorLog.
Record t : Type := mk {
  platform_id : option Z;
  error_type : string;
  error_message : string;
  occurred_at : Z
}.
End ErrorLog.

(** The tables of the database. *)
Module DB.
Record t : Type := mk {
  platforms : list Platform.t;
  posts : list Post.t;
  sentiments : list Sentiment.t;
  keywords : list Keyword.t;
  keyword_matches : list KeywordMatch.t;
  rate_limits : list RateLimit.t;
  scraping_jobs : list ScrapingJob.t;
  error_logs : list ErrorLog.t
}.

Definition empty : t := mk [] [] [] [] [] [] [] [].
End DB.

(** ** The SQLAlchemy session *)

(** Replace the first element satisfying [p] (the row an ORM object that
    came from [.first()] is mapped to). *)
Fixpoint replace_first {A : Type} (p : A -> bool) (new : A) (l : list A) : list A :=
  match l with
  | [] => []
  | x :: r => if p x then new :: r else x :: replace_first p new r
  end.

(** A unit of work waiting for the next flush: an object given to
    [session.add], or an attribute change of a loaded object. *)
Inductive write : Type :=
| AddPlatform (p : Platform.t)
| AddPost (p : Post.t)
| AddSentiment (s : Sentiment.t)
| AddKeywordMatch (k : KeywordMatch.t)
| AddRateLimit (r : RateLimit.t)
| SetRateLimit (r : RateLimit.t)
| AddScrapingJob (j : ScrapingJob.t)
| SetScrapingJob (j : ScrapingJob.t)
| AddErrorLog (e : ErrorLog.t).

Definition same_window (a b : RateLimit.t) : bool :=
  (RateLimit.platform_id a =? RateLimit.platform_id b) &&
  String.eqb (RateLimit.endpoint a) (RateLimit.endpoint b).

Definition same_job (a b : ScrapingJob.t) : bool :=
  String.eqb (ScrapingJob.id a) (ScrapingJob.id b).

Definition apply_write (d : DB.t) (w : write) : DB.t :=
  let '(DB.mk pl po se kw km rl jo el) := d in
  match w with
  | AddPlatform p => DB.mk (pl ++ [p]) po se kw km rl jo el
  | AddPost p => DB.mk pl (po ++ [p]) se kw km rl jo el
  | AddSentiment s => DB.mk pl po (se ++ [s]) kw km rl jo el
  | AddKeywordMatch k => DB.mk pl po se kw (km ++ [k]) rl jo el
  | AddRateLimit r => DB.mk pl po se kw km (rl ++ [r]) jo el
  | SetRateLimit r => DB.mk pl po se kw km (replace_first (same_window r) r rl) jo el
  | AddScrapingJob j => DB.mk pl po se kw km rl (jo ++ [j]) el
  | SetScrapingJob j => DB.mk pl po se kw km rl (replace_first (same_job j) j jo) el
  | AddErrorLog e => DB.mk pl po se kw km rl jo (el ++ [e])
  end.

Definition flush (ws : list write) (d : DB.t) : DB.t := fold_left apply_write ws d.

Inductive level : Type := INFO | WARNING | ERROR.

(** The state a call works on.
    - [committed]: the tables as every other session sees them;
    - [pending]: the writes of the open transaction;
    - [commit_log]: every state that was ever committed, oldest first;
    - [faults]: for each coming database round trip (query or commit),
      whether it raises; an exhausted list means no further failure;
    - [clock]: what [datetime.utcnow()] returns;
    - [log]: the records given to [logger]. *)
Record Session : Type := mkSession {
  committed : DB.t;
  pending : list write;
  commit_log : list DB.t;
  faults : list bool;
  clock : Z;
  log : list (level * string)
}.

Definition M (A : Type) : Type := Session -> outcome A * Session.

Definition ret {A : Type} (a : A) : M A := fun s => (Returns a, s).

Definition bind {A B : Type} (m : M A) (k : A -> M B) : M B :=
  fun s =>
    match m s with
    | (Returns a, s') => k a s'
    | (Raises e, s') => (Raises e, s')
    end.

Definition raise {A : Type} (e : exn) : M A := fun s => (Raises e, s).

(** [try: body except Exception as e: handler(e)] *)
Definition try_except {A : Type} (body : M A) (handler : exn -> M A) : M A :=
  fun s =>
    match body s with
    | (Returns a, s') => (Returns a, s')
    | (Raises e, s') => handler e s'
    end.

Declare Scope monad_scope.
Delimit Scope monad_scope with monad.
Notation "x <- m ;; k" := (bind m (fun x => k))
  (at level 61, m at next level, right associativity) : monad_scope.
Notation "m ;; k" := (bind m (fun _ => k))
  (at level 61, right associativity) : monad_scope.
Open Scope monad_scope.

(** Lift an [outcome] computed outside the session. *)
Definition lift {A : Type} (o : outcome A) : M A :=
  match o with Returns a => ret a | Raises e => raise e end.

(** [for x in xs: body(x)] *)
Fixpoint for_each {A : Type} (xs : list A) (body : A -> M unit) : M unit :=
  match xs with
  | [] => ret tt
  | x :: r => body x ;; for_each r body
  end.

(** One round trip to the database: raises when the fault plan says so. *)
Definition round_trip : M unit :=
  fun s =>
    match faults s with
    | [] => (Returns tt, s)
    | b :: fs =>
        let s' := mkSession (committed s) (pending s) (commit_log s) fs
                            (clock s) (log s) in
        if b then (Raises (Exception "database error"), s') else (Returns tt, s')
    end.

(** What a query of this session reads: pending writes are flushed first. *)
Definition view (s : Session) : DB.t := flush (pending s) (committed s).

(** [session.query(T).filter_by(...).first()] *)
Definition query_first {A : Type} (table : DB.t -> list A) (p : A -> bool)
  : M (option A) :=
  round_trip ;; fun s => (Returns (find p (table (view s))), s).

(** [session.query(T).filter_by(...).all()] *)
Definition query_all {A : Type} (table : DB.t -> list A) (p : A -> bool)
  : M (list A) :=
  round_trip ;; fun s => (Returns (filter p (table (view s))), s).

(** [session.add(obj)], and the change of an attribute of a loaded object. *)
Definition add (w : write) : M unit :=
  fun s =>
    (Returns tt,
     mkSession (committed s) (pending s ++ [w]) (commit_log s) (faults s)
               (clock s) (log s)).

(** [session.commit()]: the pending writes are flushed and committed.
    When the round trip fails the transaction is rolled back, so the
    pending writes are dropped with it; SQLAlchemy then wants
    [session.rollback()] before the session is used again, which the
    handlers of the save methods call; the methods of the orchestrator
    leave their session behind, and the handler of [update_rate_limit]
    alone keeps the session as it is. *)
Definition commit : M unit :=
  fun s =>
    match round_trip s with
    | (Returns _, s1) =>
        let d := view s1 in
        (Returns tt,
         mkSession d [] (commit_log s1 ++ [d]) (faults s1) (clock s1) (log s1))
    | (Raises e, s1) =>
        (Raises e,
         mkSession (committed s1) [] (commit_log s1) (faults s1) (clock s1)
                   (log s1))
    end.

(** The read of an attribute of an object whose row was just committed:
    a commit expires the objects of the session ([expire_on_commit] is
    left at its default), so the attribute is loaded again, by a round
    trip. *)
Definition refresh : M unit := round_trip.

(** [session.rollback()] *)
Definition rollback : M unit :=
  fun s =>
    (Returns tt,
     mkSession (committed s) [] (commit_log s) (faults s) (clock s) (log s)).

(** [datetime.utcnow()] *)
Definition utcnow : M Z := fun s => (Returns (clock s), s).

(** [time.sleep(seconds)] *)
Definition sleep (seconds : Z) : M unit :=
  fun s =>
    (Returns tt,
     mkSession (committed s) (pending s) (commit_log s) (faults s)
               (clock s + seconds) (log s)).

Definition logger (l : level) (msg : string) : M unit :=
  fun s =>
    (Returns tt,
     mkSession (committed s) (pending s) (commit_log s) (faults s)
               (clock s) (log s ++ [(l, msg)])).

(** A session opened on a database state. *)
Definition open_session (d : DB.t) (fs : list bool) (now : Z) : Session :=
  mkSession d [] [] fs now [].

(** [for x in xs: acc = body(acc, x)] *)
Fixpoint for_fold {A S : Type} (xs : list A) (acc : S) (body : S -> A -> M S) : M S :=
  match xs with
  | [] => ret acc
  | x :: r => acc' <- body acc x ;; for_fold r acc' body
  end.

(** ** The enrichment code shared by the three scrapers

    [extract_keywords] is defined with the same body in [TwitterScraper],
    [RedditScraper] and [TelegramScraper]; so is the part of [save_tweet],
    [save_post] and [save_message] that follows the construction of the
    [Post] object.  Both are written once here. *)

Module Enrichment.

Section Enrichment.

(** [self.sentiment_analyzer.analyze] *)
Variable analyze : string -> SentimentAnalyzer.SentimentResult.

Definition extract_keywords (text : string) : M (list string) :=
  active_keywords <- query_all DB.keywords Keyword.is_active ;;
  let text_lower := PyStr.lower text in
  ret (map Keyword.keyword
           (filter (fun keyword_obj =>
                      PyStr.contains (PyStr.lower (Keyword.keyword keyword_obj))
                                     text_lower)
                   active_keywords)).

(** The [KeywordMatch] row of one extracted keyword, when the keyword is
    found again by its text. *)
Definition save_keyword_match (post : Post.t) (text keyword_text : string) : M unit :=
  keyword <- query_first DB.keywords
               (fun k => String.eqb (Keyword.keyword k) keyword_text) ;;
  match keyword with
  | Some k =>
      add (AddKeywordMatch
             (KeywordMatch.mk (Post.id post) (Keyword.id k)
                (PyStr.count (PyStr.lower text) (PyStr.lower keyword_text))))
  | None => ret tt
  end.

(** From [self.db_session.add(post)] to [return post]. *)
Definition save_new_post (post : Post.t) (text : string) (saved_msg : string)
  : M (option Post.t) :=
  add (AddPost post) ;;
  commit ;;
  let sentiment_result := analyze text in
  add (AddSentiment
         (Sentiment.mk (Post.id post)
            (SentimentAnalyzer.sentiment sentiment_result)
            (SentimentAnalyzer.confidence sentiment_result)
            (SentimentAnalyzer.score sentiment_result)
            (SentimentAnalyzer.model_version sentiment_result))) ;;
  keywords <- extract_keywords text ;;
  for_each keywords (save_keyword_match post text) ;;
  commit ;;
  logger INFO saved_msg ;;
  ret (Some post).

(** The [except Exception] handler of the three save methods. *)
Definition save_failed (what : string) (e : exn) : M (option Post.t) :=
  logger ERROR (what ++ exn_message e) ;;
  rollback ;;
  ret None.

End Enrichment.

End Enrichment.

(** ** twitter_scraper.py *)

Module TwitterScraper.

Record PublicMetrics : Type := mkPublicMetrics {
  like_count : option Z;
  retweet_count : option Z;
  reply_count : option Z
}.

(** The dictionary [search_tweets] builds for one tweet. *)
Record Tweet : Type := mkTweet {
  id : Z;
  text : string;
  author_id : Z;
  created_at : Z;
  public_metrics : option PublicMetrics;
  lang : option string
}.

(** [d.get(key, 0)] on a key that may be absent. *)
Definition get_or_zero (v : option Z) : Z :=
  match v with Some n => n | None => 0 end.

Section Scraper.

Variable analyze : string -> SentimentAnalyzer.SentimentResult.
(** [self.platform.id], [self.config.keywords], [self.config.max_results] *)
Variable platform_id : Z.
Variable config_keywords : list string.
Variable config_max_results : Z.
(** The paginated [search_recent_tweets] call of the Twitter client. *)
Variable search_recent_tweets : string -> outcome (list Tweet).

Definition window_of (endpoint : string) (r : RateLimit.t) : bool :=
  (RateLimit.platform_id r =? platform_id) &&
  String.eqb (RateLimit.endpoint r) endpoint.

Definition check_rate_limits (endpoint : string) : M bool :=
  try_except
    (rate_limit <- query_first DB.rate_limits (window_of endpoint) ;;
     match rate_limit with
     | Some rl =>
         now <- utcnow ;;
         if now <? RateLimit.reset_time rl then
           if RateLimit.requests_limit rl <=? RateLimit.requests_made rl then
             logger WARNING
               ("Rate limit exceeded for " ++ endpoint ++ ". Waiting until "
                ++ PyStr.str (RateLimit.reset_time rl)) ;;
             ret false
           else ret true
         else ret true
     | None => ret true
     end)
    (fun e =>
       logger ERROR ("Error checking rate limits: " ++ exn_message e) ;;
       ret true).

Definition update_rate_limit (endpoint : string)
           (requests_made requests_limit reset_time : Z) : M unit :=
  try_except
    (rate_limit <- query_first DB.rate_limits (window_of endpoint) ;;
     let row := RateLimit.mk platform_id endpoint requests_made
                             requests_limit reset_time in
     match rate_limit with
     | Some _ => add (SetRateLimit row)
     | None => add (AddRateLimit row)
     end ;;
     commit)
    (fun e => logger ERROR ("Error updating rate limit: " ++ exn_message e)).

(** [max_results or self.config.max_results] *)
Definition or_default (max_results : option Z) : Z :=
  match max_results with
  | Some n => if n =? 0 then config_max_results else n
  | None => config_max_results
  end.

Definition search_tweets (query : string) (max_results : option Z)
  : M (list Tweet) :=
  within_limits <- check_rate_limits "search_tweets" ;;
  if negb within_limits then ret []
  else
    try_except
      (let max_results := or_default max_results in
       let search_query := query ++ " -is:retweet lang:en" in
       logger INFO ("Searching tweets for: " ++ search_query) ;;
       tweets <- lift (search_recent_tweets search_query) ;;
       let results := firstn (Z.to_nat max_results) tweets in
       logger INFO ("Found " ++ PyStr.str (Z.of_nat (List.length results))
                    ++ " tweets") ;;
       ret results)
      (fun e =>
         match e with
         | TooManyRequests _ =>
             logger WARNING "Rate limit exceeded. Waiting..." ;;
             sleep (15 * 60) ;;
             ret []
         | Exception _ =>
             logger ERROR ("Error searching tweets: " ++ exn_message e) ;;
             ret []
         end).

Definition extract_keywords : string -> M (list string) :=
  Enrichment.extract_keywords.

(** The identity key [save_tweet] stores a tweet under. *)
Definition post_key (tweet_data : Tweet) : string := PyStr.str (id tweet_data).

(** The [Post(...)] object [save_tweet] builds, [metrics] being
    [tweet_data.get('public_metrics', {})]. *)
Definition new_post (tweet_data : Tweet) (metrics : PublicMetrics) : Post.t :=
  {| Post.id := post_key tweet_data;
     Post.platform_id := platform_id;
     Post.content := text tweet_data;
     Post.author := "@" ++ PyStr.str (author_id tweet_data);
     Post.author_id := Some (PyStr.str (author_id tweet_data));
     Post.post_url := "https://twitter.com/i/web/status/"
                      ++ PyStr.str (id tweet_data);
     Post.created_at := created_at tweet_data;
     Post.likes := get_or_zero (like_count metrics);
     Post.shares := get_or_zero (retweet_count metrics);
     Post.comments := get_or_zero (reply_count metrics);
     Post.views := 0;
     Post.language := lang tweet_data |}.

(** The key is present in the dictionary; a [None] under it has no
    [get]. *)
Definition metrics_of (tweet_data : Tweet) : M PublicMetrics :=
  match public_metrics tweet_data with
  | Some m => ret m
  | None => raise (Exception "'NoneType' object has no attribute 'get'")
  end.

Definition save_tweet (tweet_data : Tweet) : M (option Post.t) :=
  try_except
    (existing_post <- query_first DB.posts
                        (fun p => String.eqb (Post.id p) (post_key tweet_data)) ;;
     match existing_post with
     | Some p =>
         logger INFO ("Tweet " ++ PyStr.str (id tweet_data) ++ " already exists") ;;
         ret (Some p)
     | None =>
         metrics <- metrics_of tweet_data ;;
         Enrichment.save_new_post analyze (new_post tweet_data metrics)
           (text tweet_data) ("Saved tweet " ++ PyStr.str (id tweet_data))
     end)
    (Enrichment.save_failed "Error saving tweet: ").

(** [keywords or self.config.keywords] *)
Definition keywords_or_config (keywords : option (list string)) : list string :=
  match keywords with
  | Some (k :: r) => k :: r
  | _ => config_keywords
  end.

Definition scrape_keywords (keywords : option (list string)) : M Z :=
  let keywords := keywords_or_config keywords in
  total_scraped <-
    for_fold keywords 0
      (fun total_scraped keyword =>
         logger INFO ("Scraping tweets for keyword: " ++ keyword) ;;
         tweets <- search_tweets keyword None ;;
         total_scraped <-
           for_fold tweets total_scraped
             (fun total_scraped tweet_data =>
                post <- save_tweet tweet_data ;;
                ret (match post with
                     | Some _ => total_scraped + 1
                     | None => total_scraped
                     end)) ;;
         sleep 2 ;;
         ret total_scraped) ;;
  logger INFO ("Total tweets scraped: " ++ PyStr.str total_scraped) ;;
  ret total_scraped.

(** The [get_users_tweets] call of the Twitter client: the user, the
    page size asked for, and the [data] of the response. *)
Variable get_users_tweets : string -> Z -> outcome (option (list Tweet)).

Definition get_user_timeline (user_id : string) (max_results : Z)
  : M (list Tweet) :=
  within_limits <- check_rate_limits "user_timeline" ;;
  if negb within_limits then ret []
  else
    try_except
      (tweets <- lift (get_users_tweets user_id (Z.min max_results 100)) ;;
       ret (match tweets with
            | Some data => data
            | None => []
            end))
      (fun e =>
         logger ERROR ("Error getting user timeline: " ++ exn_message e) ;;
         ret []).

Definition scrape_user_timelines (user_ids : list string) : M Z :=
  total_scraped <-
    for_fold user_ids 0
      (fun total_scraped user_id =>
         logger INFO ("Scraping timeline for user: " ++ user_id) ;;
         tweets <- get_user_timeline user_id 100 ;;
         total_scraped <-
           for_fold tweets total_scraped
             (fun total_scraped tweet_data =>
                post <- save_tweet tweet_data ;;
                ret (match post with
                     | Some _ => total_scraped + 1
                     | None => total_scraped
                     end)) ;;
         sleep 2 ;;
         ret total_scraped) ;;
  logger INFO ("Total tweets scraped from timelines: " ++ PyStr.str total_scraped) ;;
  ret total_scraped.

End Scraper.

End TwitterScraper.

(** ** reddit_scraper.py *)

Module RedditScraper.

(** The fields of the dictionary of one submission that [save_post] reads. *)
Record Submission : Type := mkSubmission {
  id : string;
  title : string;
  selftext : string;
  author : string;
  author_id : option string;
  created_utc : Z;
  score : Z;
  num_comments : Z;
  permalink : string
}.

Definition newline : string := String (ascii_of_N 10) EmptyString.

Section Scraper.

Variable analyze : string -> SentimentAnalyzer.SentimentResult.
Variable platform_id : Z.

Definition extract_keywords : string -> M (list string) :=
  Enrichment.extract_keywords.

(** [unique_id] *)
Definition post_key (post_data : Submission) : string :=
  "reddit_" ++ id post_data.

(** [content]: the title, and the body after an empty line if there is
    one. *)
Definition content_of (post_data : Submission) : string :=
  if PyStr.truthy (selftext post_data)
  then title post_data ++ newline ++ newline ++ selftext post_data
  else title post_data.

(** The [Post(...)] object [save_post] builds. *)
Definition new_post (post_data : Submission) : Post.t :=
  {| Post.id := post_key post_data;
     Post.platform_id := platform_id;
     Post.content := content_of post_data;
     Post.author := author post_data;
     Post.author_id := author_id post_data;
     Post.post_url := "https://reddit.com" ++ permalink post_data;
     Post.created_at := created_utc post_data;
     Post.likes := score post_data;
     Post.shares := 0;
     Post.comments := num_comments post_data;
     Post.views := 0;
     Post.language := None |}.

Definition save_post (post_data : Submission) : M (option Post.t) :=
  try_except
    (let unique_id := post_key post_data in
     existing_post <- query_first DB.posts
                        (fun p => String.eqb (Post.id p) unique_id) ;;
     match existing_post with
     | Some p =>
         logger INFO ("Post " ++ unique_id ++ " already exists") ;;
         ret (Some p)
     | None =>
         Enrichment.save_new_post analyze (new_post post_data)
           (content_of post_data) ("Saved post " ++ unique_id)
     end)
    (Enrichment.save_failed "Error saving post: ").

End Scraper.

(** A submission as PRAW lists it; of its attributes, those that the
    dictionary of [Submission] keeps, and [stickied]. *)
Module Praw.
Record Submission : Type := mk {
  id : string;
  title : string;
  selftext : string;
  author : option string;
  created_utc : Z;
  score : Z;
  num_comments : Z;
  permalink : string;
  stickied : bool
}.
End Praw.

(** The dictionary built for a listed submission; a deleted author has no
    name, and the time of creation is kept as a number of seconds. *)
Definition post_data_of (post : Praw.Submission) : Submission :=
  {| id := Praw.id post;
     title := Praw.title post;
     selftext := Praw.selftext post;
     author := match Praw.author post with
               | Some name => name
               | None => "[deleted]"
               end;
     author_id := Praw.author post;
     created_utc := Praw.created_utc post;
     score := Praw.score post;
     num_comments := Praw.num_comments post;
     permalink := Praw.permalink post |}.

(** The loop over a listing: stickied posts are skipped. *)
Definition collect (posts : list Praw.Submission) : list Submission :=
  map post_data_of (filter (fun post => negb (Praw.stickied post)) posts).

Section Fetching.

Variable analyze : string -> SentimentAnalyzer.SentimentResult.
Variable platform_id : Z.
(** [self.config.subreddits], [self.config.keywords],
    [self.config.max_posts] *)
Variable config_subreddits : list string.
Variable config_keywords : list string.
Variable config_max_posts : Z.
(** [subreddit.hot], [.new], [.top] (of the day) and [.rising], by the
    name of the listing, with the limit; and [subreddit.search] with the
    query, the sort order and the limit. *)
Variable listing : string -> string -> Z -> outcome (list Praw.Submission).
Variable search : string -> string -> string -> Z -> outcome (list Praw.Submission).

Definition check_rate_limits : M bool :=
  try_except
    (rate_limit <- query_first DB.rate_limits
                     (fun r => (RateLimit.platform_id r =? platform_id) &&
                               String.eqb (RateLimit.endpoint r) "reddit_api") ;;
     match rate_limit with
     | Some rl =>
         now <- utcnow ;;
         if now <? RateLimit.reset_time rl then
           if RateLimit.requests_limit rl <=? RateLimit.requests_made rl then
             logger WARNING
               ("Rate limit exceeded. Waiting until "
                ++ PyStr.str (RateLimit.reset_time rl)) ;;
             ret false
           else ret true
         else ret true
     | None => ret true
     end)
    (fun e =>
       logger ERROR ("Error checking rate limits: " ++ exn_message e) ;;
       ret true).

(** [limit or self.config.max_posts] *)
Definition limit_or_config (limit : option Z) : Z :=
  match limit with
  | Some n => if n =? 0 then config_max_posts else n
  | None => config_max_posts
  end.

(** The listing a sort type selects; an unknown one selects [new]. *)
Definition listing_of (sort_type : string) : string :=
  if String.eqb sort_type "hot" then "hot"
  else if String.eqb sort_type "new" then "new"
  else if String.eqb sort_type "top" then "top"
  else if String.eqb sort_type "rising" then "rising"
  else "new".

Definition get_subreddit_posts (subreddit_name sort_type : string)
           (limit : option Z) : M (list Submission) :=
  try_except
    (let limit := limit_or_config limit in
     logger INFO ("Fetching " ++ PyStr.str limit ++ " posts from r/"
                  ++ subreddit_name ++ " (sort: " ++ sort_type ++ ")") ;;
     posts <- lift (listing subreddit_name (listing_of sort_type) limit) ;;
     let results := collect posts in
     logger INFO ("Retrieved " ++ PyStr.str (Z.of_nat (List.length results))
                  ++ " posts from r/" ++ subreddit_name) ;;
     ret results)
    (fun e =>
       logger ERROR ("Error fetching posts from r/" ++ subreddit_name ++ ": "
                     ++ exn_message e) ;;
       ret []).

Definition search_posts (query : string) (subreddit_name : option string)
           (sort_type : string) (limit : Z) : M (list Submission) :=
  try_except
    (posts <-
       match subreddit_name with
       | Some name =>
           if PyStr.truthy name then
             posts <- lift (search name query sort_type limit) ;;
             logger INFO ("Searching for '" ++ query ++ "' in r/" ++ name) ;;
             ret posts
           else
             posts <- lift (search "all" query sort_type limit) ;;
             logger INFO ("Searching for '" ++ query ++ "' in all subreddits") ;;
             ret posts
       | None =>
           posts <- lift (search "all" query sort_type limit) ;;
           logger INFO ("Searching for '" ++ query ++ "' in all subreddits") ;;
           ret posts
       end ;;
     let results := collect posts in
     logger INFO ("Found " ++ PyStr.str (Z.of_nat (List.length results))
                  ++ " posts for query '" ++ query ++ "'") ;;
     ret results)
    (fun e =>
       logger ERROR ("Error searching posts: " ++ exn_message e) ;;
       ret []).

(** [xs or default] on a list. *)
Definition list_or (xs : option (list string)) (default : list string)
  : list string :=
  match xs with
  | Some (x :: r) => x :: r
  | _ => default
  end.

Definition scrape_subreddits (subreddits : option (list string))
           (sort_type : string) : M Z :=
  let subreddits := list_or subreddits config_subreddits in
  total_scraped <-
    for_fold subreddits 0
      (fun total_scraped subreddit =>
         logger INFO ("Scraping r/" ++ subreddit) ;;
         posts <- get_subreddit_posts subreddit sort_type None ;;
         total_scraped <-
           for_fold posts total_scraped
             (fun total_scraped post_data =>
                post <- save_post analyze platform_id post_data ;;
                ret (match post with
                     | Some _ => total_scraped + 1
                     | None => total_scraped
                     end)) ;;
         sleep 2 ;;
         ret total_scraped) ;;
  logger INFO ("Total posts scraped: " ++ PyStr.str total_scraped) ;;
  ret total_scraped.

Definition scrape_keywords (keywords subreddits : option (list string)) : M Z :=
  let keywords := list_or keywords config_keywords in
  let subreddits := list_or subreddits config_subreddits in
  total_scraped <-
    for_fold keywords 0
      (fun total_scraped keyword =>
         for_fold subreddits total_scraped
           (fun total_scraped subreddit =>
              logger INFO ("Searching for '" ++ keyword ++ "' in r/" ++ subreddit) ;;
              posts <- search_posts keyword (Some subreddit) "new" 100 ;;
              total_scraped <-
                for_fold posts total_scraped
                  (fun total_scraped post_data =>
                     post <- save_post analyze platform_id post_data ;;
                     ret (match post with
                          | Some _ => total_scraped + 1
                          | None => total_scraped
                          end)) ;;
              sleep 2 ;;
              ret total_scraped)) ;;
  logger INFO ("Total posts scraped for keywords: " ++ PyStr.str total_scraped) ;;
  ret total_scraped.

End Fetching.

End RedditScraper.

(** ** telegram_scraper.py *)

Module TelegramScraper.

(** The fields of the dictionary of one message that [save_message] reads. *)
Record Message : Type := mkMessage {
  id : Z;
  text : string;
  date : Z;
  channel : string;
  channel_id : Z;
  views : Z;
  forwards : Z;
  replies : Z
}.

Section Scraper.

Variable analyze : string -> SentimentAnalyzer.SentimentResult.
Variable platform_id : Z.

Definition extract_keywords : string -> M (list string) :=
  Enrichment.extract_keywords.

(** [unique_id] *)
Definition post_key (message_data : Message) : string :=
  "telegram_" ++ PyStr.str (channel_id message_data) ++ "_"
  ++ PyStr.str (id message_data).

(** The [Post(...)] object [save_message] builds. *)
Definition new_post (message_data : Message) : Post.t :=
  {| Post.id := post_key message_data;
     Post.platform_id := platform_id;
     Post.content := text message_data;
     Post.author := channel message_data;
     Post.author_id := Some (PyStr.str (channel_id message_data));
     Post.post_url := "https://t.me/" ++ channel message_data ++ "/"
                      ++ PyStr.str (id message_data);
     Post.created_at := date message_data;
     Post.likes := 0;
     Post.shares := forwards message_data;
     Post.comments := replies message_data;
     Post.views := views message_data;
     Post.language := None |}.

Definition save_message (message_data : Message) : M (option Post.t) :=
  try_except
    (let unique_id := post_key message_data in
     existing_post <- query_first DB.posts
                        (fun p => String.eqb (Post.id p) unique_id) ;;
     match existing_post with
     | Some p =>
         logger INFO ("Message " ++ unique_id ++ " already exists") ;;
         ret (Some p)
     | None =>
         Enrichment.save_new_post analyze (new_post message_data)
           (text message_data) ("Saved message " ++ unique_id)
     end)
    (Enrichment.save_failed "Error saving message: ").

End Scraper.

(** A message as Telethon gives it: of its attributes, those that the
    loop of a fetch reads.  [replies] is [None] or a [MessageReplies]
    object, given here by its count; [from_id] is [None] or the peer
    that sent the message. *)
Module Telethon.

(** Of the three classes of peers, [PeerUser] alone has the attribute
    [user_id]. *)
Inductive Peer : Type :=
| PeerUser (user_id : Z)
| PeerChat (chat_id : Z)
| PeerChannel (channel_id : Z).

Record Message : Type := mk {
  id : Z;
  text : option string;
  date : Z;
  views : Z;
  forwards : Z;
  replies : option Z;
  from_id : option Peer
}.

End Telethon.

(** How the iteration over [client.iter_messages] ends: with all the
    messages, with a [FloodWaitError] that carries a number of seconds, or
    with another exception.  The dictionaries built before the iteration
    raises are dropped by the handlers; a loop that ends earlier, on a
    message whose dictionary cannot be built, has consumed an iteration
    [Iterated] that yields that message. *)
Inductive iteration (A : Type) : Type :=
| Iterated (items : list A)
| FloodWaitError (seconds : Z)
| Failed (e : exn).
Arguments Iterated {A} items.
Arguments FloodWaitError {A} seconds.
Arguments Failed {A} e.

(** [if message.text] *)
Definition has_text (message : Telethon.Message) : bool :=
  match Telethon.text message with
  | Some t => PyStr.truthy t
  | None => false
  end.

(** ['replies']: the count is asked of a [MessageReplies] object with
    [get], a method of dictionaries that the object does not have; so
    the count is 0, of a message without the object, or the read
    raises. *)
Definition replies_of (message : Telethon.Message) : outcome Z :=
  match Telethon.replies message with
  | Some _ =>
      Raises (Exception "'MessageReplies' object has no attribute 'get'")
  | None => Returns 0
  end.

(** ['from_id']: [message.from_id.user_id if message.from_id else None];
    the dictionary keeps it, [save_message] does not read it. *)
Definition from_id_of (message : Telethon.Message) : outcome (option Z) :=
  match Telethon.from_id message with
  | Some (Telethon.PeerUser user_id) => Returns (Some user_id)
  | Some (Telethon.PeerChat _) =>
      Raises (Exception "'PeerChat' object has no attribute 'user_id'")
  | Some (Telethon.PeerChannel _) =>
      Raises (Exception "'PeerChannel' object has no attribute 'user_id'")
  | None => Returns None
  end.

(** The dictionary built for a message of a channel, its values being
    computed in the order of the keys. *)
Definition message_data_of (channel_username : string) (entity : Z)
           (message : Telethon.Message) : outcome Message :=
  match replies_of message with
  | Raises e => Raises e
  | Returns count =>
      match from_id_of message with
      | Raises e => Raises e
      | Returns _ =>
          Returns
            {| id := Telethon.id message;
               text := match Telethon.text message with
                       | Some t => t
                       | None => ""
                       end;
               date := Telethon.date message;
               channel := channel_username;
               channel_id := entity;
               views := Telethon.views message;
               forwards := Telethon.forwards message;
               replies := count |}
      end
  end.

(** The loop over the messages: those without text are skipped, and the
    loop ends with the first dictionary that cannot be built. *)
Fixpoint collect (channel_username : string) (entity : Z)
         (messages : list Telethon.Message) : outcome (list Message) :=
  match messages with
  | [] => Returns []
  | message :: rest =>
      if has_text message then
        match message_data_of channel_username entity message with
        | Raises e => Raises e
        | Returns message_data =>
            match collect channel_username entity rest with
            | Raises e => Raises e
            | Returns collected => Returns (message_data :: collected)
            end
        end
      else collect channel_username entity rest
  end.

Section Fetching.

Variable analyze : string -> SentimentAnalyzer.SentimentResult.
Variable platform_id : Z.
(** [self.config.channels], [self.config.keywords],
    [self.config.max_messages] *)
Variable config_channels : list string.
Variable config_keywords : list string.
Variable config_max_messages : Z.
(** [client.get_entity], giving the id of the entity, and
    [client.iter_messages] on an entity, with the search term if any and
    the limit. *)
Variable get_entity : string -> outcome Z.
Variable iter_messages : Z -> option string -> Z -> iteration Telethon.Message.

Definition get_channel_entity (channel_username : string) : M (option Z) :=
  try_except
    (entity <- lift (get_entity channel_username) ;;
     ret (Some entity))
    (fun e =>
       logger ERROR ("Error getting channel entity for " ++ channel_username
                     ++ ": " ++ exn_message e) ;;
       ret None).

(** [limit or self.config.max_messages] *)
Definition limit_or_config (limit : option Z) : Z :=
  match limit with
  | Some n => if n =? 0 then config_max_messages else n
  | None => config_max_messages
  end.

(** [str(e)] of a [FloodWaitError]. *)
Definition flood_wait_message (seconds : Z) : string :=
  "A wait of " ++ PyStr.str seconds ++ " seconds is required".

(** Of the calls in the [try] block, the iteration and the loop over
    its messages can raise: [get_channel_entity] handles its own
    exceptions. *)
Definition scrape_channel_history (channel_username : string)
           (limit : option Z) : M (list Message) :=
  let limit := limit_or_config limit in
  entity <- get_channel_entity channel_username ;;
  match entity with
  | None => ret []
  | Some entity =>
      logger INFO ("Scraping " ++ PyStr.str limit ++ " messages from "
                   ++ channel_username) ;;
      match iter_messages entity None limit with
      | Iterated found =>
          match collect channel_username entity found with
          | Returns messages =>
              logger INFO ("Scraped "
                           ++ PyStr.str (Z.of_nat (List.length messages))
                           ++ " messages from " ++ channel_username) ;;
              ret messages
          | Raises e =>
              logger ERROR ("Error scraping channel " ++ channel_username
                            ++ ": " ++ exn_message e) ;;
              ret []
          end
      | FloodWaitError seconds =>
          logger WARNING ("Flood wait error: waiting " ++ PyStr.str seconds
                          ++ " seconds") ;;
          sleep seconds ;;
          ret []
      | Failed e =>
          logger ERROR ("Error scraping channel " ++ channel_username ++ ": "
                        ++ exn_message e) ;;
          ret []
      end
  end.

Definition search_messages (channel_username query : string) (limit : Z)
  : M (list Message) :=
  entity <- get_channel_entity channel_username ;;
  match entity with
  | None => ret []
  | Some entity =>
      logger INFO ("Searching for '" ++ query ++ "' in " ++ channel_username) ;;
      match iter_messages entity (Some query) limit with
      | Iterated found =>
          match collect channel_username entity found with
          | Returns messages =>
              logger INFO ("Found "
                           ++ PyStr.str (Z.of_nat (List.length messages))
                           ++ " messages for query '" ++ query ++ "'") ;;
              ret messages
          | Raises e =>
              logger ERROR ("Error searching messages in " ++ channel_username
                            ++ ": " ++ exn_message e) ;;
              ret []
          end
      | FloodWaitError seconds =>
          logger ERROR ("Error searching messages in " ++ channel_username
                        ++ ": " ++ flood_wait_message seconds) ;;
          ret []
      | Failed e =>
          logger ERROR ("Error searching messages in " ++ channel_username
                        ++ ": " ++ exn_message e) ;;
          ret []
      end
  end.

(** [xs or default] on a list. *)
Definition list_or (xs : option (list string)) (default : list string)
  : list string :=
  match xs with
  | Some (x :: r) => x :: r
  | _ => default
  end.

Definition scrape_channels (channels : option (list string)) : M Z :=
  let channels := list_or channels config_channels in
  total_scraped <-
    for_fold channels 0
      (fun total_scraped channel =>
         logger INFO ("Scraping channel: " ++ channel) ;;
         messages <- scrape_channel_history channel None ;;
         total_scraped <-
           for_fold messages total_scraped
             (fun total_scraped message_data =>
                post <- save_message analyze platform_id message_data ;;
                ret (match post with
                     | Some _ => total_scraped + 1
                     | None => total_scraped
                     end)) ;;
         sleep 2 ;;
         ret total_scraped) ;;
  logger INFO ("Total messages scraped: " ++ PyStr.str total_scraped) ;;
  ret total_scraped.

Definition scrape_keywords (keywords : option (list string)) : M Z :=
  let keywords := list_or keywords config_keywords in
  total_scraped <-
    for_fold config_channels 0
      (fun total_scraped channel =>
         for_fold keywords total_scraped
           (fun total_scraped keyword =>
              logger INFO ("Searching for '" ++ keyword ++ "' in " ++ channel) ;;
              messages <- search_messages channel keyword 100 ;;
              total_scraped <-
                for_fold messages total_scraped
                  (fun total_scraped message_data =>
                     post <- save_message analyze platform_id message_data ;;
                     ret (match post with
                          | Some _ => total_scraped + 1
                          | None => total_scraped
                          end)) ;;
              sleep 2 ;;
              ret total_scraped)) ;;
  logger INFO ("Total messages scraped for keywords: " ++ PyStr.str total_scraped) ;;
  ret total_scraped.

End Fetching.

End TelegramScraper.

(** ** main_orchestrator.py *)

Module NaramindOrchestrator.

(** The dictionary a [run_*_scraping] method returns. *)
Record RunResult : Type := mkRunResult {
  success : bool;
  platform : option string;
  scraped_count : option Z;
  error : option string;
  job_id : option string;
  message : option string
}.

(** [session = self.Session()] ... [session.close()]: the body works in a
    session of its own, whose unflushed writes are dropped at the end; the
    open transactions of the other sessions are not touched. *)
Definition in_new_session {A : Type} (body : M A) : M A :=
  fun s =>
    let '(r, s') :=
      body (mkSession (committed s) [] (commit_log s) (faults s) (clock s) (log s)) in
    (r, mkSession (committed s') (pending s) (commit_log s') (faults s')
                  (clock s') (log s')).

(** The key an autoincrement column gives the next platform. *)
Definition next_platform_id : M Z :=
  fun s =>
    (Returns (1 + fold_right Z.max 0 (map Platform.id (DB.platforms (view s)))), s).

Definition log_error (error_type error_message : string)
           (platform_name : option string) : M unit :=
  try_except
    (in_new_session
       (platform_id <-
          match platform_name with
          | Some n =>
              if PyStr.truthy n then
                platform <- query_first DB.platforms
                              (fun p => String.eqb (Platform.name p) n) ;;
                ret (option_map Platform.id platform)
              else ret None
          | None => ret None
          end ;;
        now <- utcnow ;;
        add (AddErrorLog (ErrorLog.mk platform_id error_type error_message now)) ;;
        commit))
    (fun e => logger ERROR ("Error logging to database: " ++ exn_message e)).

(** [uuid] is the value [uuid.uuid4()] produces for the new row;
    [configuration] is the dictionary already rendered by [str]. *)
Definition create_scraping_job (uuid : string) (platform_name job_type : string)
           (configuration : option string) : M (option string) :=
  try_except
    (in_new_session
       (found <- query_first DB.platforms
                   (fun p => String.eqb (Platform.name p) platform_name) ;;
        platform <-
          match found with
          | Some p => ret p
          | None =>
              new_id <- next_platform_id ;;
              let p := Platform.mk new_id platform_name true in
              add (AddPlatform p) ;;
              commit ;;
              (* [platform.id] *)
              refresh ;;
              ret p
          end ;;
        let job :=
          {| ScrapingJob.id := uuid;
             ScrapingJob.platform_id := Platform.id platform;
             ScrapingJob.job_type := job_type;
             ScrapingJob.status := "pending";
             ScrapingJob.started_at := None;
             ScrapingJob.completed_at := None;
             ScrapingJob.posts_scraped := 0;
             ScrapingJob.errors := None;
             ScrapingJob.configuration := configuration |} in
        add (AddScrapingJob job) ;;
        commit ;;
        (* [job_id = job.id] *)
        refresh ;;
        ret (Some (ScrapingJob.id job))))
    (fun e =>
       logger ERROR ("Error creating scraping job: " ++ exn_message e) ;;
       ret None).

(** [filter_by(id=job_id)]; no row has a null key. *)
Definition has_id (job_id : option string) (j : ScrapingJob.t) : bool :=
  match job_id with
  | Some i => String.eqb (ScrapingJob.id j) i
  | None => false
  end.

(** Truth value of [errors]. *)
Definition truthy_opt (errors : option string) : bool :=
  match errors with Some e => PyStr.truthy e | None => false end.

Definition is_some {A : Type} (o : option A) : bool :=
  match o with Some _ => true | None => false end.

(** The attribute assignments [update_scraping_job] makes on the loaded
    job. *)
Definition updated_job (job : ScrapingJob.t) (status : string) (posts_scraped : Z)
           (errors : option string) (now : Z) : ScrapingJob.t :=
  let running := String.eqb status "running" && negb (is_some (ScrapingJob.started_at job)) in
  let terminal := String.eqb status "completed" || String.eqb status "failed" in
  {| ScrapingJob.id := ScrapingJob.id job;
     ScrapingJob.platform_id := ScrapingJob.platform_id job;
     ScrapingJob.job_type := ScrapingJob.job_type job;
     ScrapingJob.status := status;
     ScrapingJob.started_at :=
       if running then Some now else ScrapingJob.started_at job;
     ScrapingJob.completed_at :=
       if running then ScrapingJob.completed_at job
       else if terminal then Some now else ScrapingJob.completed_at job;
     ScrapingJob.posts_scraped :=
       if 0 <? posts_scraped then posts_scraped else ScrapingJob.posts_scraped job;
     ScrapingJob.errors :=
       if truthy_opt errors then errors else ScrapingJob.errors job;
     ScrapingJob.configuration := ScrapingJob.configuration job |}.

Definition update_scraping_job (job_id : option string) (status : string)
           (posts_scraped : Z) (errors : option string) : M unit :=
  try_except
    (in_new_session
       (job <- query_first DB.scraping_jobs (has_id job_id) ;;
        match job with
        | Some j =>
            now <- utcnow ;;
            add (SetScrapingJob (updated_job j status posts_scraped errors now)) ;;
            commit
        | None => ret tt
        end))
    (fun e => logger ERROR ("Error updating scraping job: " ++ exn_message e)).

Section Cycle.

(** ['twitter' in self.scrapers], [uuid.uuid4()] for the job of this
    run, and [self.scrapers['twitter'].scrape_keywords()]. *)
Variable twitter_initialized : bool.
Variable uuid : string.
Variable scrape_keywords : M Z.

Definition run_twitter_scraping : M RunResult :=
  if negb twitter_initialized then
    ret (mkRunResult false None None None None
           (Some "Twitter scraper not initialized"))
  else
    job_id <- create_scraping_job uuid "Twitter" "keyword_search" None ;;
    try_except
      (update_scraping_job job_id "running" 0 None ;;
       scraped_count <- scrape_keywords ;;
       update_scraping_job job_id "completed" scraped_count None ;;
       ret (mkRunResult true (Some "Twitter") (Some scraped_count) None job_id None))
      (fun e =>
         let error_msg := "Twitter scraping error: " ++ exn_message e in
         logger ERROR error_msg ;;
         update_scraping_job job_id "failed" 0 (Some error_msg) ;;
         log_error "scraping" error_msg (Some "Twitter") ;;
         ret (mkRunResult false (Some "Twitter") None (Some error_msg) job_id None)).

End Cycle.

Section TelegramCycle.

(** ['telegram' in self.scrapers], [uuid.uuid4()] for the job of this
    run, [scraper.client.is_connected()], [scraper.authenticate()] and
    [scraper.scrape_channels()]. *)
Variable telegram_initialized : bool.
Variable uuid : string.
Variable is_connected : outcome bool.
Variable authenticate : M unit.
Variable scrape_channels : M Z.

Definition run_telegram_scraping : M RunResult :=
  if negb telegram_initialized then
    ret (mkRunResult false None None None None
           (Some "Telegram scraper not initialized"))
  else
    job_id <- create_scraping_job uuid "Telegram" "channel_scraping" None ;;
    try_except
      (update_scraping_job job_id "running" 0 None ;;
       connected <- lift is_connected ;;
       (if negb connected then authenticate else ret tt) ;;
       scraped_count <- scrape_channels ;;
       update_scraping_job job_id "completed" scraped_count None ;;
       ret (mkRunResult true (Some "Telegram") (Some scraped_count) None job_id None))
      (fun e =>
         let error_msg := "Telegram scraping error: " ++ exn_message e in
         logger ERROR error_msg ;;
         update_scraping_job job_id "failed" 0 (Some error_msg) ;;
         log_error "scraping" error_msg (Some "Telegram") ;;
         ret (mkRunResult false (Some "Telegram") None (Some error_msg) job_id None)).

End TelegramCycle.

Section RedditCycle.

(** ['reddit' in self.scrapers], [uuid.uuid4()] for the job of this run,
    and [self.scrapers['reddit'].scrape_subreddits()]. *)
Variable reddit_initialized : bool.
Variable uuid : string.
Variable scrape_subreddits : M Z.

Definition run_reddit_scraping : M RunResult :=
  if negb reddit_initialized then
    ret (mkRunResult false None None None None
           (Some "Reddit scraper not initialized"))
  else
    job_id <- create_scraping_job uuid "Reddit" "subreddit_scraping" None ;;
    try_except
      (update_scraping_job job_id "running" 0 None ;;
       scraped_count <- scrape_subreddits ;;
       update_scraping_job job_id "completed" scraped_count None ;;
       ret (mkRunResult true (Some "Reddit") (Some scraped_count) None job_id None))
      (fun e =>
         let error_msg := "Reddit scraping error: " ++ exn_message e in
         logger ERROR error_msg ;;
         update_scraping_job job_id "failed" 0 (Some error_msg) ;;
         log_error "scraping" error_msg (Some "Reddit") ;;
         ret (mkRunResult false (Some "Reddit") None (Some error_msg) job_id None)).

End RedditCycle.

End NaramindOrchestrator.

(** ** The scoring rule in the words of the design *)

Module SentimentSpec.

Import PyFloat.

(** [clamp(x, lo, hi)] *)
Definition clamp (x lo hi : float) : float :=
  if ltb x lo then lo else if ltb hi x then hi else x.

(** positive above 0.1, negative below -0.1, neutral otherwise *)
Definition label_of (score : float) : string :=
  if ltb tenth score then "positive"
  else if ltb score minus_tenth then "negative"
  else "neutral".

(** Equality of two floats as numbers (Python's [==]). *)
Definition num_eq (a b : float) : Prop := SFcompare a b = Some Eq.

(** Every character is white space (the empty text included). *)
Fixpoint whitespace_only (s : string) : bool :=
  match s with
  | EmptyString => true
  | String c r => PyStr.isspace c && whitespace_only r
  end.

End SentimentSpec.

(** ** Occurrences of a term in a text, in the words of the design *)

Module TextSpec.

(** The capital letters with their small letters: A to Z with a to z,
    and the letters with diacritics U+00C0 to U+00DE (but for the
    multiplication sign U+00D7) with U+00E0 to U+00FE. *)
Definition letter_pairs : list (ascii * ascii) :=
  map (fun n : nat => (ascii_of_nat n, ascii_of_nat (n + 32)))
      (seq 65 26 ++ seq 192 23 ++ seq 216 7)%list.

(** The same character, or the capital and the small form of one
    letter. *)
Definition same_letter (a b : ascii) : Prop :=
  a = b \/ In (a, b) letter_pairs \/ In (b, a) letter_pairs.

(** Two texts that differ in letter case only. *)
Inductive same_text : string -> string -> Prop :=
| same_empty : same_text EmptyString EmptyString
| same_String (a b : ascii) (r t : string) :
    same_letter a b -> same_text r t ->
    same_text (String a r) (String b t).

(** [term] occurs in [text] at the position [i], letter case ignored. *)
Definition occurs_at (term text : string) (i : nat) : Prop :=
  exists before found after : string,
    text = before ++ found ++ after /\
    String.length before = i /\
    same_text found term.

(** [term] occurs in [text], letter case ignored. *)
Definition occurs (term text : string) : Prop :=
  exists i : nat, occurs_at term text i.

(** Positions, from left to right, of pieces of the given width that do
    not overlap. *)
Fixpoint apart (width : nat) (positions : list nat) : Prop :=
  match positions with
  | i :: rest =>
      match rest with
      | j :: _ => (i < j)%nat /\ (i + width <= j)%nat
      | [] => True
      end /\ apart width rest
  | [] => True
  end.

(** Positions of occurrences of [term] in [text] that do not overlap. *)
Definition scattered (term text : string) (positions : list nat) : Prop :=
  Forall (occurs_at term text) positions /\
  apart (String.length term) positions.

(** [n] is the number of non-overlapping occurrences of [term] in
    [text], letter case ignored: the greatest number of occurrences that
    do not overlap. *)
Definition occurrence_count (term text : string) (n : Z) : Prop :=
  (exists positions : list nat,
      scattered term text positions /\
      Z.of_nat (List.length positions) = n) /\
  (forall positions : list nat,
      scattered term text positions ->
      Z.of_nat (List.length positions) <= n).

(** The test of [same_letter]. *)
Definition paired (a b : ascii) : bool :=
  existsb (fun p => Ascii.eqb (fst p) a && Ascii.eqb (snd p) b) letter_pairs.

Definition same_letterb (a b : ascii) : bool :=
  Ascii.eqb a b || paired a b || paired b a.

(** All the characters. *)
Definition all_chars : list ascii := map ascii_of_nat (seq 0 256).

End TextSpec.

(** A decimal digit or the minus sign. *)
Definition digit_or_minus (c : ascii) : bool :=
  let n := N_of_ascii c in
  ((48 <=? n)%N && (n <=? 57)%N) || (n =? 45)%N.

(** ** What a save leaves in the store *)

Module StoreSpec.

(** The item stored under an identity key, if any. *)
Definition lookup (key : string) (d : DB.t) : option Post.t :=
  find (fun p => String.eqb (Post.id p) key) (DB.posts d).

Definition stored (key : string) (d : DB.t) : bool :=
  match lookup key d with Some _ => true | None => false end.

(** The terms of the active keywords that occur in the text, letter case
    ignored. *)
Definition matched_terms (table : list Keyword.t) (text : string) : list string :=
  map Keyword.keyword
      (filter (fun k => PyStr.contains (PyStr.lower (Keyword.keyword k))
                                       (PyStr.lower text))
              (filter Keyword.is_active table)).

(** One row per term that is found again in the keyword table. *)
Definition rows_of (table : list Keyword.t) (post : Post.t) (text : string)
           (terms : list string) : list KeywordMatch.t :=
  flat_map
    (fun term =>
       match find (fun k => String.eqb (Keyword.keyword k) term) table with
       | Some k =>
           [KeywordMatch.mk (Post.id post) (Keyword.id k)
              (PyStr.count (PyStr.lower text) (PyStr.lower term))]
       | None => []
       end)
    terms.

Definition keyword_rows (d : DB.t) (post : Post.t) (text : string)
  : list KeywordMatch.t :=
  rows_of (DB.keywords d) post text (matched_terms (DB.keywords d) text).

Definition sentiment_row (analyze : string -> SentimentAnalyzer.SentimentResult)
           (post : Post.t) (text : string) : Sentiment.t :=
  Sentiment.mk (Post.id post)
    (SentimentAnalyzer.sentiment (analyze text))
    (SentimentAnalyzer.confidence (analyze text))
    (SentimentAnalyzer.score (analyze text))
    (SentimentAnalyzer.model_version (analyze text)).

(** The store with the item alone. *)
Definition with_post (d : DB.t) (post : Post.t) : DB.t :=
  apply_write d (AddPost post).

(** The store with the item, its sentiment annotation and its keyword
    matches. *)
Definition with_enriched_post
           (analyze : string -> SentimentAnalyzer.SentimentResult)
           (d : DB.t) (post : Post.t) (text : string) : DB.t :=
  flush (AddSentiment (sentiment_row analyze post text)
           :: map AddKeywordMatch (keyword_rows d post text))
        (with_post d post).

(** The three ways the save of a new item can end, from the store [d]:
    the value returned, the store left, and the states committed on the
    way. *)
Inductive save_outcome
          (analyze : string -> SentimentAnalyzer.SentimentResult)
          (d : DB.t) (post : Post.t) (text : string)
  : option Post.t -> DB.t -> list DB.t -> Prop :=
| NothingSaved :
    save_outcome analyze d post text None d []
| ItemAlone :
    save_outcome analyze d post text None (with_post d post) [with_post d post]
| ItemEnriched :
    save_outcome analyze d post text (Some post)
      (with_enriched_post analyze d post text)
      [with_post d post; with_enriched_post analyze d post text].

(** A [KeywordMatch] row that counts the occurrences of a tracked term of
    the table in the text, at least one: the term occurs in the text,
    letter case ignored, and the count is the number of its
    non-overlapping occurrences; as the code has it, the lower-cased
    term is a substring of the lower-cased text and the count is that of
    [str.count] on the two. *)
Definition counts_a_match (table : list Keyword.t) (key text : string)
           (row : KeywordMatch.t) : Prop :=
  KeywordMatch.post_id row = key /\
  exists k : Keyword.t,
    In k table /\
    KeywordMatch.keyword_id row = Keyword.id k /\
    TextSpec.occurs (Keyword.keyword k) text /\
    TextSpec.occurrence_count (Keyword.keyword k) text
      (KeywordMatch.match_count row) /\
    PyStr.contains (PyStr.lower (Keyword.keyword k)) (PyStr.lower text) = true /\
    KeywordMatch.match_count row
      = PyStr.count (PyStr.lower text) (PyStr.lower (Keyword.keyword k)) /\
    1 <= KeywordMatch.match_count row.

(** How a save method behaves on an item whose key is stored: it writes
    nothing, and returns the stored item with an "already exists" record
    in the log, unless the look-up itself fails. *)
Definition keeps_existing (save : M (option Post.t)) (key already : string)
  : Prop :=
  forall (s : Session) (p : Post.t),
    pending s = [] ->
    lookup key (committed s) = Some p ->
    committed (snd (save s)) = committed s /\
    pending (snd (save s)) = [] /\
    commit_log (snd (save s)) = commit_log s /\
    (faults s = [] -> faults (snd (save s)) = []) /\
    match faults s with
    | true :: _ => fst (save s) = Returns None
    | _ => fst (save s) = Returns (Some p) /\
           log (snd (save s)) = (log s ++ [(INFO, already)])%list
    end.

(** How a save method behaves on an item whose key is not stored: it ends
    in one of the three outcomes, always by returning; without any failure
    of the database, and on well-formed data, in the third one. *)
Definition saves_new (analyze : string -> SentimentAnalyzer.SentimentResult)
           (save : M (option Post.t)) (key : string) (post : Post.t)
           (text : string) (well_formed : Prop) : Prop :=
  forall s : Session,
    pending s = [] ->
    lookup key (committed s) = None ->
    exists (o : option Post.t) (ds : list DB.t),
      fst (save s) = Returns o /\
      pending (snd (save s)) = [] /\
      commit_log (snd (save s)) = (commit_log s ++ ds)%list /\
      save_outcome analyze (committed s) post text o (committed (snd (save s))) ds /\
      (faults s = [] -> well_formed ->
       o = Some post /\ faults (snd (save s)) = []) /\
      (faults s = [] -> faults (snd (save s)) = []).

End StoreSpec.

(** The item [save_tweet] stores for a tweet (the counters are read from
    [public_metrics], without which nothing is stored). *)
Definition tweet_post (platform_id : Z) (t : TwitterScraper.Tweet) : Post.t :=
  TwitterScraper.new_post platform_id t
    (match TwitterScraper.public_metrics t with
     | Some m => m
     | None => TwitterScraper.mkPublicMetrics None None None
     end).

Definition tweet_well_formed (t : TwitterScraper.Tweet) : Prop :=
  TwitterScraper.public_metrics t <> None.

Definition tweet_exists_msg (t : TwitterScraper.Tweet) : string :=
  "Tweet " ++ PyStr.str (TwitterScraper.id t) ++ " already exists".

Definition submission_exists_msg (p : RedditScraper.Submission) : string :=
  "Post " ++ RedditScraper.post_key p ++ " already exists".

Definition message_exists_msg (m : TelegramScraper.Message) : string :=
  "Message " ++ TelegramScraper.post_key m ++ " already exists".

(** Both runs of a save on one input, from a store that lacks the key: the
    item, one sentiment annotation, the keyword matches of the first run,
    and an "already exists" report from the second. *)
Definition saves_once (analyze : string -> SentimentAnalyzer.SentimentResult)
           (save : M (option Post.t)) (key : string) (post : Post.t)
           (text already : string) : Prop :=
  forall s : Session,
    pending s = [] ->
    faults s = [] ->
    StoreSpec.lookup key (committed s) = None ->
    let s1 := snd (save s) in
    let s2 := snd (save s1) in
    fst (save s) = Returns (Some post) /\
    fst (save s1) = Returns (Some post) /\
    committed s2 = committed s1 /\
    commit_log s2 = commit_log s1 /\
    DB.posts (committed s2) = (DB.posts (committed s) ++ [post])%list /\
    DB.sentiments (committed s2)
      = (DB.sentiments (committed s)
           ++ [StoreSpec.sentiment_row analyze post text])%list /\
    DB.keyword_matches (committed s2) = DB.keyword_matches (committed s1) /\
    log s2 = (log s1 ++ [(INFO, already)])%list.



(** [[f(x) for x in xs]] *)
Fixpoint map_m {A B : Type} (f : A -> M B) (xs : list A) : M (list B) :=
  match xs with
  | [] => ret []
  | x :: r => b <- f x ;; bs <- map_m f r ;; ret (b :: bs)
  end.

(** The number of saves that returned an item. *)
Fixpoint count_saved (outcomes : list (option Post.t)) : Z :=
  match outcomes with
  | [] => 0
  | Some _ :: r => 1 + count_saved r
  | None :: r => count_saved r
  end.

(** The collection cycle of [TwitterScraper.scrape_keywords], returning
    what [save_tweet] returned for every fetched tweet, keyword by
    keyword, instead of a count. *)
Definition scrape_keywords_outcomes
           (analyze : string -> SentimentAnalyzer.SentimentResult)
           (platform_id : Z) (config_keywords : list string)
           (config_max_results : Z)
           (search_recent_tweets : string -> outcome (list TwitterScraper.Tweet))
           (keywords : option (list string))
  : M (list (list (option Post.t))) :=
  map_m
    (fun keyword =>
       logger INFO ("Scraping tweets for keyword: " ++ keyword) ;;
       tweets <- TwitterScraper.search_tweets platform_id config_max_results
                   search_recent_tweets keyword None ;;
       outcomes <- map_m (TwitterScraper.save_tweet analyze platform_id) tweets ;;
       sleep 2 ;;
       ret outcomes)
    (TwitterScraper.keywords_or_config config_keywords keywords).


(** ** Items of the three sources *)

Inductive Source : Type := Twitter | Reddit | Telegram.

Inductive RawItem : Type :=
| TweetItem (t : TwitterScraper.Tweet)
| SubmissionItem (p : RedditScraper.Submission)
| MessageItem (m : TelegramScraper.Message).

Definition source_of (x : RawItem) : Source :=
  match x with
  | TweetItem _ => Twitter
  | SubmissionItem _ => Reddit
  | MessageItem _ => Telegram
  end.

(** The key an item is stored under. *)
Definition identity_key (x : RawItem) : string :=
  match x with
  | TweetItem t => TwitterScraper.post_key t
  | SubmissionItem p => RedditScraper.post_key p
  | MessageItem m => TelegramScraper.post_key m
  end.

(** The save method of the scraper of the item's source; [platform_id]
    gives the key of each platform row. *)
Definition save_item (analyze : string -> SentimentAnalyzer.SentimentResult)
           (platform_id : Source -> Z) (x : RawItem) : M (option Post.t) :=
  match x with
  | TweetItem t => TwitterScraper.save_tweet analyze (platform_id Twitter) t
  | SubmissionItem p => RedditScraper.save_post analyze (platform_id Reddit) p
  | MessageItem m => TelegramScraper.save_message analyze (platform_id Telegram) m
  end.

Definition item_well_formed (x : RawItem) : Prop :=
  match x with
  | TweetItem t => tweet_well_formed t
  | _ => True
  end.


(** [n] admission checks in a row. *)
Definition consecutive_checks (platform_id : Z) (endpoint : string) (n : nat)
  : M (list bool) :=
  map_m (fun _ : unit => TwitterScraper.check_rate_limits platform_id endpoint)
        (repeat tt n).

(** The window of an endpoint that a session sees. *)
Definition window (platform_id : Z) (endpoint : string) (s : Session)
  : option RateLimit.t :=
  find (TwitterScraper.window_of platform_id endpoint) (DB.rate_limits (view s)).


(** ** The life of a job *)

(** The job stored under an id, and its status. *)
Definition job_of (job_id : string) (d : DB.t) : option ScrapingJob.t :=
  find (NaramindOrchestrator.has_id (Some job_id)) (DB.scraping_jobs d).

Definition job_status (job_id : string) (d : DB.t) : option string :=
  option_map ScrapingJob.status (job_of job_id d).

Definition same_status (a b : option string) : bool :=
  match a, b with
  | Some x, Some y => String.eqb x y
  | None, None => true
  | _, _ => false
  end.

(** A sequence of observations without its immediate repetitions. *)
Fixpoint changes (l : list (option string)) : list (option string) :=
  match l with
  | [] => []
  | x :: r =>
      match r with
      | [] => [x]
      | y :: _ => if same_status x y then changes r else x :: changes r
      end
  end.

(** [s'] has no open transaction and no failure to come, the job table
    of [s], and a commit log that extends the one of [s] by states with
    that job table. *)
Definition job_frame (s s' : Session) : Prop :=
  pending s' = [] /\
  faults s' = [] /\
  DB.scraping_jobs (committed s') = DB.scraping_jobs (committed s) /\
  exists ds : list DB.t,
    commit_log s' = (commit_log s ++ ds)%list /\
    Forall (fun d => DB.scraping_jobs d = DB.scraping_jobs (committed s)) ds.

(** A program (a scraper) that, run without a database failure and
    without an open transaction, ends in the same way and never commits a
    change of the job table. *)
Definition leaves_jobs {A : Type} (m : M A) : Prop :=
  forall s : Session,
    pending s = [] -> faults s = [] -> job_frame s (snd (m s)).


(** ** Sample data *)

Module Sample.

(** An analyzer whose tokenizer splits nothing and whose base signal is
    constant. *)
Definition analyze : string -> SentimentAnalyzer.SentimentResult :=
  SentimentAnalyzer.analyze (fun t => t) (fun t => Returns [t]) []
    (fun t => t) (fun _ => Returns (PyFloat.half, PyFloat.half)).

Definition tweet : TwitterScraper.Tweet :=
  TwitterScraper.mkTweet 123 "Bitcoin is up, BITCOIN to the moon" 9 5
    (Some (TwitterScraper.mkPublicMetrics (Some 1) None None)) (Some "en").

Definition submission : RedditScraper.Submission :=
  RedditScraper.mkSubmission "123" "ETH merge" "" "alice" (Some "alice")
    5 10 2 "/r/ethereum/comments/123".

Definition message : TelegramScraper.Message :=
  TelegramScraper.mkMessage 123 "btc" 5 "@crypto" 77 0 0 0.

(** Two tracked keywords and one rate-limit window of the Twitter
    platform (key 1): no call made, three allowed, reset at time 100. *)
Definition db : DB.t :=
  DB.mk [Platform.mk 1 "Twitter" true] [] []
        [Keyword.mk 1 "Bitcoin" (Some "crypto") true;
         Keyword.mk 2 "ETH" (Some "crypto") true]
        []
        [RateLimit.mk 1 "search_tweets" 0 3 100]
        [] [].

Definition save_tweet : M (option Post.t) :=
  TwitterScraper.save_tweet analyze 1 tweet.

Definition e_acute : ascii := ascii_of_nat 233.




Definition check : M bool := TwitterScraper.check_rate_limits 1 "search_tweets".

(** The sample store once the sample tweet is saved. *)
Definition db_with_tweet : DB.t :=
  committed (snd (save_tweet (open_session db [] 0))).

(** A cycle on the keyword "Bitcoin", for which the search returns the
    sample tweet. *)
Definition scrape : M Z :=
  TwitterScraper.scrape_keywords analyze 1 ["Bitcoin"] 100
    (fun _ => Returns [tweet]) None.

(** A job that has completed. *)
Definition done_job : ScrapingJob.t :=
  ScrapingJob.mk "job-1" 1 "keyword_search" "completed" (Some 10) (Some 20) 4
                 None None.

Definition db_done : DB.t :=
  DB.mk [Platform.mk 1 "Twitter" true] [] [] [] [] [] [done_job] [].

End Sample.

(** ** The collection cycles of the three scrapers *)

(** The analyzer, the platform rows, and for each scraper its
    configuration and the calls of its client. *)
Record Setup : Type := mkSetup {
  analyzer : string -> SentimentAnalyzer.SentimentResult;
  platform_of : Source -> Z;
  twitter_keywords : list string;
  twitter_max_results : Z;
  search_recent_tweets : string -> outcome (list TwitterScraper.Tweet);
  get_users_tweets : string -> Z -> outcome (option (list TwitterScraper.Tweet));
  reddit_subreddits : list string;
  reddit_keywords : list string;
  reddit_max_posts : Z;
  listing : string -> string -> Z -> outcome (list RedditScraper.Praw.Submission);
  search : string -> string -> string -> Z
           -> outcome (list RedditScraper.Praw.Submission);
  telegram_channels : list string;
  telegram_keywords : list string;
  telegram_max_messages : Z;
  get_entity : string -> outcome Z;
  iter_messages : Z -> option string -> Z
                  -> TelegramScraper.iteration TelegramScraper.Telethon.Message
}.

(** A call of one of the six cycle methods, with its arguments. *)
Inductive Cycle : Type :=
| TwitterKeywords (keywords : option (list string))
| TwitterTimelines (user_ids : list string)
| RedditSubreddits (subreddits : option (list string)) (sort_type : string)
| RedditKeywords (keywords subreddits : option (list string))
| TelegramChannels (channels : option (list string))
| TelegramKeywords (keywords : option (list string)).

Definition run_cycle (w : Setup) (c : Cycle) : M Z :=
  match c with
  | TwitterKeywords keywords =>
      TwitterScraper.scrape_keywords (analyzer w) (platform_of w Twitter)
        (twitter_keywords w) (twitter_max_results w) (search_recent_tweets w)
        keywords
  | TwitterTimelines user_ids =>
      TwitterScraper.scrape_user_timelines (analyzer w) (platform_of w Twitter)
        (get_users_tweets w) user_ids
  | RedditSubreddits subreddits sort_type =>
      RedditScraper.scrape_subreddits (analyzer w) (platform_of w Reddit)
        (reddit_subreddits w) (reddit_max_posts w) (listing w)
        subreddits sort_type
  | RedditKeywords keywords subreddits =>
      RedditScraper.scrape_keywords (analyzer w) (platform_of w Reddit)
        (reddit_subreddits w) (reddit_keywords w) (search w)
        keywords subreddits
  | TelegramChannels channels =>
      TelegramScraper.scrape_channels (analyzer w) (platform_of w Telegram)
        (telegram_channels w) (telegram_max_messages w) (get_entity w)
        (iter_messages w) channels
  | TelegramKeywords keywords =>
      TelegramScraper.scrape_keywords (analyzer w) (platform_of w Telegram)
        (telegram_channels w) (telegram_keywords w) (get_entity w)
        (iter_messages w) keywords
  end.

(** The item a save stores for a raw item, and the text it analyzes. *)
Definition item_post (platform_id : Source -> Z) (x : RawItem) : Post.t :=
  match x with
  | TweetItem t => tweet_post (platform_id Twitter) t
  | SubmissionItem p => RedditScraper.new_post (platform_id Reddit) p
  | MessageItem m => TelegramScraper.new_post (platform_id Telegram) m
  end.

Definition item_text (x : RawItem) : string :=
  match x with
  | TweetItem t => TwitterScraper.text t
  | SubmissionItem p => RedditScraper.content_of p
  | MessageItem m => TelegramScraper.text m
  end.

(** ** Runs that return *)

(** [m] returns from every state. *)
Definition never_raises {A : Type} (m : M A) : Prop :=
  forall s : Session, exists a : A, fst (m s) = Returns a.

(** [m] leaves the tables, the open transaction and the commit log as
    they are, however it ends; it meets a database failure only if one
    was to come. *)
Definition calm {A : Type} (m : M A) : Prop :=
  forall s : Session,
    committed (snd (m s)) = committed s /\
    pending (snd (m s)) = pending s /\
    commit_log (snd (m s)) = commit_log s /\
    (faults s = [] -> faults (snd (m s)) = []).

(** [m] returns from every state and is calm. *)
Definition quiet {A : Type} (m : M A) : Prop :=
  never_raises m /\ calm m.

(** From every state that satisfies [P], [m] returns a value and a state
    that satisfy [Q]. *)
Definition hoare {A : Type} (P : Session -> Prop) (m : M A)
           (Q : A -> Session -> Prop) : Prop :=
  forall s : Session,
    P s -> exists (a : A) (s' : Session), m s = (Returns a, s') /\ Q a s'.

(** ** What saves make of the store *)

(** 1 for a save that returned an item. *)
Definition returned (o : option Post.t) : Z :=
  match o with Some _ => 1 | None => 0 end.

(** [evolves analyze d ds k d']: a sequence of saves of items whose key
    was not stored, each ending in one of its three outcomes, leads from
    the store [d] to the store [d'], committing the states [ds] on the
    way; [k] of them stored the item with its enrichment. *)
Inductive evolves (analyze : string -> SentimentAnalyzer.SentimentResult)
          (d : DB.t) : list DB.t -> Z -> DB.t -> Prop :=
| evolves_none : evolves analyze d [] 0 d
| evolves_save (ds : list DB.t) (k : Z) (d1 : DB.t)
               (post : Post.t) (text : string) (o : option Post.t)
               (d2 : DB.t) (ds1 : list DB.t) :
    evolves analyze d ds k d1 ->
    StoreSpec.lookup (Post.id post) d1 = None ->
    StoreSpec.save_outcome analyze d1 post text o d2 ds1 ->
    evolves analyze d (ds ++ ds1)%list (k + returned o) d2.

(** What a cycle that started in [s0] with the count [n0] has reached in
    [s] with the count [n]. *)
Definition cycle_inv (analyze : string -> SentimentAnalyzer.SentimentResult)
           (s0 : Session) (n0 n : Z) (s : Session) : Prop :=
  pending s = [] /\
  (faults s0 = [] -> faults s = []) /\
  exists (ds : list DB.t) (k : Z),
    commit_log s = (commit_log s0 ++ ds)%list /\
    evolves analyze (committed s0) ds k (committed s) /\
    0 <= k <= n - n0.

(** [l'] is [l] with rows appended. *)
Definition extends {A : Type} (l l' : list A) : Prop :=
  exists rows : list A, l' = (l ++ rows)%list.

(** The store [d'] is [d] with items, sentiment annotations and keyword
    matches appended, and nothing else changed. *)
Definition only_appends (d d' : DB.t) : Prop :=
  extends (DB.posts d) (DB.posts d') /\
  extends (DB.sentiments d) (DB.sentiments d') /\
  extends (DB.keyword_matches d) (DB.keyword_matches d') /\
  DB.platforms d' = DB.platforms d /\
  DB.keywords d' = DB.keywords d /\
  DB.rate_limits d' = DB.rate_limits d /\
  DB.scraping_jobs d' = DB.scraping_jobs d /\
  DB.error_logs d' = DB.error_logs d.

(** No identity key is stored twice. *)
Definition unique_keys (d : DB.t) : Prop :=
  NoDup (map Post.id (DB.posts d)).

(** Every sentiment annotation and every keyword match belongs to a
    stored item, and every keyword match to a tracked keyword. *)
Definition references_stored (d : DB.t) : Prop :=
  Forall (fun r => StoreSpec.stored (Sentiment.post_id r) d = true)
         (DB.sentiments d) /\
  Forall (fun r => StoreSpec.stored (KeywordMatch.post_id r) d = true /\
                   In (KeywordMatch.keyword_id r)
                      (map Keyword.id (DB.keywords d)))
         (DB.keyword_matches d).

(** At most one sentiment annotation per item. *)
Definition annotated_once (d : DB.t) : Prop :=
  NoDup (map Sentiment.post_id (DB.sentiments d)).

(** A sentiment annotation as the analyzer produces them. *)
Definition well_scored (r : Sentiment.t) : Prop :=
  In (Sentiment.sentiment_type r) ["positive"; "negative"; "neutral"] /\
  PyFloat.within PyFloat.minus_one PyFloat.one (Sentiment.sentiment_score r) /\
  PyFloat.within PyFloat.zero PyFloat.one (Sentiment.confidence_score r) /\
  Sentiment.model_version r = SentimentAnalyzer.model_version_tag.

(** ** The rate-limit windows *)

(** The number of rows of a window. *)
Definition window_rows (platform_id : Z) (endpoint : string) (d : DB.t) : nat :=
  List.length (filter (TwitterScraper.window_of platform_id endpoint)
                      (DB.rate_limits d)).

(** ** The messages a Telegram fetch keeps *)

(** The dictionaries a fetch keeps of the messages of an iteration: none
    when the loop over them raises. *)
Definition collected (channel_username : string) (entity : Z)
           (found : list TelegramScraper.Telethon.Message)
  : list TelegramScraper.Message :=
  match TelegramScraper.collect channel_username entity found with
  | Returns messages => messages
  | Raises _ => []
  end.

(** A message without a [MessageReplies] object, sent by a user or by no
    known peer. *)
Definition plain (m : TelegramScraper.Telethon.Message) : bool :=
  match TelegramScraper.Telethon.replies m,
        TelegramScraper.Telethon.from_id m with
  | None, None => true
  | None, Some (TelegramScraper.Telethon.PeerUser _) => true
  | _, _ => false
  end.

(** The dictionary of a plain message with the text [t]: its count of
    replies is 0. *)
Definition plain_data (channel_username : string) (entity : Z)
           (m : TelegramScraper.Telethon.Message) (t : string)
  : TelegramScraper.Message :=
  TelegramScraper.mkMessage (TelegramScraper.Telethon.id m) t
    (TelegramScraper.Telethon.date m) channel_username entity
    (TelegramScraper.Telethon.views m) (TelegramScraper.Telethon.forwards m) 0.

(** The dictionaries of the messages that have a text, in order. *)
Fixpoint with_text (channel_username : string) (entity : Z)
         (found : list TelegramScraper.Telethon.Message)
  : list TelegramScraper.Message :=
  match found with
  | [] => []
  | m :: rest =>
      match TelegramScraper.Telethon.text m with
      | Some (String c t) =>
          plain_data channel_username entity m (String c t)
            :: with_text channel_username entity rest
      | _ => with_text channel_username entity rest
      end
  end.

(** ** The items a cycle fetches *)

(** The dictionaries [get_subreddit_posts] returns for a subreddit: those
    of the listed submissions that are not stickied, none when the
    client raises. *)
Definition listed (w : Setup) (sort_type subreddit : string)
  : list RedditScraper.Submission :=
  match listing w subreddit (RedditScraper.listing_of sort_type)
                (RedditScraper.limit_or_config (reddit_max_posts w) None) with
  | Returns posts => RedditScraper.collect posts
  | Raises _ => []
  end.

(** The dictionaries [scrape_channel_history] returns for a channel. *)
Definition history (w : Setup) (channel : string)
  : list TelegramScraper.Message :=
  match get_entity w channel with
  | Returns entity =>
      match iter_messages w entity None
              (TelegramScraper.limit_or_config (telegram_max_messages w) None)
      with
      | TelegramScraper.Iterated found => collected channel entity found
      | _ => []
      end
  | Raises _ => []
  end.

(** The number of items in the batches fetched for a list of sources. *)
Definition fetched_items {X I : Type} (items : X -> list I) (xs : list X) : Z :=
  fold_right (fun x n => Z.of_nat (List.length (items x)) + n) 0 xs.

(** ** Sample clients *)

Module SampleSetup.

Definition submission : RedditScraper.Praw.Submission :=
  RedditScraper.Praw.mk "abc" "ETH merge" "Bitcoin too" (Some "alice")
    5 10 2 "/r/ethereum/comments/abc" false.

Definition sticky : RedditScraper.Praw.Submission :=
  RedditScraper.Praw.mk "top" "Daily discussion" "" None
    1 0 0 "/r/ethereum/comments/top" true.

Definition message : TelegramScraper.Telethon.Message :=
  TelegramScraper.Telethon.mk 7 (Some "btc and Bitcoin") 5 10 0 None None.

Definition photo : TelegramScraper.Telethon.Message :=
  TelegramScraper.Telethon.mk 8 None 6 3 0 None None.

(** A message that three replies were given to. *)
Definition discussed : TelegramScraper.Telethon.Message :=
  TelegramScraper.Telethon.mk 9 (Some "to the moon") 7 4 1 (Some 3) None.

(** Every search returns the sample tweet, every listing the two sample
    submissions, every channel the two sample messages. *)
Definition setup : Setup :=
  {| analyzer := Sample.analyze;
     platform_of := fun x => match x with Twitter => 1 | Reddit => 2 | Telegram => 3 end;
     twitter_keywords := ["Bitcoin"];
     twitter_max_results := 100;
     search_recent_tweets := fun _ => Returns [Sample.tweet];
     get_users_tweets := fun _ _ => Returns (Some [Sample.tweet]);
     reddit_subreddits := ["ethereum"];
     reddit_keywords := ["ETH"];
     reddit_max_posts := 100;
     listing := fun _ _ _ => Returns [sticky; submission];
     search := fun _ _ _ _ => Returns [sticky; submission];
     telegram_channels := ["@crypto"];
     telegram_keywords := ["btc"];
     telegram_max_messages := 100;
     get_entity := fun _ => Returns 77;
     iter_messages := fun _ _ _ => TelegramScraper.Iterated [photo; message] |}.

(** A session on the sample store in which the third round trip to the
    database fails. *)
Definition faulty : Session := open_session Sample.db [false; false; true] 0.

(** The sample store with the two windows of the Twitter platform used
    up until time 100. *)
Definition exhausted : DB.t :=
  DB.mk [Platform.mk 1 "Twitter" true] [] [] [] []
        [RateLimit.mk 1 "search_tweets" 3 3 100;
         RateLimit.mk 1 "user_timeline" 5 5 100]
        [] [].

End SampleSetup.

(** ** Results of a run *)

(** [m] returns from every state, a value that satisfies [P]. *)
Definition always_returns {A : Type} (P : A -> Prop) (m : M A) : Prop :=
  forall s : Session, exists a : A, fst (m s) = Returns a /\ P a.

(** A value that [m] returns satisfies [P]. *)
Definition returns_only {A : Type} (P : A -> Prop) (m : M A) : Prop :=
  forall (s : Session) (a : A), fst (m s) = Returns a -> P a.

(** [m] leaves the open transaction of the caller as it is. *)
Definition keeps_pending {A : Type} (m : M A) : Prop :=
  forall s : Session, pending (snd (m s)) = pending s.

(** The three shapes of the dictionary a [run_*_scraping] method of a
    platform returns: the scraper is not initialized, the scraper
    returned a count, or an exception was caught. *)
Definition run_result_of (name : string) (r : NaramindOrchestrator.RunResult)
  : Prop :=
  r = NaramindOrchestrator.mkRunResult false None None None None
        (Some (name ++ " scraper not initialized")) \/
  (exists (n : Z) (job_id : option string),
      r = NaramindOrchestrator.mkRunResult true (Some name) (Some n) None
            job_id None) \/
  (exists (e : exn) (job_id : option string),
      r = NaramindOrchestrator.mkRunResult false (Some name) None
            (Some (name ++ " scraping error: " ++ exn_message e)) job_id None).

(** The job a run creates, and the job a run that completed with the
    count [n] leaves. *)
Definition completed_job (j : ScrapingJob.t) (uuid job_type : string) (n : Z)
  : Prop :=
  ScrapingJob.id j = uuid /\
  ScrapingJob.job_type j = job_type /\
  ScrapingJob.status j = "completed" /\
  ScrapingJob.posts_scraped j = n /\
  ScrapingJob.errors j = None /\
  NaramindOrchestrator.is_some (ScrapingJob.started_at j) = true /\
  NaramindOrchestrator.is_some (ScrapingJob.completed_at j) = true.

(** The platform row of a name, as the orchestrator looks it up. *)
Definition platform_named (name : string) (d : DB.t) : option Platform.t :=
  find (fun p => String.eqb (Platform.name p) name) (DB.platforms d).

(** The shape that [run_twitter_scraping] and [run_reddit_scraping] have
    once the scraper is known to be initialized, and
    [run_telegram_scraping] once the client is known to be connected:
    the three differ in the name of the platform, in the type of the job
    and in the scraper method. *)
Definition run_platform (name job_type uuid : string) (scrape : M Z)
  : M NaramindOrchestrator.RunResult :=
  job_id <- NaramindOrchestrator.create_scraping_job uuid name job_type None ;;
  try_except
    (NaramindOrchestrator.update_scraping_job job_id "running" 0 None ;;
     scraped_count <- scrape ;;
     NaramindOrchestrator.update_scraping_job job_id "completed" scraped_count
       None ;;
     ret (NaramindOrchestrator.mkRunResult true (Some name) (Some scraped_count)
            None job_id None))
    (fun e =>
       let error_msg := name ++ " scraping error: " ++ exn_message e in
       logger ERROR error_msg ;;
       NaramindOrchestrator.update_scraping_job job_id "failed" 0
         (Some error_msg) ;;
       NaramindOrchestrator.log_error "scraping" error_msg (Some name) ;;
       ret (NaramindOrchestrator.mkRunResult false (Some name) None
              (Some error_msg) job_id None)).

(** The job a run that failed with the message [msg] leaves, and the row
    it writes in the error log. *)
Definition failed_job (j : ScrapingJob.t) (uuid job_type msg : string) : Prop :=
  ScrapingJob.id j = uuid /\
  ScrapingJob.job_type j = job_type /\
  ScrapingJob.status j = "failed" /\
  ScrapingJob.posts_scraped j = 0 /\
  ScrapingJob.errors j = Some msg /\
  NaramindOrchestrator.is_some (ScrapingJob.started_at j) = true /\
  NaramindOrchestrator.is_some (ScrapingJob.completed_at j) = true.

(** * Properties *)

(** ** Strings *)

Section StringFacts.

Import PyStr.

Lemma count_from_nonneg (needle hay : string) (skip : nat) :
  0 <= count_from needle hay skip.
Proof.
  revert skip; induction hay as [|c h IH]; intros skip; cbn [count_from]; [lia|].
  destruct skip as [|k]; [|apply IH].
  destruct (startswith (String c h) needle).
  - specialize (IH (Nat.pred (String.length needle))); lia.
  - apply IH.
Qed.

Lemma contains_count_from (needle hay : string) :
  needle <> EmptyString ->
  contains needle hay = true ->
  1 <= count_from needle hay 0.
Proof.
  intros Hne; induction hay as [|c h IH]; intros Hin.
  - destruct needle; [congruence | discriminate Hin].
  - cbn [contains] in Hin. cbn [count_from].
    destruct (startswith (String c h) needle) eqn:Hsw.
    + pose proof (count_from_nonneg needle h (Nat.pred (String.length needle))); lia.
    + apply IH. exact Hin.
Qed.

(** A term that occurs in a text is counted at least once. *)
Lemma contains_count (needle hay : string) :
  contains needle hay = true -> 1 <= count hay needle.
Proof.
  intros Hin. unfold count. destruct needle as [|a n].
  - unfold len; lia.
  - apply contains_count_from; [discriminate | exact Hin].
Qed.

Lemma rstrip_empty (s : string) :
  rstrip s = EmptyString <-> SentimentSpec.whitespace_only s = true.
Proof.
  induction s as [|c r IH]; simpl; [tauto|].
  destruct (rstrip r) eqn:Hr.
  - destruct (isspace c); simpl.
    + split; intros _; [apply IH|]; reflexivity.
    + split; discriminate.
  - split; [discriminate|].
    intros H; apply andb_prop in H; destruct H as [_ H].
    apply IH in H; discriminate.
Qed.

Lemma lstrip_whitespace (s : string) :
  SentimentSpec.whitespace_only (lstrip s) = SentimentSpec.whitespace_only s.
Proof.
  induction s as [|c r IH]; simpl; [reflexivity|].
  destruct (isspace c) eqn:Hc; simpl; [exact IH | rewrite Hc; reflexivity].
Qed.

Lemma strip_empty (s : string) :
  strip s = EmptyString <-> SentimentSpec.whitespace_only s = true.
Proof.
  unfold strip. rewrite rstrip_empty, lstrip_whitespace. tauto.
Qed.

Lemma len_zero (s : string) : (len s =? 0) = true <-> s = EmptyString.
Proof.
  unfold len; destruct s; simpl; split; intros H;
    try reflexivity; try discriminate; lia.
Qed.

(** [str(n)] begins with a digit or with the minus sign. *)
Lemma str_head (n : Z) :
  exists c r, str n = String c r /\ digit_or_minus c = true.
Proof.
  unfold str.
  assert (Hu : forall u, u <> Decimal.Nil ->
             exists c r, NilZero.string_of_uint u = String c r
                         /\ digit_or_minus c = true).
  { intros u Hu. destruct u; [congruence| ..]; simpl; eauto. }
  assert (Hp : forall p, Pos.to_uint p <> Decimal.Nil).
  { intros p. apply DecimalPos.Unsigned.to_uint_nonnil. }
  destruct n as [|p|p]; simpl.
  - eauto.
  - apply Hu, Hp.
  - eexists _, _; split; reflexivity.
Qed.

End StringFacts.

(** ** Floats *)

Section FloatFacts.

Import PyFloat.

Lemma ltb_leb (a b : float) : ltb a b = true -> leb a b = true.
Proof.
  unfold ltb, leb, SFltb, SFleb.
  destruct (SFcompare a b) as [[| |]|]; intros H; congruence.
Qed.

Lemma compare_antisym (x y : float) :
  SFcompare y x = option_map CompOpp (SFcompare x y).
Proof.
  destruct x as [sx|sx| |sx mx ex], y as [sy|sy| |sy my ey]; simpl;
    try (destruct sx); try (destruct sy); try reflexivity;
    rewrite (Z.compare_antisym ex ey);
    destruct (ex ?= ey); simpl; try reflexivity;
    change (Pos.compare_cont Eq my mx) with (Pos.compare_cont (CompOpp Eq) my mx);
    rewrite <- (Pos.compare_cont_antisym mx my Eq);
    try rewrite CompOpp_involutive; reflexivity.
Qed.

Lemma ltb_antisym (x y : float) : ltb x y = true -> ltb y x = false.
Proof.
  unfold ltb, SFltb. rewrite (compare_antisym x y).
  destruct (SFcompare x y) as [[| |]|]; simpl; congruence.
Qed.

(** The clamp of the source: [max(lo, min(hi, x))] with [lo < hi] stays
    within the bounds, whatever [x] is (a NaN included). *)
Lemma py_clamp_within (lo hi x : float) :
  leb lo lo = true -> leb hi hi = true -> ltb lo hi = true ->
  within lo hi (py_max lo (py_min hi x)).
Proof.
  intros Hlo Hhi Hlt. unfold within, py_max, py_min.
  destruct (ltb x hi) eqn:Hx.
  - destruct (ltb lo x) eqn:Hl.
    + split; apply ltb_leb; assumption.
    + split; [assumption | apply ltb_leb; assumption].
  - rewrite Hlt. split; [apply ltb_leb; assumption | assumption].
Qed.

Lemma compare_finite_refl (s : bool) (m : positive) (e : Z) :
  SFcompare (S754_finite s m e) (S754_finite s m e) = Some Eq.
Proof.
  simpl. rewrite Z.compare_refl.
  change (PosDef.Pos.compare_cont Eq m m) with (Pos.compare m m).
  rewrite Pos.compare_refl. destruct s; reflexivity.
Qed.

Ltac finish_clamp :=
  repeat match goal with
  | H : Pos.compare_cont Eq ?m ?c = Eq |- _ =>
      apply (Pos.compare_eq m c) in H; subst m
  end;
  rewrite ?compare_finite_refl; try reflexivity.

Ltac split_on_one x :=
  match x with
  | S754_finite _ ?m ?e =>
      rewrite (Z.compare_antisym e (-52));
      destruct (e ?= -52) eqn:He; cbn [CompOpp];
      try (apply Z.compare_eq in He; subst e;
           change (Pos.compare_cont Eq 4503599627370496 m)
             with (Pos.compare_cont (CompOpp Eq) 4503599627370496 m);
           rewrite <- (Pos.compare_cont_antisym m 4503599627370496 Eq);
           destruct (Pos.compare_cont Eq m 4503599627370496) eqn:Hm;
           cbn [CompOpp])
  end.

(** On every number, [max(-1, min(1, x))] is the clamp of [x] to
    [-1, 1]. *)
Lemma py_clamp_unit (x : float) :
  x <> S754_nan ->
  SentimentSpec.num_eq (py_max minus_one (py_min one x))
                       (SentimentSpec.clamp x minus_one one).
Proof.
  intros Hnan.
  unfold SentimentSpec.num_eq, SentimentSpec.clamp, py_max, py_min, ltb, SFltb.
  destruct x as [s|s| |s m e];
    [destruct s; reflexivity | destruct s; reflexivity | congruence |].
  destruct s; cbn [SFcompare one minus_one];
    split_on_one (S754_finite true m e); finish_clamp.
Qed.

(** On every number, [max(0.0, min(1.0, x))] is the clamp of [x] to
    [0, 1]; a negative zero comes back as [0.0]. *)
Lemma py_clamp_zero_one (x : float) :
  x <> S754_nan ->
  SentimentSpec.num_eq (py_max zero (py_min one x))
                       (SentimentSpec.clamp x zero one).
Proof.
  intros Hnan.
  unfold SentimentSpec.num_eq, SentimentSpec.clamp, py_max, py_min, ltb, SFltb.
  destruct x as [s|s| |s m e];
    [destruct s; reflexivity | destruct s; reflexivity | congruence |].
  destruct s; cbn [SFcompare one zero]; [reflexivity|].
  split_on_one (S754_finite false m e); finish_clamp.
Qed.

Lemma mul_comm (x y : float) : mul x y = mul y x.
Proof.
  unfold mul.
  destruct x as [sx|sx| |sx mx ex], y as [sy|sy| |sy my ey]; simpl;
    rewrite ?(xorb_comm sx sy); try reflexivity.
  rewrite (Pos.mul_comm mx my), (Z.add_comm ex ey). reflexivity.
Qed.

Lemma not_nan (x : float) : is_nan x = false -> x <> S754_nan.
Proof. intros H E; subst x; discriminate H. Qed.

End FloatFacts.

(** ** Letter case and occurrences *)

Section TextFacts.

Import PyStr TextSpec.

Lemma all_chars_complete (a : ascii) : In a all_chars.
Proof.
  unfold all_chars. rewrite <- (ascii_nat_embedding a).
  apply in_map. apply in_seq. pose proof (nat_ascii_bounded a). lia.
Qed.

Lemma paired_In (a b : ascii) : paired a b = true <-> In (a, b) letter_pairs.
Proof.
  unfold paired. rewrite existsb_exists. split.
  - intros ([x y] & Hin & H). cbn [fst snd] in H.
    apply andb_true_iff in H. destruct H as [Ha Hb].
    apply Ascii.eqb_eq in Ha. apply Ascii.eqb_eq in Hb. subst. exact Hin.
  - intros Hin. exists (a, b). split; [exact Hin|].
    cbn [fst snd]. rewrite !Ascii.eqb_refl. reflexivity.
Qed.

Lemma same_letterb_spec (a b : ascii) :
  same_letterb a b = true <-> same_letter a b.
Proof.
  unfold same_letterb, same_letter.
  rewrite !orb_true_iff, Ascii.eqb_eq, !paired_In. tauto.
Qed.

(** Two characters have the same lower case exactly when they are the
    same letter. *)
Lemma lower_char_same_letterb (a b : ascii) :
  Ascii.eqb (lower_char a) (lower_char b) = same_letterb a b.
Proof.
  assert (H : forallb
                (fun x =>
                   forallb
                     (fun y => Bool.eqb (Ascii.eqb (lower_char x) (lower_char y))
                                        (same_letterb x y))
                     all_chars)
                all_chars = true) by (vm_compute; reflexivity).
  rewrite forallb_forall in H. specialize (H a (all_chars_complete a)).
  rewrite forallb_forall in H. specialize (H b (all_chars_complete b)).
  apply Bool.eqb_prop in H. exact H.
Qed.

Lemma lower_char_same_letter (a b : ascii) :
  lower_char a = lower_char b <-> same_letter a b.
Proof.
  rewrite <- same_letterb_spec, <- lower_char_same_letterb.
  symmetry. apply Ascii.eqb_eq.
Qed.

Lemma lower_same_text (a b : string) :
  lower a = lower b <-> same_text a b.
Proof.
  split.
  - revert b. induction a as [|c a IH]; intros [|c' b] H; cbn [lower] in H;
      try discriminate H; [constructor|].
    inversion H as [[Hc Hr]]. constructor.
    + apply lower_char_same_letter. exact Hc.
    + apply IH. exact Hr.
  - intros H. induction H as [|c c' a b Hc _ IH]; [reflexivity|].
    cbn [lower]. apply lower_char_same_letter in Hc. rewrite Hc, IH.
    reflexivity.
Qed.

Lemma length_lower (a : string) : String.length (lower a) = String.length a.
Proof. induction a as [|c a IH]; cbn [lower String.length]; congruence. Qed.

Lemma same_text_length (a b : string) :
  same_text a b -> String.length a = String.length b.
Proof. intros H. induction H; cbn [String.length]; congruence. Qed.

Lemma length_append (a b : string) :
  String.length (a ++ b) = (String.length a + String.length b)%nat.
Proof.
  induction a as [|c a IH]; cbn [append String.length Nat.add];
    [reflexivity | rewrite IH; reflexivity].
Qed.

(** The test of an occurrence at the head of a text. *)
Lemma startswith_occurs_at (term text : string) :
  startswith (lower text) (lower term) = true <-> occurs_at term text 0.
Proof.
  split.
  - revert text. induction term as [|a n IH]; intros text H.
    + exists EmptyString, EmptyString, text. repeat split. constructor.
    + destruct text as [|c h]; cbn [lower startswith] in H; [discriminate H|].
      apply andb_true_iff in H. destruct H as [Hc Hr].
      destruct (IH h Hr) as (before & found & after & Et & Hl & Hs).
      destruct before; [|discriminate Hl]. cbn [append] in Et.
      exists EmptyString, (String c found), after. cbn [append].
      split; [rewrite Et; reflexivity|]. split; [reflexivity|].
      constructor; [|exact Hs].
      apply same_letterb_spec. rewrite <- lower_char_same_letterb.
      rewrite Ascii.eqb_sym. exact Hc.
  - intros (before & found & after & Et & Hl & Hs).
    destruct before; [|discriminate Hl]. cbn [append] in Et. subst text.
    clear Hl. induction Hs as [|c a found n Hc _ IH];
      cbn [append lower startswith].
    + destruct (lower after); reflexivity.
    + apply andb_true_iff. split; [|exact IH].
      rewrite lower_char_same_letterb. apply same_letterb_spec.
      destruct Hc as [E|[H|H]]; [left; auto | right; right; exact H
                                 | right; left; exact H].
Qed.

Lemma occurs_at_tail (term text : string) (c : ascii) (i : nat) :
  occurs_at term (String c text) (S i) <-> occurs_at term text i.
Proof.
  split; intros (before & found & after & Et & Hl & Hs).
  - destruct before as [|c' before]; [discriminate Hl|].
    cbn [append] in Et. inversion Et; subst.
    exists before, found, after. repeat split; auto.
  - exists (String c before), found, after. cbn [append String.length].
    subst text. repeat split; auto.
Qed.

Lemma occurs_at_bound (term text : string) (i : nat) :
  occurs_at term text i -> (i + String.length term <= String.length text)%nat.
Proof.
  intros (before & found & after & Et & Hl & Hs). subst text.
  rewrite !length_append, Hl, (same_text_length _ _ Hs). lia.
Qed.

(** The empty term occurs at every position of a text, its end
    included. *)
Lemma occurs_at_empty (text : string) (i : nat) :
  occurs_at EmptyString text i <-> (i <= String.length text)%nat.
Proof.
  split.
  - intros H. apply occurs_at_bound in H. cbn [String.length] in H. lia.
  - revert i. induction text as [|c h IH]; intros i Hi.
    + cbn [String.length] in Hi. assert (i = 0%nat) by lia. subst i.
      exists EmptyString, EmptyString, EmptyString. repeat split. constructor.
    + destruct i as [|k].
      * exists EmptyString, EmptyString, (String c h). repeat split. constructor.
      * apply occurs_at_tail. apply IH. cbn [String.length] in Hi. lia.
Qed.

(** [term in text], on the lower-cased term and text. *)
Lemma contains_occurs (term text : string) :
  contains (lower term) (lower text) = true <-> occurs term text.
Proof.
  induction text as [|c h IH].
  - cbn [lower contains]. rewrite orb_false_r.
    change EmptyString with (lower EmptyString) at 1.
    rewrite startswith_occurs_at. split; [intros H; exists 0%nat; exact H|].
    intros [i H]. pose proof (occurs_at_bound _ _ _ H) as Hb.
    cbn [String.length] in Hb. assert (i = 0%nat) by lia. subst i. exact H.
  - cbn [lower contains].
    change (String (lower_char c) (lower h)) with (lower (String c h)).
    rewrite orb_true_iff, startswith_occurs_at, IH. split.
    + intros [H|[i H]]; [exists 0%nat; exact H|].
      exists (S i). apply occurs_at_tail. exact H.
    + intros [[|i] H]; [left; exact H|].
      right. exists i. apply occurs_at_tail in H. exact H.
Qed.

(** Positions that do not overlap lie behind the end of the first
    piece. *)
Lemma apart_behind (width i : nat) (rest : list nat) :
  apart width (i :: rest) ->
  Forall (fun j => (i < j)%nat /\ (i + width <= j)%nat) rest.
Proof.
  revert i. induction rest as [|j rest IH]; intros i H; [constructor|].
  cbn [apart] in H. destruct H as [[Hlt Hw] Hrest].
  constructor; [split; assumption|].
  eapply Forall_impl; [|apply (IH j Hrest)].
  cbv beta. intros k [H1 H2]. split; lia.
Qed.

Lemma apart_tail (width i : nat) (rest : list nat) :
  apart width (i :: rest) -> apart width rest.
Proof. cbn [apart]. intros [_ H]. exact H. Qed.

Lemma apart_map_S (width : nat) (positions : list nat) :
  apart width positions -> apart width (map S positions).
Proof.
  induction positions as [|i rest IH]; [auto|].
  cbn [map apart]. intros [H Hrest]. split; [|apply IH; exact Hrest].
  destruct rest as [|j rest']; [exact I|]. cbn [map]. lia.
Qed.

Lemma apart_map_pred (width : nat) (positions : list nat) :
  Forall (fun i => (1 <= i)%nat) positions ->
  apart width positions -> apart width (map Nat.pred positions).
Proof.
  induction positions as [|i rest IH]; [auto|].
  intros Hpos. inversion Hpos as [|x l Hi Hr]; subst.
  cbn [map apart]. intros [H Hrest]. split; [|apply IH; assumption].
  destruct rest as [|j rest']; [exact I|]. cbn [map].
  inversion Hr; subst. lia.
Qed.

(** Positions from left to right, between two bounds. *)
Lemma increasing_length (positions : list nat) :
  forall lo hi : nat,
    apart 0 positions ->
    Forall (fun i => (lo <= i <= hi)%nat) positions ->
    (List.length positions <= hi + 1 - lo)%nat.
Proof.
  induction positions as [|i rest IH]; intros lo hi Ha Hb;
    [cbn [List.length]; lia|].
  inversion Hb as [|x l Hi Hr]; subst.
  pose proof (apart_behind _ _ _ Ha) as Hbehind.
  assert (Hrest : Forall (fun j => (S i <= j <= hi)%nat) rest).
  { apply Forall_forall. intros j Hj.
    rewrite Forall_forall in Hbehind, Hr.
    specialize (Hbehind j Hj). specialize (Hr j Hj). lia. }
  specialize (IH (S i) hi (apart_tail _ _ _ Ha) Hrest).
  cbn [List.length]. lia.
Qed.

Lemma apart_seq (lo n : nat) : apart 0 (seq lo n).
Proof.
  revert lo. induction n as [|n IH]; intros lo; cbn [seq apart]; [exact I|].
  split; [|apply IH]. destruct n; cbn [seq]; [exact I | lia].
Qed.

Section Greedy.

Variable term : string.
Hypothesis term_not_empty : term <> EmptyString.

Let width := String.length term.

Lemma width_positive : (1 <= width)%nat.
Proof.
  unfold width. destruct term; [congruence | cbn [String.length]; lia].
Qed.

Lemma no_occurrence_in_empty (i : nat) : ~ occurs_at term EmptyString i.
Proof.
  intros H. apply occurs_at_bound in H. pose proof width_positive.
  unfold width in *. cbn [String.length] in H. lia.
Qed.

(** The scan finds as many occurrences as any choice of occurrences
    that do not overlap, behind the characters still covered. *)
Lemma count_from_bound (text : string) :
  forall (skip : nat) (positions : list nat),
    Forall (occurs_at term text) positions ->
    apart width positions ->
    Forall (fun i => (skip <= i)%nat) positions ->
    Z.of_nat (List.length positions) <= count_from (lower term) (lower text) skip.
Proof.
  induction text as [|c h IH]; intros skip positions Hocc Hapart Hskip.
  - destruct positions as [|i rest]; [cbn; lia|].
    inversion Hocc; subst. exfalso. eapply no_occurrence_in_empty. eassumption.
  - assert (Hshift : forall ps k,
               Forall (occurs_at term (String c h)) ps ->
               apart width ps ->
               Forall (fun i => (S k <= i)%nat) ps ->
               Z.of_nat (List.length ps) <= count_from (lower term) (lower h) k).
    { intros ps k Ho Ha Hs.
      rewrite <- (length_map Nat.pred ps). apply IH.
      - apply Forall_forall. intros j Hj. apply in_map_iff in Hj.
        destruct Hj as (i & Ej & Hi). subst j.
        rewrite Forall_forall in Ho, Hs. specialize (Ho i Hi).
        specialize (Hs i Hi). destruct i as [|i']; [lia|].
        cbn [Nat.pred]. apply occurs_at_tail in Ho. exact Ho.
      - apply apart_map_pred; [|exact Ha].
        eapply Forall_impl; [|exact Hs]. cbv beta. intros; lia.
      - apply Forall_forall. intros j Hj. apply in_map_iff in Hj.
        destruct Hj as (i & Ej & Hi). subst j.
        rewrite Forall_forall in Hs. specialize (Hs i Hi). lia. }
    cbn [lower count_from].
    change (String (lower_char c) (lower h)) with (lower (String c h)).
    destruct skip as [|k]; [|apply Hshift; assumption].
    destruct (startswith (lower (String c h)) (lower term)) eqn:Hsw.
    + rewrite length_lower. fold width.
      destruct positions as [|i rest];
        [pose proof (count_from_nonneg (lower term) (lower h) (Nat.pred width));
         cbn [List.length]; lia|].
      assert (Hrest : Z.of_nat (List.length rest)
                      <= count_from (lower term) (lower h) (Nat.pred width)).
      { apply Hshift.
        - inversion Hocc; assumption.
        - eapply apart_tail. exact Hapart.
        - pose proof width_positive.
          eapply Forall_impl; [|apply (apart_behind _ _ _ Hapart)].
          cbv beta. intros j [_ Hj]. lia. }
      cbn [List.length]. lia.
    + apply Hshift; [assumption | assumption |].
      apply Forall_forall. intros i Hi.
      rewrite Forall_forall in Hocc. specialize (Hocc i Hi).
      destruct i as [|i']; [|lia].
      apply startswith_occurs_at in Hocc. congruence.
Qed.

(** The occurrences that the scan counts do not overlap. *)
Lemma count_from_reached (text : string) :
  forall skip : nat,
    exists positions : list nat,
      Forall (occurs_at term text) positions /\
      apart width positions /\
      Forall (fun i => (skip <= i)%nat) positions /\
      Z.of_nat (List.length positions) = count_from (lower term) (lower text) skip.
Proof.
  induction text as [|c h IH]; intros skip.
  - exists []. repeat split; constructor.
  - assert (Hshift : forall k,
               exists ps,
                 Forall (occurs_at term (String c h)) ps /\
                 apart width ps /\
                 Forall (fun i => (S k <= i)%nat) ps /\
                 Z.of_nat (List.length ps) = count_from (lower term) (lower h) k).
    { intros k. destruct (IH k) as (ps & Ho & Ha & Hs & Hn).
      exists (map S ps). split; [|split; [|split]].
      - apply Forall_forall. intros j Hj. apply in_map_iff in Hj.
        destruct Hj as (i & Ej & Hi). subst j. apply occurs_at_tail.
        rewrite Forall_forall in Ho. apply Ho. exact Hi.
      - apply apart_map_S. exact Ha.
      - apply Forall_forall. intros j Hj. apply in_map_iff in Hj.
        destruct Hj as (i & Ej & Hi). subst j.
        rewrite Forall_forall in Hs. specialize (Hs i Hi). lia.
      - rewrite length_map. exact Hn. }
    cbn [lower count_from].
    change (String (lower_char c) (lower h)) with (lower (String c h)).
    destruct skip as [|k]; [|apply Hshift].
    destruct (startswith (lower (String c h)) (lower term)) eqn:Hsw.
    + rewrite length_lower. fold width.
      destruct (Hshift (Nat.pred width)) as (ps & Ho & Ha & Hs & Hn).
      pose proof width_positive as Hw.
      exists (0%nat :: ps). split; [|split; [|split]].
      * constructor; [apply startswith_occurs_at; exact Hsw | exact Ho].
      * cbn [apart]. split; [|exact Ha].
        destruct ps as [|j ps']; [exact I|].
        inversion Hs; subst. lia.
      * constructor; [lia|]. eapply Forall_impl; [|exact Hs].
        cbv beta. intros; lia.
      * cbn [List.length]. lia.
    + destruct (Hshift 0%nat) as (ps & Ho & Ha & Hs & Hn).
      exists ps. repeat split; auto.
      eapply Forall_impl; [|exact Hs]. cbv beta. intros; lia.
Qed.

End Greedy.

(** [text.lower().count(term.lower())] is the number of non-overlapping
    occurrences of the term in the text, letter case ignored. *)
Lemma count_occurrences (term text : string) :
  occurrence_count term text (count (lower text) (lower term)).
Proof.
  unfold occurrence_count, scattered, count.
  destruct term as [|a n] eqn:Eterm.
  - cbn [lower String.length]. unfold len. rewrite length_lower. split.
    + exists (seq 0 (S (String.length text))). split; [split|].
      * apply Forall_forall. intros i Hi. apply in_seq in Hi.
        apply occurs_at_empty. lia.
      * apply apart_seq.
      * rewrite length_seq. lia.
    + intros positions [Hocc Hapart].
      assert (Hb : Forall (fun i => (0 <= i <= String.length text)%nat)
                          positions).
      { eapply Forall_impl; [|exact Hocc]. cbv beta. intros i Hi.
        apply occurs_at_empty in Hi. lia. }
      pose proof (increasing_length positions 0 (String.length text) Hapart Hb).
      lia.
  - assert (Hne : String a n <> EmptyString) by discriminate.
    change (match lower (String a n) with
            | EmptyString => len (lower text) + 1
            | String _ _ => count_from (lower (String a n)) (lower text) 0
            end)
      with (count_from (lower (String a n)) (lower text) 0).
    split.
    + destruct (count_from_reached (String a n) Hne text 0%nat)
        as (ps & Ho & Ha & _ & Hn).
      exists ps. split; [split; assumption | exact Hn].
    + intros positions [Hocc Hapart].
      apply (count_from_bound (String a n) Hne text 0%nat positions Hocc Hapart).
      apply Forall_forall. intros; lia.
Qed.

End TextFacts.

(** ** The sentiment scorer *)

Section SentimentFacts.

Import PyFloat SentimentAnalyzer SentimentSpec.

Variable re_normalise : string -> string.
Variable word_tokenize : string -> outcome (list string).
Variable stop_words : list string.
Variable lemmatize : string -> string.
Variable text_blob : string -> outcome (float * float).

Let analyze_body' :=
  analyze_body re_normalise word_tokenize stop_words lemmatize text_blob.
Let analyze' :=
  analyze re_normalise word_tokenize stop_words lemmatize text_blob.

Lemma is_blank_whitespace (text : string) :
  is_blank text = true <-> whitespace_only text = true.
Proof.
  unfold is_blank. destruct text as [|c r]; [simpl; tauto|].
  cbn [PyStr.truthy negb orb].
  rewrite len_zero. apply strip_empty.
Qed.

Lemma analyze_body_bounds (text : string) (r : SentimentResult) :
  analyze_body' text = Returns r ->
  within minus_one one (score r) /\ within zero one (confidence r).
Proof.
  unfold analyze_body', analyze_body.
  destruct (is_blank text).
  - intros H; inversion H; subst r; split; split; reflexivity.
  - destruct (extract_features _ _ _ _ text) as [feats|e]; [|discriminate].
    destruct (text_blob text) as [[p s]|e]; [|discriminate].
    intros H; inversion H; subst r; cbn [score confidence].
    split; apply py_clamp_within; reflexivity.
Qed.

Lemma analyze_bounds (text : string) :
  within minus_one one (score (analyze' text)) /\
  within zero one (confidence (analyze' text)).
Proof.
  unfold analyze', analyze.
  destruct (analyze_body _ _ _ _ _ text) as [r|e] eqn:Hb.
  - apply (analyze_body_bounds text r Hb).
  - split; split; reflexivity.
Qed.

End SentimentFacts.

(** C7.  On a text that is not blank, with polarity [p] and subjectivity
    [s] from the base signal and the lexicon adjustment
    [a = positive_ratio - negative_ratio], the score is
    [clamp(p + 0.5*a, -1, 1)], the label is positive above 0.1, negative
    below -0.1 and neutral otherwise, and the confidence is
    [clamp(|score| * (1 - s), 0, 1)] (equalities of numbers, the two
    clamped quantities being numbers and not NaN); and on every input
    whatsoever the score lies in [-1, 1] and the confidence in [0, 1]. *)
Theorem analyze_score_label_confidence :
  forall (re_normalise : string -> string)
         (word_tokenize : string -> outcome (list string))
         (stop_words : list string) (lemmatize : string -> string)
         (text_blob : string -> outcome (PyFloat.float * PyFloat.float)),
    let analyze :=
      SentimentAnalyzer.analyze re_normalise word_tokenize stop_words
                                lemmatize text_blob in
    (forall (text : string) (feats : SentimentAnalyzer.Features)
            (p s : PyFloat.float),
        SentimentAnalyzer.is_blank text = false ->
        SentimentAnalyzer.extract_features re_normalise word_tokenize
          stop_words lemmatize text = Returns feats ->
        text_blob text = Returns (p, s) ->
        let a := PyFloat.sub (SentimentAnalyzer.positive_ratio feats)
                             (SentimentAnalyzer.negative_ratio feats) in
        let r := analyze text in
        PyFloat.is_nan (PyFloat.add p (PyFloat.mul PyFloat.half a)) = false ->
        PyFloat.is_nan (PyFloat.mul (PyFloat.abs (SentimentAnalyzer.score r))
                                    (PyFloat.sub PyFloat.one s)) = false ->
        SentimentSpec.num_eq
          (SentimentAnalyzer.score r)
          (SentimentSpec.clamp (PyFloat.add p (PyFloat.mul PyFloat.half a))
                               PyFloat.minus_one PyFloat.one) /\
        SentimentAnalyzer.sentiment r
          = SentimentSpec.label_of (SentimentAnalyzer.score r) /\
        SentimentSpec.num_eq
          (SentimentAnalyzer.confidence r)
          (SentimentSpec.clamp
             (PyFloat.mul (PyFloat.abs (SentimentAnalyzer.score r))
                          (PyFloat.sub PyFloat.one s))
             PyFloat.zero PyFloat.one)) /\
    (forall text : string,
        PyFloat.within PyFloat.minus_one PyFloat.one
                       (SentimentAnalyzer.score (analyze text)) /\
        PyFloat.within PyFloat.zero PyFloat.one
                       (SentimentAnalyzer.confidence (analyze text))).
Proof.
  intros re tok sw lem tb analyze. split.
  - intros text feats p s Hblank Hfeats Htb a r.
    subst r analyze. unfold SentimentAnalyzer.analyze, SentimentAnalyzer.analyze_body.
    rewrite Hblank, Hfeats, Htb.
    cbn [SentimentAnalyzer.score SentimentAnalyzer.sentiment
         SentimentAnalyzer.confidence].
    fold a. rewrite (mul_comm a PyFloat.half).
    intros Hx Hc. split; [|split].
    + apply py_clamp_unit, not_nan, Hx.
    + reflexivity.
    + apply py_clamp_zero_one, not_nan, Hc.
  - intros text. apply analyze_bounds.
Qed.

(** A run of C7: the text "moon", tokenized as itself, polarity and
    subjectivity 0.5. *)
Lemma analyze_score_label_confidence_witness :
  let text_blob := fun _ : string => Returns (PyFloat.half, PyFloat.half) in
  let word_tokenize := fun t : string => Returns [t] in
  let r := SentimentAnalyzer.analyze (fun t => t) word_tokenize []
             (fun t => t) text_blob "moon" in
  SentimentSpec.num_eq (SentimentAnalyzer.score r) PyFloat.one /\
  SentimentAnalyzer.sentiment r = "positive" /\
  SentimentSpec.num_eq (SentimentAnalyzer.confidence r) PyFloat.half.
Proof.
  intros text_blob word_tokenize r.
  exact (proj1 (analyze_score_label_confidence (fun t => t) word_tokenize []
                  (fun t => t) text_blob)
               "moon"
               (SentimentAnalyzer.mkFeatures 1 1 0 PyFloat.one PyFloat.zero ["moon"])
               PyFloat.half PyFloat.half
               eq_refl eq_refl eq_refl eq_refl eq_refl).
Defined.

(** C8, as the code has it.  [analyze] has no failing outcome.  On a
    text that is empty or made of white space only it returns the
    neutral result with confidence 0.0 and score 0.0 and no error entry,
    whatever the tokenizer and the base signal would do (they are not
    consulted).  On any other text it returns the same neutral result,
    with the message of the failure as error entry, when the extraction
    of the features raises (with a lemmatizer that returns: exactly when
    the tokenizer raises), and when the base signal raises.  In every
    other case the result carries the features and the polarity and
    subjectivity of the base signal: the result without features is
    returned in these three situations and in no other. *)
Theorem analyze_degrades_to_neutral :
  forall (re_normalise : string -> string)
         (word_tokenize : string -> outcome (list string))
         (stop_words : list string) (lemmatize : string -> string)
         (text_blob : string -> outcome (PyFloat.float * PyFloat.float))
         (text : string),
    let analyze :=
      SentimentAnalyzer.analyze re_normalise word_tokenize stop_words
                                lemmatize text_blob in
    let extracted :=
      SentimentAnalyzer.extract_features re_normalise word_tokenize
        stop_words lemmatize text in
    let tokenized :=
      word_tokenize (SentimentAnalyzer.preprocess_text re_normalise text) in
    (if SentimentSpec.whitespace_only text then
       analyze text = SentimentAnalyzer.neutral_result None
     else
       match extracted, text_blob text with
       | Raises e, _ =>
           analyze text
           = SentimentAnalyzer.neutral_result (Some (exn_message e))
       | Returns _, Raises e =>
           analyze text
           = SentimentAnalyzer.neutral_result (Some (exn_message e))
       | Returns feats, Returns (p, s) =>
           SentimentAnalyzer.features (analyze text) = Some feats /\
           SentimentAnalyzer.original_polarity (analyze text) = Some p /\
           SentimentAnalyzer.subjectivity (analyze text) = Some s /\
           SentimentAnalyzer.error (analyze text) = None
       end) /\
    (forall e : exn, extracted = Raises e <-> tokenized = Raises e) /\
    (SentimentAnalyzer.features (analyze text) = None <->
     SentimentSpec.whitespace_only text = true \/
     (exists e : exn, extracted = Raises e) \/
     (exists e : exn, text_blob text = Raises e)).
Proof.
  intros re tok sw lem tb text analyze extracted tokenized.
  assert (Hex : forall e, extracted = Raises e <-> tokenized = Raises e).
  { intros e. unfold extracted, SentimentAnalyzer.extract_features.
    fold tokenized. destruct tokenized as [raw|e'];
      split; intros H; try discriminate H; inversion H; reflexivity. }
  assert (Hblank : SentimentAnalyzer.is_blank text
                   = SentimentSpec.whitespace_only text).
  { destruct (SentimentSpec.whitespace_only text) eqn:Hw.
    - apply is_blank_whitespace. exact Hw.
    - destruct (SentimentAnalyzer.is_blank text) eqn:Hb; [|reflexivity].
      apply is_blank_whitespace in Hb. congruence. }
  subst analyze.
  unfold SentimentAnalyzer.analyze, SentimentAnalyzer.analyze_body.
  rewrite Hblank. fold extracted.
  split; [|split; [exact Hex|]].
  - destruct (SentimentSpec.whitespace_only text); [reflexivity|].
    destruct extracted as [feats|e]; [|reflexivity].
    destruct (tb text) as [[p s]|e]; [|reflexivity].
    repeat split.
  - destruct (SentimentSpec.whitespace_only text).
    + split; [intros _; left; reflexivity | reflexivity].
    + destruct extracted as [feats|e] eqn:Ee.
      * destruct (tb text) as [[p s]|e] eqn:Et.
        -- cbn [SentimentAnalyzer.features]. split; [discriminate|].
           intros [H|[[e H]|[e H]]]; discriminate H.
        -- split; [intros _; right; right; exists e; reflexivity
                  | reflexivity].
      * split; [|reflexivity].
        intros _. right; left. exists e. reflexivity.
Qed.

(** A run of C8: a no-break space between two blanks, a base signal
    that raises on "x", and a scored text. *)
Lemma analyze_degrades_to_neutral_witness :
  let word_tokenize := fun t : string => Returns [t] in
  let failing := fun _ : string =>
                   @Raises (PyFloat.float * PyFloat.float) (Exception "boom") in
  let scoring := fun _ : string => Returns (PyFloat.half, PyFloat.half) in
  let blank := String " " (String (ascii_of_nat 160) " ") in
  SentimentAnalyzer.analyze (fun t => t) word_tokenize [] (fun t => t)
                            failing blank
    = SentimentAnalyzer.neutral_result None /\
  SentimentAnalyzer.analyze (fun t => t) word_tokenize [] (fun t => t)
                            failing "x"
    = SentimentAnalyzer.neutral_result (Some "boom") /\
  SentimentAnalyzer.original_polarity
    (SentimentAnalyzer.analyze (fun t => t) word_tokenize [] (fun t => t)
                               scoring "x")
    = Some PyFloat.half.
Proof.
  intros word_tokenize failing scoring blank.
  split; [|split].
  - exact (proj1 (analyze_degrades_to_neutral (fun t => t) word_tokenize []
                    (fun t => t) failing blank)).
  - exact (proj1 (analyze_degrades_to_neutral (fun t => t) word_tokenize []
                    (fun t => t) failing "x")).
  - exact (proj1 (proj2 (proj1 (analyze_degrades_to_neutral (fun t => t)
                                  word_tokenize [] (fun t => t) scoring "x")))).
Defined.

(** C8 fails as stated: the two situations are not the only ones.  On a
    text that is not blank, with a base signal that returns, a tokenizer
    that raises makes [analyze] return the neutral result with
    confidence 0.0 and score 0.0. *)
Lemma failing_tokenizer_degrades_to_neutral :
  let word_tokenize :=
    fun _ : string =>
      @Raises (list string) (Exception "Resource punkt_tab not found.") in
  let text_blob := fun _ : string => Returns (PyFloat.half, PyFloat.half) in
  let r := SentimentAnalyzer.analyze (fun t => t) word_tokenize [] (fun t => t)
             text_blob "to the moon" in
  SentimentSpec.whitespace_only "to the moon" = false /\
  text_blob "to the moon" = Returns (PyFloat.half, PyFloat.half) /\
  r = SentimentAnalyzer.neutral_result (Some "Resource punkt_tab not found.") /\
  SentimentAnalyzer.sentiment r = "neutral" /\
  SentimentAnalyzer.confidence r = PyFloat.zero /\
  SentimentAnalyzer.score r = PyFloat.zero.
Proof. vm_compute. repeat split. Qed.

(** ** Reasoning on session programs *)

(** [wp m Q s]: running [m] from [s] ends in an outcome and a state that
    satisfy [Q]. *)
Definition wp {A : Type} (m : M A) (Q : outcome A -> Session -> Prop)
           (s : Session) : Prop :=
  Q (fst (m s)) (snd (m s)).

Section WpRules.

Context {A B : Type}.

Lemma wp_ret (a : A) (Q : outcome A -> Session -> Prop) (s : Session) :
  Q (Returns a) s -> wp (ret a) Q s.
Proof. exact (fun H => H). Qed.

Lemma wp_raise (e : exn) (Q : outcome A -> Session -> Prop) (s : Session) :
  Q (Raises e) s -> wp (raise e) Q s.
Proof. exact (fun H => H). Qed.

Lemma wp_bind (m : M A) (k : A -> M B) (Q : outcome B -> Session -> Prop)
      (s : Session) :
  wp m (fun r s' => match r with
                    | Returns a => wp (k a) Q s'
                    | Raises e => Q (Raises e) s'
                    end) s ->
  wp (bind m k) Q s.
Proof.
  unfold wp, bind. destruct (m s) as [[a|e] s']; simpl; auto.
Qed.

Lemma wp_try_except (body : M A) (handler : exn -> M A)
      (Q : outcome A -> Session -> Prop) (s : Session) :
  wp body (fun r s' => match r with
                       | Returns a => Q (Returns a) s'
                       | Raises e => wp (handler e) Q s'
                       end) s ->
  wp (try_except body handler) Q s.
Proof.
  unfold wp, try_except. destruct (body s) as [[a|e] s']; simpl; auto.
Qed.

Lemma wp_conseq (m : M A) (Q Q' : outcome A -> Session -> Prop) (s : Session) :
  wp m Q s -> (forall r s', Q r s' -> Q' r s') -> wp m Q' s.
Proof. unfold wp; auto. Qed.

End WpRules.

Lemma wp_round_trip (Q : outcome unit -> Session -> Prop)
      (d : DB.t) (p : list write) (l : list DB.t) (f : list bool) (c : Z)
      (lg : list (level * string)) :
  match f with
  | [] => Q (Returns tt) (mkSession d p l [] c lg)
  | true :: fs => Q (Raises (Exception "database error")) (mkSession d p l fs c lg)
  | false :: fs => Q (Returns tt) (mkSession d p l fs c lg)
  end ->
  wp round_trip Q (mkSession d p l f c lg).
Proof.
  unfold wp, round_trip; simpl. destruct f as [|[|] fs]; simpl; auto.
Qed.

Lemma wp_query_first {T : Type} (table : DB.t -> list T) (pr : T -> bool)
      (Q : outcome (option T) -> Session -> Prop)
      (d : DB.t) (p : list write) (l : list DB.t) (f : list bool) (c : Z)
      (lg : list (level * string)) :
  match f with
  | [] => Q (Returns (find pr (table (flush p d)))) (mkSession d p l [] c lg)
  | true :: fs => Q (Raises (Exception "database error")) (mkSession d p l fs c lg)
  | false :: fs => Q (Returns (find pr (table (flush p d)))) (mkSession d p l fs c lg)
  end ->
  wp (query_first table pr) Q (mkSession d p l f c lg).
Proof.
  unfold wp, query_first, bind, round_trip; simpl.
  destruct f as [|[|] fs]; simpl; auto.
Qed.

Lemma wp_query_all {T : Type} (table : DB.t -> list T) (pr : T -> bool)
      (Q : outcome (list T) -> Session -> Prop)
      (d : DB.t) (p : list write) (l : list DB.t) (f : list bool) (c : Z)
      (lg : list (level * string)) :
  match f with
  | [] => Q (Returns (filter pr (table (flush p d)))) (mkSession d p l [] c lg)
  | true :: fs => Q (Raises (Exception "database error")) (mkSession d p l fs c lg)
  | false :: fs => Q (Returns (filter pr (table (flush p d)))) (mkSession d p l fs c lg)
  end ->
  wp (query_all table pr) Q (mkSession d p l f c lg).
Proof.
  unfold wp, query_all, bind, round_trip; simpl.
  destruct f as [|[|] fs]; simpl; auto.
Qed.

Lemma wp_commit (Q : outcome unit -> Session -> Prop)
      (d : DB.t) (p : list write) (l : list DB.t) (f : list bool) (c : Z)
      (lg : list (level * string)) :
  match f with
  | [] => Q (Returns tt) (mkSession (flush p d) [] (l ++ [flush p d]) [] c lg)
  | true :: fs => Q (Raises (Exception "database error")) (mkSession d [] l fs c lg)
  | false :: fs => Q (Returns tt) (mkSession (flush p d) [] (l ++ [flush p d]) fs c lg)
  end ->
  wp commit Q (mkSession d p l f c lg).
Proof.
  unfold wp, commit, round_trip; simpl.
  destruct f as [|[|] fs]; simpl; auto.
Qed.

Lemma wp_add (w : write) (Q : outcome unit -> Session -> Prop)
      (d : DB.t) (p : list write) (l : list DB.t) (f : list bool) (c : Z)
      (lg : list (level * string)) :
  Q (Returns tt) (mkSession d (p ++ [w]) l f c lg) ->
  wp (add w) Q (mkSession d p l f c lg).
Proof. exact (fun H => H). Qed.

Lemma wp_rollback (Q : outcome unit -> Session -> Prop)
      (d : DB.t) (p : list write) (l : list DB.t) (f : list bool) (c : Z)
      (lg : list (level * string)) :
  Q (Returns tt) (mkSession d [] l f c lg) ->
  wp rollback Q (mkSession d p l f c lg).
Proof. exact (fun H => H). Qed.

Lemma wp_logger (lv : level) (msg : string) (Q : outcome unit -> Session -> Prop)
      (d : DB.t) (p : list write) (l : list DB.t) (f : list bool) (c : Z)
      (lg : list (level * string)) :
  Q (Returns tt) (mkSession d p l f c (lg ++ [(lv, msg)])) ->
  wp (logger lv msg) Q (mkSession d p l f c lg).
Proof. exact (fun H => H). Qed.

Lemma wp_utcnow (Q : outcome Z -> Session -> Prop)
      (d : DB.t) (p : list write) (l : list DB.t) (f : list bool) (c : Z)
      (lg : list (level * string)) :
  Q (Returns c) (mkSession d p l f c lg) ->
  wp utcnow Q (mkSession d p l f c lg).
Proof. exact (fun H => H). Qed.

Lemma wp_sleep (n : Z) (Q : outcome unit -> Session -> Prop)
      (d : DB.t) (p : list write) (l : list DB.t) (f : list bool) (c : Z)
      (lg : list (level * string)) :
  Q (Returns tt) (mkSession d p l f (c + n) lg) ->
  wp (sleep n) Q (mkSession d p l f c lg).
Proof. exact (fun H => H). Qed.

(** ** The tables a flush leaves alone *)

Lemma flush_app (a b : list write) (d : DB.t) :
  flush (a ++ b) d = flush b (flush a d).
Proof. apply fold_left_app. Qed.

Lemma apply_write_keywords (d : DB.t) (w : write) :
  DB.keywords (apply_write d w) = DB.keywords d.
Proof. destruct d, w; reflexivity. Qed.

Lemma flush_keywords (ws : list write) (d : DB.t) :
  DB.keywords (flush ws d) = DB.keywords d.
Proof.
  revert d; induction ws as [|w ws IH]; intros d; simpl; [reflexivity|].
  unfold flush in IH. rewrite IH. apply apply_write_keywords.
Qed.

(** ** The enrichment block *)

Section EnrichmentFacts.

Import StoreSpec.

Variable analyze : string -> SentimentAnalyzer.SentimentResult.

Lemma wp_extract_keywords (text : string)
      (Q : outcome (list string) -> Session -> Prop)
      (d : DB.t) (p : list write) (l : list DB.t) (f : list bool) (c : Z)
      (lg : list (level * string)) :
  match f with
  | [] => Q (Returns (matched_terms (DB.keywords d) text)) (mkSession d p l [] c lg)
  | true :: fs => Q (Raises (Exception "database error")) (mkSession d p l fs c lg)
  | false :: fs =>
      Q (Returns (matched_terms (DB.keywords d) text)) (mkSession d p l fs c lg)
  end ->
  wp (Enrichment.extract_keywords text) Q (mkSession d p l f c lg).
Proof.
  intros H. unfold Enrichment.extract_keywords.
  apply wp_bind, wp_query_all. rewrite flush_keywords.
  destruct f as [|[|] fs]; try apply wp_ret; exact H.
Qed.

Lemma wp_keyword_loop (post : Post.t) (text : string) (terms : list string) :
  forall (p : list write) (f : list bool)
         (Q : outcome unit -> Session -> Prop)
         (d : DB.t) (l : list DB.t) (c : Z) (lg : list (level * string)),
    (forall f', (f = [] -> f' = []) ->
       Q (Returns tt)
         (mkSession d
            (p ++ map AddKeywordMatch (rows_of (DB.keywords d) post text terms))
            l f' c lg)) ->
    (forall e p' f', f <> [] -> Q (Raises e) (mkSession d p' l f' c lg)) ->
    wp (for_each terms (Enrichment.save_keyword_match post text)) Q
       (mkSession d p l f c lg).
Proof.
  induction terms as [|t r IH]; intros p f Q d l c lg Hret Hraise.
  - apply wp_ret. specialize (Hret f (fun E => E)).
    cbn [rows_of flat_map map] in Hret. rewrite app_nil_r in Hret. exact Hret.
  - cbn [for_each]. apply wp_bind.
    unfold Enrichment.save_keyword_match at 1.
    apply wp_bind, wp_query_first. rewrite flush_keywords.
    assert (Hstep : forall f0, (f = [] -> f0 = []) -> (f0 <> [] -> f <> []) ->
              wp (match find (fun k => String.eqb (Keyword.keyword k) t)
                               (DB.keywords d) with
                  | Some k =>
                      add (AddKeywordMatch
                             (KeywordMatch.mk (Post.id post) (Keyword.id k)
                                (PyStr.count (PyStr.lower text) (PyStr.lower t))))
                  | None => ret tt
                  end)
                 (fun r0 s' =>
                    match r0 with
                    | Returns _ =>
                        wp (for_each r (Enrichment.save_keyword_match post text)) Q s'
                    | Raises e => Q (Raises e) s'
                    end) (mkSession d p l f0 c lg)).
    { intros f0 Hf0 Hf0'.
      cbn [rows_of flat_map] in Hret.
      destruct (find (fun k => String.eqb (Keyword.keyword k) t) (DB.keywords d))
        as [k|].
      - apply wp_add. apply IH.
        + intros f' Hf'. rewrite <- app_assoc. apply Hret. auto.
        + intros e p' f' Hne. apply Hraise. auto.
      - apply wp_ret. apply IH.
        + intros f' Hf'. apply Hret. auto.
        + intros e p' f' Hne. apply Hraise. auto. }
    destruct f as [|[|] fs]; cbv beta iota.
    + apply Hstep; auto.
    + apply Hraise. discriminate.
    + apply Hstep; [discriminate | intros _; discriminate].
Qed.

Lemma keywords_with_post (d : DB.t) (post : Post.t) :
  DB.keywords (with_post d post) = DB.keywords d.
Proof. apply apply_write_keywords. Qed.

Lemma wp_save_new_post (post : Post.t) (text saved_msg : string)
      (Q : outcome (option Post.t) -> Session -> Prop)
      (d : DB.t) (l : list DB.t) (f : list bool) (c : Z)
      (lg : list (level * string)) :
  (forall f', (f = [] -> f' = []) ->
     Q (Returns (Some post))
       (mkSession (with_enriched_post analyze d post text) []
          (l ++ [with_post d post; with_enriched_post analyze d post text])
          f' c (lg ++ [(INFO, saved_msg)]))) ->
  (forall e p' f', f <> [] -> Q (Raises e) (mkSession d p' l f' c lg)) ->
  (forall e p' f', f <> [] ->
     Q (Raises e)
       (mkSession (with_post d post) p' (l ++ [with_post d post]) f' c lg)) ->
  wp (Enrichment.save_new_post analyze post text saved_msg) Q
     (mkSession d [] l f c lg).
Proof.
  intros Hok Hbefore Hafter.
  unfold Enrichment.save_new_post.
  apply wp_bind, wp_add. apply wp_bind, wp_commit.
  assert (Hrest : forall f0, (f = [] -> f0 = []) -> (f0 <> [] -> f <> []) ->
            wp (add (AddSentiment (sentiment_row analyze post text)) ;;
                keywords <- Enrichment.extract_keywords text ;;
                for_each keywords (Enrichment.save_keyword_match post text) ;;
                commit ;; logger INFO saved_msg ;; ret (Some post)) Q
               (mkSession (with_post d post) [] (l ++ [with_post d post]) f0 c lg)).
  { intros f0 Hf0 Hf0'.
    apply wp_bind, wp_add. apply wp_bind, wp_extract_keywords.
    assert (Hloop : forall f1, (f = [] -> f1 = []) -> (f1 <> [] -> f <> []) ->
              wp (for_each (matched_terms (DB.keywords (with_post d post)) text)
                           (Enrichment.save_keyword_match post text) ;;
                  commit ;; logger INFO saved_msg ;; ret (Some post)) Q
                 (mkSession (with_post d post)
                    ([] ++ [AddSentiment (sentiment_row analyze post text)])
                    (l ++ [with_post d post]) f1 c lg)).
    { intros f1 Hf1 Hf1'.
      apply wp_bind, wp_keyword_loop.
      - intros f2 Hf2. apply wp_bind, wp_commit.
        rewrite !keywords_with_post.
        change (flush _ (with_post d post))
          with (with_enriched_post analyze d post text).
        destruct f2 as [|[|] f3].
        + apply wp_bind, wp_logger, wp_ret. rewrite <- app_assoc.
          apply Hok. auto.
        + apply Hafter. intros E. apply Hf1' in E; [congruence|].
          intros E'. specialize (Hf2 E'). discriminate.
        + apply wp_bind, wp_logger, wp_ret. rewrite <- app_assoc.
          apply Hok. intros E. specialize (Hf1 E). specialize (Hf2 Hf1). discriminate.
      - intros e p' f' Hne. apply Hafter, Hf1', Hne. }
    destruct f0 as [|[|] f1].
    - apply Hloop; auto.
    - apply Hafter. apply Hf0'. discriminate.
    - apply Hloop; [intros E; specialize (Hf0 E); discriminate |].
      intros _. apply Hf0'. discriminate. }
  simpl flush. fold (with_post d post).
  destruct f as [|[|] fs].
  - apply Hrest; auto.
  - apply Hbefore. discriminate.
  - apply Hrest; [discriminate | intros _; discriminate].
Qed.

Lemma wp_save_failed (what : string) (e : exn)
      (Q : outcome (option Post.t) -> Session -> Prop)
      (d : DB.t) (p : list write) (l : list DB.t) (f : list bool) (c : Z)
      (lg : list (level * string)) :
  Q (Returns None) (mkSession d [] l f c (lg ++ [(ERROR, what ++ exn_message e)])) ->
  wp (Enrichment.save_failed what e) Q (mkSession d p l f c lg).
Proof.
  intros H. unfold Enrichment.save_failed.
  apply wp_bind, wp_logger, wp_bind, wp_rollback, wp_ret. exact H.
Qed.

End EnrichmentFacts.

(** ** The three save methods *)

Section SaveFacts.

Import StoreSpec.

Variable analyze : string -> SentimentAnalyzer.SentimentResult.
Variable platform_id : Z.

(** The shape shared by the three methods: look the key up, return the
    stored item, or build the item and run the enrichment block. *)
Lemma lookup_then_keep (key already what : string)
      (fresh : M (option Post.t)) :
  keeps_existing
    (try_except
       (existing_post <- query_first DB.posts
                           (fun p => String.eqb (Post.id p) key) ;;
        match existing_post with
        | Some p => logger INFO already ;; ret (Some p)
        | None => fresh
        end)
       (Enrichment.save_failed what))
    key already.
Proof.
  intros [d p0 l f c lg] p Hp Hl. simpl in Hp, Hl. subst p0.
  unfold lookup in Hl.
  match goal with
  | |- context [snd (?m ?s)] =>
      change (wp m (fun r s' =>
                committed s' = d /\ pending s' = [] /\ commit_log s' = l /\
                (f = [] -> faults s' = []) /\
                match f with
                | true :: _ => r = Returns None
                | _ => r = Returns (Some p) /\ log s' = (lg ++ [(INFO, already)])%list
                end) s)
  end.
  apply wp_try_except, wp_bind, wp_query_first. cbn [flush fold_left].
  rewrite Hl.
  destruct f as [|[|] fs].
  - apply wp_bind, wp_logger, wp_ret. repeat split.
  - apply wp_save_failed. repeat split. discriminate.
  - apply wp_bind, wp_logger, wp_ret. repeat split. discriminate.
Qed.

Lemma lookup_then_save (key already what saved_msg text : string)
      (post : Post.t) :
  saves_new analyze
    (try_except
       (existing_post <- query_first DB.posts
                           (fun p => String.eqb (Post.id p) key) ;;
        match existing_post with
        | Some p => logger INFO already ;; ret (Some p)
        | None => Enrichment.save_new_post analyze post text saved_msg
        end)
       (Enrichment.save_failed what))
    key post text True.
Proof.
  intros [d p0 l f c lg] Hp Hl. simpl in Hp, Hl. subst p0.
  unfold lookup in Hl.
  match goal with
  | |- context [snd (?m ?s)] =>
      change (wp m (fun r s' =>
                exists o ds,
                  r = Returns o /\ pending s' = [] /\ commit_log s' = (l ++ ds)%list /\
                  save_outcome analyze d post text o (committed s') ds /\
                  (f = [] -> True -> o = Some post /\ faults s' = []) /\
                  (f = [] -> faults s' = [])) s)
  end.
  apply wp_try_except, wp_bind, wp_query_first. cbn [flush fold_left].
  rewrite Hl.
  assert (Hnew : forall f0, (f = [] -> f0 = []) -> (f0 <> [] -> f <> []) ->
            wp (Enrichment.save_new_post analyze post text saved_msg)
               (fun r s' =>
                  match r with
                  | Returns a =>
                      exists o ds,
                        Returns a = Returns o /\ pending s' = [] /\
                        commit_log s' = (l ++ ds)%list /\
                        save_outcome analyze d post text o (committed s') ds /\
                        (f = [] -> True -> o = Some post /\ faults s' = []) /\
                        (f = [] -> faults s' = [])
                  | Raises e =>
                      wp (Enrichment.save_failed what e)
                         (fun r0 s0 =>
                            exists o ds,
                              r0 = Returns o /\ pending s0 = [] /\
                              commit_log s0 = (l ++ ds)%list /\
                              save_outcome analyze d post text o (committed s0) ds /\
                              (f = [] -> True -> o = Some post /\ faults s0 = []) /\
                              (f = [] -> faults s0 = []))
                         s'
                  end) (mkSession d [] l f0 c lg)).
  { intros f0 Hf0 Hf0'. apply wp_save_new_post.
    - intros f' Hf'. exists (Some post), [with_post d post; with_enriched_post analyze d post text].
      split; [reflexivity|]. split; [reflexivity|]. split; [reflexivity|].
      split; [constructor|].
      split; [intros E _; split; [reflexivity|]; simpl; auto | intros E; simpl; auto].
    - intros e p' f' Hne. apply wp_save_failed.
      exists None, [].
      split; [reflexivity|]. split; [reflexivity|].
      split; [symmetry; apply app_nil_r|].
      split; [constructor|].
      split; intros E; exfalso; apply (Hf0' Hne E).
    - intros e p' f' Hne. apply wp_save_failed.
      exists None, [with_post d post].
      split; [reflexivity|]. split; [reflexivity|]. split; [reflexivity|].
      split; [constructor|].
      split; intros E; exfalso; apply (Hf0' Hne E). }
  destruct f as [|[|] fs]; cbv beta iota.
  - apply Hnew; auto.
  - apply wp_save_failed.
    exists None, [].
    split; [reflexivity|]. split; [reflexivity|].
    split; [symmetry; apply app_nil_r|].
    split; [constructor|]. split; discriminate.
  - apply Hnew; [discriminate | intros _; discriminate].
Qed.

Lemma save_tweet_keeps (t : TwitterScraper.Tweet) :
  keeps_existing (TwitterScraper.save_tweet analyze platform_id t)
                 (TwitterScraper.post_key t) (tweet_exists_msg t).
Proof. apply lookup_then_keep. Qed.

Lemma save_post_keeps (p : RedditScraper.Submission) :
  keeps_existing (RedditScraper.save_post analyze platform_id p)
                 (RedditScraper.post_key p) (submission_exists_msg p).
Proof. apply lookup_then_keep. Qed.

Lemma save_message_keeps (m : TelegramScraper.Message) :
  keeps_existing (TelegramScraper.save_message analyze platform_id m)
                 (TelegramScraper.post_key m) (message_exists_msg m).
Proof. apply lookup_then_keep. Qed.

Lemma save_post_saves (p : RedditScraper.Submission) :
  saves_new analyze (RedditScraper.save_post analyze platform_id p)
            (RedditScraper.post_key p) (RedditScraper.new_post platform_id p)
            (RedditScraper.content_of p) True.
Proof. apply lookup_then_save. Qed.

Lemma save_message_saves (m : TelegramScraper.Message) :
  saves_new analyze (TelegramScraper.save_message analyze platform_id m)
            (TelegramScraper.post_key m) (TelegramScraper.new_post platform_id m)
            (TelegramScraper.text m) True.
Proof. apply lookup_then_save. Qed.

Lemma save_tweet_saves (t : TwitterScraper.Tweet) :
  saves_new analyze (TwitterScraper.save_tweet analyze platform_id t)
            (TwitterScraper.post_key t) (tweet_post platform_id t)
            (TwitterScraper.text t) (tweet_well_formed t).
Proof.
  unfold tweet_post, tweet_well_formed.
  destruct (TwitterScraper.public_metrics t) as [m|] eqn:Hm.
  - intros s Hp Hl.
    destruct (lookup_then_save (TwitterScraper.post_key t) (tweet_exists_msg t)
                "Error saving tweet: "
                ("Saved tweet " ++ PyStr.str (TwitterScraper.id t))
                (TwitterScraper.text t) (TwitterScraper.new_post platform_id t m)
                s Hp Hl) as (o & ds & H).
    exists o, ds.
    unfold TwitterScraper.save_tweet, TwitterScraper.metrics_of.
    rewrite Hm.
    unfold tweet_exists_msg in H.
    destruct H as (H1 & H2 & H3 & H4 & H5 & H6).
    split; [exact H1|]. split; [exact H2|]. split; [exact H3|].
    split; [exact H4|]. split; [intros Hf _; apply H5; auto | exact H6].
  - intros [d p0 l f c lg] Hp Hl. simpl in Hp, Hl. subst p0.
    unfold lookup in Hl.
    match goal with
    | |- context [snd (?m ?s)] =>
        change (wp m (fun r s' =>
                  exists o ds,
                    r = Returns o /\ pending s' = [] /\ commit_log s' = (l ++ ds)%list /\
                    save_outcome analyze d
                      (TwitterScraper.new_post platform_id t
                         (TwitterScraper.mkPublicMetrics None None None))
                      (TwitterScraper.text t) o (committed s') ds /\
                    (f = [] -> None <> (None : option TwitterScraper.PublicMetrics) ->
                     o = Some (TwitterScraper.new_post platform_id t
                                 (TwitterScraper.mkPublicMetrics None None None))
                     /\ faults s' = []) /\
                    (f = [] -> faults s' = [])) s)
    end.
    apply wp_try_except, wp_bind, wp_query_first. cbn [flush fold_left].
    rewrite Hl. unfold TwitterScraper.metrics_of. rewrite Hm.
    destruct f as [|[|] fs]; cbv beta iota;
      try (apply wp_bind, wp_raise); apply wp_save_failed;
      exists None, [];
      (split; [reflexivity|]); (split; [reflexivity|]);
      (split; [symmetry; apply app_nil_r|]);
      (split; [constructor|]);
      (split; [intros _ H; exfalso; apply H; reflexivity |]);
      try discriminate; intros _; reflexivity.
Qed.

End SaveFacts.

(** ** Atomicity, idempotence and keyword matches of a save *)

Section SaveConsequences.

Import StoreSpec.

Variable analyze : string -> SentimentAnalyzer.SentimentResult.

Lemma flush_enrichment_tables (rows : list KeywordMatch.t) :
  forall (d : DB.t) (sr : Sentiment.t),
    let d' := flush (AddSentiment sr :: map AddKeywordMatch rows) d in
    DB.posts d' = DB.posts d /\
    DB.sentiments d' = (DB.sentiments d ++ [sr])%list /\
    DB.keyword_matches d' = (DB.keyword_matches d ++ rows)%list /\
    DB.scraping_jobs d' = DB.scraping_jobs d /\
    DB.rate_limits d' = DB.rate_limits d /\
    DB.platforms d' = DB.platforms d.
Proof.
  intros d sr. cbn [flush fold_left].
  assert (H : forall d0,
             let d' := fold_left apply_write (map AddKeywordMatch rows) d0 in
             DB.posts d' = DB.posts d0 /\
             DB.sentiments d' = DB.sentiments d0 /\
             DB.keyword_matches d' = (DB.keyword_matches d0 ++ rows)%list /\
             DB.scraping_jobs d' = DB.scraping_jobs d0 /\
             DB.rate_limits d' = DB.rate_limits d0 /\
             DB.platforms d' = DB.platforms d0).
  { induction rows as [|r rows IH]; intros d0; cbn [map fold_left].
    - rewrite app_nil_r. repeat split.
    - destruct (IH (apply_write d0 (AddKeywordMatch r))) as (H1 & H2 & H3 & H4 & H5 & H6).
      cbv zeta. rewrite H1, H2, H3, H4, H5, H6.
      destruct d0; cbn. rewrite <- app_assoc. repeat split. }
  destruct (H (apply_write d (AddSentiment sr))) as (H1 & H2 & H3 & H4 & H5 & H6).
  cbv zeta. rewrite H1, H2, H3, H4, H5, H6.
  destruct d; cbn. repeat split.
Qed.

Lemma with_post_tables (d : DB.t) (post : Post.t) :
  DB.posts (with_post d post) = (DB.posts d ++ [post])%list /\
  DB.sentiments (with_post d post) = DB.sentiments d /\
  DB.keyword_matches (with_post d post) = DB.keyword_matches d /\
  DB.scraping_jobs (with_post d post) = DB.scraping_jobs d /\
  DB.rate_limits (with_post d post) = DB.rate_limits d /\
  DB.platforms (with_post d post) = DB.platforms d.
Proof. destruct d; cbn. repeat split. Qed.

Lemma with_enriched_post_tables (d : DB.t) (post : Post.t) (text : string) :
  let d' := with_enriched_post analyze d post text in
  DB.posts d' = (DB.posts d ++ [post])%list /\
  DB.sentiments d' = (DB.sentiments d ++ [sentiment_row analyze post text])%list /\
  DB.keyword_matches d' = (DB.keyword_matches d ++ keyword_rows d post text)%list /\
  DB.scraping_jobs d' = DB.scraping_jobs d /\
  DB.rate_limits d' = DB.rate_limits d /\
  DB.platforms d' = DB.platforms d.
Proof.
  unfold with_enriched_post.
  destruct (flush_enrichment_tables (keyword_rows d post text) (with_post d post)
              (sentiment_row analyze post text)) as (H1 & H2 & H3 & H4 & H5 & H6).
  destruct (with_post_tables d post) as (P1 & P2 & P3 & P4 & P5 & P6).
  cbv zeta in *. rewrite H1, H2, H3, H4, H5, H6, P1, P2, P3, P4, P5, P6.
  repeat split.
Qed.

(** Each row built for a matched term counts at least one occurrence. *)
Lemma keyword_rows_counted (d : DB.t) (post : Post.t) (text : string) :
  Forall (counts_a_match (DB.keywords d) (Post.id post) text)
         (keyword_rows d post text).
Proof.
  apply Forall_forall. intros row Hrow.
  unfold keyword_rows, rows_of in Hrow.
  apply in_flat_map in Hrow. destruct Hrow as (term & Hterm & Hrow).
  unfold matched_terms in Hterm.
  apply in_map_iff in Hterm. destruct Hterm as (k0 & Hk0 & Hin0).
  apply filter_In in Hin0. destruct Hin0 as [_ Hcontains].
  destruct (find (fun k => String.eqb (Keyword.keyword k) term) (DB.keywords d))
    as [k|] eqn:Hfind; [|contradiction].
  destruct Hrow as [Hrow|[]]. subst row.
  apply find_some in Hfind. destruct Hfind as [Hin Heq].
  apply String.eqb_eq in Heq.
  split; [reflexivity|].
  exists k. cbn [KeywordMatch.keyword_id KeywordMatch.match_count].
  rewrite Heq, <- Hk0.
  split; [assumption|]. split; [reflexivity|].
  split; [apply contains_occurs; exact Hcontains|].
  split; [apply count_occurrences|].
  split; [exact Hcontains|]. split; [reflexivity|].
  apply contains_count. exact Hcontains.
Qed.

Lemma lookup_app_new (key : string) (posts : list Post.t) (post : Post.t) :
  find (fun p => String.eqb (Post.id p) key) posts = None ->
  Post.id post = key ->
  find (fun p => String.eqb (Post.id p) key) (posts ++ [post]) = Some post.
Proof.
  intros Hnone Hid. induction posts as [|q r IH]; simpl in *.
  - rewrite Hid, String.eqb_refl. reflexivity.
  - destruct (String.eqb (Post.id q) key); [discriminate | auto].
Qed.


Lemma saves_twice (save : M (option Post.t)) (key already text : string)
      (post : Post.t) (wf : Prop) :
  Post.id post = key ->
  wf ->
  keeps_existing save key already ->
  saves_new analyze save key post text wf ->
  saves_once analyze save key post text already.
Proof.
  intros Hid Hwf Hkeep Hnew s Hp Hf Hl s1 s2.
  destruct (Hnew s Hp Hl) as (o & ds & Hr & Hp1 & Hlog & Hout & Hff & _).
  destruct (Hff Hf Hwf) as [Ho Hf1]. subst o.
  remember (committed (snd (save s))) as d' eqn:Hd.
  remember (Some post) as o eqn:Ho.
  destruct Hout; try discriminate Ho.
  fold s1 in Hr, Hp1, Hlog, Hf1, Hd.
  destruct (with_enriched_post_tables (committed s) post text)
    as (T1 & T2 & T3 & _).
  cbv zeta in T1, T2, T3. rewrite Hd in T1, T2, T3.
  assert (Hl1 : lookup key (committed s1) = Some post).
  { unfold lookup. rewrite T1. apply lookup_app_new; assumption. }
  destruct (Hkeep s1 post Hp1 Hl1) as (Hc & _ & Hcl & _ & Hres).
  rewrite Hf1 in Hres. destruct Hres as [Hr2 Hlg].
  fold s2 in Hc, Hcl, Hlg.
  rewrite Hc. repeat split; assumption.
Qed.

End SaveConsequences.

(** C1, as the code has it.  For an item that is not stored under its
    identity key, each save method commits the item first, on its own, and
    then the sentiment annotation together with all keyword matches in a
    second commit.  A failure before the first commit leaves the store as
    it was; a failure after it withdraws the annotation and the matches as
    a whole but leaves the item stored; in both cases the method returns
    [None].  No other final state exists, and the item alone is a
    committed state of every successful save. *)
Theorem save_commits_item_then_enrichment :
  forall (analyze : string -> SentimentAnalyzer.SentimentResult)
         (platform_id : Z),
    (forall t : TwitterScraper.Tweet,
        StoreSpec.saves_new analyze
          (TwitterScraper.save_tweet analyze platform_id t)
          (TwitterScraper.post_key t) (tweet_post platform_id t)
          (TwitterScraper.text t) (tweet_well_formed t)) /\
    (forall p : RedditScraper.Submission,
        StoreSpec.saves_new analyze
          (RedditScraper.save_post analyze platform_id p)
          (RedditScraper.post_key p) (RedditScraper.new_post platform_id p)
          (RedditScraper.content_of p) True) /\
    (forall m : TelegramScraper.Message,
        StoreSpec.saves_new analyze
          (TelegramScraper.save_message analyze platform_id m)
          (TelegramScraper.post_key m) (TelegramScraper.new_post platform_id m)
          (TelegramScraper.text m) True).
Proof.
  intros analyze platform_id. split; [|split].
  - apply save_tweet_saves.
  - apply save_post_saves.
  - apply save_message_saves.
Qed.

(** C1 on the sample tweet, saved into the sample store. *)
Lemma save_commits_item_then_enrichment_witness :
  let s := open_session Sample.db [] 0 in
  exists (o : option Post.t) (ds : list DB.t),
    fst (Sample.save_tweet s) = Returns o /\
    pending (snd (Sample.save_tweet s)) = [] /\
    commit_log (snd (Sample.save_tweet s)) = (commit_log s ++ ds)%list /\
    StoreSpec.save_outcome Sample.analyze (committed s)
      (tweet_post 1 Sample.tweet) (TwitterScraper.text Sample.tweet) o
      (committed (snd (Sample.save_tweet s))) ds /\
    (faults s = [] -> tweet_well_formed Sample.tweet ->
     o = Some (tweet_post 1 Sample.tweet) /\
     faults (snd (Sample.save_tweet s)) = []) /\
    (faults s = [] -> faults (snd (Sample.save_tweet s)) = []).
Proof.
  exact (proj1 (save_commits_item_then_enrichment Sample.analyze 1)
               Sample.tweet (open_session Sample.db [] 0) eq_refl eq_refl).
Defined.

(** C1 fails as stated.  With a database failure at the last commit,
    [save_tweet] returns [None] and leaves the tweet stored without
    sentiment annotation and without keyword match; and in the run without
    any failure the first committed state holds the tweet and no
    annotation. *)
Lemma save_tweet_leaves_item_without_enrichment :
  let failing := open_session Sample.db [false; false; false; false; true] 0 in
  let after := committed (snd (Sample.save_tweet failing)) in
  let first_commit :=
    hd DB.empty (commit_log (snd (Sample.save_tweet (open_session Sample.db [] 0)))) in
  fst (Sample.save_tweet failing) = Returns None /\
  StoreSpec.stored "123" after = true /\
  DB.sentiments after = [] /\
  DB.keyword_matches after = [] /\
  StoreSpec.stored "123" first_commit = true /\
  DB.sentiments first_commit = [].
Proof. vm_compute. repeat split. Qed.

(** C5, as the code has it.  When the identity key is stored, each save
    method returns the stored item and writes nothing (nothing is
    recomputed, whether or not the item has its annotation); run twice
    on the same input from a store that lacks the key, without a
    database failure, it leaves one item, one sentiment annotation and
    the keyword matches of the first run.  The second run returns the
    item as the first did: what tells the two apart is a record in the
    log that the item already exists, nothing in the value returned. *)
Theorem save_is_idempotent :
  forall (analyze : string -> SentimentAnalyzer.SentimentResult)
         (platform_id : Z),
    (forall t : TwitterScraper.Tweet,
        StoreSpec.keeps_existing
          (TwitterScraper.save_tweet analyze platform_id t)
          (TwitterScraper.post_key t) (tweet_exists_msg t) /\
        (tweet_well_formed t ->
         saves_once analyze
           (TwitterScraper.save_tweet analyze platform_id t)
           (TwitterScraper.post_key t) (tweet_post platform_id t)
           (TwitterScraper.text t) (tweet_exists_msg t))) /\
    (forall p : RedditScraper.Submission,
        StoreSpec.keeps_existing
          (RedditScraper.save_post analyze platform_id p)
          (RedditScraper.post_key p) (submission_exists_msg p) /\
        saves_once analyze
          (RedditScraper.save_post analyze platform_id p)
          (RedditScraper.post_key p) (RedditScraper.new_post platform_id p)
          (RedditScraper.content_of p) (submission_exists_msg p)) /\
    (forall m : TelegramScraper.Message,
        StoreSpec.keeps_existing
          (TelegramScraper.save_message analyze platform_id m)
          (TelegramScraper.post_key m) (message_exists_msg m) /\
        saves_once analyze
          (TelegramScraper.save_message analyze platform_id m)
          (TelegramScraper.post_key m) (TelegramScraper.new_post platform_id m)
          (TelegramScraper.text m) (message_exists_msg m)).
Proof.
  intros analyze platform_id. split; [|split].
  - intros t. split; [apply save_tweet_keeps|].
    intros Hwf.
    apply (saves_twice analyze _ _ _ _ _ (tweet_well_formed t));
      [reflexivity | exact Hwf | apply save_tweet_keeps | apply save_tweet_saves].
  - intros p. split; [apply save_post_keeps|].
    apply (saves_twice analyze _ _ _ _ _ True);
      [reflexivity | exact I | apply save_post_keeps | apply save_post_saves].
  - intros m. split; [apply save_message_keeps|].
    apply (saves_twice analyze _ _ _ _ _ True);
      [reflexivity | exact I | apply save_message_keeps | apply save_message_saves].
Qed.

(** C5 on the sample tweet: saved twice into the sample store, it is
    stored once, with one annotation; the second run returns it. *)
Lemma save_is_idempotent_witness :
  let s := open_session Sample.db [] 0 in
  let s1 := snd (Sample.save_tweet s) in
  let s2 := snd (Sample.save_tweet s1) in
  fst (Sample.save_tweet s1) = Returns (Some (tweet_post 1 Sample.tweet)) /\
  committed s2 = committed s1 /\
  DB.posts (committed s2) = [tweet_post 1 Sample.tweet] /\
  List.length (DB.sentiments (committed s2)) = 1%nat.
Proof.
  intros s s1 s2.
  assert (Hwf : tweet_well_formed Sample.tweet) by discriminate.
  destruct (proj2 (proj1 (save_is_idempotent Sample.analyze 1) Sample.tweet)
                  Hwf s eq_refl eq_refl eq_refl)
    as (_ & H2 & H3 & _ & H5 & H6 & _).
  split; [exact H2|]. split; [exact H3|]. split; [exact H5|].
  exact (eq_trans (f_equal (@List.length Sentiment.t) H6) eq_refl).
Defined.

(** C5 fails as stated.  The second save of the sample tweet returns to
    its caller what the first returned, so nothing reports the item as
    not newly created; and when the first run fails at its last commit,
    the second returns the stored item and leaves it without sentiment
    annotation and without keyword match. *)
Lemma second_save_returns_what_the_first_returned :
  let first := Sample.save_tweet (open_session Sample.db [] 0) in
  let second := Sample.save_tweet (snd first) in
  let failed :=
    Sample.save_tweet
      (open_session Sample.db [false; false; false; false; true] 0) in
  let again := Sample.save_tweet (snd failed) in
  fst first = Returns (Some (tweet_post 1 Sample.tweet)) /\
  fst second = fst first /\
  fst failed = Returns None /\
  fst again = Returns (Some (tweet_post 1 Sample.tweet)) /\
  DB.posts (committed (snd again)) = [tweet_post 1 Sample.tweet] /\
  DB.sentiments (committed (snd again)) = [] /\
  DB.keyword_matches (committed (snd again)) = [].
Proof. vm_compute. repeat split. Qed.



(** ** The count of a collection cycle *)

Lemma count_saved_app (a b : list (option Post.t)) :
  count_saved (a ++ b) = count_saved a + count_saved b.
Proof.
  induction a as [|[p|] a IH]; cbn [count_saved app]; lia.
Qed.

Section MonadLaws.

Context {A B C : Type}.

Lemma bind_ret_l (a : A) (k : A -> M B) (s : Session) :
  bind (ret a) k s = k a s.
Proof. reflexivity. Qed.

Lemma bind_assoc (m : M A) (k : A -> M B) (h : B -> M C) (s : Session) :
  bind (bind m k) h s = bind m (fun a => bind (k a) h) s.
Proof. unfold bind. destruct (m s) as [[a|e] s']; reflexivity. Qed.

Lemma bind_ext (m : M A) (k1 k2 : A -> M B) (s : Session) :
  (forall a s', k1 a s' = k2 a s') -> bind m k1 s = bind m k2 s.
Proof.
  intros H. unfold bind. destruct (m s) as [[a|e] s']; [apply H | reflexivity].
Qed.

Lemma bind_ext_l (m1 m2 : M A) (k : A -> M B) (s : Session) :
  m1 s = m2 s -> bind m1 k s = bind m2 k s.
Proof. intros H. unfold bind. rewrite H. reflexivity. Qed.

End MonadLaws.

(** The counting loop over a batch adds the number of saves that returned
    an item. *)
Lemma count_loop (save : TwitterScraper.Tweet -> M (option Post.t))
      (tweets : list TwitterScraper.Tweet) :
  forall (n : Z) (s : Session),
    for_fold tweets n
      (fun total tweet_data =>
         post <- save tweet_data ;;
         ret (match post with
              | Some _ => total + 1
              | None => total
              end)) s
    = (outcomes <- map_m save tweets ;; ret (n + count_saved outcomes)) s.
Proof.
  induction tweets as [|t r IH]; intros n s; cbn [for_fold map_m].
  - rewrite bind_ret_l. cbn [count_saved]. rewrite Z.add_0_r. reflexivity.
  - rewrite !bind_assoc. apply bind_ext. intros post s1.
    rewrite bind_ret_l, IH, bind_assoc. apply bind_ext. intros outcomes s2.
    rewrite bind_ret_l. unfold ret.
    destruct post; cbn [count_saved]; do 2 f_equal; lia.
Qed.

Lemma cycle_loop
      (analyze : string -> SentimentAnalyzer.SentimentResult)
      (platform_id : Z) (config_max_results : Z)
      (search_recent_tweets : string -> outcome (list TwitterScraper.Tweet))
      (keywords : list string) :
  forall (n : Z) (s : Session),
    for_fold keywords n
      (fun total_scraped keyword =>
         logger INFO ("Scraping tweets for keyword: " ++ keyword) ;;
         tweets <- TwitterScraper.search_tweets platform_id config_max_results
                     search_recent_tweets keyword None ;;
         total_scraped <-
           for_fold tweets total_scraped
             (fun total_scraped tweet_data =>
                post <- TwitterScraper.save_tweet analyze platform_id tweet_data ;;
                ret (match post with
                     | Some _ => total_scraped + 1
                     | None => total_scraped
                     end)) ;;
         sleep 2 ;;
         ret total_scraped) s
    = (batches <-
         map_m
           (fun keyword =>
              logger INFO ("Scraping tweets for keyword: " ++ keyword) ;;
              tweets <- TwitterScraper.search_tweets platform_id
                          config_max_results search_recent_tweets keyword None ;;
              outcomes <- map_m (TwitterScraper.save_tweet analyze platform_id)
                                tweets ;;
              sleep 2 ;;
              ret outcomes)
           keywords ;;
       ret (n + count_saved (List.concat batches))) s.
Proof.
  induction keywords as [|k r IH]; intros n s; cbn [for_fold map_m].
  - rewrite bind_ret_l. cbn [List.concat count_saved]. rewrite Z.add_0_r. reflexivity.
  - rewrite !bind_assoc. apply bind_ext. intros [] s0.
    rewrite !bind_assoc. apply bind_ext. intros tweets s1.
    rewrite !bind_assoc.
    rewrite (bind_ext_l _ _ _ _ (count_loop _ tweets n s1)).
    rewrite bind_assoc.
    apply bind_ext. intros outcomes s2.
    rewrite bind_ret_l, !bind_assoc. apply bind_ext. intros [] s3.
    rewrite !bind_ret_l, IH, bind_assoc. apply bind_ext. intros batches s4.
    rewrite bind_ret_l. unfold ret. cbn [List.concat].
    rewrite count_saved_app. do 2 f_equal. lia.
Qed.

(** C3, as the code has it.  The count a cycle returns is the number of
    fetched items for which [save_tweet] returned an item; and
    [save_tweet] returns the stored item for a key that is already
    stored, so that such an item is counted like a newly created one;
    only the saves that fail are left out. *)
Theorem scraped_count_is_number_of_returned_items :
  forall (analyze : string -> SentimentAnalyzer.SentimentResult)
         (platform_id : Z) (config_keywords : list string)
         (config_max_results : Z)
         (search_recent_tweets : string -> outcome (list TwitterScraper.Tweet)),
    (forall (keywords : option (list string)) (s : Session),
        TwitterScraper.scrape_keywords analyze platform_id config_keywords
          config_max_results search_recent_tweets keywords s
        = (batches <- scrape_keywords_outcomes analyze platform_id
                        config_keywords config_max_results
                        search_recent_tweets keywords ;;
           let total_scraped := count_saved (List.concat batches) in
           logger INFO ("Total tweets scraped: " ++ PyStr.str total_scraped) ;;
           ret total_scraped) s) /\
    (forall (t : TwitterScraper.Tweet) (s : Session) (p : Post.t),
        pending s = [] ->
        StoreSpec.lookup (TwitterScraper.post_key t) (committed s) = Some p ->
        hd false (faults s) = false ->
        fst (TwitterScraper.save_tweet analyze platform_id t s)
          = Returns (Some p) /\
        committed (snd (TwitterScraper.save_tweet analyze platform_id t s))
          = committed s).
Proof.
  intros analyze platform_id config_keywords config_max_results api. split.
  - intros keywords s.
    unfold TwitterScraper.scrape_keywords, scrape_keywords_outcomes.
    unfold bind at 1. rewrite cycle_loop. unfold bind.
    destruct (map_m _ (TwitterScraper.keywords_or_config config_keywords keywords) s)
      as [[batches|e] s1]; reflexivity.
  - intros t s p Hp Hl Hf.
    destruct (save_tweet_keeps analyze platform_id t s p Hp Hl)
      as (Hc & _ & _ & _ & Hr).
    split; [|exact Hc].
    destruct (faults s) as [|[|] fs]; [apply Hr | discriminate Hf | apply Hr].
Qed.

(** C3 on the sample: a cycle over the store that already holds the
    sample tweet. *)
Lemma scraped_count_is_number_of_returned_items_witness :
  let s := open_session Sample.db_with_tweet [] 0 in
  fst (TwitterScraper.save_tweet Sample.analyze 1 Sample.tweet s)
    = Returns (Some (tweet_post 1 Sample.tweet)) /\
  committed (snd (TwitterScraper.save_tweet Sample.analyze 1 Sample.tweet s))
    = committed s.
Proof.
  exact (proj2 (scraped_count_is_number_of_returned_items Sample.analyze 1
                  ["Bitcoin"] 100 (fun _ => Returns [Sample.tweet]))
               Sample.tweet (open_session Sample.db_with_tweet [] 0)
               (tweet_post 1 Sample.tweet) eq_refl eq_refl eq_refl).
Defined.

(** C3 fails as stated.  The sample tweet is stored; a cycle that fetches
    it again creates no item (the posts are the same before and after)
    and returns the count 1. *)
Lemma stored_item_is_counted_again :
  let s := open_session Sample.db_with_tweet [] 0 in
  StoreSpec.stored "123" (committed s) = true /\
  fst (Sample.scrape s) = Returns 1 /\
  DB.posts (committed (snd (Sample.scrape s))) = DB.posts (committed s).
Proof. vm_compute. repeat split. Qed.

(** ** Identity keys *)

Section Identity.

Import StoreSpec.

Variable analyze : string -> SentimentAnalyzer.SentimentResult.

Lemma lookup_app_old (key : string) (posts : list Post.t) (post p : Post.t) :
  find (fun q => String.eqb (Post.id q) key) posts = Some p ->
  find (fun q => String.eqb (Post.id q) key) (posts ++ [post]) = Some p.
Proof.
  induction posts as [|q r IH]; simpl; [discriminate|].
  destruct (String.eqb (Post.id q) key); auto.
Qed.

(** Without a failure, a save leaves its key stored, and every key that
    was stored before. *)
Lemma save_stores (save : M (option Post.t)) (key already text : string)
      (post : Post.t) (wf : Prop) (s : Session) :
  Post.id post = key ->
  wf ->
  keeps_existing save key already ->
  saves_new analyze save key post text wf ->
  pending s = [] ->
  faults s = [] ->
  pending (snd (save s)) = [] /\
  faults (snd (save s)) = [] /\
  stored key (committed (snd (save s))) = true /\
  (forall k, stored k (committed s) = true ->
             stored k (committed (snd (save s))) = true).
Proof.
  intros Hid Hwf Hkeep Hnew Hp Hf.
  destruct (lookup key (committed s)) as [p|] eqn:Hl.
  - destruct (Hkeep s p Hp Hl) as (Hc & Hp' & _ & Hf' & _).
    rewrite Hc. repeat split; auto.
    unfold stored. rewrite Hl. reflexivity.
  - destruct (Hnew s Hp Hl) as (o & ds & _ & Hp' & _ & Hout & Hff & _).
    destruct (Hff Hf Hwf) as [Ho Hf']. subst o.
    remember (committed (snd (save s))) as d' eqn:Hd.
    remember (Some post) as o eqn:Ho.
    destruct Hout; try discriminate Ho.
    destruct (with_enriched_post_tables analyze (committed s) post text) as (T1 & _).
    cbv zeta in T1.
    repeat split; auto.
    + unfold stored, lookup. rewrite T1.
      rewrite (lookup_app_new key _ post Hl Hid). reflexivity.
    + intros k Hk. unfold stored, lookup in *. rewrite T1.
      destruct (find (fun q => String.eqb (Post.id q) k) (DB.posts (committed s)))
        as [q|] eqn:Hq; [|discriminate].
      rewrite (lookup_app_old k _ post q Hq). reflexivity.
Qed.

Lemma save_item_stores (platform_id : Source -> Z) (x : RawItem) (s : Session) :
  item_well_formed x ->
  pending s = [] ->
  faults s = [] ->
  pending (snd (save_item analyze platform_id x s)) = [] /\
  faults (snd (save_item analyze platform_id x s)) = [] /\
  stored (identity_key x) (committed (snd (save_item analyze platform_id x s)))
    = true /\
  (forall k, stored k (committed s) = true ->
             stored k (committed (snd (save_item analyze platform_id x s)))
               = true).
Proof.
  intros Hwf Hp Hf. destruct x as [t|p|m]; cbn [save_item identity_key].
  - apply (save_stores _ _ (tweet_exists_msg t) (TwitterScraper.text t)
             (tweet_post (platform_id Twitter) t) (tweet_well_formed t));
      auto using save_tweet_keeps, save_tweet_saves.
  - apply (save_stores _ _ (submission_exists_msg p) (RedditScraper.content_of p)
             (RedditScraper.new_post (platform_id Reddit) p) True);
      auto using save_post_keeps, save_post_saves.
  - apply (save_stores _ _ (message_exists_msg m) (TelegramScraper.text m)
             (TelegramScraper.new_post (platform_id Telegram) m) True);
      auto using save_message_keeps, save_message_saves.
Qed.

End Identity.

Lemma str_not_lettered (n : Z) (c : ascii) (r : string) :
  digit_or_minus c = false -> PyStr.str n <> String c r.
Proof.
  intros Hc E. destruct (str_head n) as (c' & r' & E' & Hc').
  rewrite E in E'. inversion E'; subst. congruence.
Qed.

(** The keys of two items of different sources differ. *)
Lemma keys_differ (a b : RawItem) :
  source_of a <> source_of b -> identity_key a <> identity_key b.
Proof.
  intros Hsrc.
  destruct a as [t|p|m], b as [t'|p'|m']; cbn in Hsrc; try congruence;
    cbn [identity_key]; unfold TwitterScraper.post_key, RedditScraper.post_key,
                          TelegramScraper.post_key; cbn [String.append];
    try (apply str_not_lettered; reflexivity);
    try (intros E; symmetry in E; revert E; apply str_not_lettered; reflexivity);
    discriminate.
Qed.

(** C4, as the code has it.  The key of a Reddit submission is its
    native id after the prefix [reddit_], the key of a Telegram message
    is the channel id and the message id after the prefix [telegram_],
    and the key of a tweet is the decimal writing of its native id,
    without any prefix.  Two items of different sources never have the
    same key, whatever their native ids, and saved one after the other
    both are stored. *)
Theorem identity_keys_separate_sources :
  (forall t : TwitterScraper.Tweet,
      TwitterScraper.post_key t = PyStr.str (TwitterScraper.id t)) /\
  (forall p : RedditScraper.Submission,
      RedditScraper.post_key p = "reddit_" ++ RedditScraper.id p) /\
  (forall m : TelegramScraper.Message,
      TelegramScraper.post_key m
      = "telegram_" ++ PyStr.str (TelegramScraper.channel_id m) ++ "_"
        ++ PyStr.str (TelegramScraper.id m)) /\
  (forall a b : RawItem,
      source_of a <> source_of b ->
      identity_key a <> identity_key b /\
      forall (analyze : string -> SentimentAnalyzer.SentimentResult)
             (platform_id : Source -> Z) (s : Session),
        item_well_formed a -> item_well_formed b ->
        pending s = [] -> faults s = [] ->
        let s1 := snd (save_item analyze platform_id a s) in
        let s2 := snd (save_item analyze platform_id b s1) in
        StoreSpec.stored (identity_key a) (committed s2) = true /\
        StoreSpec.stored (identity_key b) (committed s2) = true).
Proof.
  split; [reflexivity|]. split; [reflexivity|]. split; [reflexivity|].
  intros a b Hsrc. split; [apply keys_differ; exact Hsrc|].
  intros analyze platform_id s Ha Hb Hp Hf s1 s2.
  destruct (save_item_stores analyze platform_id a s Ha Hp Hf)
    as (Hp1 & Hf1 & Hsa & _).
  destruct (save_item_stores analyze platform_id b s1 Hb Hp1 Hf1)
    as (_ & _ & Hsb & Hkeep).
  split; [apply Hkeep; exact Hsa | exact Hsb].
Qed.

(** C4 on the samples: the tweet 123 and the submission "123". *)
Lemma identity_keys_separate_sources_witness :
  let a := TweetItem Sample.tweet in
  let b := SubmissionItem Sample.submission in
  let s := open_session Sample.db [] 0 in
  let s2 := snd (save_item Sample.analyze (fun _ => 1) b
                   (snd (save_item Sample.analyze (fun _ => 1) a s))) in
  identity_key a <> identity_key b /\
  StoreSpec.stored "123" (committed s2) = true /\
  StoreSpec.stored "reddit_123" (committed s2) = true.
Proof.
  intros a b s s2.
  assert (Hsrc : source_of a <> source_of b) by discriminate.
  assert (Ha : item_well_formed a) by discriminate.
  destruct (proj2 (proj2 (proj2 identity_keys_separate_sources)) a b Hsrc)
    as [Hkeys Hboth].
  split; [exact Hkeys|].
  exact (Hboth Sample.analyze (fun _ => 1) s Ha I eq_refl eq_refl).
Defined.

(** C4 fails as stated.  The tweet with native id 123 is stored under
    the key "123": the name of the source is no prefix of it. *)
Lemma tweet_key_has_no_source_prefix :
  TwitterScraper.post_key Sample.tweet = "123" /\
  PyStr.startswith (PyStr.lower (TwitterScraper.post_key Sample.tweet))
                   "twitter" = false /\
  StoreSpec.stored "123"
    (committed (snd (Sample.save_tweet (open_session Sample.db [] 0)))) = true.
Proof. vm_compute. repeat split. Qed.

(** ** The rate limiter *)

Section RateLimiter.

Variable platform_id : Z.
Variable endpoint : string.

(** What one admission check does: it changes neither the tables nor the
    open transaction nor the clock; it answers [True] when the look-up
    fails, and otherwise [False] exactly when a window is found whose
    reset time has not passed and whose calls made have reached the calls
    allowed. *)
Lemma check_rate_limits_run (s : Session) :
  exists (b : bool) (s' : Session),
    TwitterScraper.check_rate_limits platform_id endpoint s = (Returns b, s') /\
    committed s' = committed s /\
    pending s' = pending s /\
    commit_log s' = commit_log s /\
    clock s' = clock s /\
    (faults s = [] -> faults s' = []) /\
    b = match faults s with
        | true :: _ => true
        | _ =>
            match window platform_id endpoint s with
            | Some rl =>
                negb ((clock s <? RateLimit.reset_time rl) &&
                      (RateLimit.requests_limit rl <=? RateLimit.requests_made rl))
            | None => true
            end
        end.
Proof.
  destruct s as [d p l f c lg].
  unfold window, view. cbn [committed pending commit_log clock faults].
  match goal with
  | |- exists b s', ?m ?s = _ /\ _ =>
      enough (H : wp m (fun r s' =>
                exists b, r = Returns b /\
                  committed s' = d /\ pending s' = p /\ commit_log s' = l /\
                  clock s' = c /\
                  (f = [] -> faults s' = []) /\
                  b = match f with
                      | true :: _ => true
                      | _ =>
                          match find (TwitterScraper.window_of platform_id endpoint)
                                     (DB.rate_limits (flush p d)) with
                          | Some rl =>
                              negb ((c <? RateLimit.reset_time rl) &&
                                    (RateLimit.requests_limit rl
                                     <=? RateLimit.requests_made rl))
                          | None => true
                          end
                      end) s)
  end.
  { unfold wp in H. destruct H as (b & Hr & H).
    exists b. eexists. split; [|exact H].
    apply injective_projections; [exact Hr | reflexivity]. }
  unfold TwitterScraper.check_rate_limits.
  apply wp_try_except, wp_bind, wp_query_first.
  assert (Hfound : forall f0, (f = [] -> f0 = []) ->
            wp (match find (TwitterScraper.window_of platform_id endpoint)
                           (DB.rate_limits (flush p d)) with
                | Some rl =>
                    now <- utcnow ;;
                    if now <? RateLimit.reset_time rl then
                      if RateLimit.requests_limit rl <=? RateLimit.requests_made rl
                      then
                        logger WARNING
                          ("Rate limit exceeded for " ++ endpoint
                           ++ ". Waiting until "
                           ++ PyStr.str (RateLimit.reset_time rl)) ;;
                        ret false
                      else ret true
                    else ret true
                | None => ret true
                end)
               (fun r s' =>
                  match r with
                  | Returns a =>
                      exists b, Returns a = Returns b /\
                        committed s' = d /\ pending s' = p /\ commit_log s' = l /\
                        clock s' = c /\
                        (f = [] -> faults s' = []) /\
                        b = match find (TwitterScraper.window_of platform_id endpoint)
                                       (DB.rate_limits (flush p d)) with
                            | Some rl =>
                                negb ((c <? RateLimit.reset_time rl) &&
                                      (RateLimit.requests_limit rl
                                       <=? RateLimit.requests_made rl))
                            | None => true
                            end
                  | Raises e => False
                  end) (mkSession d p l f0 c lg)).
  { intros f0 Hf0.
    destruct (find (TwitterScraper.window_of platform_id endpoint)
                   (DB.rate_limits (flush p d))) as [rl|].
    - apply wp_bind, wp_utcnow.
      destruct (c <? RateLimit.reset_time rl);
        [destruct (RateLimit.requests_limit rl <=? RateLimit.requests_made rl)|].
      + apply wp_bind, wp_logger, wp_ret. exists false. repeat split. exact Hf0.
      + apply wp_ret. exists true. repeat split. exact Hf0.
      + apply wp_ret. exists true. repeat split. exact Hf0.
    - apply wp_ret. exists true. repeat split. exact Hf0. }
  destruct f as [|[|] fs]; cbv beta iota.
  - eapply wp_conseq; [apply Hfound; auto|].
    intros [a|e] s'; [auto | contradiction].
  - apply wp_bind, wp_logger, wp_ret. exists true. repeat split. discriminate.
  - eapply wp_conseq; [apply Hfound; discriminate|].
    intros [a|e] s'; [auto | contradiction].
Qed.

(** With calls left in the window, any number of checks in a row are all
    granted, and leave the window as it was. *)
Lemma checks_all_granted (rl : RateLimit.t) (n : nat) :
  RateLimit.requests_made rl < RateLimit.requests_limit rl ->
  forall s : Session,
    window platform_id endpoint s = Some rl ->
    fst (consecutive_checks platform_id endpoint n s) = Returns (repeat true n) /\
    window platform_id endpoint
           (snd (consecutive_checks platform_id endpoint n s)) = Some rl.
Proof.
  intros Hleft. unfold consecutive_checks.
  induction n as [|n IH]; intros s Hw; cbn [repeat map_m].
  - split; [reflexivity | exact Hw].
  - destruct (check_rate_limits_run s) as (b & s' & Hrun & Hc & Hp & _ & _ & _ & Hb).
    assert (Hw' : window platform_id endpoint s' = Some rl).
    { unfold window, view in *. rewrite Hc, Hp. exact Hw. }
    assert (Hbt : b = true).
    { rewrite Hw in Hb.
      replace (RateLimit.requests_limit rl <=? RateLimit.requests_made rl)
        with false in Hb by (symmetry; apply Z.leb_gt; exact Hleft).
      rewrite andb_false_r in Hb. destruct (faults s) as [|[|] fs]; exact Hb. }
    clear Hb. subst b. destruct (IH s' Hw') as [Hres Hwin].
    match goal with
    | |- fst (?m s) = _ /\ _ =>
        assert (E : m s
                    = (bs <- map_m (fun _ : unit =>
                                      TwitterScraper.check_rate_limits
                                        platform_id endpoint)
                                   (repeat tt n) ;;
                       ret (true :: bs)) s')
          by (unfold bind at 1; rewrite Hrun; reflexivity);
        rewrite E
    end.
    unfold bind.
    destruct (map_m _ (repeat tt n) s') as [[bs|e] s2]; cbn [fst snd] in *.
    + inversion Hres; subst bs. split; [reflexivity | exact Hwin].
    + discriminate Hres.
Qed.

End RateLimiter.

(** C2, as the code has it.  For an existing window whose reset time has
    not passed, an admission check whose look-up succeeds is granted if
    and only if calls-made < calls-allowed (a check whose look-up fails is
    granted too).  A check writes nothing: calls-made is not incremented
    by an admission.  Consequently, with calls left in the window (for
    instance calls-made = 0 and calls-allowed = 3), any number of checks
    in a row before the reset are all granted, the fourth included. *)
Theorem admission_reads_the_window_only :
  forall (platform_id : Z) (endpoint : string) (s : Session) (rl : RateLimit.t),
    window platform_id endpoint s = Some rl ->
    clock s < RateLimit.reset_time rl ->
    let run := TwitterScraper.check_rate_limits platform_id endpoint s in
    (exists b : bool, fst run = Returns b) /\
    (hd false (faults s) = false ->
     (fst run = Returns true <->
      RateLimit.requests_made rl < RateLimit.requests_limit rl)) /\
    committed (snd run) = committed s /\
    pending (snd run) = pending s /\
    window platform_id endpoint (snd run) = Some rl /\
    (RateLimit.requests_made rl < RateLimit.requests_limit rl ->
     forall n : nat,
       fst (consecutive_checks platform_id endpoint n s)
         = Returns (repeat true n) /\
       window platform_id endpoint
              (snd (consecutive_checks platform_id endpoint n s)) = Some rl).
Proof.
  intros platform_id endpoint s rl Hw Hclock run.
  destruct (check_rate_limits_run platform_id endpoint s)
    as (b & s' & Hrun & Hc & Hp & _ & _ & _ & Hb).
  subst run. rewrite Hrun. cbn [fst snd].
  split; [exists b; reflexivity|].
  split.
  { intros Hf. rewrite Hw in Hb.
    apply Z.ltb_lt in Hclock. rewrite Hclock in Hb. cbn [andb] in Hb.
    assert (Hb' : b = negb (RateLimit.requests_limit rl
                            <=? RateLimit.requests_made rl)).
    { destruct (faults s) as [|[|] fs]; [exact Hb | discriminate Hf | exact Hb]. }
    rewrite Hb'. split.
    - intros E. inversion E as [E'].
      apply negb_true_iff in E'. apply Z.leb_gt in E'. exact E'.
    - intros Hlt. apply Z.leb_gt in Hlt. rewrite Hlt. reflexivity. }
  split; [exact Hc|]. split; [exact Hp|].
  split.
  { unfold window, view in *. rewrite Hc, Hp. exact Hw. }
  intros Hleft n. apply checks_all_granted; assumption.
Qed.

(** C2 on the sample store: no call made, three allowed, reset at 100,
    time 50. *)
Lemma admission_reads_the_window_only_witness :
  let s := open_session Sample.db [] 50 in
  fst (Sample.check s) = Returns true /\
  fst (consecutive_checks 1 "search_tweets" 4 s)
    = Returns [true; true; true; true].
Proof.
  intros s.
  destruct (admission_reads_the_window_only 1 "search_tweets" s
              (RateLimit.mk 1 "search_tweets" 0 3 100) eq_refl eq_refl)
    as (_ & Hiff & _ & _ & _ & Hall).
  split.
  - apply (proj2 (Hiff eq_refl)). reflexivity.
  - exact (proj1 (Hall eq_refl 4%nat)).
Defined.

(** C2 fails as stated.  From calls-made = 0 and calls-allowed = 3, four
    admission checks before the reset are all granted, and calls-made is
    still 0 afterwards. *)
Lemma fourth_admission_is_granted :
  let s := open_session Sample.db [] 50 in
  fst (consecutive_checks 1 "search_tweets" 4 s)
    = Returns [true; true; true; true] /\
  DB.rate_limits (committed (snd (consecutive_checks 1 "search_tweets" 4 s)))
    = [RateLimit.mk 1 "search_tweets" 0 3 100].
Proof. vm_compute. split; reflexivity. Qed.

(** ** Jobs *)

Lemma wp_in_new_session {A : Type} (body : M A)
      (Q : outcome A -> Session -> Prop)
      (d : DB.t) (p : list write) (l : list DB.t) (f : list bool) (c : Z)
      (lg : list (level * string)) :
  wp body
     (fun r s' =>
        Q r (mkSession (committed s') p (commit_log s') (faults s')
                       (clock s') (log s')))
     (mkSession d [] l f c lg) ->
  wp (NaramindOrchestrator.in_new_session body) Q (mkSession d p l f c lg).
Proof.
  unfold wp, NaramindOrchestrator.in_new_session.
  cbn [committed pending commit_log faults clock log].
  destruct (body (mkSession d [] l f c lg)) as [r s']. exact (fun H => H).
Qed.


(** The row that replaces the job found under an id is the job found
    under that id afterwards. *)
Lemma find_replaced_job (job_id : string) (new j : ScrapingJob.t)
      (jobs : list ScrapingJob.t) :
  ScrapingJob.id new = job_id ->
  find (NaramindOrchestrator.has_id (Some job_id)) jobs = Some j ->
  find (NaramindOrchestrator.has_id (Some job_id))
       (replace_first (same_job new) new jobs) = Some new.
Proof.
  intros Hid. induction jobs as [|x r IH]; cbn [find replace_first];
    [discriminate|].
  unfold same_job at 1. unfold NaramindOrchestrator.has_id at 1 3.
  rewrite Hid, (String.eqb_sym job_id (ScrapingJob.id x)).
  destruct (String.eqb (ScrapingJob.id x) job_id) eqn:Hx; intros Hfind.
  - cbn [find]. unfold NaramindOrchestrator.has_id.
    rewrite Hid, String.eqb_refl. reflexivity.
  - cbn [find]. cbv beta. rewrite Hx.
    apply IH. exact Hfind.
Qed.

Lemma found_job_id (job_id : string) (j : ScrapingJob.t)
      (jobs : list ScrapingJob.t) :
  find (NaramindOrchestrator.has_id (Some job_id)) jobs = Some j ->
  ScrapingJob.id j = job_id.
Proof.
  intros H. apply find_some in H. destruct H as [_ H].
  apply String.eqb_eq. exact H.
Qed.

Lemma jobs_after_set (d : DB.t) (j : ScrapingJob.t) :
  DB.scraping_jobs (apply_write d (SetScrapingJob j))
  = replace_first (same_job j) j (DB.scraping_jobs d).
Proof. destruct d; reflexivity. Qed.

(** What [update_scraping_job] does to a job that exists, under any plan
    of failures: it returns, leaves the open transaction alone, and
    either writes nothing or commits the one updated row. *)
Lemma update_scraping_job_run (job_id status : string) (posts_scraped : Z)
      (errors : option string) (j : ScrapingJob.t) (s : Session) :
  job_of job_id (committed s) = Some j ->
  let run := NaramindOrchestrator.update_scraping_job (Some job_id) status
               posts_scraped errors s in
  let d' := apply_write (committed s)
              (SetScrapingJob
                 (NaramindOrchestrator.updated_job j status posts_scraped errors
                    (clock s))) in
  fst run = Returns tt /\
  pending (snd run) = pending s /\
  clock (snd run) = clock s /\
  (committed (snd run) = committed s /\ commit_log (snd run) = commit_log s
   \/ committed (snd run) = d' /\
      commit_log (snd run) = (commit_log s ++ [d'])%list) /\
  (faults s = [] ->
   committed (snd run) = d' /\
   commit_log (snd run) = (commit_log s ++ [d'])%list /\
   faults (snd run) = [] /\ log (snd run) = log s).
Proof.
  intros Hj run d'. subst run. unfold job_of in Hj.
  destruct s as [d p l f c lg].
  cbn [committed clock] in Hj, d'.
  match goal with
  | |- fst (?m ?s) = _ /\ _ =>
      change (wp m (fun r s' =>
                r = Returns tt /\ pending s' = p /\ clock s' = c /\
                (committed s' = d /\ commit_log s' = l
                 \/ committed s' = d' /\ commit_log s' = (l ++ [d'])%list) /\
                (f = [] ->
                 committed s' = d' /\ commit_log s' = (l ++ [d'])%list /\
                 faults s' = [] /\ log s' = lg)) s)
  end.
  unfold NaramindOrchestrator.update_scraping_job.
  apply wp_try_except, wp_in_new_session, wp_bind, wp_query_first.
  cbn [flush fold_left]. rewrite Hj.
  assert (Hupd : forall f0, (f = [] -> f0 = []) -> (f0 <> [] -> f <> []) ->
            wp (now <- utcnow ;;
                add (SetScrapingJob
                       (NaramindOrchestrator.updated_job j status posts_scraped
                          errors now)) ;;
                commit)
               (fun r s' =>
                  match r with
                  | Returns a =>
                      Returns a = Returns tt /\ p = p /\ clock s' = c /\
                      (committed s' = d /\ commit_log s' = l
                       \/ committed s' = d' /\ commit_log s' = (l ++ [d'])%list) /\
                      (f = [] ->
                       committed s' = d' /\ commit_log s' = (l ++ [d'])%list /\
                       faults s' = [] /\ log s' = lg)
                  | Raises e =>
                      wp (logger ERROR ("Error updating scraping job: "
                                        ++ exn_message e))
                         (fun r0 s0 =>
                            r0 = Returns tt /\ pending s0 = p /\ clock s0 = c /\
                            (committed s0 = d /\ commit_log s0 = l
                             \/ committed s0 = d' /\
                                commit_log s0 = (l ++ [d'])%list) /\
                            (f = [] ->
                             committed s0 = d' /\
                             commit_log s0 = (l ++ [d'])%list /\
                             faults s0 = [] /\ log s0 = lg))
                         (mkSession (committed s') p (commit_log s') (faults s')
                                    (clock s') (log s'))
                  end) (mkSession d [] l f0 c lg)).
  { intros f0 Hf0 Hf0'.
    apply wp_bind, wp_utcnow, wp_bind, wp_add, wp_commit.
    cbn [app flush fold_left]. fold d'.
    destruct f0 as [|[|] f1]; cbn [committed pending commit_log faults clock log].
    - split; [reflexivity|]. split; [reflexivity|]. split; [reflexivity|].
      split; [right; split; reflexivity|]. intros _. repeat split.
    - apply wp_logger.
      split; [reflexivity|]. split; [reflexivity|]. split; [reflexivity|].
      split; [left; split; reflexivity|].
      intros E. exfalso. apply Hf0'; [discriminate | exact E].
    - split; [reflexivity|]. split; [reflexivity|]. split; [reflexivity|].
      split; [right; split; reflexivity|].
      intros E. specialize (Hf0 E). discriminate. }
  destruct f as [|[|] fs]; cbv beta iota.
  - apply Hupd; auto.
  - apply wp_logger.
    split; [reflexivity|]. split; [reflexivity|]. split; [reflexivity|].
    split; [left; split; reflexivity|]. discriminate.
  - apply Hupd; [discriminate | intros _; discriminate].
Qed.

Section OrchestratorRuns.

Import NaramindOrchestrator.

Ltac run_session :=
  cbv beta iota zeta delta
      [update_scraping_job create_scraping_job log_error next_platform_id
       try_except in_new_session bind query_first round_trip refresh utcnow add
       commit view ret logger faults pending committed
       commit_log clock log fst snd ScrapingJob.id Platform.id];
  cbn [app flush fold_left].
(** The three database methods of the orchestrator, run without a
    failure. *)
Lemma update_ok (d : DB.t) (l : list DB.t) (c : Z) (lg : list (level * string))
      (job_id status : string) (n : Z) (e : option string) (j : ScrapingJob.t) :
  job_of job_id d = Some j ->
  let d' := apply_write d (SetScrapingJob (updated_job j status n e c)) in
  update_scraping_job (Some job_id) status n e (mkSession d [] l [] c lg)
  = (Returns tt, mkSession d' [] (l ++ [d']) [] c lg).
Proof.
  intros H d'. unfold job_of in H.
  run_session. rewrite H. run_session. reflexivity.
Qed.

Lemma log_error_ok (d : DB.t) (l : list DB.t) (c : Z) (lg : list (level * string))
      (error_type error_message : string) (platform_name : option string) :
  exists d', 
  log_error error_type error_message platform_name (mkSession d [] l [] c lg)
  = (Returns tt, mkSession d' [] (l ++ [d']) [] c lg) /\ DB.scraping_jobs d' = DB.scraping_jobs d.
Proof.
  destruct platform_name as [n|]; [destruct (PyStr.truthy n) eqn:Hn|];
    run_session; try rewrite Hn; run_session;
    eexists; (split; [reflexivity|]); destruct d; reflexivity.
Qed.

Lemma create_ok (d : DB.t) (l : list DB.t) (c : Z) (lg : list (level * string))
      (uuid platform_name job_type : string) (configuration : option string) :
  exists (pid : Z) (ds0 : list DB.t) (d1 : DB.t),
    let job := ScrapingJob.mk uuid pid job_type "pending" None None 0 None
                              configuration in
    create_scraping_job uuid platform_name job_type configuration
      (mkSession d [] l [] c lg)
    = (Returns (Some uuid),
       mkSession (apply_write d1 (AddScrapingJob job)) []
                 (l ++ ds0 ++ [apply_write d1 (AddScrapingJob job)]) [] c lg) /\
    DB.scraping_jobs d1 = DB.scraping_jobs d /\
    Forall (fun x => DB.scraping_jobs x = DB.scraping_jobs d) ds0.
Proof.
  run_session.
  destruct (find _ (DB.platforms d)) as [p|]; run_session.
  - exists (Platform.id p), [], d.
    split; [reflexivity|]. split; [reflexivity|]. constructor.
  - eexists _, [_], _.
    rewrite <- app_assoc.
    split; [reflexivity|]. split; [destruct d; reflexivity|].
    constructor; [destruct d; reflexivity | constructor].
Qed.

End OrchestratorRuns.

(** ** The observed statuses of a job *)

Lemma same_status_refl (x : option string) : same_status x x = true.
Proof. destruct x; [apply String.eqb_refl | reflexivity]. Qed.

Lemma changes_skip (x : option string) (l r : list (option string)) :
  Forall (fun y => y = x) l -> changes (x :: l ++ r) = changes (x :: r).
Proof.
  induction l as [|y l IH]; intros H; [reflexivity|].
  inversion H as [|? ? Hy Hl]; subst.
  change (changes (x :: (x :: l) ++ r))
    with (if same_status x x then changes (x :: l ++ r)
          else x :: changes (x :: l ++ r)).
  rewrite same_status_refl. apply IH. exact Hl.
Qed.

Lemma status_trace (pre mid tail : list (option string)) (final : string) :
  Forall (fun y => y = None) pre ->
  Forall (fun y => y = Some "running") mid ->
  final = "completed" \/ final = "failed" ->
  tail = [] \/ tail = [Some final] ->
  changes (None :: pre ++ Some "pending" :: Some "running" :: mid
                ++ Some final :: tail)
  = [None; Some "pending"; Some "running"; Some final].
Proof.
  intros Hpre Hmid Hfinal Htail.
  rewrite (changes_skip None pre _ Hpre).
  change (changes (None :: Some "pending" :: ?r))
    with (None :: changes (Some "pending" :: r)).
  change (changes (Some "pending" :: Some "running" :: ?r))
    with (Some "pending" :: changes (Some "running" :: r)).
  rewrite (changes_skip (Some "running") mid _ Hmid).
  destruct Hfinal; subst final; destruct Htail; subst tail; reflexivity.
Qed.

Lemma job_status_same_jobs (job_id : string) (d d' : DB.t) :
  DB.scraping_jobs d = DB.scraping_jobs d' ->
  job_status job_id d = job_status job_id d'.
Proof. unfold job_status, job_of. intros H; rewrite H; reflexivity. Qed.

Lemma job_of_added (job_id : string) (d : DB.t) (j : ScrapingJob.t) :
  job_of job_id d = None ->
  ScrapingJob.id j = job_id ->
  job_of job_id (apply_write d (AddScrapingJob j)) = Some j.
Proof.
  unfold job_of. intros Hnone Hid.
  replace (DB.scraping_jobs (apply_write d (AddScrapingJob j)))
    with (DB.scraping_jobs d ++ [j])%list by (destruct d; reflexivity).
  induction (DB.scraping_jobs d) as [|x r IH]; cbn [app find] in *.
  - unfold NaramindOrchestrator.has_id. rewrite Hid, String.eqb_refl. reflexivity.
  - destruct (NaramindOrchestrator.has_id (Some job_id) x); [discriminate | auto].
Qed.

Lemma job_of_set (job_id : string) (d : DB.t) (j new : ScrapingJob.t) :
  job_of job_id d = Some j ->
  ScrapingJob.id new = job_id ->
  job_of job_id (apply_write d (SetScrapingJob new)) = Some new.
Proof.
  unfold job_of. intros Hj Hid. rewrite jobs_after_set.
  apply (find_replaced_job job_id new j); assumption.
Qed.

(** The statuses of the job of a cycle, over the states the cycle commits
    (fault-free run, scraper outcome [o] reached in the state [s3]). *)
Lemma cycle_statuses (uuid : string) (scrape : M Z) (d : DB.t)
      (l : list DB.t) (c : Z) (lg : list (level * string)) :
  job_of uuid d = None ->
  leaves_jobs scrape ->
  let run := NaramindOrchestrator.run_twitter_scraping true uuid scrape
               (mkSession d [] l [] c lg) in
  exists (ds : list DB.t) (final : string) (result : NaramindOrchestrator.RunResult),
    fst run = Returns result /\
    commit_log (snd run) = (l ++ ds)%list /\
    changes (map (job_status uuid) (d :: ds))
      = [None; Some "pending"; Some "running"; Some final] /\
    job_status uuid (committed (snd run)) = Some final /\
    (NaramindOrchestrator.success result = true /\ final = "completed"
     \/ NaramindOrchestrator.success result = false /\ final = "failed").
Proof.
  intros Hnone Hframe run.
  destruct (create_ok d l c lg uuid "Twitter" "keyword_search" None)
    as (pid & ds0 & d1 & Hcreate & Hj1 & Hds0).
  cbv zeta in Hcreate.
  set (job := ScrapingJob.mk uuid pid "keyword_search" "pending" None None 0
                             None None) in *.
  set (d2 := apply_write d1 (AddScrapingJob job)) in *.
  assert (Hjob2 : job_of uuid d2 = Some job).
  { apply job_of_added; [|reflexivity].
    unfold job_of in *. rewrite Hj1. exact Hnone. }
  pose proof (update_ok d2 (l ++ ds0 ++ [d2]) c lg uuid "running" 0 None job Hjob2)
    as Hrun. cbv zeta in Hrun.
  set (job_r := NaramindOrchestrator.updated_job job "running" 0 None c) in *.
  set (d3 := apply_write d2 (SetScrapingJob job_r)) in *.
  assert (Hjob3 : job_of uuid d3 = Some job_r)
    by (apply (job_of_set uuid d2 job); [exact Hjob2 | reflexivity]).
  destruct (Hframe (mkSession d3 [] ((l ++ ds0 ++ [d2]) ++ [d3]) [] c lg)
                   eq_refl eq_refl) as (Hp4 & Hf4 & Hj4 & dss & Hl4 & Hdss).
  destruct (scrape (mkSession d3 [] ((l ++ ds0 ++ [d2]) ++ [d3]) [] c lg))
    as [[n|e] [d4 p4 l4 f4 c4 lg4]] eqn:Hscrape;
    cbn [committed pending commit_log faults snd] in Hp4, Hf4, Hj4, Hl4, Hdss;
    subst p4 f4 l4.
  - (* the scraper returned *)
    assert (Hjob4 : job_of uuid d4 = Some job_r)
      by (unfold job_of in *; rewrite Hj4; exact Hjob3).
    pose proof (update_ok d4 (((l ++ ds0 ++ [d2]) ++ [d3]) ++ dss) c4 lg4 uuid
                  "completed" n None job_r Hjob4) as Hdone.
    cbv zeta in Hdone.
    set (job_f := NaramindOrchestrator.updated_job job_r "completed" n None c4) in *.
    set (d5 := apply_write d4 (SetScrapingJob job_f)) in *.
    assert (E : run
                = (Returns (NaramindOrchestrator.mkRunResult true (Some "Twitter")
                              (Some n) None (Some uuid) None),
                   mkSession d5 [] ((((l ++ ds0 ++ [d2]) ++ [d3]) ++ dss) ++ [d5])
                             [] c4 lg4)).
    { subst run. unfold NaramindOrchestrator.run_twitter_scraping. cbn [negb].
      unfold bind at 1. rewrite Hcreate.
      unfold try_except. unfold bind at 1. rewrite Hrun.
      unfold bind at 1. rewrite Hscrape.
      unfold bind at 1. rewrite Hdone. reflexivity. }
    rewrite E. cbn [fst snd committed commit_log].
    exists (ds0 ++ [d2; d3] ++ dss ++ [d5])%list, "completed".
    eexists. split; [reflexivity|].
    split; [rewrite <- !app_assoc; reflexivity|].
    assert (Hst5 : job_status uuid d5 = Some "completed").
    { unfold job_status, d5.
      rewrite (job_of_set uuid d4 job_r job_f Hjob4 eq_refl). reflexivity. }
    split; [|split; [exact Hst5 | left; split; reflexivity]].
    cbn [map]. rewrite !map_app. cbn [map app].
    unfold job_status at 1. rewrite Hnone. cbn [option_map].
    unfold job_status at 2. rewrite Hjob2.
    unfold job_status at 2. rewrite Hjob3. rewrite Hst5.
    apply status_trace; auto.
    + apply Forall_map. eapply Forall_impl; [|exact Hds0].
      intros x Hx. unfold job_status, job_of in *. rewrite Hx, Hnone. reflexivity.
    + apply Forall_map. eapply Forall_impl; [|exact Hdss].
      intros x Hx. unfold job_status, job_of in *. rewrite Hx, Hjob3. reflexivity.
  - (* the scraper raised *)
    assert (Hjob4 : job_of uuid d4 = Some job_r)
      by (unfold job_of in *; rewrite Hj4; exact Hjob3).
    set (error_msg := "Twitter scraping error: " ++ exn_message e).
    pose proof (update_ok d4 (((l ++ ds0 ++ [d2]) ++ [d3]) ++ dss) c4
                  (lg4 ++ [(ERROR, error_msg)]) uuid
                  "failed" 0 (Some error_msg) job_r Hjob4) as Hdone.
    cbv zeta in Hdone.
    set (job_f := NaramindOrchestrator.updated_job job_r "failed" 0
                    (Some error_msg) c4) in *.
    set (d5 := apply_write d4 (SetScrapingJob job_f)) in *.
    destruct (log_error_ok d5 ((((l ++ ds0 ++ [d2]) ++ [d3]) ++ dss) ++ [d5]) c4
                (lg4 ++ [(ERROR, error_msg)]) "scraping" error_msg
                (Some "Twitter")) as (d6 & Hlog & Hj6).
    assert (E : run
                = (Returns (NaramindOrchestrator.mkRunResult false (Some "Twitter")
                              None (Some error_msg) (Some uuid) None),
                   mkSession d6 []
                     (((((l ++ ds0 ++ [d2]) ++ [d3]) ++ dss) ++ [d5]) ++ [d6])
                     [] c4 (lg4 ++ [(ERROR, error_msg)]))).
    { subst run. unfold NaramindOrchestrator.run_twitter_scraping. cbn [negb].
      unfold bind at 1. rewrite Hcreate.
      unfold try_except. unfold bind at 1. rewrite Hrun.
      unfold bind at 1. rewrite Hscrape.
      unfold bind at 1.
      cbn [logger committed pending commit_log faults clock log].
      fold error_msg.
      unfold bind at 1. rewrite Hdone.
      unfold bind at 1. rewrite Hlog. reflexivity. }
    rewrite E. cbn [fst snd committed commit_log].
    exists (ds0 ++ [d2; d3] ++ dss ++ [d5; d6])%list, "failed".
    eexists. split; [reflexivity|].
    split; [rewrite <- !app_assoc; reflexivity|].
    assert (Hst5 : job_status uuid d5 = Some "failed").
    { unfold job_status, d5.
      rewrite (job_of_set uuid d4 job_r job_f Hjob4 eq_refl). reflexivity. }
    assert (Hst6 : job_status uuid d6 = Some "failed")
      by (rewrite (job_status_same_jobs uuid d6 d5 Hj6); exact Hst5).
    split; [|split; [exact Hst6 | right; split; reflexivity]].
    cbn [map]. rewrite !map_app. cbn [map app].
    unfold job_status at 1. rewrite Hnone. cbn [option_map].
    unfold job_status at 2. rewrite Hjob2.
    unfold job_status at 2. rewrite Hjob3. rewrite Hst5, Hst6.
    apply status_trace; auto.
    + apply Forall_map. eapply Forall_impl; [|exact Hds0].
      intros x Hx. unfold job_status, job_of in *. rewrite Hx, Hnone. reflexivity.
    + apply Forall_map. eapply Forall_impl; [|exact Hdss].
      intros x Hx. unfold job_status, job_of in *. rewrite Hx, Hjob3. reflexivity.
Qed.

(** C6, as the code has it.  A job is created in state pending, and in a
    collection cycle without database failure the states committed for
    its job show exactly these statuses in this order: absent, pending,
    running, and one terminal status, completed when the scraper returned
    and failed when it raised; the cycle ends there.  The job-update
    operation itself has no guard: on any existing job, a terminal one
    included, it stores the status it is given. *)
Theorem cycle_takes_job_through_its_states :
  (forall (uuid : string) (scrape : M Z) (s : Session),
      pending s = [] ->
      faults s = [] ->
      job_of uuid (committed s) = None ->
      leaves_jobs scrape ->
      let run := NaramindOrchestrator.run_twitter_scraping true uuid scrape s in
      exists (ds : list DB.t) (final : string)
             (result : NaramindOrchestrator.RunResult),
        fst run = Returns result /\
        commit_log (snd run) = (commit_log s ++ ds)%list /\
        changes (map (job_status uuid) (committed s :: ds))
          = [None; Some "pending"; Some "running"; Some final] /\
        job_status uuid (committed (snd run)) = Some final /\
        (NaramindOrchestrator.success result = true /\ final = "completed"
         \/ NaramindOrchestrator.success result = false /\ final = "failed")) /\
  (forall (job_id status : string) (j : ScrapingJob.t) (s : Session),
      faults s = [] ->
      job_of job_id (committed s) = Some j ->
      job_status job_id
        (committed (snd (NaramindOrchestrator.update_scraping_job
                           (Some job_id) status 0 None s)))
      = Some status).
Proof.
  split.
  - intros uuid scrape [d p l f c lg] Hp Hf Hnone Hframe.
    cbn [pending faults committed commit_log] in *. subst p f.
    apply cycle_statuses; assumption.
  - intros job_id status j s Hf Hj.
    destruct (update_scraping_job_run job_id status 0 None j s Hj)
      as (_ & _ & _ & _ & Hok).
    destruct (Hok Hf) as (Hc & _). cbv zeta in Hc. rewrite Hc.
    unfold job_status.
    rewrite (job_of_set job_id (committed s) j
               (NaramindOrchestrator.updated_job j status 0 None (clock s)) Hj
               (found_job_id job_id j _ Hj)).
    reflexivity.
Qed.

(** C6 on the sample store, with a scraper that returns the count 4. *)
Lemma cycle_takes_job_through_its_states_witness :
  let s := open_session Sample.db [] 0 in
  let run := NaramindOrchestrator.run_twitter_scraping true "job-2" (ret 4) s in
  exists (ds : list DB.t) (final : string)
         (result : NaramindOrchestrator.RunResult),
    fst run = Returns result /\
    commit_log (snd run) = (commit_log s ++ ds)%list /\
    changes (map (job_status "job-2") (committed s :: ds))
      = [None; Some "pending"; Some "running"; Some final] /\
    job_status "job-2" (committed (snd run)) = Some final /\
    (NaramindOrchestrator.success result = true /\ final = "completed"
     \/ NaramindOrchestrator.success result = false /\ final = "failed").
Proof.
  intros s run.
  assert (Hframe : leaves_jobs (ret 4)).
  { intros s0 Hp Hf. cbn [ret snd].
    split; [exact Hp|]. split; [exact Hf|]. split; [reflexivity|].
    exists []. split; [symmetry; apply app_nil_r | constructor]. }
  exact (proj1 cycle_takes_job_through_its_states "job-2" (ret 4) s
               eq_refl eq_refl eq_refl Hframe).
Defined.

(** C6 fails as stated.  The job "job-1" is completed; the job-update
    operation called with the status running puts it back to running. *)
Lemma completed_job_is_reopened :
  let s := open_session Sample.db_done [] 30 in
  job_status "job-1" (committed s) = Some "completed" /\
  job_status "job-1"
    (committed (snd (NaramindOrchestrator.update_scraping_job
                       (Some "job-1") "running" 0 None s)))
  = Some "running".
Proof. vm_compute. split; reflexivity. Qed.



(** ** The Twitter scraper never touches the job table *)

Section ScraperFrame.

Lemma job_frame_refl (s : Session) :
  pending s = [] -> faults s = [] -> job_frame s s.
Proof.
  intros Hp Hf. split; [exact Hp|]. split; [exact Hf|]. split; [reflexivity|].
  exists []. split; [symmetry; apply app_nil_r | constructor].
Qed.

Lemma job_frame_same (s s' : Session) :
  committed s' = committed s -> pending s' = pending s ->
  commit_log s' = commit_log s -> faults s' = faults s ->
  pending s = [] -> faults s = [] -> job_frame s s'.
Proof.
  intros Hc Hp' Hl Hf' Hp Hf.
  split; [congruence|]. split; [congruence|]. split; [congruence|].
  exists []. rewrite app_nil_r. split; [exact Hl | constructor].
Qed.

Lemma job_frame_trans (s s1 s2 : Session) :
  job_frame s s1 -> job_frame s1 s2 -> job_frame s s2.
Proof.
  intros (_ & _ & Hj1 & ds1 & Hl1 & Hd1) (Hp2 & Hf2 & Hj2 & ds2 & Hl2 & Hd2).
  split; [exact Hp2|]. split; [exact Hf2|].
  split; [congruence|].
  exists (ds1 ++ ds2)%list. split.
  - rewrite Hl2, Hl1, app_assoc. reflexivity.
  - apply Forall_app. split; [exact Hd1|].
    eapply Forall_impl; [|exact Hd2]. intros d Hd. congruence.
Qed.

Context {A B : Type}.

Lemma leaves_ret (a : A) : leaves_jobs (ret a).
Proof. intros s Hp Hf. apply job_frame_refl; assumption. Qed.

Lemma leaves_raise (e : exn) : leaves_jobs (@raise A e).
Proof. intros s Hp Hf. apply job_frame_refl; assumption. Qed.

Lemma leaves_lift (o : outcome A) : leaves_jobs (lift o).
Proof. destruct o; [apply leaves_ret | apply leaves_raise]. Qed.

Lemma leaves_bind (m : M A) (k : A -> M B) :
  leaves_jobs m -> (forall a, leaves_jobs (k a)) -> leaves_jobs (bind m k).
Proof.
  intros Hm Hk s Hp Hf. specialize (Hm s Hp Hf). unfold bind.
  destruct (m s) as [[a|e] s1]; cbn [snd] in *; [|exact Hm].
  apply (job_frame_trans s s1); [exact Hm|].
  destruct Hm as (Hp1 & Hf1 & _). apply Hk; assumption.
Qed.

Lemma leaves_try_except (body : M A) (handler : exn -> M A) :
  leaves_jobs body -> (forall e, leaves_jobs (handler e)) ->
  leaves_jobs (try_except body handler).
Proof.
  intros Hm Hk s Hp Hf. specialize (Hm s Hp Hf). unfold try_except.
  destruct (body s) as [[a|e] s1]; cbn [snd] in *; [exact Hm|].
  apply (job_frame_trans s s1); [exact Hm|].
  destruct Hm as (Hp1 & Hf1 & _). apply Hk; assumption.
Qed.

End ScraperFrame.

Lemma leaves_for_fold {A B : Type} (xs : list B) (body : A -> B -> M A) :
  (forall acc x, leaves_jobs (body acc x)) ->
  forall acc, leaves_jobs (for_fold xs acc body).
Proof.
  intros Hbody. induction xs as [|x r IH]; intros acc; cbn [for_fold].
  - apply leaves_ret.
  - apply leaves_bind; [apply Hbody | exact IH].
Qed.


Lemma leaves_logger (lv : level) (msg : string) : leaves_jobs (logger lv msg).
Proof. intros s Hp Hf. apply job_frame_same; auto. Qed.

Lemma leaves_sleep (n : Z) : leaves_jobs (sleep n).
Proof. intros s Hp Hf. apply job_frame_same; auto. Qed.

Lemma leaves_check_rate_limits (platform_id : Z) (endpoint : string) :
  leaves_jobs (TwitterScraper.check_rate_limits platform_id endpoint).
Proof.
  intros s Hp Hf.
  destruct (check_rate_limits_run platform_id endpoint s)
    as (b & s' & Hrun & Hc & Hp' & Hl & _ & Hf' & _).
  rewrite Hrun. cbn [snd].
  split; [congruence|]. split; [auto|]. split; [congruence|].
  exists []. rewrite app_nil_r. split; [exact Hl | constructor].
Qed.

Lemma leaves_save_tweet
      (analyze : string -> SentimentAnalyzer.SentimentResult)
      (platform_id : Z) (t : TwitterScraper.Tweet) :
  leaves_jobs (TwitterScraper.save_tweet analyze platform_id t).
Proof.
  intros s Hp Hf.
  destruct (StoreSpec.lookup (TwitterScraper.post_key t) (committed s))
    as [p|] eqn:Hl.
  - destruct (save_tweet_keeps analyze platform_id t s p Hp Hl)
      as (Hc & Hp' & Hlog & Hf' & _).
    split; [exact Hp'|]. split; [auto|]. split; [congruence|].
    exists []. rewrite app_nil_r. split; [exact Hlog | constructor].
  - destruct (save_tweet_saves analyze platform_id t s Hp Hl)
      as (o & ds & _ & Hp' & Hlog & Hout & _ & Hf').
    split; [exact Hp'|]. split; [auto|].
    remember (committed (snd (TwitterScraper.save_tweet analyze platform_id t s)))
      as d' eqn:Hd.
    destruct (with_post_tables (committed s) (tweet_post platform_id t))
      as (_ & _ & _ & W & _).
    destruct (with_enriched_post_tables analyze (committed s)
                (tweet_post platform_id t) (TwitterScraper.text t))
      as (_ & _ & _ & E & _).
    cbv zeta in E.
    destruct Hout.
    + split; [reflexivity|]. exists []. split; [exact Hlog | constructor].
    + split; [exact W|]. eexists. split; [exact Hlog|].
      constructor; [exact W | constructor].
    + split; [exact E|]. eexists. split; [exact Hlog|].
      constructor; [exact W|]. constructor; [exact E | constructor].
Qed.

Lemma leaves_search_tweets (platform_id config_max_results : Z)
      (search_recent_tweets : string -> outcome (list TwitterScraper.Tweet))
      (query : string) (max_results : option Z) :
  leaves_jobs (TwitterScraper.search_tweets platform_id config_max_results
                 search_recent_tweets query max_results).
Proof.
  unfold TwitterScraper.search_tweets.
  apply leaves_bind; [apply leaves_check_rate_limits|].
  intros within_limits. destruct (negb within_limits); [apply leaves_ret|].
  apply leaves_try_except.
  - apply leaves_bind; [apply leaves_logger|]. intros _.
    apply leaves_bind; [apply leaves_lift|]. intros tweets.
    apply leaves_bind; [apply leaves_logger|]. intros _. apply leaves_ret.
  - intros e.
    assert (Hother : leaves_jobs
                       (logger ERROR ("Error searching tweets: " ++ exn_message e) ;;
                        @ret (list TwitterScraper.Tweet) []))
      by (apply leaves_bind; [apply leaves_logger | intros _; apply leaves_ret]).
    destruct e as [msg|msg]; [exact Hother|].
    apply leaves_bind; [apply leaves_logger|]. intros _.
    apply leaves_bind; [apply leaves_sleep|]. intros _. apply leaves_ret.
Qed.

(** The scraper of the cycle satisfies the assumption of C6. *)
Lemma scrape_keywords_leaves_jobs
      (analyze : string -> SentimentAnalyzer.SentimentResult)
      (platform_id : Z) (config_keywords : list string)
      (config_max_results : Z)
      (search_recent_tweets : string -> outcome (list TwitterScraper.Tweet))
      (keywords : option (list string)) :
  leaves_jobs (TwitterScraper.scrape_keywords analyze platform_id
                 config_keywords config_max_results search_recent_tweets
                 keywords).
Proof.
  unfold TwitterScraper.scrape_keywords.
  apply leaves_bind.
  - apply leaves_for_fold. intros total keyword.
    apply leaves_bind; [apply leaves_logger|]. intros _.
    apply leaves_bind; [apply leaves_search_tweets|]. intros tweets.
    apply leaves_bind.
    + apply leaves_for_fold. intros acc tweet_data.
      apply leaves_bind; [apply leaves_save_tweet|]. intros post.
      apply leaves_ret.
    + intros total'. apply leaves_bind; [apply leaves_sleep|]. intros _.
      apply leaves_ret.
  - intros total. apply leaves_bind; [apply leaves_logger|]. intros _.
    apply leaves_ret.
Qed.

(** ** Rules for runs that return *)

Section ReturnRules.

Context {A B : Type}.

Lemma never_raises_ret (a : A) : never_raises (ret a).
Proof. intros s. exists a. reflexivity. Qed.

Lemma never_raises_bind (m : M A) (k : A -> M B) :
  never_raises m -> (forall a, never_raises (k a)) -> never_raises (bind m k).
Proof.
  intros Hm Hk s. unfold bind. destruct (Hm s) as [a Ha].
  destruct (m s) as [[a'|e] s1]; cbn [fst] in Ha; [|discriminate].
  apply Hk.
Qed.

(** A [try] whose handler returns returns, whatever its body does. *)
Lemma never_raises_try_except (body : M A) (handler : exn -> M A) :
  (forall e, never_raises (handler e)) -> never_raises (try_except body handler).
Proof.
  intros Hh s. unfold try_except.
  destruct (body s) as [[a|e] s1]; [exists a; reflexivity | apply Hh].
Qed.

Lemma calm_ret (a : A) : calm (ret a).
Proof. intros s. repeat split; auto. Qed.

Lemma calm_raise (e : exn) : calm (@raise A e).
Proof. intros s. repeat split; auto. Qed.

Lemma calm_lift (o : outcome A) : calm (lift o).
Proof. destruct o; [apply calm_ret | apply calm_raise]. Qed.

Lemma calm_bind (m : M A) (k : A -> M B) :
  calm m -> (forall a, calm (k a)) -> calm (bind m k).
Proof.
  intros Hm Hk s. unfold bind.
  destruct (Hm s) as (Hc & Hp & Hl & Hf).
  destruct (m s) as [[a|e] s1]; cbn [snd] in *.
  - destruct (Hk a s1) as (Hc' & Hp' & Hl' & Hf').
    repeat split; try congruence. auto.
  - repeat split; auto.
Qed.

Lemma calm_try_except (body : M A) (handler : exn -> M A) :
  calm body -> (forall e, calm (handler e)) -> calm (try_except body handler).
Proof.
  intros Hm Hk s. unfold try_except.
  destruct (Hm s) as (Hc & Hp & Hl & Hf).
  destruct (body s) as [[a|e] s1]; cbn [snd] in *.
  - repeat split; auto.
  - destruct (Hk e s1) as (Hc' & Hp' & Hl' & Hf').
    repeat split; try congruence. auto.
Qed.

Lemma bind_run (m : M A) (k : A -> M B) (s s1 : Session) (a : A) :
  m s = (Returns a, s1) -> bind m k s = k a s1.
Proof. intros E. unfold bind. rewrite E. reflexivity. Qed.

Lemma hoare_ret (P : Session -> Prop) (a : A) (Q : A -> Session -> Prop) :
  (forall s, P s -> Q a s) -> hoare P (ret a) Q.
Proof. intros H s Hs. exists a, s. split; [reflexivity | auto]. Qed.

Lemma hoare_bind (P : Session -> Prop) (m : M A) (R : A -> Session -> Prop)
      (k : A -> M B) (Q : B -> Session -> Prop) :
  hoare P m R -> (forall a, hoare (R a) (k a) Q) -> hoare P (bind m k) Q.
Proof.
  intros Hm Hk s Hs. destruct (Hm s Hs) as (a & s1 & E & Ha).
  unfold bind. rewrite E. apply Hk. exact Ha.
Qed.

Lemma hoare_conseq (P : Session -> Prop) (m : M A) (Q Q' : A -> Session -> Prop) :
  hoare P m Q -> (forall a s, Q a s -> Q' a s) -> hoare P m Q'.
Proof.
  intros Hm HQ s Hs. destruct (Hm s Hs) as (a & s1 & E & Ha).
  exists a, s1. split; [exact E | auto].
Qed.

End ReturnRules.

Lemma hoare_for_fold {X S : Type} (I : S -> Session -> Prop) (xs : list X)
      (body : S -> X -> M S) :
  (forall acc x, hoare (I acc) (body acc x) I) ->
  forall acc, hoare (I acc) (for_fold xs acc body) I.
Proof.
  intros Hbody. induction xs as [|x r IH]; intros acc; cbn [for_fold].
  - apply hoare_ret. auto.
  - eapply hoare_bind; [apply Hbody | exact IH].
Qed.

Lemma never_raises_logger (lv : level) (msg : string) : never_raises (logger lv msg).
Proof. intros s. exists tt. reflexivity. Qed.

Lemma never_raises_sleep (n : Z) : never_raises (sleep n).
Proof. intros s. exists tt. reflexivity. Qed.

Lemma calm_logger (lv : level) (msg : string) : calm (logger lv msg).
Proof. intros s. repeat split; auto. Qed.

Lemma calm_sleep (n : Z) : calm (sleep n).
Proof. intros s. repeat split; auto. Qed.

Lemma calm_utcnow : calm utcnow.
Proof. intros s. repeat split; auto. Qed.

Lemma calm_round_trip : calm round_trip.
Proof.
  intros s. unfold round_trip.
  destruct (faults s) as [|[|] fs] eqn:Hf; cbn [snd committed pending commit_log faults];
    repeat split; auto; discriminate.
Qed.

Lemma calm_query_first {T : Type} (table : DB.t -> list T) (p : T -> bool) :
  calm (query_first table p).
Proof.
  unfold query_first. apply calm_bind; [apply calm_round_trip|].
  intros _ s. repeat split; auto.
Qed.

Lemma calm_query_all {T : Type} (table : DB.t -> list T) (p : T -> bool) :
  calm (query_all table p).
Proof.
  unfold query_all. apply calm_bind; [apply calm_round_trip|].
  intros _ s. repeat split; auto.
Qed.

(** A handler that writes a record in the log and returns a value. *)
Lemma quiet_log_and_return {A : Type} (lv : level) (msg : string) (a : A) :
  quiet (logger lv msg ;; ret a).
Proof.
  split.
  - apply never_raises_bind; [apply never_raises_logger|].
    intros _. apply never_raises_ret.
  - apply calm_bind; [apply calm_logger | intros _; apply calm_ret].
Qed.

(** A quiet step keeps what a cycle has reached. *)
Lemma hoare_quiet {A : Type}
      (analyze : string -> SentimentAnalyzer.SentimentResult)
      (s0 : Session) (n0 n : Z) (m : M A) :
  quiet m ->
  hoare (cycle_inv analyze s0 n0 n) m (fun _ => cycle_inv analyze s0 n0 n).
Proof.
  intros [Hret Hcalm] s (Hp & Hf & ds & k & Hl & Hev & Hk).
  destruct (Hret s) as [a Ha]. destruct (Hcalm s) as (Hc' & Hp' & Hl' & Hf').
  exists a, (snd (m s)). split.
  - apply injective_projections; [exact Ha | reflexivity].
  - split; [congruence|]. split; [auto|].
    exists ds, k. rewrite Hl', Hc'. auto.
Qed.

(** ** The fetch methods *)

Section TwitterFetch.

Variable platform_id : Z.
Variable config_max_results : Z.
Variable search_recent_tweets : string -> outcome (list TwitterScraper.Tweet).
Variable get_users_tweets
  : string -> Z -> outcome (option (list TwitterScraper.Tweet)).

Lemma quiet_check_rate_limits (endpoint : string) :
  quiet (TwitterScraper.check_rate_limits platform_id endpoint).
Proof.
  split; intros s;
    destruct (check_rate_limits_run platform_id endpoint s)
      as (b & s' & Hrun & Hc & Hp & Hl & _ & Hf & _);
    rewrite Hrun; cbn [fst snd].
  - exists b. reflexivity.
  - auto.
Qed.

Lemma quiet_search_tweets (query : string) (max_results : option Z) :
  quiet (TwitterScraper.search_tweets platform_id config_max_results
           search_recent_tweets query max_results).
Proof.
  unfold TwitterScraper.search_tweets. split.
  - apply never_raises_bind; [apply quiet_check_rate_limits|].
    intros b. destruct (negb b); [apply never_raises_ret|].
    apply never_raises_try_except. intros e. destruct e as [msg|msg].
    + apply quiet_log_and_return.
    + apply never_raises_bind; [apply never_raises_logger|]. intros _.
      apply never_raises_bind; [apply never_raises_sleep|]. intros _.
      apply never_raises_ret.
  - apply calm_bind; [apply quiet_check_rate_limits|].
    intros b. destruct (negb b); [apply calm_ret|].
    apply calm_try_except.
    + apply calm_bind; [apply calm_logger|]. intros _.
      apply calm_bind; [apply calm_lift|]. intros tweets.
      apply calm_bind; [apply calm_logger|]. intros _. apply calm_ret.
    + intros e. destruct e as [msg|msg].
      * apply quiet_log_and_return.
      * apply calm_bind; [apply calm_logger|]. intros _.
        apply calm_bind; [apply calm_sleep|]. intros _. apply calm_ret.
Qed.

Lemma quiet_get_user_timeline (user_id : string) (max_results : Z) :
  quiet (TwitterScraper.get_user_timeline platform_id get_users_tweets
           user_id max_results).
Proof.
  unfold TwitterScraper.get_user_timeline. split.
  - apply never_raises_bind; [apply quiet_check_rate_limits|].
    intros b. destruct (negb b); [apply never_raises_ret|].
    apply never_raises_try_except. intros e. apply quiet_log_and_return.
  - apply calm_bind; [apply quiet_check_rate_limits|].
    intros b. destruct (negb b); [apply calm_ret|].
    apply calm_try_except.
    + apply calm_bind; [apply calm_lift|]. intros tweets. apply calm_ret.
    + intros e. apply quiet_log_and_return.
Qed.

(** The value [search_tweets] returns once the check has answered. *)
Lemma search_tweets_after_check (query : string) (max_results : option Z)
      (s s1 : Session) (b : bool) :
  TwitterScraper.check_rate_limits platform_id "search_tweets" s = (Returns b, s1) ->
  let run := TwitterScraper.search_tweets platform_id config_max_results
               search_recent_tweets query max_results s in
  fst run
  = Returns
      (if b then
         match search_recent_tweets (query ++ " -is:retweet lang:en") with
         | Returns tweets =>
             firstn (Z.to_nat (TwitterScraper.or_default config_max_results
                                 max_results)) tweets
         | Raises _ => []
         end
       else []) /\
  clock (snd run)
  = clock s1 + (if b then
                  match search_recent_tweets (query ++ " -is:retweet lang:en") with
                  | Raises (TooManyRequests _) => 900
                  | Raises (Exception _) => 0
                  | Returns _ => 0
                  end
                else 0).
Proof.
  intros Hrun run. subst run.
  unfold TwitterScraper.search_tweets. rewrite (bind_run _ _ _ _ _ Hrun).
  destruct b; cbn [negb].
  - unfold try_except, bind, logger, lift, ret, raise. cbn [fst snd].
    destruct (search_recent_tweets (query ++ " -is:retweet lang:en"))
      as [tweets|e]; cbn [fst snd clock].
    + split; [reflexivity | lia].
    + destruct e as [msg|msg];
        unfold bind, logger, sleep, ret; cbn [fst snd clock];
        split; try reflexivity; lia.
  - cbn [ret fst snd]. split; [reflexivity | lia].
Qed.

Lemma get_user_timeline_after_check (user_id : string) (max_results : Z)
      (s s1 : Session) (b : bool) :
  TwitterScraper.check_rate_limits platform_id "user_timeline" s = (Returns b, s1) ->
  fst (TwitterScraper.get_user_timeline platform_id get_users_tweets
         user_id max_results s)
  = Returns
      (if b then
         match get_users_tweets user_id (Z.min max_results 100) with
         | Returns (Some data) => data
         | _ => []
         end
       else []).
Proof.
  intros Hrun.
  unfold TwitterScraper.get_user_timeline. rewrite (bind_run _ _ _ _ _ Hrun).
  destruct b; cbn [negb]; [|reflexivity].
  unfold try_except, bind, logger, lift, ret, raise.
  destruct (get_users_tweets user_id (Z.min max_results 100))
    as [[data|]|e]; reflexivity.
Qed.

End TwitterFetch.

Section RedditFetch.

Variable config_max_posts : Z.
Variable listing
  : string -> string -> Z -> outcome (list RedditScraper.Praw.Submission).
Variable search
  : string -> string -> string -> Z
    -> outcome (list RedditScraper.Praw.Submission).

Lemma quiet_get_subreddit_posts (subreddit_name sort_type : string)
      (limit : option Z) :
  quiet (RedditScraper.get_subreddit_posts config_max_posts listing
           subreddit_name sort_type limit).
Proof.
  unfold RedditScraper.get_subreddit_posts. split.
  - apply never_raises_try_except. intros e. apply quiet_log_and_return.
  - apply calm_try_except.
    + apply calm_bind; [apply calm_logger|]. intros _.
      apply calm_bind; [apply calm_lift|]. intros posts.
      apply calm_bind; [apply calm_logger|]. intros _. apply calm_ret.
    + intros e. apply quiet_log_and_return.
Qed.

Lemma quiet_search_posts (query : string) (subreddit_name : option string)
      (sort_type : string) (limit : Z) :
  quiet (RedditScraper.search_posts search query subreddit_name sort_type limit).
Proof.
  assert (Hcall : forall name msg,
             calm (posts <- lift (search name query sort_type limit) ;;
                   logger INFO msg ;; ret posts)).
  { intros name msg.
    apply calm_bind; [apply calm_lift|]. intros posts.
    apply calm_bind; [apply calm_logger|]. intros _. apply calm_ret. }
  unfold RedditScraper.search_posts. split.
  - apply never_raises_try_except. intros e. apply quiet_log_and_return.
  - apply calm_try_except.
    + apply calm_bind.
      * destruct subreddit_name as [name|]; [destruct (PyStr.truthy name)|];
          apply Hcall.
      * intros posts.
        apply calm_bind; [apply calm_logger|]. intros _. apply calm_ret.
    + intros e. apply quiet_log_and_return.
Qed.

(** What [get_subreddit_posts] returns, and that it makes no round trip
    to the database and lets no time pass. *)
Lemma get_subreddit_posts_run (subreddit_name sort_type : string)
      (limit : option Z) (s : Session) :
  let run := RedditScraper.get_subreddit_posts config_max_posts listing
               subreddit_name sort_type limit s in
  fst run
  = Returns
      match listing subreddit_name (RedditScraper.listing_of sort_type)
                    (RedditScraper.limit_or_config config_max_posts limit) with
      | Returns posts => RedditScraper.collect posts
      | Raises _ => []
      end /\
  faults (snd run) = faults s /\
  clock (snd run) = clock s.
Proof.
  unfold RedditScraper.get_subreddit_posts, try_except, bind, logger, lift,
    ret, raise.
  cbn [fst snd].
  destruct (listing subreddit_name (RedditScraper.listing_of sort_type)
              (RedditScraper.limit_or_config config_max_posts limit));
    repeat split.
Qed.

(** The subreddit a search goes to. *)
Lemma search_posts_run (query : string) (subreddit_name : option string)
      (sort_type : string) (limit : Z) (s : Session) :
  let run := RedditScraper.search_posts search query subreddit_name
               sort_type limit s in
  let searched :=
    match subreddit_name with
    | Some name => if PyStr.truthy name then name else "all"
    | None => "all"
    end in
  fst run
  = Returns
      match search searched query sort_type limit with
      | Returns posts => RedditScraper.collect posts
      | Raises _ => []
      end /\
  faults (snd run) = faults s /\
  clock (snd run) = clock s.
Proof.
  unfold RedditScraper.search_posts, try_except.
  destruct subreddit_name as [name|]; [destruct (PyStr.truthy name)|];
    unfold bind, logger, lift, ret, raise; cbn [fst snd];
    match goal with
    | |- context [search ?n query sort_type limit] =>
        destruct (search n query sort_type limit)
    end;
    repeat split.
Qed.

(** Every collected dictionary is the one of a listed submission that is
    not stickied; none is added, and the order is kept. *)
Lemma collect_unstickied (posts : list RedditScraper.Praw.Submission) :
  Forall (fun x =>
            exists p, In p posts /\
                      RedditScraper.Praw.stickied p = false /\
                      x = RedditScraper.post_data_of p)
         (RedditScraper.collect posts).
Proof.
  unfold RedditScraper.collect. apply Forall_forall. intros x Hx.
  apply in_map_iff in Hx. destruct Hx as (p & Hx & Hp).
  apply filter_In in Hp. destruct Hp as [Hin Hs].
  exists p. split; [exact Hin|]. split; [|auto].
  destruct (RedditScraper.Praw.stickied p); [discriminate | reflexivity].
Qed.

Lemma listing_of_known (sort_type : string) :
  In (RedditScraper.listing_of sort_type) ["hot"; "new"; "top"; "rising"].
Proof.
  unfold RedditScraper.listing_of.
  repeat match goal with
         | |- context [String.eqb sort_type ?x] => destruct (String.eqb sort_type x)
         end; simpl; auto.
Qed.

End RedditFetch.

(** The admission check of the Reddit scraper is the one of the Twitter
    scraper on the endpoint [reddit_api], but for the text of the
    warning. *)
Lemma reddit_check_run (platform_id : Z) (s : Session) :
  let reddit := RedditScraper.check_rate_limits platform_id s in
  let twitter := TwitterScraper.check_rate_limits platform_id "reddit_api" s in
  fst reddit = fst twitter /\
  committed (snd reddit) = committed (snd twitter) /\
  pending (snd reddit) = pending (snd twitter) /\
  commit_log (snd reddit) = commit_log (snd twitter) /\
  faults (snd reddit) = faults (snd twitter) /\
  clock (snd reddit) = clock (snd twitter).
Proof.
  destruct s as [d p l f c lg].
  unfold RedditScraper.check_rate_limits, TwitterScraper.check_rate_limits,
    TwitterScraper.window_of, query_first, try_except, bind, round_trip,
    utcnow, logger, ret, view.
  cbn [fst snd committed pending commit_log faults clock log].
  destruct f as [|[|] fs]; cbn [fst snd committed pending commit_log faults clock log];
    try (repeat split; fail);
    match goal with
    | |- context [find ?q ?t] => destruct (find q t) as [rl|]
    end;
    cbn [fst snd committed pending commit_log faults clock log];
    try (repeat split; fail);
    destruct (c <? RateLimit.reset_time rl);
    try (repeat split; fail);
    destruct (RateLimit.requests_limit rl <=? RateLimit.requests_made rl);
    repeat split.
Qed.

Section TelegramFetch.

Variable config_max_messages : Z.
Variable get_entity : string -> outcome Z.
Variable iter_messages
  : Z -> option string -> Z
    -> TelegramScraper.iteration TelegramScraper.Telethon.Message.

Lemma quiet_get_channel_entity (channel_username : string) :
  quiet (TelegramScraper.get_channel_entity get_entity channel_username).
Proof.
  unfold TelegramScraper.get_channel_entity. split.
  - apply never_raises_try_except. intros e. apply quiet_log_and_return.
  - apply calm_try_except.
    + apply calm_bind; [apply calm_lift|]. intros entity. apply calm_ret.
    + intros e. apply quiet_log_and_return.
Qed.

Lemma quiet_scrape_channel_history (channel_username : string)
      (limit : option Z) :
  quiet (TelegramScraper.scrape_channel_history config_max_messages get_entity
           iter_messages channel_username limit).
Proof.
  unfold TelegramScraper.scrape_channel_history. split.
  - apply never_raises_bind; [apply quiet_get_channel_entity|].
    intros [entity|]; [|apply never_raises_ret].
    apply never_raises_bind; [apply never_raises_logger|]. intros _.
    destruct (iter_messages _ _ _);
      [destruct (TelegramScraper.collect _ _ _) | | ];
      try apply quiet_log_and_return.
    apply never_raises_bind; [apply never_raises_logger|]. intros _.
    apply never_raises_bind; [apply never_raises_sleep|]. intros _.
    apply never_raises_ret.
  - apply calm_bind; [apply quiet_get_channel_entity|].
    intros [entity|]; [|apply calm_ret].
    apply calm_bind; [apply calm_logger|]. intros _.
    destruct (iter_messages _ _ _);
      [destruct (TelegramScraper.collect _ _ _) | | ];
      try apply quiet_log_and_return.
    apply calm_bind; [apply calm_logger|]. intros _.
    apply calm_bind; [apply calm_sleep|]. intros _.
    apply calm_ret.
Qed.

Lemma quiet_search_messages (channel_username query : string) (limit : Z) :
  quiet (TelegramScraper.search_messages get_entity iter_messages
           channel_username query limit).
Proof.
  unfold TelegramScraper.search_messages. split.
  - apply never_raises_bind; [apply quiet_get_channel_entity|].
    intros [entity|]; [|apply never_raises_ret].
    apply never_raises_bind; [apply never_raises_logger|]. intros _.
    destruct (iter_messages _ _ _);
      [destruct (TelegramScraper.collect _ _ _) | | ];
      apply quiet_log_and_return.
  - apply calm_bind; [apply quiet_get_channel_entity|].
    intros [entity|]; [|apply calm_ret].
    apply calm_bind; [apply calm_logger|]. intros _.
    destruct (iter_messages _ _ _);
      [destruct (TelegramScraper.collect _ _ _) | | ];
      apply quiet_log_and_return.
Qed.

(** The messages a fetch keeps, and the time it lets pass. *)
Lemma scrape_channel_history_run (channel_username : string)
      (limit : option Z) (s : Session) :
  let run := TelegramScraper.scrape_channel_history config_max_messages
               get_entity iter_messages channel_username limit s in
  let iterated entity :=
    iter_messages entity None
      (TelegramScraper.limit_or_config config_max_messages limit) in
  fst run
  = Returns
      match get_entity channel_username with
      | Returns entity =>
          match iterated entity with
          | TelegramScraper.Iterated found =>
              collected channel_username entity found
          | _ => []
          end
      | Raises _ => []
      end /\
  clock (snd run)
  = clock s + match get_entity channel_username with
              | Returns entity =>
                  match iterated entity with
                  | TelegramScraper.FloodWaitError seconds => seconds
                  | _ => 0
                  end
              | Raises _ => 0
              end /\
  faults (snd run) = faults s.
Proof.
  unfold TelegramScraper.scrape_channel_history,
    TelegramScraper.get_channel_entity, try_except, bind at 1, lift.
  destruct (get_entity channel_username) as [entity|e];
    unfold bind, logger, ret, raise; cbn [fst snd clock faults].
  - unfold collected.
    destruct (iter_messages entity None _) as [found| |];
      [destruct (TelegramScraper.collect _ _ found) | | ];
      unfold bind, logger, ret, sleep; cbn [fst snd clock faults];
      repeat split; lia.
  - repeat split; lia.
Qed.

Lemma search_messages_run (channel_username query : string) (limit : Z)
      (s : Session) :
  let run := TelegramScraper.search_messages get_entity iter_messages
               channel_username query limit s in
  fst run
  = Returns
      match get_entity channel_username with
      | Returns entity =>
          match iter_messages entity (Some query) limit with
          | TelegramScraper.Iterated found =>
              collected channel_username entity found
          | _ => []
          end
      | Raises _ => []
      end /\
  clock (snd run) = clock s /\
  faults (snd run) = faults s.
Proof.
  unfold TelegramScraper.search_messages,
    TelegramScraper.get_channel_entity, try_except, bind at 1, lift.
  destruct (get_entity channel_username) as [entity|e];
    unfold bind, logger, ret, raise; cbn [fst snd clock faults].
  - unfold collected.
    destruct (iter_messages entity (Some query) limit) as [found| |];
      [destruct (TelegramScraper.collect _ _ found) | | ];
      unfold bind, logger, ret; cbn [fst snd clock faults]; repeat split.
  - repeat split.
Qed.

(** The loop over the messages returns the dictionaries of those that
    have a text when all of these are plain, and raises otherwise. *)
Lemma collect_plain (channel_username : string) (entity : Z)
      (found : list TelegramScraper.Telethon.Message) :
  match TelegramScraper.collect channel_username entity found with
  | Returns messages =>
      forallb plain (filter TelegramScraper.has_text found) = true /\
      messages = with_text channel_username entity found
  | Raises _ =>
      forallb plain (filter TelegramScraper.has_text found) = false
  end.
Proof.
  induction found as [|m rest IH];
    cbn [TelegramScraper.collect filter forallb with_text];
    [split; reflexivity|].
  change (TelegramScraper.has_text m)
    with (match TelegramScraper.Telethon.text m with
          | Some t => PyStr.truthy t
          | None => false
          end).
  destruct (TelegramScraper.Telethon.text m) as [[|c t]|] eqn:Et;
    cbn [PyStr.truthy forallb]; try exact IH.
  unfold TelegramScraper.message_data_of, TelegramScraper.replies_of,
    TelegramScraper.from_id_of, plain.
  rewrite Et.
  destruct (TelegramScraper.Telethon.replies m) as [n|]; [reflexivity|].
  destruct (TelegramScraper.Telethon.from_id m) as [[u|g|ch]|];
    cbn [andb]; try reflexivity;
    (destruct (TelegramScraper.collect channel_username entity rest)
       as [messages|e]; [|exact IH]);
    destruct IH as [Hall Hm]; (split; [exact Hall|]);
    rewrite Hm; reflexivity.
Qed.

Lemma collected_plain (channel_username : string) (entity : Z)
      (found : list TelegramScraper.Telethon.Message) :
  collected channel_username entity found
  = if forallb plain (filter TelegramScraper.has_text found)
    then with_text channel_username entity found
    else [].
Proof.
  unfold collected.
  pose proof (collect_plain channel_username entity found) as H.
  destruct (TelegramScraper.collect channel_username entity found)
    as [messages|e].
  - destruct H as [Hall Hm]. rewrite Hall. exact Hm.
  - rewrite H. reflexivity.
Qed.

(** Every dictionary of a message with a text carries the text, the
    channel, and no reply. *)
Lemma with_text_kept (channel_username : string) (entity : Z)
      (found : list TelegramScraper.Telethon.Message) :
  Forall (fun x =>
            TelegramScraper.channel x = channel_username /\
            TelegramScraper.channel_id x = entity /\
            PyStr.truthy (TelegramScraper.text x) = true /\
            TelegramScraper.replies x = 0 /\
            exists m, In m found /\
                      TelegramScraper.Telethon.text m
                        = Some (TelegramScraper.text x) /\
                      TelegramScraper.id x = TelegramScraper.Telethon.id m)
         (with_text channel_username entity found).
Proof.
  induction found as [|m rest IH]; cbn [with_text]; [constructor|].
  assert (Hrest : Forall (fun x =>
            TelegramScraper.channel x = channel_username /\
            TelegramScraper.channel_id x = entity /\
            PyStr.truthy (TelegramScraper.text x) = true /\
            TelegramScraper.replies x = 0 /\
            exists m', In m' (m :: rest) /\
                      TelegramScraper.Telethon.text m'
                        = Some (TelegramScraper.text x) /\
                      TelegramScraper.id x = TelegramScraper.Telethon.id m')
         (with_text channel_username entity rest)).
  { eapply Forall_impl; [|exact IH].
    intros x (H1 & H2 & H3 & H4 & m' & Hin & H5 & H6).
    repeat split; auto. exists m'. split; [right; exact Hin | auto]. }
  destruct (TelegramScraper.Telethon.text m) as [[|c t]|] eqn:Et;
    try exact Hrest.
  constructor; [|exact Hrest].
  unfold plain_data.
  cbn [TelegramScraper.channel TelegramScraper.channel_id TelegramScraper.text
       TelegramScraper.id TelegramScraper.replies PyStr.truthy].
  repeat split. exists m. split; [left; reflexivity | auto].
Qed.

End TelegramFetch.

(** ** What a cycle makes of the store *)

Lemma returned_nonneg (o : option Post.t) : 0 <= returned o.
Proof. destruct o; cbn; lia. Qed.

Lemma quiet_logger (lv : level) (msg : string) : quiet (logger lv msg).
Proof. split; [apply never_raises_logger | apply calm_logger]. Qed.

Lemma quiet_sleep (n : Z) : quiet (sleep n).
Proof. split; [apply never_raises_sleep | apply calm_sleep]. Qed.

Section CycleSteps.

Variable analyze : string -> SentimentAnalyzer.SentimentResult.
Variable s0 : Session.
Variable n0 : Z.

(** One save, on a key that is stored or not, under any plan of
    failures. *)
Lemma save_step (save : M (option Post.t)) (key already text : string)
      (post : Post.t) (wf : Prop) (n : Z) :
  Post.id post = key ->
  StoreSpec.keeps_existing save key already ->
  StoreSpec.saves_new analyze save key post text wf ->
  hoare (cycle_inv analyze s0 n0 n) save
        (fun o s' => cycle_inv analyze s0 n0 (n + returned o) s').
Proof.
  intros Hid Hkeep Hnew s (Hp & Hf & ds & k & Hl & Hev & Hk).
  destruct (StoreSpec.lookup key (committed s)) as [p|] eqn:Hlook.
  - destruct (Hkeep s p Hp Hlook) as (Hc & Hp' & Hlog & Hf' & Hr).
    assert (Ho : exists o, fst (save s) = Returns o).
    { destruct (faults s) as [|[|] fs];
        [exists (Some p); apply Hr | exists None; exact Hr
         | exists (Some p); apply Hr]. }
    destruct Ho as [o Ho]. exists o, (snd (save s)). split.
    + apply injective_projections; [exact Ho | reflexivity].
    + split; [exact Hp'|]. split; [auto|].
      exists ds, k. rewrite Hlog, Hc.
      pose proof (returned_nonneg o). repeat split; auto; lia.
  - destruct (Hnew s Hp Hlook) as (o & ds1 & Ho & Hp' & Hlog & Hout & _ & Hf').
    exists o, (snd (save s)). split.
    + apply injective_projections; [exact Ho | reflexivity].
    + split; [exact Hp'|]. split; [auto|].
      exists (ds ++ ds1)%list, (k + returned o).
      pose proof (returned_nonneg o).
      split; [rewrite Hlog, Hl; symmetry; apply app_assoc|].
      split; [|lia].
      apply (evolves_save analyze (committed s0) ds k (committed s) post text);
        [exact Hev | rewrite Hid; exact Hlook | exact Hout].
Qed.

Lemma save_item_step (platform_id : Source -> Z) (x : RawItem) (n : Z) :
  hoare (cycle_inv analyze s0 n0 n) (save_item analyze platform_id x)
        (fun o s' => cycle_inv analyze s0 n0 (n + returned o) s').
Proof.
  destruct x as [t|p|m]; cbn [save_item].
  - apply (save_step _ (TwitterScraper.post_key t) (tweet_exists_msg t)
             (TwitterScraper.text t) (tweet_post (platform_id Twitter) t)
             (tweet_well_formed t));
      [reflexivity | apply save_tweet_keeps | apply save_tweet_saves].
  - apply (save_step _ (RedditScraper.post_key p) (submission_exists_msg p)
             (RedditScraper.content_of p)
             (RedditScraper.new_post (platform_id Reddit) p) True);
      [reflexivity | apply save_post_keeps | apply save_post_saves].
  - apply (save_step _ (TelegramScraper.post_key m) (message_exists_msg m)
             (TelegramScraper.text m)
             (TelegramScraper.new_post (platform_id Telegram) m) True);
      [reflexivity | apply save_message_keeps | apply save_message_saves].
Qed.

(** [for item in items: post = save(item); if post: total += 1] *)
Lemma counting_loop {X : Type} (save : X -> M (option Post.t)) :
  (forall x n,
      hoare (cycle_inv analyze s0 n0 n) (save x)
            (fun o s' => cycle_inv analyze s0 n0 (n + returned o) s')) ->
  forall (xs : list X) (n : Z),
    hoare (cycle_inv analyze s0 n0 n)
          (for_fold xs n
             (fun total x =>
                post <- save x ;;
                ret (match post with
                     | Some _ => total + 1
                     | None => total
                     end)))
          (cycle_inv analyze s0 n0).
Proof.
  intros Hsave xs n.
  apply (hoare_for_fold (cycle_inv analyze s0 n0)). intros n1 x.
  eapply hoare_bind; [apply Hsave|].
  intros o. apply hoare_ret. intros s.
  destruct o; cbn [returned]; [auto|].
  replace (n1 + 0) with n1 by lia. auto.
Qed.

(** The body of the loop of a cycle: a record in the log, a fetch, the
    saves, and a pause. *)
Lemma batch {X : Type} (fetch : M (list X)) (save : X -> M (option Post.t))
      (msg : string) (n : Z) :
  quiet fetch ->
  (forall x n,
      hoare (cycle_inv analyze s0 n0 n) (save x)
            (fun o s' => cycle_inv analyze s0 n0 (n + returned o) s')) ->
  hoare (cycle_inv analyze s0 n0 n)
        (logger INFO msg ;;
         items <- fetch ;;
         total <-
           for_fold items n
             (fun total x =>
                post <- save x ;;
                ret (match post with
                     | Some _ => total + 1
                     | None => total
                     end)) ;;
         sleep 2 ;;
         ret total)
        (cycle_inv analyze s0 n0).
Proof.
  intros Hfetch Hsave.
  eapply hoare_bind; [apply hoare_quiet, quiet_logger|]. intros ?.
  eapply hoare_bind; [apply hoare_quiet, Hfetch|]. intros items.
  eapply hoare_bind; [apply counting_loop, Hsave|]. intros total.
  eapply hoare_bind; [apply hoare_quiet, quiet_sleep|]. intros ?.
  apply hoare_ret. auto.
Qed.

(** The end of a cycle: the total is written in the log and returned. *)
Lemma report (msg : Z -> string) (n : Z) :
  hoare (cycle_inv analyze s0 n0 n)
        (logger INFO (msg n) ;; ret n)
        (cycle_inv analyze s0 n0).
Proof.
  eapply hoare_bind; [apply hoare_quiet, quiet_logger|]. intros ?.
  apply hoare_ret. auto.
Qed.

End CycleSteps.

(** Every cycle of the three scrapers, from a state without an open
    transaction and under any plan of failures, returns a count and
    leaves a store that a sequence of saves explains. *)
Lemma run_cycle_evolves (w : Setup) (c : Cycle) (s : Session) :
  pending s = [] ->
  exists (n : Z) (s' : Session),
    run_cycle w c s = (Returns n, s') /\
    cycle_inv (analyzer w) s 0 n s'.
Proof.
  intros Hp.
  assert (Hstart : cycle_inv (analyzer w) s 0 0 s).
  { split; [exact Hp|]. split; [auto|].
    exists [], 0. split; [symmetry; apply app_nil_r|].
    split; [constructor | lia]. }
  enough (H : hoare (cycle_inv (analyzer w) s 0 0) (run_cycle w c)
                    (cycle_inv (analyzer w) s 0))
    by exact (H s Hstart).
  clear Hstart.
  destruct c as [keywords|user_ids|subreddits sort_type|keywords subreddits
                 |channels|keywords]; cbn [run_cycle].
  - unfold TwitterScraper.scrape_keywords.
    eapply hoare_bind; [|intros n; apply (report _ _ _ (fun n => _))].
    apply (hoare_for_fold (cycle_inv (analyzer w) s 0)). intros n keyword.
    apply batch; [apply quiet_search_tweets|].
    intros t n'. apply (save_item_step _ _ _ (platform_of w) (TweetItem t)).
  - unfold TwitterScraper.scrape_user_timelines.
    eapply hoare_bind; [|intros n; apply (report _ _ _ (fun n => _))].
    apply (hoare_for_fold (cycle_inv (analyzer w) s 0)). intros n user_id.
    apply batch; [apply quiet_get_user_timeline|].
    intros t n'. apply (save_item_step _ _ _ (platform_of w) (TweetItem t)).
  - unfold RedditScraper.scrape_subreddits.
    eapply hoare_bind; [|intros n; apply (report _ _ _ (fun n => _))].
    apply (hoare_for_fold (cycle_inv (analyzer w) s 0)). intros n subreddit.
    apply batch; [apply quiet_get_subreddit_posts|].
    intros p n'. apply (save_item_step _ _ _ (platform_of w) (SubmissionItem p)).
  - unfold RedditScraper.scrape_keywords.
    eapply hoare_bind; [|intros n; apply (report _ _ _ (fun n => _))].
    apply (hoare_for_fold (cycle_inv (analyzer w) s 0)). intros n keyword.
    apply (hoare_for_fold (cycle_inv (analyzer w) s 0)). intros n' subreddit.
    apply batch; [apply quiet_search_posts|].
    intros p n''. apply (save_item_step _ _ _ (platform_of w) (SubmissionItem p)).
  - unfold TelegramScraper.scrape_channels.
    eapply hoare_bind; [|intros n; apply (report _ _ _ (fun n => _))].
    apply (hoare_for_fold (cycle_inv (analyzer w) s 0)). intros n channel.
    apply batch; [apply quiet_scrape_channel_history|].
    intros m n'. apply (save_item_step _ _ _ (platform_of w) (MessageItem m)).
  - unfold TelegramScraper.scrape_keywords.
    eapply hoare_bind; [|intros n; apply (report _ _ _ (fun n => _))].
    apply (hoare_for_fold (cycle_inv (analyzer w) s 0)). intros n channel.
    apply (hoare_for_fold (cycle_inv (analyzer w) s 0)). intros n' keyword.
    apply batch; [apply quiet_search_messages|].
    intros m n''. apply (save_item_step _ _ _ (platform_of w) (MessageItem m)).
Qed.

(** ** Invariants of the store under saves *)

Lemma extends_refl {A : Type} (l : list A) : extends l l.
Proof. exists []. symmetry. apply app_nil_r. Qed.

Lemma extends_trans {A : Type} (l1 l2 l3 : list A) :
  extends l1 l2 -> extends l2 l3 -> extends l1 l3.
Proof.
  intros [r1 H1] [r2 H2]. exists (r1 ++ r2)%list.
  rewrite H2, H1. symmetry. apply app_assoc.
Qed.

Lemma extends_one {A : Type} (l rows : list A) : extends l (l ++ rows)%list.
Proof. exists rows. reflexivity. Qed.

Lemma only_appends_refl (d : DB.t) : only_appends d d.
Proof. repeat split; auto using extends_refl. Qed.

Lemma only_appends_trans (d1 d2 d3 : DB.t) :
  only_appends d1 d2 -> only_appends d2 d3 -> only_appends d1 d3.
Proof.
  intros (P & S & K & H1 & H2 & H3 & H4 & H5)
         (P' & S' & K' & H1' & H2' & H3' & H4' & H5').
  repeat split; try congruence; eauto using extends_trans.
Qed.

Lemma NoDup_snoc {A : Type} (l : list A) (x : A) :
  NoDup l -> ~ In x l -> NoDup (l ++ [x]).
Proof.
  intros Hl Hx. induction Hl as [|y l Hy Hl IH]; cbn [app].
  - constructor; [intros [] | constructor].
  - constructor.
    + intros Hin. apply in_app_or in Hin. destruct Hin as [Hin|[E|[]]].
      * exact (Hy Hin).
      * apply Hx. left. symmetry. exact E.
    + apply IH. intros Hin. apply Hx. right. exact Hin.
Qed.

Section StoreInvariants.

Import StoreSpec.

Variable analyze : string -> SentimentAnalyzer.SentimentResult.

Lemma error_logs_with_post (d : DB.t) (post : Post.t) :
  DB.error_logs (with_post d post) = DB.error_logs d.
Proof. destruct d; reflexivity. Qed.

Lemma error_logs_with_enriched_post (d : DB.t) (post : Post.t) (text : string) :
  DB.error_logs (with_enriched_post analyze d post text) = DB.error_logs d.
Proof.
  unfold with_enriched_post. cbn [flush fold_left].
  assert (H : forall rows d0,
             DB.error_logs (fold_left apply_write (map AddKeywordMatch rows) d0)
             = DB.error_logs d0).
  { induction rows as [|r rows IH]; intros d0; cbn [map fold_left];
      [reflexivity|].
    rewrite IH. destruct d0; reflexivity. }
  rewrite H. destruct d; reflexivity.
Qed.

Lemma only_appends_with_post (d : DB.t) (post : Post.t) :
  only_appends d (with_post d post).
Proof.
  destruct (with_post_tables d post) as (P1 & P2 & P3 & P4 & P5 & P6).
  unfold only_appends.
  rewrite P1, P2, P3, P4, P5, P6, error_logs_with_post.
  unfold with_post at 1. rewrite apply_write_keywords.
  repeat split; auto using extends_refl, extends_one.
Qed.

Lemma only_appends_with_enriched_post (d : DB.t) (post : Post.t) (text : string) :
  only_appends d (with_enriched_post analyze d post text).
Proof.
  destruct (with_enriched_post_tables analyze d post text)
    as (P1 & P2 & P3 & P4 & P5 & P6).
  cbv zeta in *. unfold only_appends.
  rewrite P1, P2, P3, P4, P5, P6, error_logs_with_enriched_post.
  unfold with_enriched_post at 1. rewrite flush_keywords.
  unfold with_post at 1. rewrite apply_write_keywords.
  repeat split; auto using extends_one.
Qed.

(** What holds of a store, and still holds once an item is added, alone
    or with its enrichment, under a key that was not stored, holds of
    every state committed by a sequence of saves. *)
Lemma evolves_invariant (Inv : DB.t -> Prop) :
  (forall d post text,
      Inv d -> lookup (Post.id post) d = None ->
      Inv (with_post d post) /\ Inv (with_enriched_post analyze d post text)) ->
  forall d ds k d',
    evolves analyze d ds k d' -> Inv d -> Inv d' /\ Forall Inv ds.
Proof.
  intros Hstep d ds k d' Hev Hd.
  induction Hev as [|ds k d1 post text o d2 ds1 Hev IH Hnone Hout].
  - split; [exact Hd | constructor].
  - destruct IH as [Hd1 Hds].
    destruct (Hstep d1 post text Hd1 Hnone) as [Ha He].
    destruct Hout.
    + rewrite app_nil_r. split; assumption.
    + split; [exact Ha|]. apply Forall_app. split; [exact Hds|].
      constructor; [exact Ha | constructor].
    + split; [exact He|]. apply Forall_app. split; [exact Hds|].
      constructor; [exact Ha|]. constructor; [exact He | constructor].
Qed.

Lemma evolves_only_appends (d : DB.t) (ds : list DB.t) (k : Z) (d' : DB.t) :
  evolves analyze d ds k d' ->
  only_appends d d' /\ Forall (only_appends d) ds.
Proof.
  intros Hev.
  apply (evolves_invariant (only_appends d)) with (k := k) (d := d);
    [|exact Hev | apply only_appends_refl].
  intros d1 post text Hd1 _. split.
  - apply (only_appends_trans d d1); [exact Hd1 | apply only_appends_with_post].
  - apply (only_appends_trans d d1);
      [exact Hd1 | apply only_appends_with_enriched_post].
Qed.

(** The sentiment annotations added are as many as the saves that stored
    an item with its enrichment. *)
Lemma evolves_count (d : DB.t) (ds : list DB.t) (k : Z) (d' : DB.t) :
  evolves analyze d ds k d' ->
  Z.of_nat (List.length (DB.sentiments d'))
  = Z.of_nat (List.length (DB.sentiments d)) + k /\
  Z.of_nat (List.length (DB.posts d)) + k
  <= Z.of_nat (List.length (DB.posts d')).
Proof.
  intros Hev.
  induction Hev as [|ds k d1 post text o d2 ds1 Hev IH Hnone Hout].
  - split; lia.
  - destruct IH as [IHs IHp].
    destruct (with_post_tables d1 post) as (P1 & P2 & _).
    destruct (with_enriched_post_tables analyze d1 post text) as (E1 & E2 & _).
    cbv zeta in *.
    destruct Hout; cbn [returned].
    + split; lia.
    + rewrite P1, P2, length_app. cbn [List.length]. split; lia.
    + rewrite E1, E2, !length_app. cbn [List.length]. split; lia.
Qed.

Lemma not_stored_not_in (key : string) (d : DB.t) :
  lookup key d = None -> ~ In key (map Post.id (DB.posts d)).
Proof.
  unfold lookup. intros Hnone Hin.
  apply in_map_iff in Hin. destruct Hin as (p & Hid & Hp).
  pose proof (find_none _ _ Hnone p Hp) as H. cbv beta in H.
  rewrite Hid, String.eqb_refl in H. discriminate.
Qed.

Lemma stored_in (key : string) (d : DB.t) :
  stored key d = true -> In key (map Post.id (DB.posts d)).
Proof.
  unfold stored, lookup. intros H.
  destruct (find (fun p => String.eqb (Post.id p) key) (DB.posts d))
    as [p|] eqn:Hf; [|discriminate].
  apply find_some in Hf. destruct Hf as [Hin Heq].
  apply String.eqb_eq in Heq. apply in_map_iff. exists p. auto.
Qed.

Lemma stored_after_append (key : string) (d d' : DB.t) (post : Post.t) :
  DB.posts d' = (DB.posts d ++ [post])%list ->
  stored key d = true -> stored key d' = true.
Proof.
  unfold stored, lookup. intros E H. rewrite E.
  destruct (find (fun p => String.eqb (Post.id p) key) (DB.posts d))
    as [p|] eqn:Hf; [|discriminate].
  rewrite (lookup_app_old key _ post p Hf). reflexivity.
Qed.

Lemma stored_new (d d' : DB.t) (post : Post.t) :
  DB.posts d' = (DB.posts d ++ [post])%list ->
  lookup (Post.id post) d = None ->
  stored (Post.id post) d' = true.
Proof.
  unfold stored, lookup. intros E H. rewrite E.
  rewrite (lookup_app_new (Post.id post) _ post H eq_refl). reflexivity.
Qed.

Lemma unique_keys_step (d : DB.t) (post : Post.t) (text : string) :
  unique_keys d -> lookup (Post.id post) d = None ->
  unique_keys (with_post d post) /\
  unique_keys (with_enriched_post analyze d post text).
Proof.
  intros Hu Hnone. unfold unique_keys in *.
  destruct (with_post_tables d post) as (P1 & _).
  destruct (with_enriched_post_tables analyze d post text) as (E1 & _).
  cbv zeta in *. rewrite P1, E1, map_app. cbn [map].
  split; apply NoDup_snoc; auto using not_stored_not_in.
Qed.

(** References and single annotation go together: an annotation is not
    added twice because the item it belongs to is not stored twice. *)
Lemma references_step (d : DB.t) (post : Post.t) (text : string) :
  references_stored d /\ annotated_once d ->
  lookup (Post.id post) d = None ->
  (references_stored (with_post d post) /\ annotated_once (with_post d post)) /\
  (references_stored (with_enriched_post analyze d post text) /\
   annotated_once (with_enriched_post analyze d post text)).
Proof.
  intros [[Hs Hk] Ha] Hnone.
  destruct (with_post_tables d post) as (P1 & P2 & P3 & _).
  destruct (with_enriched_post_tables analyze d post text) as (E1 & E2 & E3 & _).
  cbv zeta in *.
  assert (Kp : DB.keywords (with_post d post) = DB.keywords d)
    by apply apply_write_keywords.
  assert (Ke : DB.keywords (with_enriched_post analyze d post text)
               = DB.keywords d).
  { unfold with_enriched_post. rewrite flush_keywords. exact Kp. }
  assert (Hnew : ~ In (Post.id post) (map Sentiment.post_id (DB.sentiments d))).
  { intros Hin. apply in_map_iff in Hin. destruct Hin as (r & Hr & Hin).
    rewrite Forall_forall in Hs. specialize (Hs r Hin). rewrite Hr in Hs.
    unfold stored in Hs. rewrite Hnone in Hs. discriminate. }
  unfold references_stored, annotated_once.
  rewrite P2, P3, E2, E3, Kp, Ke.
  split; split.
  - split.
    + eapply Forall_impl; [|exact Hs]. intros r.
      apply (stored_after_append _ d _ post P1).
    + eapply Forall_impl; [|exact Hk]. intros r [H1 H2].
      split; [apply (stored_after_append _ d _ post P1 H1) | exact H2].
  - exact Ha.
  - split.
    + apply Forall_app. split.
      * eapply Forall_impl; [|exact Hs]. intros r.
        apply (stored_after_append _ d _ post E1).
      * constructor; [|constructor].
        apply (stored_new d _ post E1 Hnone).
    + apply Forall_app. split.
      * eapply Forall_impl; [|exact Hk]. intros r [H1 H2].
        split; [apply (stored_after_append _ d _ post E1 H1) | exact H2].
      * eapply Forall_impl; [|apply keyword_rows_counted].
        intros r (Hid & k & Hin & Hkid & _). split.
        -- rewrite Hid. apply (stored_new d _ post E1 Hnone).
        -- rewrite Hkid. apply in_map. exact Hin.
  - rewrite map_app. cbn [map]. apply NoDup_snoc; assumption.
Qed.

End StoreInvariants.

(** ** The annotations of the analyzer *)

Section AnalyzerAnnotations.

Import SentimentAnalyzer.

Variable re_normalise : string -> string.
Variable word_tokenize : string -> outcome (list string).
Variable stop_words : list string.
Variable lemmatize : string -> string.
Variable text_blob : string -> outcome (PyFloat.float * PyFloat.float).

Let analyze' :=
  analyze re_normalise word_tokenize stop_words lemmatize text_blob.

(** The label is one of the three keys of the summary, and the version
    is the one of the analyzer, on every path. *)
Lemma analyze_label_known (text : string) :
  In (sentiment (analyze' text)) ["positive"; "negative"; "neutral"] /\
  model_version (analyze' text) = model_version_tag.
Proof.
  unfold analyze', analyze, analyze_body.
  destruct (is_blank text); [simpl; auto|].
  destruct (extract_features _ _ _ _ text) as [feats|e]; [|simpl; auto].
  destruct (text_blob text) as [[p s]|e]; [|simpl; auto].
  cbn [sentiment model_version].
  destruct (PyFloat.ltb _ _); [simpl; auto|].
  destruct (PyFloat.ltb _ _); simpl; auto.
Qed.

Lemma sentiment_row_well_scored (post : Post.t) (text : string) :
  well_scored (StoreSpec.sentiment_row analyze' post text).
Proof.
  unfold well_scored, StoreSpec.sentiment_row.
  cbn [Sentiment.sentiment_type Sentiment.sentiment_score
       Sentiment.confidence_score Sentiment.model_version].
  destruct (analyze_label_known text) as [Hl Hv].
  destruct (analyze_bounds re_normalise word_tokenize stop_words lemmatize
              text_blob text) as [Hs Hc].
  auto.
Qed.

Lemma well_scored_step (d : DB.t) (post : Post.t) (text : string) :
  Forall well_scored (DB.sentiments d) ->
  Forall well_scored (DB.sentiments (StoreSpec.with_post d post)) /\
  Forall well_scored
         (DB.sentiments (StoreSpec.with_enriched_post analyze' d post text)).
Proof.
  intros H.
  destruct (with_post_tables d post) as (_ & P2 & _).
  destruct (with_enriched_post_tables analyze' d post text) as (_ & E2 & _).
  cbv zeta in *. rewrite P2, E2. split; [exact H|].
  apply Forall_app. split; [exact H|].
  constructor; [apply sentiment_row_well_scored | constructor].
Qed.

End AnalyzerAnnotations.

(** ** The cycles, under any plan of failures *)

(** X1.  Each of the six cycle methods ([scrape_keywords] and
    [scrape_user_timelines] of the Twitter scraper, [scrape_subreddits]
    and [scrape_keywords] of the Reddit scraper, [scrape_channels] and
    [scrape_keywords] of the Telegram scraper), started without an open
    transaction, returns a count whatever the clients answer and whichever
    round trips to the database fail; it leaves no open transaction, and
    every state it commits is the initial store with items, sentiment
    annotations and keyword matches appended: no row of these three
    tables is changed or removed, and the platforms, the tracked
    keywords, the rate-limit windows, the jobs and the error log are
    untouched. *)
Theorem cycle_returns_and_only_appends :
  forall (w : Setup) (c : Cycle) (s : Session),
    pending s = [] ->
    let run := run_cycle w c s in
    exists (n : Z) (ds : list DB.t),
      fst run = Returns n /\
      pending (snd run) = [] /\
      commit_log (snd run) = (commit_log s ++ ds)%list /\
      only_appends (committed s) (committed (snd run)) /\
      Forall (only_appends (committed s)) ds.
Proof.
  intros w c s Hp run. subst run.
  destruct (run_cycle_evolves w c s Hp)
    as (n & s' & E & Hp' & _ & ds & k & Hl & Hev & _).
  rewrite E. cbn [fst snd].
  destruct (evolves_only_appends (analyzer w) _ _ _ _ Hev) as [Hd Hds].
  exists n, ds. auto.
Qed.

(** X1 on the sample clients: the subreddit cycle, with a failure of the
    third round trip to the database. *)
Lemma cycle_returns_and_only_appends_witness :
  let run := run_cycle SampleSetup.setup (RedditSubreddits None "new")
               SampleSetup.faulty in
  exists (n : Z) (ds : list DB.t),
    fst run = Returns n /\
    pending (snd run) = [] /\
    commit_log (snd run) = (commit_log SampleSetup.faulty ++ ds)%list /\
    only_appends (committed SampleSetup.faulty) (committed (snd run)) /\
    Forall (only_appends (committed SampleSetup.faulty)) ds.
Proof.
  exact (cycle_returns_and_only_appends SampleSetup.setup
           (RedditSubreddits None "new") SampleSetup.faulty eq_refl).
Defined.

(** X2.  The count a cycle returns is never negative and never below the
    number of sentiment annotations the cycle added, which is the number
    of items it stored with their enrichment; the items it added are at
    least as many as these. *)
Theorem cycle_count_covers_enriched_items :
  forall (w : Setup) (c : Cycle) (s : Session),
    pending s = [] ->
    let run := run_cycle w c s in
    let rows (table : DB.t -> nat) : Z :=
      Z.of_nat (table (committed (snd run))) - Z.of_nat (table (committed s)) in
    exists n : Z,
      fst run = Returns n /\
      0 <= rows (fun d => List.length (DB.sentiments d)) <= n /\
      rows (fun d => List.length (DB.sentiments d))
      <= rows (fun d => List.length (DB.posts d)).
Proof.
  intros w c s Hp run rows. subst rows run.
  destruct (run_cycle_evolves w c s Hp)
    as (n & s' & E & Hp' & _ & ds & k & Hl & Hev & Hk).
  rewrite E. cbn [fst snd].
  destruct (evolves_count (analyzer w) _ _ _ _ Hev) as [Hs Hposts].
  exists n. split; [reflexivity|]. lia.
Qed.

(** X2 on the sample clients: the channel cycle of the Telegram
    scraper. *)
Lemma cycle_count_covers_enriched_items_witness :
  let s := open_session Sample.db [] 0 in
  let run := run_cycle SampleSetup.setup (TelegramChannels None) s in
  let rows (table : DB.t -> nat) : Z :=
    Z.of_nat (table (committed (snd run))) - Z.of_nat (table (committed s)) in
  exists n : Z,
    fst run = Returns n /\
    0 <= rows (fun d => List.length (DB.sentiments d)) <= n /\
    rows (fun d => List.length (DB.sentiments d))
    <= rows (fun d => List.length (DB.posts d)).
Proof.
  exact (cycle_count_covers_enriched_items SampleSetup.setup
           (TelegramChannels None) (open_session Sample.db [] 0) eq_refl).
Defined.

(** X3.  No cycle stores an identity key twice: if the keys of the stored
    items are pairwise different when a cycle starts, they are so in
    every state the cycle commits, under any plan of failures and for any
    answers of the clients (the same item fetched twice in one cycle
    included). *)
Theorem cycle_keeps_identity_keys_unique :
  forall (w : Setup) (c : Cycle) (s : Session),
    pending s = [] ->
    unique_keys (committed s) ->
    let run := run_cycle w c s in
    unique_keys (committed (snd run)) /\
    exists ds : list DB.t,
      commit_log (snd run) = (commit_log s ++ ds)%list /\
      Forall unique_keys ds.
Proof.
  intros w c s Hp Hu run. subst run.
  destruct (run_cycle_evolves w c s Hp)
    as (n & s' & E & Hp' & _ & ds & k & Hl & Hev & _).
  rewrite E. cbn [snd].
  destruct (evolves_invariant (analyzer w) unique_keys
              (fun d post text => unique_keys_step (analyzer w) d post text)
              _ _ _ _ Hev Hu) as [Hd Hds].
  split; [exact Hd|]. exists ds. auto.
Qed.

(** X3 on the sample clients: the keyword cycle of the Reddit scraper on
    the store that holds the sample tweet. *)
Lemma cycle_keeps_identity_keys_unique_witness :
  let s := open_session Sample.db_with_tweet [false; false; true] 0 in
  let run := run_cycle SampleSetup.setup (RedditKeywords None None) s in
  unique_keys (committed (snd run)) /\
  exists ds : list DB.t,
    commit_log (snd run) = (commit_log s ++ ds)%list /\
    Forall unique_keys ds.
Proof.
  apply (cycle_keeps_identity_keys_unique SampleSetup.setup
           (RedditKeywords None None)
           (open_session Sample.db_with_tweet [false; false; true] 0)).
  - reflexivity.
  - vm_compute. constructor; [intros [] | constructor].
Defined.

(** X4.  No cycle leaves a dangling or doubled annotation: if every
    sentiment annotation and every keyword match belongs to a stored item
    (and every match to a tracked keyword), and no item has two sentiment
    annotations, then the same holds in every state the cycle commits,
    under any plan of failures. *)
Theorem cycle_keeps_annotations_attached :
  forall (w : Setup) (c : Cycle) (s : Session),
    pending s = [] ->
    references_stored (committed s) ->
    annotated_once (committed s) ->
    let run := run_cycle w c s in
    (references_stored (committed (snd run)) /\
     annotated_once (committed (snd run))) /\
    exists ds : list DB.t,
      commit_log (snd run) = (commit_log s ++ ds)%list /\
      Forall (fun d => references_stored d /\ annotated_once d) ds.
Proof.
  intros w c s Hp Hr Ha run. subst run.
  destruct (run_cycle_evolves w c s Hp)
    as (n & s' & E & Hp' & _ & ds & k & Hl & Hev & _).
  rewrite E. cbn [snd].
  destruct (evolves_invariant (analyzer w)
              (fun d => references_stored d /\ annotated_once d)
              (fun d post text => references_step (analyzer w) d post text)
              _ _ _ _ Hev (conj Hr Ha)) as [Hd Hds].
  split; [exact Hd|]. exists ds. auto.
Qed.

(** X4 on the sample clients: the timeline cycle of the Twitter scraper,
    with a failure of the fourth round trip to the database. *)
Lemma cycle_keeps_annotations_attached_witness :
  let s := open_session Sample.db [false; false; false; true] 0 in
  let run := run_cycle SampleSetup.setup (TwitterTimelines ["9"]) s in
  (references_stored (committed (snd run)) /\
   annotated_once (committed (snd run))) /\
  exists ds : list DB.t,
    commit_log (snd run) = (commit_log s ++ ds)%list /\
    Forall (fun d => references_stored d /\ annotated_once d) ds.
Proof.
  apply (cycle_keeps_annotations_attached SampleSetup.setup
           (TwitterTimelines ["9"])
           (open_session Sample.db [false; false; false; true] 0)).
  - reflexivity.
  - split; constructor.
  - constructor.
Defined.

(** X5.  With the analyzer of [sentiment_analyzer.py] (whatever its
    tokenizer, lemmatizer and base signal do), every sentiment annotation
    a cycle stores has one of the three labels, a score in [-1, 1], a
    confidence in [0, 1] and the version tag of the analyzer: if this
    holds of the stored annotations when the cycle starts, it holds of
    them when it ends. *)
Theorem cycle_stores_bounded_annotations :
  forall (w : Setup) (c : Cycle) (s : Session)
         (re_normalise : string -> string)
         (word_tokenize : string -> outcome (list string))
         (stop_words : list string) (lemmatize : string -> string)
         (text_blob : string -> outcome (PyFloat.float * PyFloat.float)),
    analyzer w = SentimentAnalyzer.analyze re_normalise word_tokenize
                   stop_words lemmatize text_blob ->
    pending s = [] ->
    Forall well_scored (DB.sentiments (committed s)) ->
    Forall well_scored (DB.sentiments (committed (snd (run_cycle w c s)))).
Proof.
  intros w c s re tok stop lem blob Ha Hp Hw.
  destruct (run_cycle_evolves w c s Hp)
    as (n & s' & E & Hp' & _ & ds & k & Hl & Hev & _).
  rewrite E. cbn [snd]. rewrite Ha in Hev.
  apply (evolves_invariant _
           (fun d => Forall well_scored (DB.sentiments d))
           (fun d post text H _ =>
              well_scored_step re tok stop lem blob d post text H)
           _ _ _ _ Hev Hw).
Qed.

(** X5 on the sample clients: the keyword cycle of the Telegram
    scraper. *)
Lemma cycle_stores_bounded_annotations_witness :
  Forall well_scored
         (DB.sentiments
            (committed
               (snd (run_cycle SampleSetup.setup (TelegramKeywords None)
                       (open_session Sample.db [] 0))))).
Proof.
  apply (cycle_stores_bounded_annotations SampleSetup.setup
           (TelegramKeywords None) (open_session Sample.db [] 0)
           (fun t => t) (fun t => Returns [t]) [] (fun t => t)
           (fun _ => Returns (PyFloat.half, PyFloat.half))).
  - reflexivity.
  - reflexivity.
  - constructor.
Defined.

(** ** The fetch methods, under any plan of failures *)

(** X6.  [search_tweets] never raises and writes nothing, whatever the
    client and the database do: it returns either nothing, or the first
    [max_results] tweets of the client's answer to the query extended by
    [-is:retweet lang:en] ([max_results] being the configured maximum
    when none or zero is given); so never more than that many. *)
Theorem search_tweets_returns_part_of_the_answer :
  forall (platform_id config_max_results : Z)
         (api : string -> outcome (list TwitterScraper.Tweet))
         (query : string) (max_results : option Z) (s : Session),
    let run := TwitterScraper.search_tweets platform_id config_max_results
                 api query max_results s in
    let limit := TwitterScraper.or_default config_max_results max_results in
    exists found : list TwitterScraper.Tweet,
      fst run = Returns found /\
      committed (snd run) = committed s /\
      pending (snd run) = pending s /\
      commit_log (snd run) = commit_log s /\
      (found = [] \/
       exists tweets,
         api (query ++ " -is:retweet lang:en") = Returns tweets /\
         found = firstn (Z.to_nat limit) tweets) /\
      Z.of_nat (List.length found) <= Z.max 0 limit.
Proof.
  intros platform_id config_max_results api query max_results s run limit.
  subst run.
  destruct (check_rate_limits_run platform_id "search_tweets" s)
    as (b & s1 & Hrun & _).
  destruct (search_tweets_after_check platform_id config_max_results api
              query max_results s s1 b Hrun) as [Hfst _].
  destruct (quiet_search_tweets platform_id config_max_results api query
              max_results) as [_ Hcalm].
  destruct (Hcalm s) as (Hc & Hp & Hl & _).
  cbv zeta in Hfst. rewrite Hfst.
  eexists. split; [reflexivity|].
  split; [exact Hc|]. split; [exact Hp|]. split; [exact Hl|].
  destruct b; [|split; [left; reflexivity | cbn; lia]].
  destruct (api (query ++ " -is:retweet lang:en")) as [tweets|e];
    [|split; [left; reflexivity | cbn; lia]].
  split; [right; exists tweets; split; reflexivity|].
  pose proof (firstn_le_length (Z.to_nat limit) tweets). fold limit. lia.
Qed.

(** X7.  While a window denies (its reset time has not passed and the
    calls made have reached the calls allowed) and the look-up of the
    window succeeds, [search_tweets] and [get_user_timeline] return
    nothing without calling the client: the run is the same for any two
    clients. *)
Theorem denied_fetch_does_not_call_the_client :
  forall (platform_id config_max_results : Z)
         (api api' : string -> outcome (list TwitterScraper.Tweet))
         (get get' : string -> Z -> outcome (option (list TwitterScraper.Tweet)))
         (query user_id : string) (max_results : option Z) (page : Z)
         (s : Session),
    hd false (faults s) = false ->
    (forall rl : RateLimit.t,
        window platform_id "search_tweets" s = Some rl ->
        clock s < RateLimit.reset_time rl ->
        RateLimit.requests_limit rl <= RateLimit.requests_made rl ->
        fst (TwitterScraper.search_tweets platform_id config_max_results api
               query max_results s) = Returns [] /\
        TwitterScraper.search_tweets platform_id config_max_results api
          query max_results s
        = TwitterScraper.search_tweets platform_id config_max_results api'
            query max_results s) /\
    (forall rl : RateLimit.t,
        window platform_id "user_timeline" s = Some rl ->
        clock s < RateLimit.reset_time rl ->
        RateLimit.requests_limit rl <= RateLimit.requests_made rl ->
        fst (TwitterScraper.get_user_timeline platform_id get user_id page s)
        = Returns [] /\
        TwitterScraper.get_user_timeline platform_id get user_id page s
        = TwitterScraper.get_user_timeline platform_id get' user_id page s).
Proof.
  intros platform_id config_max_results api api' get get' query user_id
         max_results page s Hf.
  assert (Hdenied : forall endpoint rl,
             window platform_id endpoint s = Some rl ->
             clock s < RateLimit.reset_time rl ->
             RateLimit.requests_limit rl <= RateLimit.requests_made rl ->
             exists s1,
               TwitterScraper.check_rate_limits platform_id endpoint s
               = (Returns false, s1)).
  { intros endpoint rl Hw Hc Hl.
    destruct (check_rate_limits_run platform_id endpoint s)
      as (b & s1 & Hrun & _ & _ & _ & _ & _ & Hb).
    exists s1. rewrite Hrun. do 2 f_equal. rewrite Hb, Hw.
    apply Z.ltb_lt in Hc. apply Z.leb_le in Hl. rewrite Hc, Hl.
    destruct (faults s) as [|[|] fs]; [reflexivity | discriminate Hf | reflexivity]. }
  split; intros rl Hw Hc Hl.
  - destruct (Hdenied _ rl Hw Hc Hl) as [s1 Hrun].
    unfold TwitterScraper.search_tweets.
    rewrite !(bind_run _ _ _ _ _ Hrun). split; reflexivity.
  - destruct (Hdenied _ rl Hw Hc Hl) as [s1 Hrun].
    unfold TwitterScraper.get_user_timeline.
    rewrite !(bind_run _ _ _ _ _ Hrun). split; reflexivity.
Qed.

(** X7 on the store whose two windows are used up. *)
Lemma denied_fetch_does_not_call_the_client_witness :
  let s := open_session SampleSetup.exhausted [] 0 in
  (fst (TwitterScraper.search_tweets 1 100 (fun _ => Returns [Sample.tweet])
          "Bitcoin" None s) = Returns [] /\
   TwitterScraper.search_tweets 1 100 (fun _ => Returns [Sample.tweet])
     "Bitcoin" None s
   = TwitterScraper.search_tweets 1 100 (fun _ => Raises (Exception "down"))
       "Bitcoin" None s) /\
  (fst (TwitterScraper.get_user_timeline 1
          (fun _ _ => Returns (Some [Sample.tweet])) "9" 100 s) = Returns [] /\
   TwitterScraper.get_user_timeline 1
     (fun _ _ => Returns (Some [Sample.tweet])) "9" 100 s
   = TwitterScraper.get_user_timeline 1 (fun _ _ => Returns None) "9" 100 s).
Proof.
  intros s.
  pose proof (denied_fetch_does_not_call_the_client 1 100
                (fun _ => Returns [Sample.tweet])
                (fun _ => Raises (Exception "down"))
                (fun _ _ => Returns (Some [Sample.tweet]))
                (fun _ _ => Returns None)
                "Bitcoin" "9" None 100 s eq_refl) as [Hsearch Htimeline].
  split.
  - apply (Hsearch (RateLimit.mk 1 "search_tweets" 3 3 100)); [reflexivity | | ];
      cbn; lia.
  - apply (Htimeline (RateLimit.mk 1 "user_timeline" 5 5 100)); [reflexivity | | ];
      cbn; lia.
Defined.

(** X8.  When the check grants the call and the client raises,
    [search_tweets] returns nothing; it lets fifteen minutes pass and
    logs a warning if the exception is an instance of
    [tweepy.TooManyRequests], whatever its message; for an exception of
    another class it lets no time pass and logs the message as an
    error. *)
Theorem too_many_requests_makes_search_wait :
  forall (platform_id config_max_results : Z)
         (api : string -> outcome (list TwitterScraper.Tweet))
         (query : string) (max_results : option Z) (s : Session) (e : exn),
    fst (TwitterScraper.check_rate_limits platform_id "search_tweets" s)
    = Returns true ->
    api (query ++ " -is:retweet lang:en") = Raises e ->
    let checked :=
      snd (TwitterScraper.check_rate_limits platform_id "search_tweets" s) in
    let run := TwitterScraper.search_tweets platform_id config_max_results
                 api query max_results s in
    let searching :=
      (INFO, "Searching tweets for: " ++ query ++ " -is:retweet lang:en") in
    let failed :=
      match e with
      | TooManyRequests _ => (WARNING, "Rate limit exceeded. Waiting...")
      | Exception msg => (ERROR, "Error searching tweets: " ++ msg)
      end in
    fst run = Returns [] /\
    clock (snd run)
    = clock s + match e with
                | TooManyRequests _ => 15 * 60
                | Exception _ => 0
                end /\
    log (snd run) = (log checked ++ [searching; failed])%list.
Proof.
  intros platform_id config_max_results api query max_results s e Hb He
         checked run searching failed.
  subst run checked searching failed.
  destruct (check_rate_limits_run platform_id "search_tweets" s)
    as (b & s1 & Hrun & _ & _ & _ & Hclock & _).
  rewrite Hrun in Hb. cbn [fst] in Hb. inversion Hb; subst b.
  unfold TwitterScraper.search_tweets.
  rewrite (bind_run _ _ _ _ _ Hrun). rewrite Hrun. cbn [negb snd].
  unfold try_except, bind, logger, lift, ret, raise, sleep. cbn [fst snd].
  rewrite He. cbn [fst snd].
  destruct e as [msg|msg]; cbn [fst snd clock log exn_message];
    rewrite <- Hclock, <- app_assoc;
    (split; [reflexivity|]); (split; [lia | reflexivity]).
Qed.

(** X8 on the sample store, whose window has calls left: the client
    answers 429. *)
Lemma too_many_requests_makes_search_wait_witness :
  let run := TwitterScraper.search_tweets 1 100
               (fun _ => Raises (TooManyRequests "429 Too Many Requests"))
               "Bitcoin" None (open_session Sample.db [] 0) in
  fst run = Returns [] /\ clock (snd run) = 0 + 15 * 60.
Proof.
  intros run.
  destruct (too_many_requests_makes_search_wait 1 100
              (fun _ => Raises (TooManyRequests "429 Too Many Requests"))
              "Bitcoin" None (open_session Sample.db [] 0)
              (TooManyRequests "429 Too Many Requests") eq_refl eq_refl)
    as (Hr & Hc & _).
  split; [exact Hr | exact Hc].
Defined.

(** X9.  [get_user_timeline] never raises and writes nothing.  When the
    check of the window [user_timeline] denies the call it returns
    nothing; otherwise it asks the client for a page of
    [min(max_results, 100)] tweets of the user, and returns the data of
    the answer, or nothing when the answer has no data or the client
    raises. *)
Theorem get_user_timeline_returns_the_data_or_nothing :
  forall (platform_id : Z)
         (get : string -> Z -> outcome (option (list TwitterScraper.Tweet)))
         (user_id : string) (max_results : Z) (s : Session),
    let run := TwitterScraper.get_user_timeline platform_id get user_id
                 max_results s in
    let granted :=
      fst (TwitterScraper.check_rate_limits platform_id "user_timeline" s) in
    let page := Z.min max_results 100 in
    fst run
    = Returns match granted with
              | Returns true =>
                  match get user_id page with
                  | Returns (Some data) => data
                  | Returns None => []
                  | Raises _ => []
                  end
              | _ => []
              end /\
    committed (snd run) = committed s /\
    pending (snd run) = pending s /\
    commit_log (snd run) = commit_log s /\
    page <= 100 /\ page <= max_results /\
    (page = 100 \/ page = max_results).
Proof.
  intros platform_id get user_id max_results s run granted page.
  subst run granted.
  destruct (check_rate_limits_run platform_id "user_timeline" s)
    as (b & s1 & Hrun & _).
  rewrite (get_user_timeline_after_check platform_id get user_id max_results
             s s1 b Hrun).
  destruct (quiet_get_user_timeline platform_id get user_id max_results)
    as [_ Hcalm].
  destruct (Hcalm s) as (Hc & Hp & Hl & _).
  rewrite Hrun. cbn [fst]. fold page.
  split; [|split; [exact Hc | split; [exact Hp | split; [exact Hl|]]];
           unfold page; lia].
  destruct b; [|reflexivity].
  destruct (get user_id page) as [[data|]|e]; reflexivity.
Qed.

(** X10.  [get_subreddit_posts] never raises, makes no round trip to the
    database (so it consults no rate-limit window) and lets no time pass.
    It asks for one of the four listings, [new] when the sort type is
    not known; it returns nothing when the client raises, and otherwise
    one dictionary for each listed submission that is not stickied, in
    order; a submission whose author is deleted gets the author name
    [[deleted]] and no author id. *)
Theorem get_subreddit_posts_skips_stickied :
  forall (config_max_posts : Z)
         (listing : string -> string -> Z
                    -> outcome (list RedditScraper.Praw.Submission))
         (subreddit_name sort_type : string) (limit : option Z) (s : Session),
    let run := RedditScraper.get_subreddit_posts config_max_posts listing
                 subreddit_name sort_type limit s in
    let answer := listing subreddit_name (RedditScraper.listing_of sort_type)
                    (RedditScraper.limit_or_config config_max_posts limit) in
    exists found : list RedditScraper.Submission,
      fst run = Returns found /\
      committed (snd run) = committed s /\
      pending (snd run) = pending s /\
      faults (snd run) = faults s /\
      clock (snd run) = clock s /\
      (In sort_type ["hot"; "top"; "rising"] \/
       RedditScraper.listing_of sort_type = "new") /\
      found = match answer with
              | Returns posts =>
                  map RedditScraper.post_data_of
                      (filter (fun p => negb (RedditScraper.Praw.stickied p))
                              posts)
              | Raises _ => []
              end /\
      Forall (fun x =>
                exists p, RedditScraper.Praw.stickied p = false /\
                          x = RedditScraper.post_data_of p /\
                          match RedditScraper.Praw.author p with
                          | Some name =>
                              RedditScraper.author x = name /\
                              RedditScraper.author_id x = Some name
                          | None =>
                              RedditScraper.author x = "[deleted]" /\
                              RedditScraper.author_id x = None
                          end)
             found.
Proof.
  intros config_max_posts listing subreddit_name sort_type limit s run answer.
  destruct (get_subreddit_posts_run config_max_posts listing subreddit_name
              sort_type limit s) as (Hfst & Hfaults & Hclock).
  destruct (quiet_get_subreddit_posts config_max_posts listing subreddit_name
              sort_type limit) as [_ Hcalm].
  destruct (Hcalm s) as (Hc & Hp & _).
  fold run in Hfst, Hfaults, Hclock, Hc, Hp. fold answer in Hfst.
  eexists. split; [exact Hfst|].
  split; [exact Hc|]. split; [exact Hp|]. split; [exact Hfaults|].
  split; [exact Hclock|]. split; [|split].
  - unfold RedditScraper.listing_of.
    destruct (String.eqb_spec sort_type "hot") as [E|_];
      [left; rewrite E; simpl; auto|].
    destruct (String.eqb sort_type "new"); [right; reflexivity|].
    destruct (String.eqb_spec sort_type "top") as [E|_];
      [left; rewrite E; simpl; auto|].
    destruct (String.eqb_spec sort_type "rising") as [E|_];
      [left; rewrite E; simpl; auto|].
    right; reflexivity.
  - destruct answer; reflexivity.
  - destruct answer as [posts|e]; [|constructor].
    eapply Forall_impl; [|apply collect_unstickied].
    intros x (p & _ & Hs & Hx). exists p. split; [exact Hs|]. split; [exact Hx|].
    subst x. unfold RedditScraper.post_data_of.
    cbn [RedditScraper.author RedditScraper.author_id].
    destruct (RedditScraper.Praw.author p); auto.
Qed.

(** X11.  [search_posts] never raises, makes no round trip to the
    database and lets no time pass.  It searches the given subreddit, or
    [all] when none (or an empty name) is given; it returns nothing when
    the client raises, and otherwise one dictionary for each found
    submission that is not stickied, in order. *)
Theorem search_posts_skips_stickied :
  forall (search : string -> string -> string -> Z
                   -> outcome (list RedditScraper.Praw.Submission))
         (query : string) (subreddit_name : option string)
         (sort_type : string) (limit : Z) (s : Session),
    let run := RedditScraper.search_posts search query subreddit_name
                 sort_type limit s in
    let searched :=
      match subreddit_name with
      | Some name => if PyStr.truthy name then name else "all"
      | None => "all"
      end in
    let answer := search searched query sort_type limit in
    exists found : list RedditScraper.Submission,
      fst run = Returns found /\
      committed (snd run) = committed s /\
      pending (snd run) = pending s /\
      faults (snd run) = faults s /\
      clock (snd run) = clock s /\
      found = match answer with
              | Returns posts =>
                  map RedditScraper.post_data_of
                      (filter (fun p => negb (RedditScraper.Praw.stickied p))
                              posts)
              | Raises _ => []
              end /\
      (Z.of_nat (List.length found)
       <= match answer with
          | Returns posts => Z.of_nat (List.length posts)
          | Raises _ => 0
          end).
Proof.
  intros search query subreddit_name sort_type limit s run searched answer.
  destruct (search_posts_run search query subreddit_name sort_type limit s)
    as (Hfst & Hfaults & Hclock).
  destruct (quiet_search_posts search query subreddit_name sort_type limit)
    as [_ Hcalm].
  destruct (Hcalm s) as (Hc & Hp & _).
  cbv zeta in Hfst.
  fold run in Hfst, Hfaults, Hclock, Hc, Hp. fold searched in Hfst.
  fold answer in Hfst.
  eexists. split; [exact Hfst|].
  split; [exact Hc|]. split; [exact Hp|]. split; [exact Hfaults|].
  split; [exact Hclock|]. split.
  - destruct answer; reflexivity.
  - destruct answer as [posts|e]; [|cbn; lia].
    unfold RedditScraper.collect. rewrite length_map.
    pose proof (filter_length_le
                  (fun p => negb (RedditScraper.Praw.stickied p)) posts).
    lia.
Qed.

(** X12.  The admission check of the Reddit scraper answers as the one
    of the Twitter scraper does for the endpoint [reddit_api], and leaves
    the same store, the same failures to come and the same time; the two
    differ in the text of the warning only. *)
Theorem reddit_check_is_the_twitter_check :
  forall (platform_id : Z) (s : Session),
    let reddit := RedditScraper.check_rate_limits platform_id s in
    let twitter :=
      TwitterScraper.check_rate_limits platform_id "reddit_api" s in
    fst reddit = fst twitter /\
    committed (snd reddit) = committed (snd twitter) /\
    pending (snd reddit) = pending (snd twitter) /\
    commit_log (snd reddit) = commit_log (snd twitter) /\
    faults (snd reddit) = faults (snd twitter) /\
    clock (snd reddit) = clock (snd twitter).
Proof. exact reddit_check_run. Qed.

(** X13.  [scrape_channel_history] and [search_messages] never raise,
    write nothing and make no round trip to the database.  They return
    nothing when the channel is not found, when the iteration fails, and
    when one of the messages that have a text carries a [MessageReplies]
    object or was sent by a peer that is no user: the dictionary of such
    a message cannot be built.  Otherwise they return one dictionary,
    with the name and the id of the channel and the count 0 of replies,
    for each message that has a text, in order. *)
Theorem telegram_fetch_keeps_messages_with_text :
  forall (config_max_messages : Z) (get_entity : string -> outcome Z)
         (iter_messages : Z -> option string -> Z
                          -> TelegramScraper.iteration
                               TelegramScraper.Telethon.Message)
         (channel_username query : string) (limit : option Z) (limit' : Z)
         (s : Session),
    let history := TelegramScraper.scrape_channel_history config_max_messages
                     get_entity iter_messages channel_username limit s in
    let hits := TelegramScraper.search_messages get_entity iter_messages
                  channel_username query limit' s in
    let kept (entity : Z)
             (answer : TelegramScraper.iteration
                         TelegramScraper.Telethon.Message) :=
      match answer with
      | TelegramScraper.Iterated messages =>
          if forallb plain (filter TelegramScraper.has_text messages)
          then with_text channel_username entity messages
          else []
      | _ => []
      end in
    let well_formed (found : list TelegramScraper.Message) :=
      Forall (fun x => TelegramScraper.channel x = channel_username /\
                       PyStr.truthy (TelegramScraper.text x) = true /\
                       TelegramScraper.replies x = 0) found in
    (exists found,
        fst history = Returns found /\ well_formed found /\
        committed (snd history) = committed s /\
        pending (snd history) = pending s /\
        faults (snd history) = faults s /\
        found = match get_entity channel_username with
                | Returns entity =>
                    kept entity
                      (iter_messages entity None
                         (TelegramScraper.limit_or_config
                            config_max_messages limit))
                | Raises _ => []
                end) /\
    (exists found,
        fst hits = Returns found /\ well_formed found /\
        committed (snd hits) = committed s /\
        pending (snd hits) = pending s /\
        faults (snd hits) = faults s /\
        found = match get_entity channel_username with
                | Returns entity =>
                    kept entity (iter_messages entity (Some query) limit')
                | Raises _ => []
                end).
Proof.
  intros config_max_messages get_entity iter_messages channel_username query
         limit limit' s history hits kept well_formed.
  assert (Hkept : forall entity answer,
             match answer with
             | TelegramScraper.Iterated found =>
                 collected channel_username entity found
             | _ => []
             end = kept entity answer).
  { intros entity [found| |]; try reflexivity. apply collected_plain. }
  assert (Hwf : forall entity answer, well_formed (kept entity answer)).
  { intros entity [found| |]; try constructor. unfold kept.
    destruct (forallb plain _); [|constructor].
    eapply Forall_impl; [|apply with_text_kept].
    intros x (H1 & _ & H3 & H4 & _). auto. }
  split.
  - destruct (scrape_channel_history_run config_max_messages get_entity
                iter_messages channel_username limit s) as (Hfst & _ & Hf).
    destruct (quiet_scrape_channel_history config_max_messages get_entity
                iter_messages channel_username limit) as [_ Hcalm].
    destruct (Hcalm s) as (Hc & Hp & _).
    cbv zeta in Hfst. fold history in Hfst, Hf, Hc, Hp.
    eexists. split; [exact Hfst|].
    split; [|split; [exact Hc | split; [exact Hp | split; [exact Hf|]]]].
    + destruct (get_entity channel_username) as [entity|e]; [|constructor].
      rewrite Hkept. apply Hwf.
    + destruct (get_entity channel_username) as [entity|e]; [|reflexivity].
      apply Hkept.
  - destruct (search_messages_run get_entity iter_messages channel_username
                query limit' s) as (Hfst & _ & Hf).
    destruct (quiet_search_messages get_entity iter_messages channel_username
                query limit') as [_ Hcalm].
    destruct (Hcalm s) as (Hc & Hp & _).
    cbv zeta in Hfst. fold hits in Hfst, Hf, Hc, Hp.
    eexists. split; [exact Hfst|].
    split; [|split; [exact Hc | split; [exact Hp | split; [exact Hf|]]]].
    + destruct (get_entity channel_username) as [entity|e]; [|constructor].
      rewrite Hkept. apply Hwf.
    + destruct (get_entity channel_username) as [entity|e]; [|reflexivity].
      apply Hkept.
Qed.

(** X13 on a channel of three messages: the one without text is
    skipped; the history is lost when the message with replies is among
    them. *)
Lemma telegram_fetch_keeps_messages_with_text_witness :
  let fetch (messages : list TelegramScraper.Telethon.Message) :=
    fst (TelegramScraper.scrape_channel_history 100 (fun _ => Returns 77)
           (fun _ _ _ => TelegramScraper.Iterated messages) "@crypto" None
           (open_session Sample.db [] 0)) in
  fetch [SampleSetup.photo; SampleSetup.message]
  = Returns [TelegramScraper.mkMessage 7 "btc and Bitcoin" 5 "@crypto" 77 10 0 0]
  /\ fetch [SampleSetup.photo; SampleSetup.message; SampleSetup.discussed]
     = Returns [].
Proof.
  intros fetch. split.
  - destruct (telegram_fetch_keeps_messages_with_text 100 (fun _ => Returns 77)
                (fun _ _ _ =>
                   TelegramScraper.Iterated
                     [SampleSetup.photo; SampleSetup.message])
                "@crypto" "" None 0 (open_session Sample.db [] 0))
      as [(found & Hr & _ & _ & _ & _ & Hfound) _].
    unfold fetch. rewrite Hr, Hfound. reflexivity.
  - destruct (telegram_fetch_keeps_messages_with_text 100 (fun _ => Returns 77)
                (fun _ _ _ =>
                   TelegramScraper.Iterated
                     [SampleSetup.photo; SampleSetup.message;
                      SampleSetup.discussed])
                "@crypto" "" None 0 (open_session Sample.db [] 0))
      as [(found & Hr & _ & _ & _ & _ & Hfound) _].
    unfold fetch. rewrite Hr, Hfound. reflexivity.
Defined.

(** X14.  On a [FloodWaitError] of the iteration, [scrape_channel_history]
    returns nothing after waiting the announced number of seconds, while
    [search_messages], which has no handler for it, returns nothing at
    once. *)
Theorem flood_wait_is_waited_out_by_history_only :
  forall (config_max_messages : Z) (get_entity : string -> outcome Z)
         (iter_messages : Z -> option string -> Z
                          -> TelegramScraper.iteration
                               TelegramScraper.Telethon.Message)
         (channel_username query : string) (limit : option Z) (limit' : Z)
         (entity seconds : Z) (s : Session),
    get_entity channel_username = Returns entity ->
    let history := TelegramScraper.scrape_channel_history config_max_messages
                     get_entity iter_messages channel_username limit s in
    let hits := TelegramScraper.search_messages get_entity iter_messages
                  channel_username query limit' s in
    (iter_messages entity None
       (TelegramScraper.limit_or_config config_max_messages limit)
     = TelegramScraper.FloodWaitError seconds ->
     fst history = Returns [] /\ clock (snd history) = clock s + seconds) /\
    (iter_messages entity (Some query) limit'
     = TelegramScraper.FloodWaitError seconds ->
     fst hits = Returns [] /\ clock (snd hits) = clock s).
Proof.
  intros config_max_messages get_entity iter_messages channel_username query
         limit limit' entity seconds s He history hits.
  split; intros Hi.
  - destruct (scrape_channel_history_run config_max_messages get_entity
                iter_messages channel_username limit s) as (Hfst & Hclock & _).
    cbv zeta in Hfst, Hclock. fold history in Hfst, Hclock.
    rewrite He, Hi in Hfst, Hclock. auto.
  - destruct (search_messages_run get_entity iter_messages channel_username
                query limit' s) as (Hfst & Hclock & _).
    cbv zeta in Hfst. fold hits in Hfst, Hclock.
    rewrite He, Hi in Hfst. auto.
Qed.

(** X14 on a client that announces a wait of 30 seconds. *)
Lemma flood_wait_is_waited_out_by_history_only_witness :
  let iter := fun (_ : Z) (_ : option string) (_ : Z) =>
                @TelegramScraper.FloodWaitError
                  TelegramScraper.Telethon.Message 30 in
  let s := open_session Sample.db [] 0 in
  (fst (TelegramScraper.scrape_channel_history 100 (fun _ => Returns 77) iter
          "@crypto" None s) = Returns [] /\
   clock (snd (TelegramScraper.scrape_channel_history 100
                 (fun _ => Returns 77) iter "@crypto" None s)) = 0 + 30) /\
  (fst (TelegramScraper.search_messages (fun _ => Returns 77) iter
          "@crypto" "btc" 100 s) = Returns [] /\
   clock (snd (TelegramScraper.search_messages (fun _ => Returns 77) iter
                 "@crypto" "btc" 100 s)) = 0).
Proof.
  intros iter s.
  pose proof (flood_wait_is_waited_out_by_history_only 100
                (fun _ => Returns 77) iter "@crypto" "btc" None 100 77 30 s
                eq_refl) as [Hhistory Hhits].
  split; [exact (Hhistory eq_refl) | exact (Hhits eq_refl)].
Defined.

(** ** Writing a rate-limit window *)

Section ReplaceFirst.

Context {A : Type}.

Lemma length_replace_first (q : A -> bool) (new : A) (l : list A) :
  List.length (replace_first q new l) = List.length l.
Proof.
  induction l as [|x r IH]; cbn [replace_first]; [reflexivity|].
  destruct (q x); cbn [List.length]; auto.
Qed.

Lemma find_replace_first (p q : A -> bool) (new old : A) (l : list A) :
  (forall x, q x = p x) -> p new = true ->
  find p l = Some old ->
  find p (replace_first q new l) = Some new.
Proof.
  intros Hq Hnew. induction l as [|x r IH]; cbn [find replace_first];
    [discriminate|].
  rewrite Hq. destruct (p x) eqn:Hx; cbn [find].
  - rewrite Hnew. reflexivity.
  - rewrite Hx. exact IH.
Qed.

Lemma find_replace_first_other (p q : A -> bool) (new : A) (l : list A) :
  p new = false -> (forall x, q x = true -> p x = false) ->
  find p (replace_first q new l) = find p l.
Proof.
  intros Hnew Hq. induction l as [|x r IH]; cbn [find replace_first];
    [reflexivity|].
  destruct (q x) eqn:Hx; cbn [find].
  - rewrite Hnew, (Hq x Hx). reflexivity.
  - rewrite IH. reflexivity.
Qed.

Lemma find_agree (p q : A -> bool) (l : list A) :
  (forall x, p x = q x) -> find p l = find q l.
Proof.
  intros H. induction l as [|x r IH]; cbn [find]; [reflexivity|].
  rewrite H, IH. reflexivity.
Qed.

Lemma find_snoc (p : A -> bool) (l : list A) (x : A) :
  find p (l ++ [x])
  = match find p l with
    | Some y => Some y
    | None => if p x then Some x else None
    end.
Proof.
  induction l as [|y r IH]; cbn [app find]; [reflexivity|].
  destruct (p y); [reflexivity | exact IH].
Qed.

End ReplaceFirst.

Section RateLimitUpdate.

Variable platform_id : Z.
Variable endpoint : string.
Variables requests_made requests_limit reset_time : Z.

Let row : RateLimit.t :=
  RateLimit.mk platform_id endpoint requests_made requests_limit reset_time.

(** The write [update_rate_limit] makes from a state. *)
Let write_of (s : Session) : write :=
  match window platform_id endpoint s with
  | Some _ => SetRateLimit row
  | None => AddRateLimit row
  end.

Lemma same_window_row (r : RateLimit.t) :
  same_window row r = TwitterScraper.window_of platform_id endpoint r.
Proof.
  unfold same_window, TwitterScraper.window_of, row.
  cbn [RateLimit.platform_id RateLimit.endpoint].
  rewrite Z.eqb_sym, String.eqb_sym. reflexivity.
Qed.

Lemma window_of_row : TwitterScraper.window_of platform_id endpoint row = true.
Proof.
  unfold TwitterScraper.window_of, row.
  cbn [RateLimit.platform_id RateLimit.endpoint].
  rewrite Z.eqb_refl, String.eqb_refl. reflexivity.
Qed.

(** Two windows are the same when platform and endpoint are. *)
Lemma window_of_other (platform_id' : Z) (endpoint' : string) (r : RateLimit.t) :
  (platform_id' =? platform_id) && String.eqb endpoint' endpoint = false ->
  TwitterScraper.window_of platform_id endpoint r = true ->
  TwitterScraper.window_of platform_id' endpoint' r = false.
Proof.
  unfold TwitterScraper.window_of. intros Hne Hr.
  apply andb_true_iff in Hr. destruct Hr as [Hp He].
  apply Z.eqb_eq in Hp. apply String.eqb_eq in He. rewrite Hp, He.
  rewrite Z.eqb_sym, String.eqb_sym. exact Hne.
Qed.

Lemma window_of_same (platform_id' : Z) (endpoint' : string) (r : RateLimit.t) :
  (platform_id' =? platform_id) && String.eqb endpoint' endpoint = true ->
  TwitterScraper.window_of platform_id' endpoint' r
  = TwitterScraper.window_of platform_id endpoint r.
Proof.
  intros H. apply andb_true_iff in H. destruct H as [Hp He].
  apply Z.eqb_eq in Hp. apply String.eqb_eq in He. subst. reflexivity.
Qed.

(** The windows of the store once the write is applied. *)
Lemma window_after_write (d : DB.t) (platform_id' : Z) (endpoint' : string) :
  let found := find (TwitterScraper.window_of platform_id endpoint)
                    (DB.rate_limits d) in
  let d' := apply_write d (match found with
                           | Some _ => SetRateLimit row
                           | None => AddRateLimit row
                           end) in
  find (TwitterScraper.window_of platform_id' endpoint') (DB.rate_limits d')
  = (if (platform_id' =? platform_id) && String.eqb endpoint' endpoint
     then Some row
     else find (TwitterScraper.window_of platform_id' endpoint')
               (DB.rate_limits d)) /\
  List.length (DB.rate_limits d')
  = (List.length (DB.rate_limits d)
     + match found with Some _ => 0 | None => 1 end)%nat.
Proof.
  intros found d'. subst d'.
  destruct ((platform_id' =? platform_id) && String.eqb endpoint' endpoint)
    eqn:Hsame.
  - assert (E : forall l,
               find (TwitterScraper.window_of platform_id' endpoint') l
               = find (TwitterScraper.window_of platform_id endpoint) l).
    { intros l. apply find_agree. intros r. apply window_of_same. exact Hsame. }
    rewrite E. destruct found as [old|] eqn:Hfound; subst found;
      destruct d as [pl po se kw km rl jo el];
      cbn [apply_write DB.rate_limits] in *.
    + split.
      * apply (find_replace_first _ _ row old);
          [apply same_window_row | apply window_of_row | exact Hfound].
      * rewrite length_replace_first. lia.
    + split.
      * rewrite find_snoc, Hfound, window_of_row. reflexivity.
      * rewrite length_app. reflexivity.
  - assert (Hrow : TwitterScraper.window_of platform_id' endpoint' row = false)
      by (apply window_of_other; [exact Hsame | apply window_of_row]).
    destruct found as [old|] eqn:Hfound; subst found;
      destruct d as [pl po se kw km rl jo el];
      cbn [apply_write DB.rate_limits] in *.
    + split.
      * apply find_replace_first_other; [exact Hrow|].
        intros r Hr. rewrite same_window_row in Hr.
        apply window_of_other; assumption.
      * rewrite length_replace_first. lia.
    + split.
      * rewrite find_snoc, Hrow.
        destruct (find (TwitterScraper.window_of platform_id' endpoint') rl);
          reflexivity.
      * rewrite length_app. reflexivity.
Qed.

(** The tables a write of a window leaves alone. *)
Lemma write_of_tables (d : DB.t) (w : write) :
  w = SetRateLimit row \/ w = AddRateLimit row ->
  DB.platforms (apply_write d w) = DB.platforms d /\
  DB.posts (apply_write d w) = DB.posts d /\
  DB.sentiments (apply_write d w) = DB.sentiments d /\
  DB.keywords (apply_write d w) = DB.keywords d /\
  DB.keyword_matches (apply_write d w) = DB.keyword_matches d /\
  DB.scraping_jobs (apply_write d w) = DB.scraping_jobs d /\
  DB.error_logs (apply_write d w) = DB.error_logs d.
Proof. intros [E|E]; subst w; destruct d; repeat split. Qed.

(** What [update_rate_limit] does from a state without an open
    transaction, under any plan of failures. *)
Lemma update_rate_limit_run (s : Session) :
  pending s = [] ->
  let run := TwitterScraper.update_rate_limit platform_id endpoint
               requests_made requests_limit reset_time s in
  let d' := apply_write (committed s) (write_of s) in
  fst run = Returns tt /\
  clock (snd run) = clock s /\
  (committed (snd run) = committed s \/ committed (snd run) = d') /\
  (faults s = [] ->
   committed (snd run) = d' /\ pending (snd run) = [] /\
   faults (snd run) = [] /\
   commit_log (snd run) = (commit_log s ++ [d'])%list).
Proof.
  destruct s as [d p l f c lg]. cbn [pending]. intros Hp. subst p.
  unfold write_of, window, view.
  cbn [committed pending commit_log faults clock flush fold_left].
  unfold TwitterScraper.update_rate_limit, query_first, commit, try_except,
    bind, round_trip, add, logger, view.
  cbn [fst snd committed pending commit_log faults clock log flush fold_left].
  assert (Hno : forall (b : bool) (fs : list bool) (P : Prop),
             b :: fs = [] -> P) by (intros b fs P E; discriminate E).
  destruct f as [|[|] f1];
    cbn [fst snd committed pending commit_log faults clock log flush fold_left].
  - destruct (find (TwitterScraper.window_of platform_id endpoint)
                   (DB.rate_limits d));
      cbn [fst snd committed pending commit_log faults clock log flush
           fold_left app];
      repeat split; auto.
  - split; [reflexivity|]. split; [reflexivity|]. split; [auto | apply Hno].
  - destruct (find (TwitterScraper.window_of platform_id endpoint)
                   (DB.rate_limits d));
      cbn [fst snd committed pending commit_log faults clock log flush
           fold_left app];
      destruct f1 as [|[|] f2];
      cbn [fst snd committed pending commit_log faults clock log flush
           fold_left app];
      (split; [reflexivity|]; split; [reflexivity|]; split; [auto | apply Hno]).
Qed.

End RateLimitUpdate.

(** X15.  From a state without an open transaction and without a
    database failure, [update_rate_limit] returns and commits the window
    of the endpoint with the three values it is given: looked up
    afterwards, that window is the given row and every other window is
    as before; the table has one more row if the window had none and the
    same number of rows otherwise; no other table changes. *)
Theorem update_rate_limit_sets_the_window :
  forall (platform_id : Z) (endpoint : string)
         (requests_made requests_limit reset_time : Z) (s : Session),
    pending s = [] ->
    faults s = [] ->
    let run := TwitterScraper.update_rate_limit platform_id endpoint
                 requests_made requests_limit reset_time s in
    let row := RateLimit.mk platform_id endpoint requests_made requests_limit
                            reset_time in
    fst run = Returns tt /\
    pending (snd run) = [] /\
    (forall (platform_id' : Z) (endpoint' : string),
        window platform_id' endpoint' (snd run)
        = if (platform_id' =? platform_id) && String.eqb endpoint' endpoint
          then Some row
          else window platform_id' endpoint' s) /\
    List.length (DB.rate_limits (committed (snd run)))
    = (List.length (DB.rate_limits (committed s))
       + match window platform_id endpoint s with
         | Some _ => 0
         | None => 1
         end)%nat /\
    DB.platforms (committed (snd run)) = DB.platforms (committed s) /\
    DB.posts (committed (snd run)) = DB.posts (committed s) /\
    DB.sentiments (committed (snd run)) = DB.sentiments (committed s) /\
    DB.keywords (committed (snd run)) = DB.keywords (committed s) /\
    DB.keyword_matches (committed (snd run)) = DB.keyword_matches (committed s) /\
    DB.scraping_jobs (committed (snd run)) = DB.scraping_jobs (committed s) /\
    DB.error_logs (committed (snd run)) = DB.error_logs (committed s).
Proof.
  intros platform_id endpoint made limit reset s Hp Hf run row.
  destruct (update_rate_limit_run platform_id endpoint made limit reset s Hp)
    as (Hr & _ & _ & Hok).
  destruct (Hok Hf) as (Hc & Hp' & _ & _).
  fold run in Hr, Hc, Hp'.
  split; [exact Hr|]. split; [exact Hp'|].
  assert (Hview : forall s0, pending s0 = [] -> view s0 = committed s0)
    by (intros s0 E; unfold view; rewrite E; reflexivity).
  unfold window in *. rewrite (Hview _ Hp'), (Hview _ Hp) in *. rewrite Hc.
  split; [|split].
  - intros platform_id' endpoint'.
    apply (window_after_write platform_id endpoint made limit reset
             (committed s) platform_id' endpoint').
  - apply (window_after_write platform_id endpoint made limit reset
             (committed s) platform_id endpoint).
  - apply (write_of_tables platform_id endpoint made limit reset).
    destruct (find _ _); [left | right]; reflexivity.
Qed.

(** X15 on the sample store: the window of [search_tweets] is written
    over, the one of [user_timeline] is created. *)
Lemma update_rate_limit_sets_the_window_witness :
  let s := open_session Sample.db [] 0 in
  let run := TwitterScraper.update_rate_limit 1 "user_timeline" 1 300 900 s in
  window 1 "user_timeline" (snd run)
  = Some (RateLimit.mk 1 "user_timeline" 1 300 900) /\
  window 1 "search_tweets" (snd run) = window 1 "search_tweets" s /\
  List.length (DB.rate_limits (committed (snd run))) = 2%nat.
Proof.
  intros s run.
  destruct (update_rate_limit_sets_the_window 1 "user_timeline" 1 300 900 s
              eq_refl eq_refl) as (_ & _ & Hw & Hn & _).
  split; [exact (Hw 1 "user_timeline")|].
  split; [exact (Hw 1 "search_tweets") | exact Hn].
Defined.

(** X16.  [update_rate_limit] never raises.  From a state without an open
    transaction, when the look-up or the commit fails it returns after
    writing the failure in the log; the committed store and the commit
    log are as before and the values given are lost: no write stays
    pending, so a commit that follows stores nothing.  When neither
    fails, the row of the window alone is written, in one commit, and
    nothing is logged. *)
Theorem update_rate_limit_fails_silently :
  forall (platform_id : Z) (endpoint : string)
         (requests_made requests_limit reset_time : Z) (s : Session),
    pending s = [] ->
    let run := TwitterScraper.update_rate_limit platform_id endpoint
                 requests_made requests_limit reset_time s in
    let row := RateLimit.mk platform_id endpoint requests_made requests_limit
                            reset_time in
    let written :=
      apply_write (committed s)
        (match window platform_id endpoint s with
         | Some _ => SetRateLimit row
         | None => AddRateLimit row
         end) in
    let failure (msg : string) := (ERROR, "Error updating rate limit: " ++ msg) in
    fst run = Returns tt /\
    pending (snd run) = [] /\
    if existsb (fun fails : bool => fails) (firstn 2 (faults s)) then
      committed (snd run) = committed s /\
      commit_log (snd run) = commit_log s /\
      (exists msg, log (snd run) = (log s ++ [failure msg])%list) /\
      committed (snd (commit (snd run))) = committed s
    else
      committed (snd run) = written /\
      commit_log (snd run) = (commit_log s ++ [written])%list /\
      log (snd run) = log s.
Proof.
  intros platform_id endpoint made limit reset s Hp run row written failure.
  subst run row written failure.
  destruct s as [d p l f c lg]. cbn [pending] in Hp. subst p.
  unfold window, view.
  cbn [committed pending commit_log faults clock log flush fold_left].
  unfold TwitterScraper.update_rate_limit, query_first, commit, try_except,
    bind, round_trip, add, logger, view.
  cbn [fst snd committed pending commit_log faults clock log flush fold_left].
  destruct f as [|[|] f1];
    cbn [fst snd committed pending commit_log faults clock log flush fold_left
         firstn existsb orb exn_message].
  - destruct (find (TwitterScraper.window_of platform_id endpoint)
                   (DB.rate_limits d));
      cbn [fst snd committed pending commit_log faults clock log flush
           fold_left app];
      repeat split.
  - split; [reflexivity|]. split; [reflexivity|].
    split; [reflexivity|]. split; [reflexivity|].
    split; [eexists; reflexivity|].
    destruct f1 as [|[|] f2]; reflexivity.
  - destruct (find (TwitterScraper.window_of platform_id endpoint)
                   (DB.rate_limits d));
      cbn [fst snd committed pending commit_log faults clock log flush
           fold_left app];
      destruct f1 as [|[|] f2];
      cbn [fst snd committed pending commit_log faults clock log flush
           fold_left app firstn existsb orb exn_message];
      repeat split;
      try (eexists; reflexivity);
      destruct f2 as [|[|] f3]; reflexivity.
Qed.

(** X16 on the sample store, the commit failing: the window is not
    written, nor by a commit that follows. *)
Lemma update_rate_limit_fails_silently_witness :
  let s := open_session Sample.db [false; true] 0 in
  let run := TwitterScraper.update_rate_limit 1 "search_tweets" 3 3 900 s in
  fst run = Returns tt /\
  pending (snd run) = [] /\
  committed (snd run) = Sample.db /\
  committed (snd (commit (snd run))) = Sample.db.
Proof.
  intros s run.
  destruct (update_rate_limit_fails_silently 1 "search_tweets" 3 3 900
              (open_session Sample.db [false; true] 0) eq_refl)
    as (Hr & Hp & Hc & _ & _ & Hlater).
  split; [exact Hr|]. split; [exact Hp|]. split; [exact Hc | exact Hlater].
Defined.

(** X17.  A check that follows an update of the same window, without a
    database failure, is decided by the values just written: it is
    denied exactly when the reset time written has not passed and the
    calls made have reached the calls allowed. *)
Theorem check_after_update_reads_the_new_window :
  forall (platform_id : Z) (endpoint : string)
         (requests_made requests_limit reset_time : Z) (s : Session),
    pending s = [] ->
    faults s = [] ->
    let updated := snd (TwitterScraper.update_rate_limit platform_id endpoint
                          requests_made requests_limit reset_time s) in
    fst (TwitterScraper.check_rate_limits platform_id endpoint updated)
    = Returns (negb ((clock s <? reset_time)
                     && (requests_limit <=? requests_made))).
Proof.
  intros platform_id endpoint made limit reset s Hp Hf updated.
  destruct (update_rate_limit_run platform_id endpoint made limit reset s Hp)
    as (_ & Hclock & _ & Hok).
  destruct (Hok Hf) as (Hc & Hp' & Hf' & _).
  fold updated in Hclock, Hc, Hp', Hf'.
  destruct (check_rate_limits_run platform_id endpoint updated)
    as (b & s' & Hrun & _ & _ & _ & _ & _ & Hb).
  rewrite Hrun. cbn [fst]. f_equal. rewrite Hb, Hf', Hclock.
  replace (window platform_id endpoint updated)
    with (Some (RateLimit.mk platform_id endpoint made limit reset));
    [reflexivity|].
  unfold window, view. rewrite Hp', Hc. cbn [flush fold_left].
  destruct (window_after_write platform_id endpoint made limit reset
              (committed s) platform_id endpoint) as [Hw _].
  cbv zeta in Hw. unfold window, view. rewrite Hp. cbn [flush fold_left].
  rewrite Hw, Z.eqb_refl, String.eqb_refl. reflexivity.
Qed.

(** X17 on the sample store: once three calls of three are recorded, the
    next check is denied. *)
Lemma check_after_update_reads_the_new_window_witness :
  fst (TwitterScraper.check_rate_limits 1 "search_tweets"
         (snd (TwitterScraper.update_rate_limit 1 "search_tweets" 3 3 900
                 (open_session Sample.db [] 0))))
  = Returns false.
Proof.
  exact (check_after_update_reads_the_new_window 1 "search_tweets" 3 3 900
           (open_session Sample.db [] 0) eq_refl eq_refl).
Defined.

(** ** Features and summaries *)

Section SummaryFacts.

Import SentimentAnalyzer.

(** The number of results with a label. *)
Let labelled (label : string) (results : list SentimentResult) : Z :=
  Z.of_nat (List.length
              (filter (fun r => String.eqb (sentiment r) label) results)).

Lemma tally_counts (results : list SentimentResult) :
  Forall (fun r => In (sentiment r) ["positive"; "negative"; "neutral"])
         results ->
  forall (c : SentimentCounts) (ts tc : PyFloat.float),
  exists (c' : SentimentCounts) (ts' tc' : PyFloat.float),
    tally results (c, ts, tc) = Returns (c', ts', tc') /\
    positive c' = positive c + labelled "positive" results /\
    negative c' = negative c + labelled "negative" results /\
    neutral c' = neutral c + labelled "neutral" results.
Proof.
  unfold labelled.
  induction 1 as [|r results Hr _ IH]; intros c ts tc; cbn [tally].
  - exists c, ts, tc. cbn. repeat split; lia.
  - cbn [In] in Hr. unfold bump.
    destruct Hr as [E|[E|[E|[]]]]; rewrite <- E; cbn [String.eqb Ascii.eqb Bool.eqb andb];
      match goal with
      | |- context [tally results (?c1, ?a, ?b)] =>
          destruct (IH c1 a b) as (c' & ts' & tc' & Ht & Hp & Hn & Hu)
      end;
      exists c', ts', tc'; rewrite Ht, Hp, Hn, Hu;
      cbn [positive negative neutral filter];
      rewrite <- E; cbn [String.eqb Ascii.eqb Bool.eqb andb List.length];
      repeat split; lia.
Qed.

Lemma labels_partition (results : list SentimentResult) :
  Forall (fun r => In (sentiment r) ["positive"; "negative"; "neutral"])
         results ->
  labelled "positive" results + labelled "negative" results
  + labelled "neutral" results
  = Z.of_nat (List.length results).
Proof.
  unfold labelled.
  induction 1 as [|r results Hr _ IH]; [reflexivity|].
  cbn [In] in Hr. cbn [filter].
  destruct Hr as [E|[E|[E|[]]]]; rewrite <- E;
    cbn [String.eqb Ascii.eqb Bool.eqb andb List.length]; lia.
Qed.

Lemma max_key_cases (c : SentimentCounts) :
  (max_key c = "positive" /\
   negative c <= positive c /\ neutral c <= positive c) \/
  (max_key c = "negative" /\
   positive c < negative c /\ neutral c <= negative c) \/
  (max_key c = "neutral" /\
   positive c < neutral c /\ negative c < neutral c).
Proof.
  unfold max_key. cbn [fst snd].
  destruct (positive c <? negative c) eqn:H1; cbn [fst snd].
  - apply Z.ltb_lt in H1.
    destruct (negative c <? neutral c) eqn:H2; cbn [fst snd].
    + apply Z.ltb_lt in H2. right; right. repeat split; lia.
    + apply Z.ltb_ge in H2. right; left. repeat split; lia.
  - apply Z.ltb_ge in H1.
    destruct (positive c <? neutral c) eqn:H2; cbn [fst snd].
    + apply Z.ltb_lt in H2. right; right. repeat split; lia.
    + apply Z.ltb_ge in H2. left. repeat split; lia.
Qed.

(** No word is in both lists of the lexicon. *)
Lemma lexicon_disjoint (token : string) :
  member token crypto_positive_words && member token crypto_negative_words
  = false.
Proof.
  destruct (member token crypto_positive_words) eqn:Hp; [|reflexivity].
  cbn [andb]. unfold member in Hp. apply existsb_exists in Hp.
  destruct Hp as (w & Hw & E). apply String.eqb_eq in E. subst w.
  assert (H : forallb (fun w => negb (member w crypto_negative_words))
                      crypto_positive_words = true) by (vm_compute; reflexivity).
  rewrite forallb_forall in H. specialize (H token Hw).
  destruct (member token crypto_negative_words); [discriminate | reflexivity].
Qed.

Lemma disjoint_filters {A : Type} (p q : A -> bool) (l : list A) :
  (forall x, p x && q x = false) ->
  (List.length (filter p l) + List.length (filter q l) <= List.length l)%nat.
Proof.
  intros H. induction l as [|x r IH]; cbn [filter List.length]; [lia|].
  specialize (H x).
  destruct (p x), (q x); cbn [List.length]; try discriminate; lia.
Qed.

End SummaryFacts.

(** The loop of the summary returns. *)
Lemma tally_returns
      (re_normalise : string -> string)
      (word_tokenize : string -> outcome (list string))
      (stop_words : list string) (lemmatize : string -> string)
      (text_blob : string -> outcome (PyFloat.float * PyFloat.float))
      (texts : list string) :
  exists (c : SentimentAnalyzer.SentimentCounts) (ts tc : PyFloat.float),
    SentimentAnalyzer.tally
      (map (SentimentAnalyzer.analyze re_normalise word_tokenize stop_words
              lemmatize text_blob) texts)
      (SentimentAnalyzer.mkSentimentCounts 0 0 0, PyFloat.zero, PyFloat.zero)
    = Returns (c, ts, tc).
Proof.
  assert (Hknown :
            Forall (fun r => In (SentimentAnalyzer.sentiment r)
                               ["positive"; "negative"; "neutral"])
                   (map (SentimentAnalyzer.analyze re_normalise word_tokenize
                           stop_words lemmatize text_blob) texts)).
  { apply Forall_forall. intros r Hr. apply in_map_iff in Hr.
    destruct Hr as (text & E & _). subst r.
    apply (analyze_label_known re_normalise word_tokenize stop_words lemmatize
             text_blob text). }
  destruct (tally_counts _ Hknown (SentimentAnalyzer.mkSentimentCounts 0 0 0)
              PyFloat.zero PyFloat.zero) as (c' & ts' & tc' & Ht & _).
  exists c', ts', tc'. exact Ht.
Qed.

(** X18.  [get_sentiment_summary] returns on every list of texts (the
    label of a result is always a key of the counts, so the update of
    the counts cannot raise); it counts every text once, under the label
    [analyze] gives it, so that the three counts add up to the number of
    texts. *)
Theorem summary_counts_every_text :
  forall (re_normalise : string -> string)
         (word_tokenize : string -> outcome (list string))
         (stop_words : list string) (lemmatize : string -> string)
         (text_blob : string -> outcome (PyFloat.float * PyFloat.float))
         (texts : list string),
    let analyze :=
      SentimentAnalyzer.analyze re_normalise word_tokenize stop_words
                                lemmatize text_blob in
    let labelled (label : string) : Z :=
      Z.of_nat (List.length
                  (filter (fun text =>
                             String.eqb (SentimentAnalyzer.sentiment (analyze text))
                                        label)
                          texts)) in
    exists summary : SentimentAnalyzer.SentimentSummary,
      SentimentAnalyzer.get_sentiment_summary re_normalise word_tokenize
        stop_words lemmatize text_blob texts = Returns summary /\
      let counts := SentimentAnalyzer.sentiment_counts summary in
      SentimentAnalyzer.total_texts summary = Z.of_nat (List.length texts) /\
      SentimentAnalyzer.positive counts = labelled "positive" /\
      SentimentAnalyzer.negative counts = labelled "negative" /\
      SentimentAnalyzer.neutral counts = labelled "neutral" /\
      SentimentAnalyzer.positive counts + SentimentAnalyzer.negative counts
      + SentimentAnalyzer.neutral counts
      = SentimentAnalyzer.total_texts summary.
Proof.
  intros re tok stop lem blob texts analyze labelled.
  assert (Hknown :
            Forall (fun r => In (SentimentAnalyzer.sentiment r)
                               ["positive"; "negative"; "neutral"])
                   (map analyze texts)).
  { apply Forall_forall. intros r Hr. apply in_map_iff in Hr.
    destruct Hr as (text & E & _). subst r.
    apply (analyze_label_known re tok stop lem blob text). }
  destruct (tally_counts (map analyze texts) Hknown
              (SentimentAnalyzer.mkSentimentCounts 0 0 0)
              PyFloat.zero PyFloat.zero)
    as (c' & ts' & tc' & Ht & Hp & Hn & Hu).
  pose proof (labels_partition (map analyze texts) Hknown) as Hsum.
  assert (Hfilter : forall label,
             Z.of_nat (List.length
                         (filter (fun r => String.eqb
                                             (SentimentAnalyzer.sentiment r) label)
                                 (map analyze texts)))
             = labelled label).
  { intros label. unfold labelled. f_equal.
    clear. induction texts as [|t r IH]; cbn [map filter]; [reflexivity|].
    destruct (String.eqb _ label); cbn [List.length]; rewrite IH; reflexivity. }
  unfold SentimentAnalyzer.get_sentiment_summary,
    SentimentAnalyzer.batch_analyze.
  fold analyze. rewrite Ht. eexists. split; [reflexivity|].
  cbn [SentimentAnalyzer.sentiment_counts SentimentAnalyzer.total_texts].
  rewrite length_map in *. rewrite !Hfilter in *.
  cbn [SentimentAnalyzer.positive SentimentAnalyzer.negative
       SentimentAnalyzer.neutral] in Hp, Hn, Hu.
  repeat split; lia.
Qed.

(** X19.  The overall sentiment of a summary is the label with the
    greatest count; among equal counts the first of positive, negative,
    neutral wins, so that the overall sentiment of no text at all is
    positive. *)
Theorem summary_overall_is_most_frequent :
  forall (re_normalise : string -> string)
         (word_tokenize : string -> outcome (list string))
         (stop_words : list string) (lemmatize : string -> string)
         (text_blob : string -> outcome (PyFloat.float * PyFloat.float))
         (texts : list string),
    exists summary : SentimentAnalyzer.SentimentSummary,
      SentimentAnalyzer.get_sentiment_summary re_normalise word_tokenize
        stop_words lemmatize text_blob texts = Returns summary /\
      let counts := SentimentAnalyzer.sentiment_counts summary in
      let overall := SentimentAnalyzer.overall_sentiment summary in
      let positive := SentimentAnalyzer.positive counts in
      let negative := SentimentAnalyzer.negative counts in
      let neutral := SentimentAnalyzer.neutral counts in
      ((overall = "positive" /\ negative <= positive /\ neutral <= positive) \/
       (overall = "negative" /\ positive < negative /\ neutral <= negative) \/
       (overall = "neutral" /\ positive < neutral /\ negative < neutral)) /\
      match texts with
      | [] => overall = "positive"
      | _ :: _ => True
      end.
Proof.
  intros re tok stop lem blob texts.
  destruct (tally_returns re tok stop lem blob texts)
    as (c' & ts' & tc' & Ht).
  unfold SentimentAnalyzer.get_sentiment_summary,
    SentimentAnalyzer.batch_analyze.
  rewrite Ht. eexists. split; [reflexivity|].
  cbn [SentimentAnalyzer.sentiment_counts SentimentAnalyzer.overall_sentiment].
  split; [apply max_key_cases|].
  destruct texts; [|exact I].
  cbn [map SentimentAnalyzer.tally] in Ht. inversion Ht. reflexivity.
Qed.

(** X28.  The features [extract_features] returns are built from the
    answer of the tokenizer on the preprocessed text (lower case,
    stripped): the tokens are the lemmas of its words that are no stop
    words and are alphabetic, in order; the total is their number; the
    two lexicon counts are the numbers of tokens in the positive and in
    the negative list, and, no word being in both lists, together they
    do not exceed the total; the two ratios are the counts divided by
    the total, and 0 when there is no token.  When the tokenizer raises,
    so does the extraction. *)
Theorem features_count_lexicon_words_among_the_tokens :
  forall (re_normalise : string -> string)
         (word_tokenize : string -> outcome (list string))
         (stop_words : list string) (lemmatize : string -> string)
         (text : string),
    let processed := PyStr.strip (PyStr.lower (re_normalise text)) in
    let kept (word : string) :=
      negb (SentimentAnalyzer.member word stop_words)
      && SentimentAnalyzer.isalpha word in
    let listed_in (words : list string) (toks : list string) :=
      Z.of_nat (List.length
                  (filter (fun t => existsb (String.eqb t) words) toks)) in
    match word_tokenize processed,
          SentimentAnalyzer.extract_features re_normalise word_tokenize
            stop_words lemmatize text with
    | Returns raw, Returns feats =>
        let toks := SentimentAnalyzer.tokens feats in
        let total := SentimentAnalyzer.total_words feats in
        let positive := SentimentAnalyzer.positive_crypto_count feats in
        let negative := SentimentAnalyzer.negative_crypto_count feats in
        toks = map lemmatize (filter kept raw) /\
        total = Z.of_nat (List.length toks) /\
        positive = listed_in SentimentAnalyzer.crypto_positive_words toks /\
        negative = listed_in SentimentAnalyzer.crypto_negative_words toks /\
        positive + negative <= total /\
        match toks with
        | [] =>
            SentimentAnalyzer.positive_ratio feats = PyFloat.zero /\
            SentimentAnalyzer.negative_ratio feats = PyFloat.zero
        | _ :: _ =>
            SentimentAnalyzer.positive_ratio feats
            = PyFloat.int_truediv positive total /\
            SentimentAnalyzer.negative_ratio feats
            = PyFloat.int_truediv negative total
        end
    | Raises e, Raises e' => e' = e
    | _, _ => False
    end.
Proof.
  intros re tok stop lem text processed kept listed_in.
  unfold SentimentAnalyzer.extract_features, SentimentAnalyzer.preprocess_text.
  fold processed.
  destruct (tok processed) as [raw|e]; [|reflexivity].
  cbn [SentimentAnalyzer.total_words SentimentAnalyzer.positive_crypto_count
       SentimentAnalyzer.negative_crypto_count SentimentAnalyzer.tokens
       SentimentAnalyzer.positive_ratio SentimentAnalyzer.negative_ratio].
  change (fun token : string =>
            negb (SentimentAnalyzer.member token stop)
            && SentimentAnalyzer.isalpha token) with kept.
  set (toks := map lem (filter kept raw)).
  unfold SentimentAnalyzer.count_in.
  pose proof (disjoint_filters
                (fun t => SentimentAnalyzer.member t
                            SentimentAnalyzer.crypto_positive_words)
                (fun t => SentimentAnalyzer.member t
                            SentimentAnalyzer.crypto_negative_words)
                toks lexicon_disjoint) as Hdisjoint.
  split; [reflexivity|]. split; [reflexivity|].
  split; [reflexivity|]. split; [reflexivity|]. split; [lia|].
  destruct toks as [|t r] eqn:Et; [split; reflexivity|].
  cbn [List.length].
  replace (0 <? Z.of_nat (S (List.length r))) with true
    by (symmetry; apply Z.ltb_lt; lia).
  split; reflexivity.
Qed.

(** X28 on a text of four words, of which one is a stop word and one a
    number: the word with an accent is kept. *)
Lemma features_count_lexicon_words_among_the_tokens_witness :
  let cafe := "caf" ++ String Sample.e_acute EmptyString in
  let word_tokenize := fun _ : string => Returns [cafe; "the"; "moon"; "42"] in
  exists feats : SentimentAnalyzer.Features,
    SentimentAnalyzer.extract_features (fun t => t) word_tokenize ["the"]
      (fun t => t) "Caf... the Moon 42" = Returns feats /\
    SentimentAnalyzer.tokens feats = [cafe; "moon"] /\
    SentimentAnalyzer.total_words feats = 2 /\
    SentimentAnalyzer.positive_crypto_count feats = 1.
Proof.
  intros cafe word_tokenize.
  pose proof (features_count_lexicon_words_among_the_tokens
                (fun t => t) word_tokenize ["the"] (fun t => t)
                "Caf... the Moon 42") as H.
  cbv zeta in H.
  change (word_tokenize
            (PyStr.strip (PyStr.lower "Caf... the Moon 42")))
    with (@Returns (list string) [cafe; "the"; "moon"; "42"]) in H.
  cbv iota beta in H.
  destruct (SentimentAnalyzer.extract_features (fun t => t) word_tokenize
              ["the"] (fun t => t) "Caf... the Moon 42") as [feats|e];
    [|contradiction].
  destruct H as (Htoks & Htotal & Hpos & _).
  exists feats. split; [reflexivity|].
  split; [exact Htoks|].
  rewrite Htoks in Htotal, Hpos.
  split; [exact Htotal | exact Hpos].
Defined.

(** ** The database methods of the orchestrator, under any plan of
    failures *)

Section OrchestratorAnyFault.

Import NaramindOrchestrator.

Lemma keeps_pending_in_new_session {A : Type} (body : M A) :
  keeps_pending (in_new_session body).
Proof.
  intros s. unfold in_new_session.
  destruct (body _) as [r s']. reflexivity.
Qed.

(** A [try] around a session of its own, with a handler that writes in
    the log. *)
Lemma guarded_session_returns {A : Type} (body : M A) (msg : exn -> string)
      (a : A) :
  never_raises (try_except (in_new_session body)
                           (fun e => logger ERROR (msg e) ;; ret a)) /\
  keeps_pending (try_except (in_new_session body)
                            (fun e => logger ERROR (msg e) ;; ret a)).
Proof.
  split.
  - apply never_raises_try_except. intros e. apply quiet_log_and_return.
  - intros s. unfold try_except.
    pose proof (keeps_pending_in_new_session body s) as H.
    destruct (in_new_session body s) as [[x|e] s']; cbn [snd] in *;
      [exact H|].
    unfold bind, logger, ret. cbn [snd pending]. exact H.
Qed.

Lemma guarded_unit_session_returns (body : M unit) (msg : exn -> string) :
  never_raises (try_except (in_new_session body)
                           (fun e => logger ERROR (msg e))) /\
  keeps_pending (try_except (in_new_session body)
                            (fun e => logger ERROR (msg e))).
Proof.
  split.
  - apply never_raises_try_except. intros e. apply never_raises_logger.
  - intros s. unfold try_except.
    pose proof (keeps_pending_in_new_session body s) as H.
    destruct (in_new_session body s) as [[x|e] s']; cbn [snd] in *;
      [exact H|].
    unfold logger. cbn [snd pending]. exact H.
Qed.

Lemma update_scraping_job_returns (job_id : option string) (status : string)
      (n : Z) (errors : option string) :
  never_raises (update_scraping_job job_id status n errors) /\
  keeps_pending (update_scraping_job job_id status n errors).
Proof. apply guarded_unit_session_returns. Qed.

Lemma log_error_returns (error_type error_message : string)
      (platform_name : option string) :
  never_raises (log_error error_type error_message platform_name) /\
  keeps_pending (log_error error_type error_message platform_name).
Proof. apply guarded_unit_session_returns. Qed.

Lemma create_scraping_job_returns (uuid platform_name job_type : string)
      (configuration : option string) :
  never_raises (create_scraping_job uuid platform_name job_type configuration) /\
  keeps_pending (create_scraping_job uuid platform_name job_type configuration).
Proof. apply guarded_session_returns. Qed.

(** An update of a job that is not found. *)
Lemma update_unknown_run (job_id : option string) (status : string) (n : Z)
      (errors : option string) (s : Session) :
  find (has_id job_id) (DB.scraping_jobs (committed s)) = None ->
  let run := update_scraping_job job_id status n errors s in
  fst run = Returns tt /\
  committed (snd run) = committed s /\
  commit_log (snd run) = commit_log s /\
  pending (snd run) = pending s /\
  clock (snd run) = clock s.
Proof.
  destruct s as [d p l f c lg]. cbn [committed]. intros Hnone.
  unfold update_scraping_job, in_new_session, query_first, try_except, bind,
    round_trip, logger, ret, view.
  cbn [fst snd committed pending commit_log faults clock log flush fold_left].
  destruct f as [|[|] f1];
    cbn [fst snd committed pending commit_log faults clock log flush fold_left];
    try rewrite Hnone;
    cbn [fst snd committed pending commit_log faults clock log];
    repeat split.
Qed.

(** The jobs other than the one that is set. *)
Lemma job_of_set_other (other : string) (d : DB.t) (new : ScrapingJob.t) :
  String.eqb other (ScrapingJob.id new) = false ->
  job_of other (apply_write d (SetScrapingJob new)) = job_of other d.
Proof.
  intros Hne. unfold job_of. rewrite jobs_after_set.
  apply find_replace_first_other.
  - unfold has_id. rewrite String.eqb_sym. exact Hne.
  - intros x Hx. unfold same_job in Hx. apply String.eqb_eq in Hx.
    unfold has_id. rewrite <- Hx, String.eqb_sym. exact Hne.
Qed.

Lemma set_job_tables (d : DB.t) (j : ScrapingJob.t) :
  let d' := apply_write d (SetScrapingJob j) in
  DB.platforms d' = DB.platforms d /\
  DB.posts d' = DB.posts d /\
  DB.sentiments d' = DB.sentiments d /\
  DB.keywords d' = DB.keywords d /\
  DB.keyword_matches d' = DB.keyword_matches d /\
  DB.rate_limits d' = DB.rate_limits d /\
  DB.error_logs d' = DB.error_logs d /\
  List.length (DB.scraping_jobs d') = List.length (DB.scraping_jobs d).
Proof.
  destruct d; cbn. repeat split. apply length_replace_first.
Qed.

End OrchestratorAnyFault.

Section CreateAndLog.

Import NaramindOrchestrator.

Lemma max_id_bounds (ids : list Z) (x : Z) :
  In x ids -> x <= fold_right Z.max 0 ids.
Proof.
  induction ids as [|y r IH]; cbn [In fold_right]; [intros []|].
  intros [E|H]; [subst; lia | specialize (IH H); lia].
Qed.

Lemma next_id_fresh (ids : list Z) : ~ In (1 + fold_right Z.max 0 ids) ids.
Proof. intros H. apply max_id_bounds in H. lia. Qed.

(** The job row [create_scraping_job] builds. *)
Let new_job (uuid job_type : string) (configuration : option string) (pid : Z)
  : ScrapingJob.t :=
  ScrapingJob.mk uuid pid job_type "pending" None None 0 None configuration.

(** How [create_scraping_job] ends, by the round trips that fail: the
    look-up of the platform, the commit of a new platform row and the
    read of its key when there is no platform of the name, the commit of
    the job, and the read of the key of the job. *)
Lemma create_scraping_job_run (uuid platform_name job_type : string)
      (configuration : option string) (s : Session) :
  let run := create_scraping_job uuid platform_name job_type configuration s in
  let d := committed s in
  let fresh := Platform.mk (1 + fold_right Z.max 0 (map Platform.id (DB.platforms d)))
                           platform_name true in
  let found := platform_named platform_name d in
  let p := match found with Some p => p | None => fresh end in
  let trips := match found with Some _ => 2%nat | None => 4%nat end in
  let failed (n : nat) := existsb (fun fails : bool => fails) (firstn n (faults s)) in
  let d1 := match found with
            | Some _ => d
            | None => if failed 2%nat then d else apply_write d (AddPlatform fresh)
            end in
  fst run = Returns (if failed (S trips) then None else Some uuid) /\
  committed (snd run)
  = (if failed trips then d1
     else apply_write d1 (AddScrapingJob
                            (new_job uuid job_type configuration (Platform.id p)))).
Proof.
  destruct s as [d p l f c lg]. unfold platform_named, new_job.
  cbn [committed faults].
  cbv beta iota zeta delta
      [create_scraping_job next_platform_id try_except in_new_session bind
       query_first round_trip refresh add commit view ret logger faults pending
       committed commit_log clock log fst snd ScrapingJob.id Platform.id].
  cbn [app flush fold_left].
  destruct f as [|[|] [|[|] [|[|] [|[|] [|[|] f]]]]];
    cbv beta iota zeta delta [fst snd firstn existsb orb faults committed pending];
    cbn [app flush fold_left];
    destruct (find _ (DB.platforms d)) as [pl|] eqn:Hfind;
    cbv beta iota zeta delta [fst snd firstn existsb orb faults committed pending];
    cbn [app flush fold_left];
    split; reflexivity.
Qed.

(** The two ways [log_error] ends. *)
Lemma log_error_run (error_type error_message : string)
      (platform_name : option string) (s : Session) :
  let run := log_error error_type error_message platform_name s in
  let d := committed s in
  let row :=
    ErrorLog.mk
      match platform_name with
      | Some n => if PyStr.truthy n
                  then option_map Platform.id (platform_named n d)
                  else None
      | None => None
      end
      error_type error_message (clock s) in
  fst run = Returns tt /\
  pending (snd run) = pending s /\
  (committed (snd run) = d \/
   committed (snd run) = apply_write d (AddErrorLog row)) /\
  (faults s = [] -> committed (snd run) = apply_write d (AddErrorLog row)).
Proof.
  destruct s as [d p l f c lg]. unfold platform_named.
  cbn [committed faults clock pending].
  assert (Hno : forall (b : bool) (fs : list bool) (P : Prop),
             b :: fs = [] -> P) by (intros b fs P E; discriminate E).
  destruct platform_name as [n|]; [destruct (PyStr.truthy n) eqn:Hn|];
    cbv beta iota zeta delta
        [log_error try_except in_new_session bind utcnow
         query_first round_trip refresh add commit view ret logger faults pending
         committed commit_log clock log fst snd];
    try rewrite Hn;
    cbn [app flush fold_left fst snd];
    destruct f as [|[|] f1]; cbn [app flush fold_left fst snd];
    try (split; [reflexivity|]; split; [reflexivity|]; split;
         [auto | first [apply Hno | auto]]; fail);
    destruct f1 as [|[|] f2]; cbn [app flush fold_left fst snd];
    (split; [reflexivity|]; split; [reflexivity|]; split; [auto | apply Hno]).
Qed.

End CreateAndLog.

(** X20.  An update of a job that does not exist (an id that no row has,
    or no id at all, as when the creation of the job failed) returns
    without writing: the committed store, the commit log, the open
    transaction and the time are as before, whether the look-up fails or
    not. *)
Theorem update_of_unknown_job_writes_nothing :
  forall (job_id : option string) (status : string) (posts_scraped : Z)
         (errors : option string) (s : Session),
    find (NaramindOrchestrator.has_id job_id)
         (DB.scraping_jobs (committed s)) = None ->
    let run := NaramindOrchestrator.update_scraping_job job_id status
                 posts_scraped errors s in
    fst run = Returns tt /\
    committed (snd run) = committed s /\
    commit_log (snd run) = commit_log s /\
    pending (snd run) = pending s /\
    clock (snd run) = clock s.
Proof. exact update_unknown_run. Qed.

(** X20 on the store of the completed job, with no id. *)
Lemma update_of_unknown_job_writes_nothing_witness :
  let s := open_session Sample.db_done [] 0 in
  let run := NaramindOrchestrator.update_scraping_job None "failed" 7
               (Some "lost") s in
  fst run = Returns tt /\
  committed (snd run) = committed s /\
  commit_log (snd run) = commit_log s /\
  pending (snd run) = pending s /\
  clock (snd run) = clock s.
Proof.
  exact (update_of_unknown_job_writes_nothing None "failed" 7 (Some "lost")
           (open_session Sample.db_done [] 0) eq_refl).
Defined.

(** X21.  An update of an existing job, under any plan of failures,
    returns and changes at most the row of that job: every other job is
    as before, and so is every other table; the row keeps its id, its
    platform, its job type and its configuration, and a start time once
    set is never replaced. *)
Theorem update_changes_one_job_and_keeps_its_identity :
  forall (job_id status : string) (posts_scraped : Z)
         (errors : option string) (j : ScrapingJob.t) (s : Session),
    job_of job_id (committed s) = Some j ->
    let run := NaramindOrchestrator.update_scraping_job (Some job_id) status
                 posts_scraped errors s in
    let d := committed s in
    let d' := committed (snd run) in
    exists j' : ScrapingJob.t,
      fst run = Returns tt /\
      (forall other : string,
          job_of other d'
          = if String.eqb other job_id then Some j' else job_of other d) /\
      ScrapingJob.id j' = ScrapingJob.id j /\
      ScrapingJob.platform_id j' = ScrapingJob.platform_id j /\
      ScrapingJob.job_type j' = ScrapingJob.job_type j /\
      ScrapingJob.configuration j' = ScrapingJob.configuration j /\
      match ScrapingJob.started_at j with
      | Some t => ScrapingJob.started_at j' = Some t
      | None => True
      end /\
      List.length (DB.scraping_jobs d') = List.length (DB.scraping_jobs d) /\
      DB.platforms d' = DB.platforms d /\
      DB.posts d' = DB.posts d /\
      DB.sentiments d' = DB.sentiments d /\
      DB.keywords d' = DB.keywords d /\
      DB.keyword_matches d' = DB.keyword_matches d /\
      DB.rate_limits d' = DB.rate_limits d /\
      DB.error_logs d' = DB.error_logs d.
Proof.
  intros job_id status n errors j s Hj run d d'.
  destruct (update_scraping_job_run job_id status n errors j s Hj)
    as (Hr & _ & _ & Hc & _).
  cbv zeta in Hr, Hc. fold run in Hr, Hc. fold d' in Hc. fold d in Hc.
  pose proof (found_job_id job_id j _ Hj) as Hid.
  destruct Hc as [[Hc _]|[Hc _]].
  - exists j. rewrite Hc. split; [exact Hr|]. split.
    + intros other. destruct (String.eqb_spec other job_id) as [E|_];
        [subst other; exact Hj | reflexivity].
    + destruct (ScrapingJob.started_at j); repeat split.
  - set (j' := NaramindOrchestrator.updated_job j status n errors (clock s)) in *.
    destruct (set_job_tables d j') as (T1 & T2 & T3 & T4 & T5 & T6 & T7 & T8).
    cbv zeta in *.
    exists j'. rewrite Hc. split; [exact Hr|]. split.
    + intros other. destruct (String.eqb_spec other job_id) as [E|Hne].
      * subst other. apply (job_of_set job_id d j j' Hj). exact Hid.
      * apply job_of_set_other.
        unfold j', NaramindOrchestrator.updated_job. cbn [ScrapingJob.id].
        rewrite Hid. apply String.eqb_neq. exact Hne.
    + repeat split; auto.
      unfold j', NaramindOrchestrator.updated_job. cbn [ScrapingJob.started_at].
      destruct (ScrapingJob.started_at j) as [t|]; [|exact I].
      cbn [NaramindOrchestrator.is_some negb]. rewrite andb_false_r.
      reflexivity.
Qed.

(** X21 on the store of the completed job, which is put back to
    running: its start time stays. *)
Lemma update_changes_one_job_and_keeps_its_identity_witness :
  let s := open_session Sample.db_done [] 50 in
  let run := NaramindOrchestrator.update_scraping_job (Some "job-1") "running"
               0 None s in
  exists j' : ScrapingJob.t,
    job_of "job-1" (committed (snd run)) = Some j' /\
    ScrapingJob.started_at j' = Some 10.
Proof.
  intros s run.
  destruct (update_changes_one_job_and_keeps_its_identity "job-1" "running" 0
              None Sample.done_job s eq_refl)
    as (j' & _ & Hjobs & _ & _ & _ & _ & Hstart & _).
  exists j'. split; [exact (Hjobs "job-1") | exact Hstart].
Defined.

(** X22.  [create_scraping_job] never raises and leaves the open
    transaction of the caller alone.  It makes a round trip for the
    look-up of the platform, two more (the commit of a new platform row
    and the read of its key) when no platform has the name, one for the
    commit of the job and a last one for the read of the key of the job.
    When one of those before the last fails, no job row is written and
    [None] is returned.  Otherwise the job table has one more row, with
    the id, pending, with the count 0 and no time stamp, linked to the
    platform row of the name; the id is returned unless the last round
    trip fails, in which case [None] is returned although the job is
    stored.  A platform row is created only when there is none of the
    name, with a key that no row has; the other tables do not change. *)
Theorem create_scraping_job_returns_id_only_if_job_stored :
  forall (uuid platform_name job_type : string)
         (configuration : option string) (s : Session),
    let run := NaramindOrchestrator.create_scraping_job uuid platform_name
                 job_type configuration s in
    let d := committed s in
    let d' := committed (snd run) in
    let found := platform_named platform_name d in
    let trips := match found with Some _ => 2%nat | None => 4%nat end in
    let failed (n : nat) :=
      existsb (fun fails : bool => fails) (firstn n (faults s)) in
    exists p : Platform.t,
      pending (snd run) = pending s /\
      (if failed trips then
         fst run = Returns None /\
         DB.scraping_jobs d' = DB.scraping_jobs d
       else
         fst run = Returns (if failed (S trips) then None else Some uuid) /\
         platform_named platform_name d' = Some p /\
         DB.scraping_jobs d'
         = (DB.scraping_jobs d
              ++ [ScrapingJob.mk uuid (Platform.id p) job_type "pending"
                    None None 0 None configuration])%list) /\
      match found with
      | Some p0 => p = p0 /\ DB.platforms d' = DB.platforms d
      | None =>
          p = Platform.mk (Platform.id p) platform_name true /\
          ~ In (Platform.id p) (map Platform.id (DB.platforms d)) /\
          DB.platforms d'
          = if failed 2%nat then DB.platforms d
            else (DB.platforms d ++ [p])%list
      end /\
      DB.posts d' = DB.posts d /\
      DB.sentiments d' = DB.sentiments d /\
      DB.keywords d' = DB.keywords d /\
      DB.keyword_matches d' = DB.keyword_matches d /\
      DB.rate_limits d' = DB.rate_limits d /\
      DB.error_logs d' = DB.error_logs d.
Proof.
  intros uuid platform_name job_type configuration s run d d' found trips
         failed.
  destruct (create_scraping_job_run uuid platform_name job_type configuration s)
    as [Hr Hc].
  destruct (create_scraping_job_returns uuid platform_name job_type
              configuration) as [_ Hpending].
  specialize (Hpending s).
  cbv zeta in Hr, Hc. fold run in Hr, Hc, Hpending.
  fold d in Hr, Hc. fold d' in Hc. fold found in Hr, Hc. fold trips in Hr, Hc.
  set (fresh := Platform.mk
                  (1 + fold_right Z.max 0 (map Platform.id (DB.platforms d)))
                  platform_name true) in *.
  change (fst run = Returns (if failed (S trips) then None else Some uuid))
    in Hr.
  assert (Hmono : failed trips = true -> failed (S trips) = true).
  { unfold failed. generalize (faults s). clear.
    induction trips as [|n IH]; intros fs H; [discriminate H|].
    destruct fs as [|b fs]; [discriminate H|].
    cbn [firstn existsb] in *. destruct b; [reflexivity|].
    cbn [orb] in *. apply IH. exact H. }
  unfold found in *. unfold platform_named in *.
  destruct (find _ (DB.platforms d)) as [p0|] eqn:Hfind.
  - exists p0. split; [exact Hpending|].
    change (existsb (fun fails : bool => fails) (firstn trips (faults s)))
      with (failed trips) in Hc.
    destruct (failed trips) eqn:Hf.
    + rewrite (Hmono eq_refl) in Hr. rewrite Hc.
      repeat split; auto.
    + rewrite Hc. split; [|destruct d; repeat split; reflexivity].
      split; [exact Hr|]. destruct d; split; [exact Hfind | reflexivity].
  - exists fresh. split; [exact Hpending|].
    change (existsb (fun fails : bool => fails) (firstn trips (faults s)))
      with (failed trips) in Hc.
    change (existsb (fun fails : bool => fails) (firstn 2 (faults s)))
      with (failed 2%nat) in Hc.
    assert (H24 : failed 2%nat = true -> failed trips = true).
    { unfold failed, trips. destruct (faults s) as [|[|] [|[|] fs]];
        cbn [firstn existsb orb]; auto; discriminate. }
    destruct (failed trips) eqn:Hf.
    + rewrite (Hmono eq_refl) in Hr. rewrite Hc.
      split; [split; [exact Hr|]; destruct (failed 2%nat), d; reflexivity|].
      split; [split; [reflexivity|]; split; [apply next_id_fresh|];
              destruct (failed 2%nat), d; reflexivity|].
      destruct (failed 2%nat), d; repeat split; reflexivity.
    + destruct (failed 2%nat) eqn:H2; [specialize (H24 eq_refl); discriminate|].
      rewrite Hc. split.
      * split; [exact Hr|]. destruct d as [pl po se kw km rl jo el].
        cbn [apply_write DB.platforms DB.scraping_jobs] in *.
        split; [|reflexivity].
        rewrite find_snoc, Hfind. unfold fresh. cbn [Platform.name].
        rewrite String.eqb_refl. reflexivity.
      * split; [split; [reflexivity|]; split; [apply next_id_fresh|];
                destruct d; reflexivity|].
        destruct d; repeat split; reflexivity.
Qed.

(** X22 on the sample store, the read of the key of the job failing:
    the job is stored and no id is returned. *)
Lemma create_scraping_job_returns_id_only_if_job_stored_witness :
  let s := open_session Sample.db [false; false; true] 0 in
  let run := NaramindOrchestrator.create_scraping_job "job-9" "Twitter"
               "keyword_search" None s in
  fst run = Returns None /\
  exists p : Platform.t,
    DB.scraping_jobs (committed (snd run))
    = (DB.scraping_jobs Sample.db
         ++ [ScrapingJob.mk "job-9" (Platform.id p) "keyword_search" "pending"
               None None 0 None None])%list.
Proof.
  intros s run.
  destruct (create_scraping_job_returns_id_only_if_job_stored "job-9"
              "Twitter" "keyword_search" None s)
    as (p & _ & (Hr & _ & Hjobs) & _).
  split; [exact Hr|]. exists p. exact Hjobs.
Defined.

(** X23.  [log_error] never raises and leaves the open transaction of the
    caller alone; it adds at most one row to the error log and changes
    nothing else, and without a database failure it adds exactly one:
    the type and the message given, the time of the call, and the key of
    the platform of the given name, or no key when no name is given or no
    platform has it. *)
Theorem log_error_adds_at_most_one_row :
  forall (error_type error_message : string) (platform_name : option string)
         (s : Session),
    let run := NaramindOrchestrator.log_error error_type error_message
                 platform_name s in
    let d := committed s in
    let row :=
      ErrorLog.mk
        match platform_name with
        | Some n => if PyStr.truthy n
                    then option_map Platform.id (platform_named n d)
                    else None
        | None => None
        end
        error_type error_message (clock s) in
    fst run = Returns tt /\
    pending (snd run) = pending s /\
    (committed (snd run) = d \/
     committed (snd run) = apply_write d (AddErrorLog row)) /\
    match faults s with
    | [] => committed (snd run) = apply_write d (AddErrorLog row)
    | _ :: _ => True
    end.
Proof.
  intros error_type error_message platform_name s run d row.
  destruct (log_error_run error_type error_message platform_name s)
    as (Hr & Hp & Hc & Hok).
  split; [exact Hr|]. split; [exact Hp|]. split; [exact Hc|].
  destruct (faults s); [apply Hok; reflexivity | exact I].
Qed.

(** ** The run methods *)

Section ResultRules.

Context {A B : Type}.

Lemma returns_run (m : M A) (s : Session) :
  never_raises m -> exists a, m s = (Returns a, snd (m s)).
Proof.
  intros H. destruct (H s) as [a Ha]. exists a.
  apply injective_projections; [exact Ha | reflexivity].
Qed.

Lemma always_returns_ret (P : A -> Prop) (a : A) :
  P a -> always_returns P (ret a).
Proof. intros H s. exists a. split; [reflexivity | exact H]. Qed.

Lemma always_returns_bind (P : B -> Prop) (m : M A) (k : A -> M B) :
  never_raises m -> (forall a, always_returns P (k a)) ->
  always_returns P (bind m k).
Proof.
  intros Hm Hk s. destruct (returns_run m s Hm) as [a E].
  rewrite (bind_run _ _ _ _ _ E). apply Hk.
Qed.

Lemma returns_only_ret (P : A -> Prop) (a : A) :
  P a -> returns_only P (ret a).
Proof. intros H s a' E. inversion E. subst a'. exact H. Qed.

Lemma returns_only_bind (P : B -> Prop) (m : M A) (k : A -> M B) :
  (forall a, returns_only P (k a)) -> returns_only P (bind m k).
Proof.
  intros Hk s b. unfold bind.
  destruct (m s) as [[a|e] s1]; [apply Hk | discriminate].
Qed.

(** A [try] returns what its body returns or what its handler
    returns. *)
Lemma always_returns_try_except (P : A -> Prop) (body : M A)
      (handler : exn -> M A) :
  returns_only P body -> (forall e, always_returns P (handler e)) ->
  always_returns P (try_except body handler).
Proof.
  intros Hb Hh s. unfold try_except.
  destruct (body s) as [[a|e] s1] eqn:E.
  - exists a. split; [reflexivity|]. apply (Hb s). rewrite E. reflexivity.
  - apply Hh.
Qed.

End ResultRules.

Section RunFacts.

Import NaramindOrchestrator.

(** The handler of a run method returns the failure dictionary. *)
Lemma run_handler_returns (name : string) (job_id : option string) (e : exn) :
  always_returns (run_result_of name)
    (let error_msg := name ++ " scraping error: " ++ exn_message e in
     logger ERROR error_msg ;;
     update_scraping_job job_id "failed" 0 (Some error_msg) ;;
     log_error "scraping" error_msg (Some name) ;;
     ret (mkRunResult false (Some name) None (Some error_msg) job_id None)).
Proof.
  cbv zeta.
  apply always_returns_bind; [apply never_raises_logger|]. intros _.
  apply always_returns_bind; [apply update_scraping_job_returns|]. intros _.
  apply always_returns_bind; [apply log_error_returns|]. intros _.
  apply always_returns_ret. right; right. exists e, job_id. reflexivity.
Qed.

Lemma run_platform_returns (name job_type uuid : string) (scrape : M Z) :
  always_returns (run_result_of name) (run_platform name job_type uuid scrape).
Proof.
  unfold run_platform.
  apply always_returns_bind; [apply create_scraping_job_returns|].
  intros job_id. apply always_returns_try_except.
  - apply returns_only_bind. intros _.
    apply returns_only_bind. intros n.
    apply returns_only_bind. intros _.
    apply returns_only_ret. right; left. exists n, job_id. reflexivity.
  - intros e. apply (run_handler_returns name job_id e).
Qed.

Lemma run_telegram_returns (uuid : string) (is_connected : outcome bool)
      (authenticate : M unit) (scrape : M Z) :
  always_returns (run_result_of "Telegram")
    (run_telegram_scraping true uuid is_connected authenticate scrape).
Proof.
  unfold run_telegram_scraping. cbn [negb].
  apply always_returns_bind; [apply create_scraping_job_returns|].
  intros job_id. apply always_returns_try_except.
  - apply returns_only_bind. intros _.
    apply returns_only_bind. intros connected.
    apply returns_only_bind. intros _.
    apply returns_only_bind. intros n.
    apply returns_only_bind. intros _.
    apply returns_only_ret. right; left. exists n, job_id. reflexivity.
  - intros e. apply (run_handler_returns "Telegram" job_id e).
Qed.

(** With a scraper that returns, the run reports success, whichever
    round trips to the database fail. *)
Lemma run_platform_succeeds (name job_type uuid : string) (scrape : M Z) :
  (forall s, pending s = [] ->
             exists n s', scrape s = (Returns n, s') /\ 0 <= n) ->
  forall s,
    pending s = [] ->
    exists (n : Z) (job_id : option string),
      fst (run_platform name job_type uuid scrape s)
      = Returns (mkRunResult true (Some name) (Some n) None job_id None) /\
      0 <= n.
Proof.
  intros Hscrape s Hp. unfold run_platform.
  destruct (create_scraping_job_returns uuid name job_type None) as [Hc Hcp].
  destruct (returns_run _ s Hc) as [job_id E1].
  rewrite (bind_run _ _ _ _ _ E1).
  set (s1 := snd (create_scraping_job uuid name job_type None s)) in *.
  assert (Hp1 : pending s1 = []) by (unfold s1; rewrite Hcp; exact Hp).
  destruct (update_scraping_job_returns job_id "running" 0 None) as [Hu Hup].
  destruct (returns_run _ s1 Hu) as [[] E2].
  set (s2 := snd (update_scraping_job job_id "running" 0 None s1)) in *.
  assert (Hp2 : pending s2 = []) by (unfold s2; rewrite Hup; exact Hp1).
  destruct (Hscrape s2 Hp2) as (n & s3 & E3 & Hn).
  destruct (update_scraping_job_returns job_id "completed" n None) as [Hd _].
  destruct (returns_run _ s3 Hd) as [[] E4].
  exists n, job_id. split; [|exact Hn].
  unfold try_except.
  rewrite (bind_run _ _ _ _ _ E2), (bind_run _ _ _ _ _ E3),
    (bind_run _ _ _ _ _ E4).
  reflexivity.
Qed.

(** The creation of a job without a failure, with the platform it is
    linked to. *)
Lemma create_linked (d : DB.t) (l : list DB.t) (c : Z)
      (lg : list (level * string))
      (uuid platform_name job_type : string) (configuration : option string) :
  exists (p : Platform.t) (ds0 : list DB.t) (d1 : DB.t),
    let job := ScrapingJob.mk uuid (Platform.id p) job_type "pending" None None
                              0 None configuration in
    create_scraping_job uuid platform_name job_type configuration
      (mkSession d [] l [] c lg)
    = (Returns (Some uuid),
       mkSession (apply_write d1 (AddScrapingJob job)) []
                 (l ++ ds0 ++ [apply_write d1 (AddScrapingJob job)]) [] c lg) /\
    platform_named platform_name d1 = Some p /\
    DB.scraping_jobs d1 = DB.scraping_jobs d /\
    DB.error_logs d1 = DB.error_logs d.
Proof.
  unfold platform_named.
  cbv beta iota zeta delta
      [create_scraping_job next_platform_id try_except in_new_session bind
       query_first round_trip refresh add commit view ret logger faults pending
       committed commit_log clock log fst snd ScrapingJob.id Platform.id].
  cbn [app flush fold_left].
  destruct (find _ (DB.platforms d)) as [p|] eqn:Hfind;
    cbn [app flush fold_left].
  - exists p, [], d.
    split; [reflexivity|]. split; [exact Hfind|]. split; reflexivity.
  - eexists (Platform.mk _ platform_name true), [_], _.
    rewrite <- app_assoc.
    split; [reflexivity|].
    destruct d as [pl po se kw km rl jo el].
    cbn [apply_write DB.platforms DB.scraping_jobs DB.error_logs] in *.
    split; [|split; reflexivity].
    rewrite find_snoc, Hfind. cbn [Platform.name].
    rewrite String.eqb_refl. reflexivity.
Qed.

Lemma platform_named_same (name : string) (d d' : DB.t) :
  DB.platforms d' = DB.platforms d ->
  platform_named name d' = platform_named name d.
Proof. unfold platform_named. intros E. rewrite E. reflexivity. Qed.

(** A run without a database failure in which the scraper returns a
    count and leaves the job table alone. *)
Lemma run_platform_completed (name job_type uuid : string) (scrape : M Z)
      (s : Session) :
  pending s = [] ->
  faults s = [] ->
  job_of uuid (committed s) = None ->
  (forall s0, pending s0 = [] -> faults s0 = [] ->
              exists n s', scrape s0 = (Returns n, s') /\ 0 <= n /\
                           pending s' = [] /\ faults s' = [] /\
                           DB.scraping_jobs (committed s')
                           = DB.scraping_jobs (committed s0)) ->
  exists (n : Z) (j : ScrapingJob.t),
    fst (run_platform name job_type uuid scrape s)
    = Returns (mkRunResult true (Some name) (Some n) None (Some uuid) None) /\
    job_of uuid (committed (snd (run_platform name job_type uuid scrape s)))
    = Some j /\
    completed_job j uuid job_type n.
Proof.
  destruct s as [d p l f c lg]. cbn [pending faults committed].
  intros Hp Hf Hnone Hscrape. subst p f.
  destruct (create_linked d l c lg uuid name job_type None)
    as (pl & ds0 & d1 & Hcreate & _ & Hj1 & _).
  cbv zeta in Hcreate.
  set (job := ScrapingJob.mk uuid (Platform.id pl) job_type "pending" None None
                             0 None None) in *.
  set (d2 := apply_write d1 (AddScrapingJob job)) in *.
  assert (Hjob2 : job_of uuid d2 = Some job).
  { apply job_of_added; [|reflexivity].
    unfold job_of in *. rewrite Hj1. exact Hnone. }
  pose proof (update_ok d2 (l ++ ds0 ++ [d2]) c lg uuid "running" 0 None job
                Hjob2) as Hrun.
  cbv zeta in Hrun.
  set (job_r := updated_job job "running" 0 None c) in *.
  set (d3 := apply_write d2 (SetScrapingJob job_r)) in *.
  assert (Hjob3 : job_of uuid d3 = Some job_r)
    by (apply (job_of_set uuid d2 job); [exact Hjob2 | reflexivity]).
  destruct (Hscrape (mkSession d3 [] ((l ++ ds0 ++ [d2]) ++ [d3]) [] c lg)
                    eq_refl eq_refl)
    as (n & [d4 p4 l4 f4 c4 lg4] & Hs & Hn & Hp4 & Hf4 & Hj4).
  cbn [pending faults committed] in Hp4, Hf4, Hj4. subst p4 f4.
  assert (Hjob4 : job_of uuid d4 = Some job_r)
    by (unfold job_of in *; rewrite Hj4; exact Hjob3).
  pose proof (update_ok d4 l4 c4 lg4 uuid "completed" n None job_r Hjob4)
    as Hdone.
  cbv zeta in Hdone.
  set (job_f := updated_job job_r "completed" n None c4) in *.
  set (d5 := apply_write d4 (SetScrapingJob job_f)) in *.
  assert (E : run_platform name job_type uuid scrape (mkSession d [] l [] c lg)
              = (Returns (mkRunResult true (Some name) (Some n) None
                            (Some uuid) None),
                 mkSession d5 [] (l4 ++ [d5]) [] c4 lg4)).
  { unfold run_platform. rewrite (bind_run _ _ _ _ _ Hcreate).
    unfold try_except.
    rewrite (bind_run _ _ _ _ _ Hrun), (bind_run _ _ _ _ _ Hs),
      (bind_run _ _ _ _ _ Hdone).
    reflexivity. }
  rewrite E. cbn [fst snd committed].
  exists n, job_f. split; [reflexivity|].
  split; [apply (job_of_set uuid d4 job_r job_f Hjob4 eq_refl)|].
  unfold completed_job, job_f, job_r, job, updated_job.
  cbn [ScrapingJob.id ScrapingJob.job_type ScrapingJob.status
       ScrapingJob.posts_scraped ScrapingJob.errors ScrapingJob.started_at
       ScrapingJob.completed_at is_some truthy_opt negb andb orb
       String.eqb Ascii.eqb Bool.eqb Z.ltb Z.compare].
  repeat split.
  destruct (0 <? n) eqn:H0; [reflexivity|].
  apply Z.ltb_ge in H0. lia.
Qed.

(** A run without a database failure in which the scraper raises and
    writes nothing. *)
Lemma run_platform_failed (name job_type uuid : string) (scrape : M Z)
      (e : exn) (s : Session) :
  pending s = [] ->
  faults s = [] ->
  job_of uuid (committed s) = None ->
  PyStr.truthy name = true ->
  calm scrape ->
  (forall s0, fst (scrape s0) = Raises e) ->
  let run := run_platform name job_type uuid scrape s in
  let msg := name ++ " scraping error: " ++ exn_message e in
  exists (j : ScrapingJob.t) (p : Platform.t) (t : Z),
    fst run
    = Returns (mkRunResult false (Some name) None (Some msg) (Some uuid) None) /\
    job_of uuid (committed (snd run)) = Some j /\
    failed_job j uuid job_type msg /\
    platform_named name (committed (snd run)) = Some p /\
    ScrapingJob.platform_id j = Platform.id p /\
    DB.error_logs (committed (snd run))
    = (DB.error_logs (committed s)
         ++ [ErrorLog.mk (Some (Platform.id p)) "scraping" msg t])%list.
Proof.
  intros Hp Hf Hnone Htruthy Hcalm Hraises run msg.
  destruct s as [d p l f c lg]. cbn [pending faults committed] in *.
  subst p f.
  destruct (create_linked d l c lg uuid name job_type None)
    as (pl & ds0 & d1 & Hcreate & Hpl & Hj1 & He1).
  cbv zeta in Hcreate.
  set (job := ScrapingJob.mk uuid (Platform.id pl) job_type "pending" None None
                             0 None None) in *.
  set (d2 := apply_write d1 (AddScrapingJob job)) in *.
  assert (Hjob2 : job_of uuid d2 = Some job).
  { apply job_of_added; [|reflexivity].
    unfold job_of in *. rewrite Hj1. exact Hnone. }
  pose proof (update_ok d2 (l ++ ds0 ++ [d2]) c lg uuid "running" 0 None job
                Hjob2) as Hrun.
  cbv zeta in Hrun.
  set (job_r := updated_job job "running" 0 None c) in *.
  set (d3 := apply_write d2 (SetScrapingJob job_r)) in *.
  assert (Hjob3 : job_of uuid d3 = Some job_r)
    by (apply (job_of_set uuid d2 job); [exact Hjob2 | reflexivity]).
  set (s3 := mkSession d3 [] ((l ++ ds0 ++ [d2]) ++ [d3]) [] c lg) in *.
  destruct (Hcalm s3) as (Hc4 & Hp4 & Hl4 & Hf4).
  specialize (Hf4 eq_refl). specialize (Hraises s3).
  destruct (scrape s3) as [o [d4 p4 l4 f4 c4 lg4]] eqn:Hs.
  cbn [fst snd committed pending commit_log faults] in *.
  subst o d4 p4 l4 f4.
  pose proof (update_ok d3 ((l ++ ds0 ++ [d2]) ++ [d3]) c4
                (lg4 ++ [(ERROR, msg)]) uuid "failed" 0 (Some msg) job_r Hjob3)
    as Hdone.
  cbv zeta in Hdone.
  set (job_f := updated_job job_r "failed" 0 (Some msg) c4) in *.
  set (d5 := apply_write d3 (SetScrapingJob job_f)) in *.
  set (s5 := mkSession d5 [] (((l ++ ds0 ++ [d2]) ++ [d3]) ++ [d5]) [] c4
                       (lg4 ++ [(ERROR, msg)])) in *.
  destruct (log_error_run "scraping" msg (Some name) s5)
    as (Hlr & _ & _ & Hlc).
  specialize (Hlc eq_refl). cbv zeta in Hlr, Hlc.
  assert (Hlog : log_error "scraping" msg (Some name) s5
                 = (Returns tt, snd (log_error "scraping" msg (Some name) s5)))
    by (apply injective_projections; [exact Hlr | reflexivity]).
  assert (E : run
              = (Returns (mkRunResult false (Some name) None (Some msg)
                            (Some uuid) None),
                 snd (log_error "scraping" msg (Some name) s5))).
  { subst run. unfold run_platform. rewrite (bind_run _ _ _ _ _ Hcreate).
    unfold try_except.
    rewrite (bind_run _ _ _ _ _ Hrun).
    unfold bind at 1. fold s3. rewrite Hs.
    cbv zeta. fold msg.
    unfold bind at 1. cbn [logger committed pending commit_log faults clock log].
    rewrite (bind_run _ _ _ _ _ Hdone). fold s5.
    rewrite (bind_run _ _ _ _ _ Hlog). reflexivity. }
  rewrite E. cbn [fst snd]. rewrite Hlc. cbn [committed clock s5].
  assert (Hpl5 : platform_named name d5 = Some pl).
  { rewrite <- Hpl. apply platform_named_same.
    unfold d5, d3, d2. destruct d1; reflexivity. }
  exists job_f, pl, c4.
  assert (Hjob5 : job_of uuid d5 = Some job_f)
    by (apply (job_of_set uuid d3 job_r job_f Hjob3 eq_refl)).
  assert (Hfailed : failed_job job_f uuid job_type msg).
  { unfold failed_job, job_f, job_r, job, updated_job.
    cbn [ScrapingJob.id ScrapingJob.job_type ScrapingJob.status
         ScrapingJob.posts_scraped ScrapingJob.errors ScrapingJob.started_at
         ScrapingJob.completed_at is_some truthy_opt negb andb orb
         String.eqb Ascii.eqb Bool.eqb Z.ltb Z.compare].
    repeat split.
    assert (Hm : PyStr.truthy msg = true).
    { unfold msg. destruct name; [discriminate Htruthy | reflexivity]. }
    rewrite Hm. reflexivity. }
  rewrite Htruthy, Hpl5. cbn [option_map].
  split; [reflexivity|].
  split; [unfold job_of in *; destruct d5; exact Hjob5|].
  split; [exact Hfailed|].
  split; [rewrite <- Hpl5; apply platform_named_same; destruct d5; reflexivity|].
  split; [reflexivity|].
  unfold d5, d3, d2. rewrite <- He1. destruct d1; reflexivity.
Qed.

End RunFacts.

(** Runs of the scrapers whose results agree in every state agree. *)
Lemma run_platform_agrees (name job_type uuid : string) (m1 m2 : M Z)
      (s : Session) :
  (forall s0, m1 s0 = m2 s0) ->
  run_platform name job_type uuid m1 s = run_platform name job_type uuid m2 s.
Proof.
  intros H. unfold run_platform, try_except, bind.
  destruct (NaramindOrchestrator.create_scraping_job uuid name job_type None s)
    as [[job_id|e] s1]; [|reflexivity].
  destruct (NaramindOrchestrator.update_scraping_job job_id "running" 0 None s1)
    as [[u|e] s2]; [|reflexivity].
  rewrite H. reflexivity.
Qed.

(** [run_telegram_scraping] with a client that is not connected is the
    common shape with the authentication put before the scraper. *)
Lemma run_telegram_not_connected (uuid : string) (authenticate : M unit)
      (scrape : M Z) (s : Session) :
  NaramindOrchestrator.run_telegram_scraping true uuid (Returns false)
    authenticate scrape s
  = run_platform "Telegram" "channel_scraping" uuid (authenticate ;; scrape) s.
Proof.
  unfold NaramindOrchestrator.run_telegram_scraping, run_platform, try_except,
    lift.
  cbn [negb]. unfold bind, ret.
  destruct (NaramindOrchestrator.create_scraping_job uuid "Telegram"
              "channel_scraping" None s) as [[job_id|e] s1]; [|reflexivity].
  destruct (NaramindOrchestrator.update_scraping_job job_id "running" 0 None s1)
    as [[u|e] s2]; [|reflexivity].
  cbn [negb].
  destruct (authenticate s2) as [[u'|e] s3]; reflexivity.
Qed.

(** A cycle of a scraper, as the run methods need it. *)
Lemma run_cycle_for_a_run (w : Setup) (c : Cycle) (s0 : Session) :
  pending s0 = [] ->
  exists (n : Z) (s' : Session),
    run_cycle w c s0 = (Returns n, s') /\ 0 <= n /\
    pending s' = [] /\
    (faults s0 = [] -> faults s' = []) /\
    DB.scraping_jobs (committed s') = DB.scraping_jobs (committed s0).
Proof.
  intros Hp.
  destruct (run_cycle_evolves w c s0 Hp)
    as (n & s' & E & Hp' & Hf' & ds & k & Hl & Hev & Hk).
  destruct (evolves_only_appends (analyzer w) _ _ _ _ Hev)
    as [(_ & _ & _ & _ & _ & _ & Hjobs & _) _].
  exists n, s'. repeat split; auto; lia.
Qed.

(** X24.  The three run methods never raise, whatever the scraper, the
    client and the database do, and the dictionary they return has one
    of three shapes: the scraper is not initialized (no platform, a
    message); success, with the platform and a count and no error; or
    failure, with the platform and the text of the caught exception and
    no count.  So a result that reports success always carries a
    count. *)
Theorem run_methods_always_return_a_result :
  forall (initialized : bool) (uuid : string) (scrape : M Z)
         (is_connected : outcome bool) (authenticate : M unit),
    always_returns (run_result_of "Twitter")
      (NaramindOrchestrator.run_twitter_scraping initialized uuid scrape) /\
    always_returns (run_result_of "Telegram")
      (NaramindOrchestrator.run_telegram_scraping initialized uuid
         is_connected authenticate scrape) /\
    always_returns (run_result_of "Reddit")
      (NaramindOrchestrator.run_reddit_scraping initialized uuid scrape).
Proof.
  intros [|] uuid scrape is_connected authenticate.
  - split; [|split].
    + exact (run_platform_returns "Twitter" "keyword_search" uuid scrape).
    + exact (run_telegram_returns uuid is_connected authenticate scrape).
    + exact (run_platform_returns "Reddit" "subreddit_scraping" uuid scrape).
  - split; [|split]; apply always_returns_ret; left; reflexivity.
Qed.

(** X25.  With the cycle of its scraper ([scrape_keywords] of the Twitter
    scraper, [scrape_subreddits] of the Reddit scraper), a run started
    without an open transaction reports success with a count that is not
    negative, whatever the client answers and whichever round trips to
    the database fail: the scraper and the job methods catch every
    exception, so the failure branch of the run is never entered. *)
Theorem runs_of_the_real_scrapers_report_success :
  forall (w : Setup) (uuid : string) (s : Session),
    pending s = [] ->
    (exists (n : Z) (job_id : option string),
        fst (NaramindOrchestrator.run_twitter_scraping true uuid
               (run_cycle w (TwitterKeywords None)) s)
        = Returns (NaramindOrchestrator.mkRunResult true (Some "Twitter")
                     (Some n) None job_id None) /\
        0 <= n) /\
    (exists (n : Z) (job_id : option string),
        fst (NaramindOrchestrator.run_reddit_scraping true uuid
               (run_cycle w (RedditSubreddits None "new")) s)
        = Returns (NaramindOrchestrator.mkRunResult true (Some "Reddit")
                     (Some n) None job_id None) /\
        0 <= n).
Proof.
  intros w uuid s Hp.
  assert (Hcycle : forall c s0,
             pending s0 = [] ->
             exists n s', run_cycle w c s0 = (Returns n, s') /\ 0 <= n).
  { intros c s0 Hp0.
    destruct (run_cycle_for_a_run w c s0 Hp0) as (n & s' & E & Hn & _).
    exists n, s'. auto. }
  split.
  - exact (run_platform_succeeds "Twitter" "keyword_search" uuid
             (run_cycle w (TwitterKeywords None))
             (Hcycle (TwitterKeywords None)) s Hp).
  - exact (run_platform_succeeds "Reddit" "subreddit_scraping" uuid
             (run_cycle w (RedditSubreddits None "new"))
             (Hcycle (RedditSubreddits None "new")) s Hp).
Qed.

(** X25 on the sample clients, the third round trip to the database
    failing. *)
Lemma runs_of_the_real_scrapers_report_success_witness :
  (exists (n : Z) (job_id : option string),
      fst (NaramindOrchestrator.run_twitter_scraping true "job-2"
             (run_cycle SampleSetup.setup (TwitterKeywords None))
             SampleSetup.faulty)
      = Returns (NaramindOrchestrator.mkRunResult true (Some "Twitter")
                   (Some n) None job_id None) /\
      0 <= n) /\
  (exists (n : Z) (job_id : option string),
      fst (NaramindOrchestrator.run_reddit_scraping true "job-2"
             (run_cycle SampleSetup.setup (RedditSubreddits None "new"))
             SampleSetup.faulty)
      = Returns (NaramindOrchestrator.mkRunResult true (Some "Reddit")
                   (Some n) None job_id None) /\
      0 <= n).
Proof.
  exact (runs_of_the_real_scrapers_report_success SampleSetup.setup "job-2"
           SampleSetup.faulty eq_refl).
Defined.

(** X26.  Without a database failure, a run with the cycle of its
    scraper (for Telegram, with a connected client) leaves the job it
    created completed, with both time stamps, no error text, and as its
    count of posts the very count the run returns. *)
Theorem completed_run_records_the_count :
  forall (w : Setup) (uuid : string) (authenticate : M unit) (s : Session),
    pending s = [] ->
    faults s = [] ->
    job_of uuid (committed s) = None ->
    let completed (name job_type : string)
                  (run : outcome NaramindOrchestrator.RunResult * Session) :=
      exists (n : Z) (j : ScrapingJob.t),
        fst run = Returns (NaramindOrchestrator.mkRunResult true (Some name)
                             (Some n) None (Some uuid) None) /\
        job_of uuid (committed (snd run)) = Some j /\
        completed_job j uuid job_type n in
    completed "Twitter" "keyword_search"
      (NaramindOrchestrator.run_twitter_scraping true uuid
         (run_cycle w (TwitterKeywords None)) s) /\
    completed "Telegram" "channel_scraping"
      (NaramindOrchestrator.run_telegram_scraping true uuid (Returns true)
         authenticate (run_cycle w (TelegramChannels None)) s) /\
    completed "Reddit" "subreddit_scraping"
      (NaramindOrchestrator.run_reddit_scraping true uuid
         (run_cycle w (RedditSubreddits None "new")) s).
Proof.
  intros w uuid authenticate s Hp Hf Hnone completed.
  assert (Hcycle : forall c s0,
             pending s0 = [] -> faults s0 = [] ->
             exists n s', run_cycle w c s0 = (Returns n, s') /\ 0 <= n /\
                          pending s' = [] /\ faults s' = [] /\
                          DB.scraping_jobs (committed s')
                          = DB.scraping_jobs (committed s0)).
  { intros c s0 Hp0 Hf0.
    destruct (run_cycle_for_a_run w c s0 Hp0)
      as (n & s' & E & Hn & Hp' & Hf' & Hj).
    exists n, s'. repeat split; auto. }
  split; [|split].
  - exact (run_platform_completed "Twitter" "keyword_search" uuid
             (run_cycle w (TwitterKeywords None)) s Hp Hf Hnone
             (Hcycle (TwitterKeywords None))).
  - exact (run_platform_completed "Telegram" "channel_scraping" uuid
             (run_cycle w (TelegramChannels None)) s Hp Hf Hnone
             (Hcycle (TelegramChannels None))).
  - exact (run_platform_completed "Reddit" "subreddit_scraping" uuid
             (run_cycle w (RedditSubreddits None "new")) s Hp Hf Hnone
             (Hcycle (RedditSubreddits None "new"))).
Qed.

(** X26 on the sample clients and the sample store. *)
Lemma completed_run_records_the_count_witness :
  let s := open_session Sample.db [] 0 in
  let completed (name job_type : string)
                (run : outcome NaramindOrchestrator.RunResult * Session) :=
    exists (n : Z) (j : ScrapingJob.t),
      fst run = Returns (NaramindOrchestrator.mkRunResult true (Some name)
                           (Some n) None (Some "job-2") None) /\
      job_of "job-2" (committed (snd run)) = Some j /\
      completed_job j "job-2" job_type n in
  completed "Twitter" "keyword_search"
    (NaramindOrchestrator.run_twitter_scraping true "job-2"
       (run_cycle SampleSetup.setup (TwitterKeywords None)) s) /\
  completed "Telegram" "channel_scraping"
    (NaramindOrchestrator.run_telegram_scraping true "job-2" (Returns true)
       (ret tt) (run_cycle SampleSetup.setup (TelegramChannels None)) s) /\
  completed "Reddit" "subreddit_scraping"
    (NaramindOrchestrator.run_reddit_scraping true "job-2"
       (run_cycle SampleSetup.setup (RedditSubreddits None "new")) s).
Proof.
  exact (completed_run_records_the_count SampleSetup.setup "job-2" (ret tt)
           (open_session Sample.db [] 0) eq_refl eq_refl eq_refl).
Defined.

(** X27.  Without a database failure, when the Telegram client is not
    connected and the authentication raises (writing nothing), the run
    returns the failure dictionary with the text of the exception; the
    job it created is left failed, with that text as its errors, the
    count 0 and both time stamps; one row is added to the error log,
    of type [scraping], with that text and the key of the Telegram
    platform, which is the platform of the job; and the scraper is not
    started: the run is the same for any two scrapers. *)
Theorem failed_authentication_is_recorded :
  forall (uuid : string) (authenticate : M unit) (scrape scrape' : M Z)
         (e : exn) (s : Session),
    pending s = [] ->
    faults s = [] ->
    job_of uuid (committed s) = None ->
    calm authenticate ->
    (forall s0, fst (authenticate s0) = Raises e) ->
    let run := NaramindOrchestrator.run_telegram_scraping true uuid
                 (Returns false) authenticate scrape s in
    let msg := "Telegram scraping error: " ++ exn_message e in
    (exists (j : ScrapingJob.t) (p : Platform.t) (t : Z),
        fst run
        = Returns (NaramindOrchestrator.mkRunResult false (Some "Telegram")
                     None (Some msg) (Some uuid) None) /\
        job_of uuid (committed (snd run)) = Some j /\
        failed_job j uuid "channel_scraping" msg /\
        platform_named "Telegram" (committed (snd run)) = Some p /\
        ScrapingJob.platform_id j = Platform.id p /\
        DB.error_logs (committed (snd run))
        = (DB.error_logs (committed s)
             ++ [ErrorLog.mk (Some (Platform.id p)) "scraping" msg t])%list) /\
    run = NaramindOrchestrator.run_telegram_scraping true uuid (Returns false)
            authenticate scrape' s.
Proof.
  intros uuid authenticate scrape scrape' e s Hp Hf Hnone Hcalm Hraises run msg.
  assert (Hstop : forall (m : M Z) (s0 : Session),
             (authenticate ;; m) s0 = (Raises e, snd (authenticate s0))).
  { intros m s0. unfold bind. specialize (Hraises s0).
    destruct (authenticate s0) as [[u|e'] s1]; cbn [fst snd] in *;
      [discriminate Hraises | inversion Hraises; reflexivity]. }
  split.
  - subst run. rewrite run_telegram_not_connected.
    apply (run_platform_failed "Telegram" "channel_scraping" uuid
             (authenticate ;; scrape) e s Hp Hf Hnone eq_refl).
    + intros s0. rewrite Hstop. cbn [snd]. apply Hcalm.
    + intros s0. rewrite Hstop. reflexivity.
  - subst run. rewrite !run_telegram_not_connected.
    apply run_platform_agrees. intros s0. rewrite !Hstop. reflexivity.
Qed.

(** X27 on the sample store, with an authentication that raises. *)
Lemma failed_authentication_is_recorded_witness :
  let s := open_session Sample.db [] 0 in
  let run := NaramindOrchestrator.run_telegram_scraping true "job-2"
               (Returns false) (raise (Exception "no code")) (ret 4) s in
  let msg := "Telegram scraping error: no code" in
  (exists (j : ScrapingJob.t) (p : Platform.t) (t : Z),
      fst run
      = Returns (NaramindOrchestrator.mkRunResult false (Some "Telegram")
                   None (Some msg) (Some "job-2") None) /\
      job_of "job-2" (committed (snd run)) = Some j /\
      failed_job j "job-2" "channel_scraping" msg /\
      platform_named "Telegram" (committed (snd run)) = Some p /\
      ScrapingJob.platform_id j = Platform.id p /\
      DB.error_logs (committed (snd run))
      = (DB.error_logs (committed s)
           ++ [ErrorLog.mk (Some (Platform.id p)) "scraping" msg t])%list) /\
  run = NaramindOrchestrator.run_telegram_scraping true "job-2" (Returns false)
          (raise (Exception "no code")) (ret 0) s.
Proof.
  exact (failed_authentication_is_recorded "job-2"
           (raise (Exception "no code")) (ret 4) (ret 0) (Exception "no code")
           (open_session Sample.db [] 0) eq_refl eq_refl eq_refl
           (calm_raise (Exception "no code")) (fun _ => eq_refl)).
Defined.

(** ** A cycle run again *)

(** A save without a database failure, on well-formed data: it returns an
    item, leaves its key stored with every key that was stored, and
    leaves the store as it is when the key was stored already. *)
Lemma save_without_failure
      (analyze : string -> SentimentAnalyzer.SentimentResult)
      (save : M (option Post.t)) (key already text : string)
      (post : Post.t) (wf : Prop) (s : Session) :
  Post.id post = key ->
  wf ->
  StoreSpec.keeps_existing save key already ->
  StoreSpec.saves_new analyze save key post text wf ->
  pending s = [] ->
  faults s = [] ->
  exists (p : Post.t) (s' : Session),
    save s = (Returns (Some p), s') /\
    pending s' = [] /\ faults s' = [] /\
    StoreSpec.stored key (committed s') = true /\
    (forall k, StoreSpec.stored k (committed s) = true ->
               StoreSpec.stored k (committed s') = true) /\
    (StoreSpec.stored key (committed s) = true -> committed s' = committed s).
Proof.
  intros Hid Hwf Hkeep Hnew Hp Hf.
  destruct (save_stores analyze save key already text post wf s Hid Hwf Hkeep
              Hnew Hp Hf) as (Hp' & Hf' & Hstored & Hmono).
  destruct (StoreSpec.lookup key (committed s)) as [p|] eqn:Hl.
  - destruct (Hkeep s p Hp Hl) as (Hc & _ & _ & _ & Hr).
    rewrite Hf in Hr. destruct Hr as [Hr _].
    exists p, (snd (save s)).
    split; [apply injective_projections; [exact Hr | reflexivity]|].
    repeat split; auto.
  - destruct (Hnew s Hp Hl) as (o & ds & Ho & _ & _ & _ & Hff & _).
    destruct (Hff Hf Hwf) as [E _]. subst o.
    exists post, (snd (save s)).
    split; [apply injective_projections; [exact Ho | reflexivity]|].
    repeat split; auto.
    intros Hs. unfold StoreSpec.stored in Hs. rewrite Hl in Hs. discriminate Hs.
Qed.

Section RepeatedCycle.

Variables X I : Type.
Variable fetch : X -> M (list I).
Variable items : X -> list I.
Variable save : I -> M (option Post.t).
Variable key : I -> string.
Variable msg : X -> string.

Hypothesis fetch_quiet : forall x, quiet (fetch x).
Hypothesis fetch_items : forall x s, fst (fetch x s) = Returns (items x).
Hypothesis save_ok :
  forall i s,
    pending s = [] -> faults s = [] ->
    exists (p : Post.t) (s' : Session),
      save i s = (Returns (Some p), s') /\
      pending s' = [] /\ faults s' = [] /\
      StoreSpec.stored (key i) (committed s') = true /\
      (forall k, StoreSpec.stored k (committed s) = true ->
                 StoreSpec.stored k (committed s') = true) /\
      (StoreSpec.stored (key i) (committed s) = true ->
       committed s' = committed s).

(** The saves of one batch. *)
Let saves (its : list I) (acc : Z) : M Z :=
  for_fold its acc
    (fun total i =>
       post <- save i ;;
       ret (match post with
            | Some _ => total + 1
            | None => total
            end)).

(** The loop of the cycle. *)
Let loop (xs : list X) (acc : Z) : M Z :=
  for_fold xs acc
    (fun total x =>
       logger INFO (msg x) ;;
       its <- fetch x ;;
       total <- saves its total ;;
       sleep 2 ;;
       ret total).

(** The number of items fetched for a list of sources. *)
Let fetched (xs : list X) : Z :=
  fold_right (fun x n => Z.of_nat (List.length (items x)) + n) 0 xs.

Lemma saves_run (its : list I) :
  forall (acc : Z) (s : Session),
    pending s = [] -> faults s = [] ->
    exists s' : Session,
      saves its acc s = (Returns (acc + Z.of_nat (List.length its)), s') /\
      pending s' = [] /\ faults s' = [] /\
      (forall i, In i its -> StoreSpec.stored (key i) (committed s') = true) /\
      (forall k, StoreSpec.stored k (committed s) = true ->
                 StoreSpec.stored k (committed s') = true) /\
      ((forall i, In i its -> StoreSpec.stored (key i) (committed s) = true) ->
       committed s' = committed s).
Proof.
  unfold saves.
  induction its as [|i r IH]; intros acc s Hp Hf; cbn [for_fold].
  - exists s. cbn [List.length]. rewrite Z.add_0_r.
    split; [reflexivity|]. repeat split; auto; intros i [].
  - destruct (save_ok i s Hp Hf) as (p & s1 & E & Hp1 & Hf1 & Hs1 & Hm1 & Hk1).
    destruct (IH (acc + 1) s1 Hp1 Hf1)
      as (s2 & E2 & Hp2 & Hf2 & Hs2 & Hm2 & Hk2).
    exists s2. split.
    + rewrite (bind_run _ _ _ _ _ (bind_run _ _ _ _ _ E)).
      cbn [ret]. rewrite E2. f_equal. f_equal. cbn [List.length]. lia.
    + split; [exact Hp2|]. split; [exact Hf2|]. split; [|split].
      * intros i' [E'|Hin]; [subst i'; apply Hm2; exact Hs1 | apply Hs2; exact Hin].
      * intros k Hk. apply Hm2, Hm1, Hk.
      * intros Hall.
        assert (Hc1 : committed s1 = committed s)
          by (apply Hk1, Hall; left; reflexivity).
        rewrite <- Hc1. apply Hk2. intros i' Hin. rewrite Hc1.
        apply Hall. right. exact Hin.
Qed.

Lemma loop_run (xs : list X) :
  forall (acc : Z) (s : Session),
    pending s = [] -> faults s = [] ->
    exists s' : Session,
      loop xs acc s = (Returns (acc + fetched xs), s') /\
      pending s' = [] /\ faults s' = [] /\
      (forall x i, In x xs -> In i (items x) ->
                   StoreSpec.stored (key i) (committed s') = true) /\
      (forall k, StoreSpec.stored k (committed s) = true ->
                 StoreSpec.stored k (committed s') = true) /\
      ((forall x i, In x xs -> In i (items x) ->
                    StoreSpec.stored (key i) (committed s) = true) ->
       committed s' = committed s).
Proof.
  unfold loop.
  induction xs as [|x r IH]; intros acc s Hp Hf; cbn [for_fold].
  - exists s. unfold fetched. cbn [fold_right]. rewrite Z.add_0_r.
    split; [reflexivity|]. repeat split; auto; intros x i [].
  - (* the record in the log *)
    set (s0 := snd (logger INFO (msg x) s)).
    assert (E0 : logger INFO (msg x) s = (Returns tt, s0)) by reflexivity.
    assert (H0 : pending s0 = [] /\ faults s0 = [] /\ committed s0 = committed s)
      by (repeat split; assumption).
    destruct H0 as (Hp0 & Hf0 & Hc0).
    (* the fetch *)
    destruct (fetch_quiet x) as [_ Hcalm].
    destruct (Hcalm s0) as (Hc1 & Hp1 & _ & Hf1).
    set (s1 := snd (fetch x s0)) in *.
    assert (E1 : fetch x s0 = (Returns (items x), s1))
      by (apply injective_projections; [apply fetch_items | reflexivity]).
    rewrite Hp0 in Hp1. specialize (Hf1 Hf0).
    (* the saves *)
    destruct (saves_run (items x) acc s1 Hp1 Hf1)
      as (s2 & E2 & Hp2 & Hf2 & Hs2 & Hm2 & Hk2).
    (* the pause *)
    set (s3 := snd (sleep 2 s2)).
    assert (E3 : sleep 2 s2 = (Returns tt, s3)) by reflexivity.
    assert (H3 : pending s3 = [] /\ faults s3 = [] /\ committed s3 = committed s2)
      by (repeat split; assumption).
    destruct H3 as (Hp3 & Hf3 & Hc3).
    destruct (IH (acc + Z.of_nat (List.length (items x))) s3 Hp3 Hf3)
      as (s4 & E4 & Hp4 & Hf4 & Hs4 & Hm4 & Hk4).
    assert (Hc01 : committed s1 = committed s) by congruence.
    assert (Ebody : (logger INFO (msg x) ;;
                     its <- fetch x ;;
                     total <- saves its acc ;;
                     sleep 2 ;;
                     ret total) s
                    = (Returns (acc + Z.of_nat (List.length (items x))), s3)).
    { rewrite (bind_run _ _ _ _ _ E0), (bind_run _ _ _ _ _ E1),
        (bind_run _ _ _ _ _ E2), (bind_run _ _ _ _ _ E3).
      reflexivity. }
    exists s4. split.
    + rewrite (bind_run _ _ _ _ _ Ebody), E4. f_equal. f_equal.
      unfold fetched. cbn [fold_right]. lia.
    + split; [exact Hp4|]. split; [exact Hf4|]. split; [|split].
      * intros x' i [E'|Hin] Hi.
        -- subst x'. apply Hm4. rewrite Hc3. apply Hs2. exact Hi.
        -- apply (Hs4 x' i Hin Hi).
      * intros k Hk. apply Hm4. rewrite Hc3. apply Hm2. rewrite Hc01. exact Hk.
      * intros Hall.
        assert (Hc2 : committed s2 = committed s1).
        { apply Hk2. intros i Hi. rewrite Hc01.
          apply (Hall x i); [left; reflexivity | exact Hi]. }
        assert (Hc4 : committed s4 = committed s3).
        { apply Hk4. intros x' i Hin Hi. rewrite Hc3, Hc2, Hc01.
          apply (Hall x' i); [right; exact Hin | exact Hi]. }
        congruence.
Qed.

(** The cycle run twice: the second run returns the count of the first
    and leaves the store of the first. *)
Lemma cycle_twice (xs : list X) (total_msg : Z -> string) (s : Session) :
  pending s = [] -> faults s = [] ->
  let cycle : M Z :=
    total <- loop xs 0 ;; logger INFO (total_msg total) ;; ret total in
  fst (cycle s) = Returns (fetched xs) /\
  fst (cycle (snd (cycle s))) = Returns (fetched xs) /\
  committed (snd (cycle (snd (cycle s)))) = committed (snd (cycle s)) /\
  (forall x i, In x xs -> In i (items x) ->
               StoreSpec.stored (key i) (committed (snd (cycle s))) = true).
Proof.
  intros Hp Hf cycle.
  assert (Hrun : forall s0,
             pending s0 = [] -> faults s0 = [] ->
             exists s1 s2,
               loop xs 0 s0 = (Returns (fetched xs), s1) /\
               cycle s0 = (Returns (fetched xs), s2) /\
               pending s2 = [] /\ faults s2 = [] /\
               committed s2 = committed s1 /\
               (forall x i, In x xs -> In i (items x) ->
                            StoreSpec.stored (key i) (committed s1) = true) /\
               ((forall x i, In x xs -> In i (items x) ->
                             StoreSpec.stored (key i) (committed s0) = true) ->
                committed s1 = committed s0)).
  { intros s0 Hp0 Hf0.
    destruct (loop_run xs 0 s0 Hp0 Hf0) as (s1 & E & Hp1 & Hf1 & Hs1 & _ & Hk1).
    rewrite Z.add_0_l in E.
    exists s1, (snd (logger INFO (total_msg (fetched xs)) s1)).
    split; [exact E|]. split.
    - unfold cycle. rewrite (bind_run _ _ _ _ _ E). reflexivity.
    - repeat split; auto. }
  destruct (Hrun s Hp Hf) as (s1 & s2 & _ & E & Hp2 & Hf2 & Hc2 & Hs & _).
  destruct (Hrun s2 Hp2 Hf2) as (s3 & s4 & _ & E' & _ & _ & Hc4 & _ & Hk).
  rewrite E. cbn [fst snd]. rewrite E'. cbn [fst snd].
  split; [reflexivity|]. split; [reflexivity|]. split.
  - rewrite Hc4. apply Hk. intros x i Hx Hi. rewrite Hc2. apply (Hs x i Hx Hi).
  - intros x i Hx Hi. rewrite Hc2. apply (Hs x i Hx Hi).
Qed.

End RepeatedCycle.

(** X29.  A cycle over subreddits, or over Telegram channels, that is run
    a second time without a database failure, the clients answering as
    before, stores nothing: the store after the second run is the store
    after the first, in which every fetched item is stored.  Both runs
    return the same count, the number of items fetched (for each
    subreddit the listed submissions that are not stickied, for each
    channel the messages of its history), so the second run counts the
    items although it created none. *)
Theorem repeated_cycle_stores_nothing_new :
  forall (w : Setup) (subreddits channels : option (list string))
         (sort_type : string) (s : Session),
    pending s = [] ->
    faults s = [] ->
    let again (cycle : M Z) (n : Z) :=
      fst (cycle s) = Returns n /\
      fst (cycle (snd (cycle s))) = Returns n /\
      committed (snd (cycle (snd (cycle s)))) = committed (snd (cycle s)) in
    let after (cycle : M Z) := committed (snd (cycle s)) in
    again (run_cycle w (RedditSubreddits subreddits sort_type))
          (fetched_items (listed w sort_type)
             (RedditScraper.list_or subreddits (reddit_subreddits w))) /\
    again (run_cycle w (TelegramChannels channels))
          (fetched_items (history w)
             (TelegramScraper.list_or channels (telegram_channels w))) /\
    Forall (fun subreddit =>
              Forall (fun p =>
                        StoreSpec.stored (RedditScraper.post_key p)
                          (after (run_cycle w (RedditSubreddits subreddits
                                                 sort_type))) = true)
                     (listed w sort_type subreddit))
           (RedditScraper.list_or subreddits (reddit_subreddits w)) /\
    Forall (fun channel =>
              Forall (fun m =>
                        StoreSpec.stored (TelegramScraper.post_key m)
                          (after (run_cycle w (TelegramChannels channels)))
                        = true)
                     (history w channel))
           (TelegramScraper.list_or channels (telegram_channels w)).
Proof.
  intros w subreddits channels sort_type s Hp Hf again after.
  destruct (cycle_twice string RedditScraper.Submission
              (fun subreddit =>
                 RedditScraper.get_subreddit_posts (reddit_max_posts w)
                   (listing w) subreddit sort_type None)
              (listed w sort_type)
              (RedditScraper.save_post (analyzer w) (platform_of w Reddit))
              RedditScraper.post_key
              (fun subreddit => "Scraping r/" ++ subreddit)
              (fun subreddit => quiet_get_subreddit_posts _ _ _ _ _)
              (fun subreddit s0 =>
                 proj1 (get_subreddit_posts_run _ _ _ _ _ s0))
              (fun p s0 =>
                 save_without_failure (analyzer w) _ _
                   (submission_exists_msg p) (RedditScraper.content_of p)
                   (RedditScraper.new_post (platform_of w Reddit) p) True s0
                   eq_refl I (save_post_keeps _ _ p) (save_post_saves _ _ p))
              (RedditScraper.list_or subreddits (reddit_subreddits w))
              (fun total => "Total posts scraped: " ++ PyStr.str total)
              s Hp Hf) as (R1 & R2 & R3 & R4).
  destruct (cycle_twice string TelegramScraper.Message
              (fun channel =>
                 TelegramScraper.scrape_channel_history
                   (telegram_max_messages w) (get_entity w) (iter_messages w)
                   channel None)
              (history w)
              (TelegramScraper.save_message (analyzer w)
                 (platform_of w Telegram))
              TelegramScraper.post_key
              (fun channel => "Scraping channel: " ++ channel)
              (fun channel => quiet_scrape_channel_history _ _ _ _ _)
              (fun channel s0 =>
                 proj1 (scrape_channel_history_run _ _ _ _ _ s0))
              (fun m s0 =>
                 save_without_failure (analyzer w) _ _
                   (message_exists_msg m) (TelegramScraper.text m)
                   (TelegramScraper.new_post (platform_of w Telegram) m) True
                   s0 eq_refl I (save_message_keeps _ _ m)
                   (save_message_saves _ _ m))
              (TelegramScraper.list_or channels (telegram_channels w))
              (fun total => "Total messages scraped: " ++ PyStr.str total)
              s Hp Hf) as (T1 & T2 & T3 & T4).
  split; [split; [exact R1 | split; [exact R2 | exact R3]]|].
  split; [split; [exact T1 | split; [exact T2 | exact T3]]|].
  split.
  - apply Forall_forall. intros subreddit Hs.
    apply Forall_forall. intros p Hin. exact (R4 subreddit p Hs Hin).
  - apply Forall_forall. intros channel Hc.
    apply Forall_forall. intros m Hin. exact (T4 channel m Hc Hin).
Qed.

(** X29 on the sample clients and the sample store: one submission and
    one message are fetched, stored by the first run and counted by
    both. *)
Lemma repeated_cycle_stores_nothing_new_witness :
  let s := open_session Sample.db [] 0 in
  let again (cycle : M Z) :=
    fst (cycle s) = Returns 1 /\
    fst (cycle (snd (cycle s))) = Returns 1 /\
    committed (snd (cycle (snd (cycle s)))) = committed (snd (cycle s)) in
  again (run_cycle SampleSetup.setup (RedditSubreddits None "new")) /\
  again (run_cycle SampleSetup.setup (TelegramChannels None)).
Proof.
  intros s again.
  destruct (repeated_cycle_stores_nothing_new SampleSetup.setup None None "new"
              (open_session Sample.db [] 0) eq_refl eq_refl)
    as (HR & HT & _).
  split; [exact HR | exact HT].
Defined.

(** ** The text of a submission *)

Lemma lower_app (a b : string) :
  PyStr.lower (a ++ b) = PyStr.lower a ++ PyStr.lower b.
Proof.
  induction a as [|c a IH]; cbn [append PyStr.lower]; [reflexivity|].
  rewrite IH. reflexivity.
Qed.

Lemma startswith_app (needle a b : string) :
  PyStr.startswith a needle = true -> PyStr.startswith (a ++ b) needle = true.
Proof.
  revert a. induction needle as [|c n IH]; intros a H.
  - destruct (a ++ b); reflexivity.
  - destruct a as [|c' a']; cbn [PyStr.startswith append] in *;
      [discriminate H|].
    apply andb_true_iff in H. destruct H as [Hc Hn].
    rewrite Hc. cbn [andb]. apply IH. exact Hn.
Qed.

Lemma contains_app_l (needle a b : string) :
  PyStr.contains needle a = true -> PyStr.contains needle (a ++ b) = true.
Proof.
  induction a as [|c a IH]; intros H.
  - cbn [PyStr.contains] in H. rewrite orb_false_r in H.
    destruct needle; [|discriminate H].
    cbn [append]. destruct b; reflexivity.
  - cbn [PyStr.contains append] in *.
    apply orb_true_iff in H. apply orb_true_iff. destruct H as [H|H].
    + left. apply (startswith_app needle (String c a) b). exact H.
    + right. apply IH. exact H.
Qed.

Lemma contains_app_r (needle a b : string) :
  PyStr.contains needle b = true -> PyStr.contains needle (a ++ b) = true.
Proof.
  intros H. induction a as [|c a IH]; cbn [append]; [exact H|].
  cbn [PyStr.contains]. rewrite IH. apply orb_true_r.
Qed.

(** A term of the title or of the body is a term of the stored text. *)
Lemma content_of_contains (p : RedditScraper.Submission) (needle : string) :
  PyStr.contains needle (PyStr.lower (RedditScraper.title p)) = true \/
  PyStr.contains needle (PyStr.lower (RedditScraper.selftext p)) = true ->
  PyStr.contains needle (PyStr.lower (RedditScraper.content_of p)) = true.
Proof.
  unfold RedditScraper.content_of.
  destruct (RedditScraper.selftext p) as [|c body] eqn:Hbody;
    cbn [PyStr.truthy].
  - intros [H|H]; [exact H|].
    cbn [PyStr.lower PyStr.contains] in H. rewrite orb_false_r in H.
    destruct needle; [|discriminate H].
    destruct (PyStr.lower (RedditScraper.title p)); reflexivity.
  - intros [H|H]; rewrite !lower_app.
    + apply contains_app_l. exact H.
    + apply contains_app_r, contains_app_r, contains_app_r. exact H.
Qed.

(** The row of a tracked term that occurs in the text. *)
Lemma keyword_rows_cover (d : DB.t) (post : Post.t) (text : string)
      (k : Keyword.t) :
  In k (DB.keywords d) ->
  Keyword.is_active k = true ->
  PyStr.contains (PyStr.lower (Keyword.keyword k)) (PyStr.lower text) = true ->
  exists k' : Keyword.t,
    find (fun x => String.eqb (Keyword.keyword x) (Keyword.keyword k))
         (DB.keywords d) = Some k' /\
    In (KeywordMatch.mk (Post.id post) (Keyword.id k')
          (PyStr.count (PyStr.lower text) (PyStr.lower (Keyword.keyword k))))
       (StoreSpec.keyword_rows d post text).
Proof.
  intros Hin Hactive Hcontains.
  destruct (find (fun x => String.eqb (Keyword.keyword x) (Keyword.keyword k))
                 (DB.keywords d)) as [k'|] eqn:Hfind.
  - exists k'. split; [reflexivity|].
    unfold StoreSpec.keyword_rows, StoreSpec.rows_of.
    apply in_flat_map. exists (Keyword.keyword k). split.
    + unfold StoreSpec.matched_terms. apply in_map.
      apply filter_In. split; [|exact Hcontains].
      apply filter_In. split; assumption.
    + rewrite Hfind. left. reflexivity.
  - pose proof (find_none _ _ Hfind k Hin) as H. cbv beta in H.
    rewrite String.eqb_refl in H. discriminate H.
Qed.

(** X30.  Without a database failure, the save of a submission whose key
    is not stored writes a keyword match for every active tracked
    keyword that occurs, letter case ignored, in the title or in the
    body: the row carries the key of the submission, the id of the first
    keyword row with that term, and the number, at least one, of the
    non-overlapping occurrences of the term in the stored text (the
    title, and the body after an empty line), letter case ignored. *)
Theorem submission_keyword_in_title_or_body_is_matched :
  forall (analyze : string -> SentimentAnalyzer.SentimentResult)
         (platform_id : Z) (p : RedditScraper.Submission) (k : Keyword.t)
         (s : Session),
    pending s = [] ->
    faults s = [] ->
    StoreSpec.lookup (RedditScraper.post_key p) (committed s) = None ->
    In k (DB.keywords (committed s)) ->
    Keyword.is_active k = true ->
    TextSpec.occurs (Keyword.keyword k) (RedditScraper.title p) \/
    TextSpec.occurs (Keyword.keyword k) (RedditScraper.selftext p) ->
    let run := RedditScraper.save_post analyze platform_id p s in
    exists (rows : list KeywordMatch.t) (row : KeywordMatch.t) (k' : Keyword.t),
      DB.keyword_matches (committed (snd run))
      = (DB.keyword_matches (committed s) ++ rows)%list /\
      In row rows /\
      KeywordMatch.post_id row = RedditScraper.post_key p /\
      find (fun x => String.eqb (Keyword.keyword x) (Keyword.keyword k))
           (DB.keywords (committed s)) = Some k' /\
      KeywordMatch.keyword_id row = Keyword.id k' /\
      TextSpec.occurrence_count (Keyword.keyword k) (RedditScraper.content_of p)
        (KeywordMatch.match_count row) /\
      1 <= KeywordMatch.match_count row.
Proof.
  intros analyze platform_id p k s Hp Hf Hnone Hin Hactive Hoccurs run.
  destruct (save_post_saves analyze platform_id p s Hp Hnone)
    as (o & ds & _ & _ & _ & Hout & Hok & _).
  destruct (Hok Hf I) as [Ho _]. subst o.
  fold run in Hout.
  remember (committed (snd run)) as d' eqn:Hd.
  remember (Some (RedditScraper.new_post platform_id p)) as o eqn:Ho.
  destruct Hout; try discriminate Ho.
  destruct (with_enriched_post_tables analyze (committed s)
              (RedditScraper.new_post platform_id p)
              (RedditScraper.content_of p)) as (_ & _ & Hrows & _).
  cbv zeta in Hrows.
  assert (Hlower :
            PyStr.contains (PyStr.lower (Keyword.keyword k))
                           (PyStr.lower (RedditScraper.title p)) = true \/
            PyStr.contains (PyStr.lower (Keyword.keyword k))
                           (PyStr.lower (RedditScraper.selftext p)) = true)
    by (destruct Hoccurs as [H|H]; [left | right]; apply contains_occurs;
        exact H).
  pose proof (content_of_contains p _ Hlower) as Hcontent.
  destruct (keyword_rows_cover (committed s)
              (RedditScraper.new_post platform_id p)
              (RedditScraper.content_of p) k Hin Hactive Hcontent)
    as (k' & Hfind & Hrow).
  eexists. eexists. exists k'.
  split; [exact Hrows|]. split; [exact Hrow|].
  split; [reflexivity|]. split; [exact Hfind|]. split; [reflexivity|].
  cbn [KeywordMatch.match_count].
  split; [apply count_occurrences | apply contains_count; exact Hcontent].
Qed.

(** X30 on the sample store: a submission with ETH in its title and
    Bitcoin in its body. *)
Lemma submission_keyword_in_title_or_body_is_matched_witness :
  let p := RedditScraper.post_data_of SampleSetup.submission in
  let run := RedditScraper.save_post Sample.analyze 2 p
               (open_session Sample.db [] 0) in
  exists (rows : list KeywordMatch.t) (row : KeywordMatch.t) (k' : Keyword.t),
    DB.keyword_matches (committed (snd run))
    = (DB.keyword_matches Sample.db ++ rows)%list /\
    In row rows /\
    KeywordMatch.post_id row = "reddit_abc" /\
    find (fun x => String.eqb (Keyword.keyword x) "Bitcoin")
         (DB.keywords Sample.db) = Some k' /\
    KeywordMatch.keyword_id row = Keyword.id k' /\
    TextSpec.occurrence_count "Bitcoin" (RedditScraper.content_of p)
      (KeywordMatch.match_count row) /\
    1 <= KeywordMatch.match_count row.
Proof.
  apply (submission_keyword_in_title_or_body_is_matched Sample.analyze 2
           (RedditScraper.post_data_of SampleSetup.submission)
           (Keyword.mk 1 "Bitcoin" (Some "crypto") true)
           (open_session Sample.db [] 0)).
  - reflexivity.
  - reflexivity.
  - reflexivity.
  - left. reflexivity.
  - reflexivity.
  - right. exists 0%nat, EmptyString, "Bitcoin", " too".
    split; [reflexivity|]. split; [reflexivity|]. repeat constructor.
Defined.
